(** * Recorder statistics: compilation, rollup, repair and range queries

    A shallow embedding of [homeassistant/components/recorder/statistics.py]
    and the properties its design document states about it.

    Conventions of the embedding.
    - A Python [float] is an exact rational ([Q]); SQL [NULL] and Python
      [None] are [None].
    - A [datetime] is its wall-clock reading, counted in microseconds, plus the
      UTC offset its [tzinfo] reports.  A timestamp column holds microseconds.
      The starts the code writes and asks for have been through [as_utc], or
      are documented to be in UTC, and are bound as the instants they denote
      ([instant]).  A datetime the code binds as the caller gave it, the
      [last_reset] of a sample and the [start_time] of [adjust_statistics],
      is bound as the engine binds it: the reading of its clock, the zone
      dropped ([bound_value]).  For a datetime in UTC the two agree.
    - A table is the list of its rows in insertion order; [session.add] appends
      and draws the next surrogate id.  The two statistics tables have a
      unique index on [(metadata_id, start)]: a scope that has added a row
      to a bucket that is taken is rolled back when it is flushed.
    - Code that performs writes runs in a state monad over the store; every
      write is also recorded, in order, in a trace.
    - Log output, the retry wrapper around the database jobs and the handler
      that logs and swallows [SQLAlchemyError] are left out: they change no
      row. *)

From Stdlib Require Import String Ascii DecimalString.
From Stdlib Require Import ZArith QArith Qminmax Qabs List Sorted Bool Lia.
Import ListNotations.

Set Implicit Arguments.
Open Scope Z_scope.

(** ** Dates and times *)

Definition US_PER_SECOND : Z := 1000000.
Definition US_PER_MINUTE : Z := 60 * US_PER_SECOND.
Definition US_PER_HOUR : Z := 60 * US_PER_MINUTE.

(** [tzinfo = None]: a naive datetime.  [tzinfo = Some None]: a [tzinfo]
    object whose [utcoffset] is [None].  [tzinfo = Some (Some o)]: an aware
    datetime, [o] microseconds east of UTC. *)
Record datetime : Type := mk_datetime {
  wall : Z;
  tzinfo : option (option Z)
}.

Definition dt_microsecond (d : datetime) : Z := wall d mod US_PER_SECOND.
Definition dt_second (d : datetime) : Z := (wall d / US_PER_SECOND) mod 60.
Definition dt_minute (d : datetime) : Z := (wall d / US_PER_MINUTE) mod 60.

(** [d.replace(minute=m)]: only the minute field changes. *)
Definition replace_minute (d : datetime) (m : Z) : datetime :=
  {| wall := wall d - dt_minute d * US_PER_MINUTE + m * US_PER_MINUTE;
     tzinfo := tzinfo d |}.

(** [d + timedelta(...)], the delta given in microseconds. *)
Definition dt_add (d : datetime) (delta : Z) : datetime :=
  {| wall := wall d + delta; tzinfo := tzinfo d |}.

Definition utcoffset (d : datetime) : option Z :=
  match tzinfo d with
  | Some o => o
  | None => None
  end.

(** The instant a datetime denotes when it is bound to a timestamp column or
    compared with one; a value without an offset is read as UTC. *)
Definition instant (d : datetime) : Z :=
  match utcoffset d with
  | Some o => wall d - o
  | None => wall d
  end.

(** The value a timestamp column takes for a datetime that is bound as the
    caller gave it, without a conversion to UTC: the engine writes the
    reading of its clock and drops the zone. *)
Definition bound_value (d : datetime) : Z := wall d.

Definition utc_datetime (t : Z) : datetime :=
  {| wall := t; tzinfo := Some (Some 0) |}.

(** Modelled from the spec: [dt_util.as_utc] is not among the sources.  It
    returns the same instant with a zero offset; a naive value is first placed
    in the default time zone, [default_offset] east of UTC.  The functions
    below take [as_utc] as a parameter; this is the instance used to run
    them. *)
Definition as_utc_of (default_offset : Z) (d : datetime) : datetime :=
  match utcoffset d with
  | Some o => utc_datetime (wall d - o)
  | None => utc_datetime (wall d - default_offset)
  end.

(** Modelled from the spec: [process_timestamp] is defined in the recorder's
    models module, which is not among the sources.  The rollup is described
    as taking [last_reset] from the latest row as it stands, so a stored
    timestamp is given its UTC zone, the instant unchanged, and [None] stays
    [None]. *)
Definition process_timestamp (ts : option Z) : option datetime :=
  option_map utc_datetime ts.

(** ** Rows and tables *)

Inductive table : Type := Statistics | StatisticsShortTerm.

(** [table.duration]: one hour for the long-term table, five minutes for the
    short-term one. *)
Definition duration (t : table) : Z :=
  match t with
  | Statistics => US_PER_HOUR
  | StatisticsShortTerm => 5 * US_PER_MINUTE
  end.

(** The [TypedDict] [StatisticData]; a key that is absent reads as [None]. *)
Record StatisticData : Type := mk_data {
  d_start : datetime;
  d_mean : option Q;
  d_min : option Q;
  d_max : option Q;
  d_last_reset : option datetime;
  d_state : option Q;
  d_sum : option Q
}.

(** The [TypedDict] [StatisticMetaData]. *)
Record StatisticMetaData : Type := mk_meta {
  m_has_mean : bool;
  m_has_sum : bool;
  m_name : option string;
  m_source : string;
  m_statistic_id : string;
  m_unit_of_measurement : option string
}.

(** A row of [statistics] or [statistics_short_term]. *)
Record StatRow : Type := mk_row {
  r_id : Z;
  r_created : Z;
  r_metadata_id : Z;
  r_start : Z;
  r_mean : option Q;
  r_min : option Q;
  r_max : option Q;
  r_last_reset : option Z;
  r_state : option Q;
  r_sum : option Q
}.

(** A row of [statistics_meta]. *)
Record MetaRow : Type := mk_meta_row {
  mr_id : Z;
  mr_meta : StatisticMetaData
}.

(** A row of [statistics_runs]. *)
Record RunRow : Type := mk_run {
  run_id : Z;
  run_start : Z
}.

Record Db : Type := mk_db {
  statistics_meta : list MetaRow;
  statistics : list StatRow;
  statistics_short_term : list StatRow;
  statistics_runs : list RunRow
}.

Definition rows_of (t : table) (db : Db) : list StatRow :=
  match t with
  | Statistics => statistics db
  | StatisticsShortTerm => statistics_short_term db
  end.

Definition set_rows (t : table) (rows : list StatRow) (db : Db) : Db :=
  match t with
  | Statistics =>
      {| statistics_meta := statistics_meta db;
         statistics := rows;
         statistics_short_term := statistics_short_term db;
         statistics_runs := statistics_runs db |}
  | StatisticsShortTerm =>
      {| statistics_meta := statistics_meta db;
         statistics := statistics db;
         statistics_short_term := rows;
         statistics_runs := statistics_runs db |}
  end.

Definition set_meta (rows : list MetaRow) (db : Db) : Db :=
  {| statistics_meta := rows;
     statistics := statistics db;
     statistics_short_term := statistics_short_term db;
     statistics_runs := statistics_runs db |}.

Definition set_runs (rows : list RunRow) (db : Db) : Db :=
  {| statistics_meta := statistics_meta db;
     statistics := statistics db;
     statistics_short_term := statistics_short_term db;
     statistics_runs := rows |}.

(** The next surrogate id of a table: one more than the largest id in use. *)
Definition next_id (ids : list Z) : Z := 1 + fold_right Z.max 0 ids.

(** ** SQL expressions *)

Fixpoint present {A : Type} (l : list (option A)) : list A :=
  match l with
  | [] => []
  | Some x :: l' => x :: present l'
  | None :: l' => present l'
  end.

Definition Qsum (l : list Q) : Q := fold_right Qplus (0 # 1)%Q l.

(** [AVG], [MIN], [MAX]: over the non-NULL values, NULL when there is none. *)
Definition sql_avg (l : list (option Q)) : option Q :=
  match present l with
  | [] => None
  | x :: xs => Some (Qsum (x :: xs) / inject_Z (Z.of_nat (length (x :: xs))))%Q
  end.

Definition sql_min (l : list (option Q)) : option Q :=
  match present l with
  | [] => None
  | x :: xs => Some (fold_left Qmin xs x)
  end.

Definition sql_max (l : list (option Q)) : option Q :=
  match present l with
  | [] => None
  | x :: xs => Some (fold_left Qmax xs x)
  end.

(** Insertion into an ascending list without repetition: the distinct values
    of a [GROUP BY] column, in [ORDER BY] order. *)
Fixpoint insert_distinct (x : Z) (l : list Z) : list Z :=
  match l with
  | [] => [x]
  | y :: l' =>
      if x <? y then x :: y :: l'
      else if x =? y then y :: l'
      else y :: insert_distinct x l'
  end.

Definition distinct_sorted (l : list Z) : list Z :=
  fold_right insert_distinct [] l.

Definition of_series (m : Z) (r : StatRow) : bool := r_metadata_id r =? m.

Definition in_window (lo hi : Z) (r : StatRow) : bool :=
  (lo <=? r_start r) && (r_start r <? hi).

(** [ROW_NUMBER() OVER (... ORDER BY start DESC) = 1] within one partition:
    the row with the greatest [start]; of several such rows the one met first
    in the table is taken. *)
Fixpoint latest_row (rows : list StatRow) : option StatRow :=
  match rows with
  | [] => None
  | r :: rs =>
      match latest_row rs with
      | Some r' => if r_start r <? r_start r' then Some r' else Some r
      | None => Some r
      end
  end.

(** ** Python dictionaries, in insertion order *)

Section Dict.
Variables (K V : Type) (eqb : K -> K -> bool).

Fixpoint dict_get (d : list (K * V)) (k : K) : option V :=
  match d with
  | [] => None
  | (k', v) :: d' => if eqb k' k then Some v else dict_get d' k
  end.

(** [d[k] = v]: an existing key keeps its place, a new one goes last. *)
Fixpoint dict_set (d : list (K * V)) (k : K) (v : V) : list (K * V) :=
  match d with
  | [] => [(k, v)]
  | (k', v') :: d' =>
      if eqb k' k then (k', v) :: d' else (k', v') :: dict_set d' k v
  end.

(** [d.update(other)] and [dict(pairs)]. *)
Definition dict_update (d other : list (K * V)) : list (K * V) :=
  fold_left (fun acc kv => dict_set acc (fst kv) (snd kv)) other d.

Definition dict_of (pairs : list (K * V)) : list (K * V) :=
  dict_update [] pairs.
End Dict.

Definition option_eqb {A : Type} (eqb : A -> A -> bool) (a b : option A) : bool :=
  match a, b with
  | Some x, Some y => eqb x y
  | None, None => true
  | _, _ => false
  end.

(** ** The session: store, trace and state monad *)

Inductive event : Type :=
| EvAddMeta (r : MetaRow)
| EvUpdateMeta (statistic_id : string) (has_mean has_sum : bool)
               (unit : option string)
| EvAdd (t : table) (r : StatRow)
| EvUpdate (t : table) (stat_id : Z) (s : StatisticData)
| EvAddRun (r : RunRow)
| EvAdjust (t : table) (metadata_id : Z) (start_time : Z) (adj : Q)
| EvDelete (t : table) (ids : list Z)
| EvBackup (records : list (StatRow * StatRow))
| EvCompileHourly (start : datetime)
| EvScopeEnter
| EvScopeExit
| EvRollback.

Record Session : Type := mk_session {
  db : Db;
  trace : list event
}.

Definition M (A : Type) : Type := Session -> A * Session.

Definition ret {A : Type} (a : A) : M A := fun s => (a, s).

Definition bind {A B : Type} (c : M A) (f : A -> M B) : M B :=
  fun s => let (a, s') := c s in f a s'.

Declare Scope session_scope.
Delimit Scope session_scope with session.
Notation "x <- c ;; k" := (bind c (fun x => k))
  (at level 61, c at next level, right associativity) : session_scope.
Notation "c ;; k" := (bind c (fun _ => k))
  (at level 61, right associativity) : session_scope.
Open Scope session_scope.

Definition query {A : Type} (q : Db -> A) : M A := fun s => (q (db s), s).

Definition emit (e : event) (f : Db -> Db) : M unit :=
  fun s => (tt, {| db := f (db s); trace := trace s ++ [e] |}).

(** A [for] loop over a list, for its effects. *)
Fixpoint for_each {A : Type} (l : list A) (body : A -> M unit) : M unit :=
  match l with
  | [] => ret tt
  | x :: l' => body x ;; for_each l' body
  end.

(** [table.from_stats(metadata_id, stats)], before the store numbers and dates
    the row.  The start of a sample has been converted to UTC when it gets
    here; its [last_reset] is passed on as the caller gave it. *)
Definition from_stats (metadata_id : Z) (s : StatisticData) : StatRow :=
  {| r_id := 0; r_created := 0;
     r_metadata_id := metadata_id;
     r_start := instant (d_start s);
     r_mean := d_mean s; r_min := d_min s; r_max := d_max s;
     r_last_reset := option_map bound_value (d_last_reset s);
     r_state := d_state s; r_sum := d_sum s |}.

Definition with_id (i now : Z) (r : StatRow) : StatRow :=
  {| r_id := i; r_created := now;
     r_metadata_id := r_metadata_id r; r_start := r_start r;
     r_mean := r_mean r; r_min := r_min r; r_max := r_max r;
     r_last_reset := r_last_reset r; r_state := r_state r; r_sum := r_sum r |}.

(** [session.add(row)] on one of the two statistics tables; [now] is the
    clock reading for the [created] column. *)
Definition session_add (now : Z) (t : table) (r : StatRow) : M unit :=
  fun s =>
    let r' := with_id (next_id (map r_id (rows_of t (db s)))) now r in
    emit (EvAdd t r') (fun d => set_rows t (rows_of t d ++ [r']) d) s.

(** ** Hourly rollup *)

(** [_compile_hourly_statistics_summary_mean_stmt]: one result row per series
    with a short-term row in the window, ascending by series. *)
Definition summary_mean_query (start_time end_time : datetime) (d : Db)
  : list (Z * option Q * option Q * option Q) :=
  let rows := filter (in_window (instant start_time) (instant end_time))
                     (statistics_short_term d) in
  map (fun m =>
         let g := filter (of_series m) rows in
         (m, sql_avg (map r_mean g), sql_min (map r_min g),
          sql_max (map r_max g)))
      (distinct_sorted (map r_metadata_id rows)).

(** The [QUERY_STATISTICS_SUMMARY_SUM] query: the row numbered 1 of every
    series, ascending by series. *)
Definition summary_sum_query (start_time end_time : datetime) (d : Db)
  : list StatRow :=
  let rows := filter (in_window (instant start_time) (instant end_time))
                     (statistics_short_term d) in
  flat_map (fun m =>
              match latest_row (filter (of_series m) rows) with
              | Some r => [r]
              | None => []
              end)
           (distinct_sorted (map r_metadata_id rows)).

Definition summary_mean_entry (start_time : datetime)
    (mean mn mx : option Q) : StatisticData :=
  {| d_start := start_time; d_mean := mean; d_min := mn; d_max := mx;
     d_last_reset := None; d_state := None; d_sum := None |}.

(** [summary[metadata_id].update({"last_reset": .., "state": .., "sum": ..})] *)
Definition summary_update (s : StatisticData) (last_reset : option datetime)
    (state sum : option Q) : StatisticData :=
  {| d_start := d_start s; d_mean := d_mean s; d_min := d_min s;
     d_max := d_max s;
     d_last_reset := last_reset; d_state := state; d_sum := sum |}.

Definition summary_sum_entry (start_time : datetime)
    (last_reset : option datetime) (state sum : option Q) : StatisticData :=
  {| d_start := start_time; d_mean := None; d_min := None; d_max := None;
     d_last_reset := last_reset; d_state := state; d_sum := sum |}.

Definition hourly_summary (start_time end_time : datetime) (d : Db)
  : list (Z * StatisticData) :=
  let summary :=
    fold_left (fun summary '(metadata_id, mean, mn, mx) =>
                 dict_set Z.eqb summary metadata_id
                          (summary_mean_entry start_time mean mn mx))
              (summary_mean_query start_time end_time d) [] in
  fold_left (fun summary stat =>
               let metadata_id := r_metadata_id stat in
               let last_reset := process_timestamp (r_last_reset stat) in
               match dict_get Z.eqb summary metadata_id with
               | Some s =>
                   dict_set Z.eqb summary metadata_id
                     (summary_update s last_reset (r_state stat) (r_sum stat))
               | None =>
                   dict_set Z.eqb summary metadata_id
                     (summary_sum_entry start_time last_reset
                                        (r_state stat) (r_sum stat))
               end)
            (summary_sum_query start_time end_time d) summary.

Definition compile_hourly_statistics (now : Z) (start : datetime) : M unit :=
  let start_time := replace_minute start 0 in
  let end_time := dt_add start_time US_PER_HOUR in
  emit (EvCompileHourly start) (fun d => d) ;;
  summary <- query (hourly_summary start_time end_time) ;;
  for_each summary
    (fun '(metadata_id, stat) =>
       session_add now Statistics (from_stats metadata_id stat)).

(** [with session_scope(...) as session: body]; the scope commits when it
    is left, which is the event [EvScopeExit]. *)
Definition session_scope {A : Type} (body : M A) : M A :=
  emit EvScopeEnter (fun d => d) ;;
  a <- body ;;
  emit EvScopeExit (fun d => d) ;;
  ret a.

(** ** The unique index of the statistics tables *)

Definition same_bucket (a b : StatRow) : bool :=
  (r_metadata_id a =? r_metadata_id b) && (r_start a =? r_start b).

(** Modelled from the spec: the two statistics tables have a unique index on
    [(metadata_id, start)]; it is declared in the recorder's models module,
    which is not among the sources.  [collides existing added]: one of the
    rows [added], taken in their order, has the bucket of a row that is in
    the table before it. *)
Fixpoint collides (existing added : list StatRow) : bool :=
  match added with
  | [] => false
  | r :: added' =>
      existsb (fun x => same_bucket x r) existing
      || collides (existing ++ [r]) added'
  end.

(** Flushing what a session has appended to the two tables since the store
    was [before] fails on the index. *)
Definition integrity_error (before after : Db) : bool :=
  existsb (fun t =>
             let n := length (rows_of t before) in
             collides (firstn n (rows_of t after)) (skipn n (rows_of t after)))
          [Statistics; StatisticsShortTerm].

(** [with session_scope(session=..., exception_filter=
    _filter_unique_constraint_integrity_error(instance)) as session: body],
    for a body that appends and updates rows.  Modelled from the spec:
    [session_scope] is defined in the recorder's util module, which is not
    among the sources.  A row added to a bucket that is taken makes a flush
    raise, at the latest the one of the commit; nothing in the body catches
    it, so the scope rolls the session back.  The error is taken to carry
    the mark of a duplicate key that the filter looks for under the engine's
    dialect: the filter answers [True], the error is not raised again and
    the code after the scope runs.  The statements issued before the error
    are undone with the scope and are not kept in the trace. *)
Definition session_scope_filtered (body : M unit) : M unit :=
  fun s =>
    let s' := snd (body {| db := db s; trace := trace s ++ [EvScopeEnter] |}) in
    if integrity_error (db s) (db s')
    then (tt, {| db := db s; trace := trace s ++ [EvScopeEnter; EvRollback] |})
    else (tt, {| db := db s'; trace := trace s' ++ [EvScopeExit] |}).

(** ** Metadata registry *)

Inductive statistic_type : Type := TypeMean | TypeSum.

Definition metadata_dict : Type := list (string * (Z * StatisticMetaData)).

Definition mem_string (x : string) (l : list string) : bool :=
  existsb (String.eqb x) l.

Definition mem_Z (x : Z) (l : list Z) : bool := existsb (Z.eqb x) l.

(** [_generate_get_metadata_stmt] and [get_metadata_with_session]. *)
Definition get_metadata_with_session
    (statistic_ids : option (list string))
    (stat_type : option statistic_type)
    (statistic_source : option string) (d : Db) : metadata_dict :=
  let selected (r : MetaRow) : bool :=
    let meta := mr_meta r in
    match statistic_ids with
    | Some ids => mem_string (m_statistic_id meta) ids
    | None => true
    end
    && match statistic_source with
       | Some src => String.eqb (m_source meta) src
       | None => true
       end
    && match stat_type with
       | Some TypeMean => m_has_mean meta
       | Some TypeSum => m_has_sum meta
       | None => true
       end in
  dict_of String.eqb
    (map (fun r => (m_statistic_id (mr_meta r), (mr_id r, mr_meta r)))
         (filter selected (statistics_meta d))).

Definition update_meta_row (statistic_id : string) (has_mean has_sum : bool)
    (unit : option string) (r : MetaRow) : MetaRow :=
  if String.eqb (m_statistic_id (mr_meta r)) statistic_id then
    {| mr_id := mr_id r;
       mr_meta := {| m_has_mean := has_mean; m_has_sum := has_sum;
                     m_name := m_name (mr_meta r);
                     m_source := m_source (mr_meta r);
                     m_statistic_id := m_statistic_id (mr_meta r);
                     m_unit_of_measurement := unit |} |}
  else r.

Definition _update_or_add_metadata (new_metadata : StatisticMetaData)
    (old_metadata_dict : metadata_dict) : M Z :=
  let statistic_id := m_statistic_id new_metadata in
  match dict_get String.eqb old_metadata_dict statistic_id with
  | None =>
      fun s =>
        let meta := {| mr_id := next_id (map mr_id (statistics_meta (db s)));
                       mr_meta := new_metadata |} in
        (emit (EvAddMeta meta)
              (fun d => set_meta (statistics_meta d ++ [meta]) d) ;;
         ret (mr_id meta)) s
  | Some (metadata_id, old_metadata) =>
      (if negb (Bool.eqb (m_has_mean old_metadata) (m_has_mean new_metadata))
          || negb (Bool.eqb (m_has_sum old_metadata) (m_has_sum new_metadata))
          || negb (option_eqb String.eqb
                     (m_unit_of_measurement old_metadata)
                     (m_unit_of_measurement new_metadata))
       then
         emit (EvUpdateMeta statistic_id (m_has_mean new_metadata)
                 (m_has_sum new_metadata) (m_unit_of_measurement new_metadata))
              (fun d =>
                 set_meta
                   (map (update_meta_row statistic_id
                           (m_has_mean new_metadata) (m_has_sum new_metadata)
                           (m_unit_of_measurement new_metadata))
                        (statistics_meta d)) d)
       else ret tt) ;;
      ret metadata_id
  end.

Definition _insert_statistics (now : Z) (t : table) (metadata_id : Z)
    (statistic : StatisticData) : M unit :=
  session_add now t (from_stats metadata_id statistic).

Definition update_stat_row (stat_id : Z) (s : StatisticData) (r : StatRow)
  : StatRow :=
  if r_id r =? stat_id then
    {| r_id := r_id r; r_created := r_created r;
       r_metadata_id := r_metadata_id r; r_start := r_start r;
       r_mean := d_mean s; r_min := d_min s; r_max := d_max s;
       r_last_reset := option_map bound_value (d_last_reset s);
       r_state := d_state s; r_sum := d_sum s |}
  else r.

Definition _update_statistics (t : table) (stat_id : Z)
    (statistic : StatisticData) : M unit :=
  emit (EvUpdate t stat_id statistic)
       (fun d => set_rows t (map (update_stat_row stat_id statistic)
                                 (rows_of t d)) d).

Definition _statistics_exists (t : table) (metadata_id : Z) (start : datetime)
    (d : Db) : option Z :=
  option_map r_id
    (find (fun r => (r_metadata_id r =? metadata_id)
                    && (r_start r =? instant start))
          (rows_of t d)).

(** ** Short-term compiler *)

Record StatisticResult : Type := mk_result {
  sr_meta : StatisticMetaData;
  sr_stat : StatisticData
}.

Record PlatformCompiledStatistics : Type := mk_compiled {
  platform_stats : list StatisticResult;
  current_metadata : metadata_dict
}.

(** A registered platform: [None] when it has no [compile_statistics]
    attribute, else that function of the period's start and end. *)
Definition platform : Type :=
  option (datetime -> datetime -> PlatformCompiledStatistics).

Definition add_run (start : datetime) : M unit :=
  fun s =>
    let r := {| run_id := next_id (map run_id (statistics_runs (db s)));
                run_start := instant start |} in
    emit (EvAddRun r) (fun d => set_runs (statistics_runs d ++ [r]) d) s.

Section Recorder.

(** [homeassistant.util.dt.as_utc] and [datetime.isoformat]. *)
Variable as_utc : datetime -> datetime.
Variable isoformat : datetime -> string.

(** Unit constants of [homeassistant.const]. *)
Variables PRESSURE_PA TEMP_CELSIUS : string.
Variables VOLUME_CUBIC_FEET VOLUME_CUBIC_METERS : string.

(** [pressure_util.convert], [temperature_util.convert] and
    [volume_util.convert]: value, unit from, unit to. *)
Variable pressure_convert : Q -> string -> string -> Q.
Variable temperature_convert : Q -> string -> string -> Q.
Variable volume_convert : Q -> string -> string -> Q.

(** The batch size of [.const]. *)
Variable MAX_ROWS_TO_PURGE : nat.

Definition compile_statistics (now : Z) (platforms : list platform)
    (start : datetime) : M bool :=
  let start := as_utc start in
  let end_ := dt_add start (5 * US_PER_MINUTE) in
  already <- session_scope
    (query (fun d => find (fun r => run_start r =? instant start)
                          (statistics_runs d))) ;;
  match already with
  | Some _ => ret true
  | None =>
      let compiled :=
        flat_map (fun p : platform =>
                    match p with
                    | Some compile => [compile start end_]
                    | None => []
                    end) platforms in
      let stats := flat_map platform_stats compiled in
      let metadata :=
        fold_left (fun acc c => dict_update String.eqb acc (current_metadata c))
                  compiled [] in
      session_scope_filtered
        (for_each stats
           (fun st =>
              metadata_id <- _update_or_add_metadata (sr_meta st) metadata ;;
              _insert_statistics now StatisticsShortTerm metadata_id
                                 (sr_stat st)) ;;
         (if dt_minute start =? 55
          then compile_hourly_statistics now start
          else ret tt) ;;
         add_run start) ;;
      ret true
  end.

(** ** External statistics importer *)

Definition add_external_statistics (now : Z) (metadata : StatisticMetaData)
    (stats : list StatisticData) : M bool :=
  session_scope_filtered
    (old_metadata_dict <-
       query (get_metadata_with_session
                (Some [m_statistic_id metadata]) None None) ;;
     metadata_id <- _update_or_add_metadata metadata old_metadata_dict ;;
     for_each stats
       (fun stat =>
          found <- query (_statistics_exists Statistics metadata_id
                                             (d_start stat)) ;;
          match found with
          | Some stat_id =>
              if stat_id =? 0
              then _insert_statistics now Statistics metadata_id stat
              else _update_statistics Statistics stat_id stat
          | None => _insert_statistics now Statistics metadata_id stat
          end)) ;;
  ret true.

(** ** Unit conversion *)

Record UnitSystem : Type := mk_units {
  pressure_unit : string;
  temperature_unit : string;
  is_metric : bool
}.

Definition _configured_unit_str (unit : string) (units : UnitSystem) : string :=
  if String.eqb unit PRESSURE_PA then pressure_unit units
  else if String.eqb unit TEMP_CELSIUS then temperature_unit units
  else if String.eqb unit VOLUME_CUBIC_METERS then
    if is_metric units then VOLUME_CUBIC_METERS else VOLUME_CUBIC_FEET
  else unit.

Definition _configured_unit (unit : option string) (units : UnitSystem)
  : option string :=
  option_map (fun u => _configured_unit_str u units) unit.

(** [STATISTIC_UNIT_TO_DISPLAY_UNIT_CONVERSIONS.get(unit, lambda x, units: x)];
    in a dictionary display a later key replaces an equal earlier one. *)
Definition statistic_unit_to_display_unit (unit : option string)
  : option Q -> UnitSystem -> option Q :=
  if option_eqb String.eqb unit (Some VOLUME_CUBIC_METERS) then
    fun x units =>
      option_map
        (fun v => volume_convert v VOLUME_CUBIC_METERS
                    (_configured_unit_str VOLUME_CUBIC_METERS units)) x
  else if option_eqb String.eqb unit (Some TEMP_CELSIUS) then
    fun x units =>
      option_map
        (fun v => temperature_convert v TEMP_CELSIUS (temperature_unit units))
        x
  else if option_eqb String.eqb unit (Some PRESSURE_PA) then
    fun x units =>
      option_map
        (fun v => pressure_convert v PRESSURE_PA (pressure_unit units)) x
  else fun x _ => x.

(** [DISPLAY_UNIT_TO_STATISTIC_UNIT_CONVERSIONS.get(display_unit, lambda x, units: x)] *)
Definition display_unit_to_statistic_unit (display_unit : option string)
  : Q -> UnitSystem -> Q :=
  if option_eqb String.eqb display_unit (Some VOLUME_CUBIC_FEET) then
    fun x units =>
      volume_convert x (_configured_unit_str VOLUME_CUBIC_METERS units)
                     VOLUME_CUBIC_METERS
  else fun x _ => x.

(** ** Sum adjuster *)

Definition adjust_row (metadata_id start_time : Z) (adj : Q) (r : StatRow)
  : StatRow :=
  if (r_metadata_id r =? metadata_id) && (start_time <=? r_start r) then
    {| r_id := r_id r; r_created := r_created r;
       r_metadata_id := r_metadata_id r; r_start := r_start r;
       r_mean := r_mean r; r_min := r_min r; r_max := r_max r;
       r_last_reset := r_last_reset r; r_state := r_state r;
       r_sum := option_map (fun s => (s + adj)%Q) (r_sum r) |}
  else r.

(** [start_time] is bound as [adjust_statistics] was given it. *)
Definition _adjust_sum_statistics (t : table) (metadata_id : Z)
    (start_time : datetime) (adj : Q) : M unit :=
  emit (EvAdjust t metadata_id (bound_value start_time) adj)
       (fun d => set_rows t
                   (map (adjust_row metadata_id (bound_value start_time) adj)
                        (rows_of t d)) d).

Definition adjust_statistics (units : UnitSystem) (statistic_id : string)
    (start_time : datetime) (sum_adjustment : Q) : M bool :=
  session_scope
    (metadata <- query (get_metadata_with_session
                          (Some [statistic_id]) None None) ;;
     match dict_get String.eqb metadata statistic_id with
     | None => ret tt
     | Some (metadata_id, meta) =>
         let statistic_unit := m_unit_of_measurement meta in
         let display_unit := _configured_unit statistic_unit units in
         let convert := display_unit_to_statistic_unit display_unit in
         let sum_adjustment := convert sum_adjustment units in
         _adjust_sum_statistics StatisticsShortTerm metadata_id
                                start_time sum_adjustment ;;
         _adjust_sum_statistics Statistics metadata_id
                                (replace_minute start_time 0) sum_adjustment
     end) ;;
  ret true.

(** ** Duplicate resolver *)

(** [ORDER BY]: a stable insertion sort under the order [le]. *)
Fixpoint insert_sorted {A : Type} (le : A -> A -> bool) (x : A) (l : list A)
  : list A :=
  match l with
  | [] => [x]
  | y :: l' => if le x y then x :: y :: l' else y :: insert_sorted le x l'
  end.

Definition sort_by {A : Type} (le : A -> A -> bool) (l : list A) : list A :=
  fold_right (insert_sorted le) [] l.

(** The subquery: [GROUP BY metadata_id, start HAVING count() > 1]. *)
Definition is_duplicate (rows : list StatRow) (r : StatRow) : bool :=
  (1 <? length (filter (same_bucket r) rows))%nat.

(** [ORDER BY metadata_id, start, id DESC] *)
Definition duplicates_order (a b : StatRow) : bool :=
  if r_metadata_id a <? r_metadata_id b then true
  else if r_metadata_id b <? r_metadata_id a then false
  else if r_start a <? r_start b then true
  else if r_start b <? r_start a then false
  else r_id b <=? r_id a.

Definition duplicates_query (t : table) (d : Db) : list StatRow :=
  let rows := rows_of t d in
  firstn (1000 * MAX_ROWS_TO_PURGE)
         (sort_by duplicates_order (filter (is_duplicate rows) rows)).

(** [compare_statistic_rows]: every column but [id] and [created]. *)
Definition compare_statistic_rows (row1 row2 : StatRow) : bool :=
  (r_metadata_id row1 =? r_metadata_id row2)
  && (r_start row1 =? r_start row2)
  && option_eqb Qeq_bool (r_mean row1) (r_mean row2)
  && option_eqb Qeq_bool (r_min row1) (r_min row2)
  && option_eqb Qeq_bool (r_max row1) (r_max row2)
  && option_eqb Z.eqb (r_last_reset row1) (r_last_reset row2)
  && option_eqb Qeq_bool (r_state row1) (r_state row2)
  && option_eqb Qeq_bool (r_sum row1) (r_sum row2).

(** The loop over [duplicates]; [original] is the first row of the bucket
    being read, [None] before the first row.  A record of a non-identical
    duplicate pairs the duplicate with its original. *)
Fixpoint scan_duplicates (original : option StatRow)
    (duplicates : list StatRow) : list Z * list (StatRow * StatRow) :=
  match duplicates with
  | [] => ([], [])
  | duplicate :: rest =>
      match original with
      | Some o =>
          if negb (r_start o =? r_start duplicate)
             || negb (r_metadata_id o =? r_metadata_id duplicate)
          then scan_duplicates (Some duplicate) rest
          else
            let (ids, non_identical) := scan_duplicates original rest in
            (r_id duplicate :: ids,
             if compare_statistic_rows o duplicate then non_identical
             else (duplicate, o) :: non_identical)
      | None => scan_duplicates (Some duplicate) rest
      end
  end.

Definition _find_duplicates (t : table) (d : Db)
  : list Z * list (StatRow * StatRow) :=
  scan_duplicates None (duplicates_query t d).

(** [ids[i : i + n] for i in range(0, len(ids), n)].  With [n = 0] Python's
    [range] raises; the query then has [LIMIT 0] and the loop is not
    reached. *)
Fixpoint batches (fuel n : nat) (ids : list Z) : list (list Z) :=
  match fuel with
  | O => []
  | S fuel' =>
      match ids with
      | [] => []
      | _ => firstn n ids :: batches fuel' n (skipn n ids)
      end
  end.

(** [session.query(table).filter(table.id.in_(ids)).delete()]: the number of
    rows deleted. *)
Definition delete_ids (t : table) (ids : list Z) : M Z :=
  fun s =>
    let rows := rows_of t (db s) in
    (emit (EvDelete t ids)
          (fun d => set_rows t
                      (filter (fun r => negb (mem_Z (r_id r) ids))
                              (rows_of t d)) d) ;;
     ret (Z.of_nat (length (filter (fun r => mem_Z (r_id r) ids) rows)))) s.

Fixpoint delete_batches (t : table) (bs : list (list Z)) (total : Z) : M Z :=
  match bs with
  | [] => ret total
  | b :: bs' =>
      deleted_rows <- delete_ids t b ;;
      delete_batches t bs' (total + deleted_rows)
  end.

(** The [while True] loop of [_delete_duplicates_from_table]; [None] when
    [fuel] rounds did not reach the [break]. *)
Fixpoint delete_duplicates_loop (fuel : nat) (t : table)
    (total_deleted_rows : Z)
    (all_non_identical_duplicates : list (StatRow * StatRow))
  : M (option (Z * list (StatRow * StatRow))) :=
  match fuel with
  | O => ret None
  | S fuel' =>
      found <- query (_find_duplicates t) ;;
      let (duplicate_ids, non_identical_duplicates) :=
        found : list Z * list (StatRow * StatRow) in
      match duplicate_ids with
      | [] => ret (Some (total_deleted_rows, all_non_identical_duplicates))
      | _ =>
          total <- delete_batches t
                     (batches (length duplicate_ids) MAX_ROWS_TO_PURGE
                              duplicate_ids)
                     total_deleted_rows ;;
          delete_duplicates_loop fuel' t total
            (all_non_identical_duplicates ++ non_identical_duplicates)
      end
  end.

(** Every round but the last deletes a row, so one round more than the
    table has rows is enough. *)
Definition _delete_duplicates_from_table (t : table)
  : M (option (Z * list (StatRow * StatRow))) :=
  fun s => delete_duplicates_loop (S (length (rows_of t (db s)))) t 0 [] s.

(** [delete_duplicates]; the backup file is the [EvBackup] event, log
    messages are left out. *)
Definition delete_duplicates : M (option unit) :=
  long_term <- _delete_duplicates_from_table Statistics ;;
  match long_term with
  | None => ret None
  | Some (_, non_identical_duplicates) =>
      match non_identical_duplicates with
      | [] => ret tt
      | _ => emit (EvBackup non_identical_duplicates) (fun d => d)
      end ;;
      short_term <- _delete_duplicates_from_table StatisticsShortTerm ;;
      match short_term with
      | None => ret None
      | Some _ => ret (Some tt)
      end
  end.

(** ** Range query assembler *)

(** One entry of a response.  [e_start] is a datetime or its ISO string,
    as [start_time_as_datetime] asks. *)
Record entry : Type := mk_entry {
  e_statistic_id : string;
  e_start : datetime + string;
  e_end : string;
  e_mean : option Q;
  e_min : option Q;
  e_max : option Q;
  e_last_reset : option string;
  e_state : option Q;
  e_sum : option Q
}.

Definition response : Type := list (string * list entry).

(** Keys of the [result] dictionary of [_sorted_statistics_to_dict]:
    statistic ids (strings) and metadata ids (integers) share it. *)
Inductive key : Type := KStr (s : string) | KInt (i : Z).

Definition key_eqb (a b : key) : bool :=
  match a, b with
  | KStr x, KStr y => String.eqb x y
  | KInt x, KInt y => x =? y
  | _, _ => false
  end.

(** [itertools.groupby(stats, lambda stat: stat.metadata_id)]: runs of
    consecutive rows of one series. *)
Fixpoint groupby (stats : list StatRow) : list (Z * list StatRow) :=
  match stats with
  | [] => []
  | r :: rest =>
      match groupby rest with
      | (k, g) :: gs =>
          if k =? r_metadata_id r then (k, r :: g) :: gs
          else (r_metadata_id r, [r]) :: (k, g) :: gs
      | [] => [(r_metadata_id r, [r])]
      end
  end.

Definition max_id (rows : list StatRow) : list Z :=
  match rows with
  | [] => []
  | r :: rs => [fold_left Z.max (map r_id rs) (r_id r)]
  end.

(** [_statistics_at_time]: per series the greatest id among the rows before
    [start_time], joined back to the table on that id. *)
Definition _statistics_at_time (metadata_ids : list Z) (t : table)
    (start_time : datetime) (d : Db) : list StatRow :=
  let rows := rows_of t d in
  let before :=
    filter (fun r => (r_start r <? instant start_time)
                     && mem_Z (r_metadata_id r) metadata_ids) rows in
  let most_recent_statistic_ids :=
    flat_map (fun m => max_id (filter (of_series m) before))
             (distinct_sorted (map r_metadata_id before)) in
  filter (fun r => mem_Z (r_id r) most_recent_statistic_ids) rows.

Definition process_timestamp_to_utc_isoformat (ts : option Z) : option string :=
  option_map isoformat (process_timestamp ts).

Definition to_entry (units : UnitSystem) (statistic_id : string)
    (convert : option Q -> UnitSystem -> option Q) (t : table)
    (start_time_as_datetime : bool) (db_state : StatRow) : entry :=
  let start := utc_datetime (r_start db_state) in
  let end_ := dt_add start (duration t) in
  {| e_statistic_id := statistic_id;
     e_start := if start_time_as_datetime then inl start
                else inr (isoformat start);
     e_end := isoformat end_;
     e_mean := convert (r_mean db_state) units;
     e_min := convert (r_min db_state) units;
     e_max := convert (r_max db_state) units;
     e_last_reset := process_timestamp_to_utc_isoformat (r_last_reset db_state);
     e_state := convert (r_state db_state) units;
     e_sum := convert (r_sum db_state) units |}.

Definition set_add (x : Z) (s : list Z) : list Z :=
  if mem_Z x s then s else s ++ [x].

(** The first loop: the series whose first selected row starts after
    [start_time]. *)
Definition need_stat_at_start_time (start_time : option datetime)
    (groups : list (Z * list StatRow)) : list Z :=
  fold_left
    (fun need g =>
       match snd g, start_time with
       | first :: _, Some t =>
           if instant t <? instant (utc_datetime (r_start first))
           then set_add (fst g) need else need
       | _, _ => need
       end)
    groups [].

(** The second loop; [None] stands for the [KeyError] of a series without
    metadata. *)
Definition append_groups (units : UnitSystem)
    (metadata : list (Z * StatisticMetaData)) (convert_units : bool)
    (t : table) (start_time_as_datetime : bool)
    (stats_at_start_time : list (Z * StatRow))
    (groups : list (Z * list StatRow)) (result : list (key * list entry))
  : option (list (key * list entry)) :=
  fold_left
    (fun acc g =>
       let meta_id := fst g in
       match acc with
       | None => None
       | Some result =>
           match dict_get Z.eqb metadata meta_id with
           | None => None
           | Some meta =>
               let unit := m_unit_of_measurement meta in
               let statistic_id := m_statistic_id meta in
               let convert :=
                 if convert_units then statistic_unit_to_display_unit unit
                 else fun val _ => val in
               let ent_results :=
                 match dict_get key_eqb result (KInt meta_id) with
                 | Some l => l
                 | None => []
                 end in
               let at_start :=
                 match dict_get Z.eqb stats_at_start_time meta_id with
                 | Some stat => [stat]
                 | None => []
                 end in
               Some (dict_set key_eqb result (KInt meta_id)
                       (ent_results
                        ++ map (to_entry units statistic_id convert t
                                         start_time_as_datetime)
                               (at_start ++ snd g)))
           end
       end)
    groups (Some result).

(** The closing dictionary comprehension, empty lists filtered out. *)
Definition finish_result (metadata : list (Z * StatisticMetaData))
    (result : list (key * list entry)) : option response :=
  fold_left
    (fun acc kv =>
       match acc, snd kv with
       | None, _ => None
       | Some out, [] => Some out
       | Some out, val =>
           match fst kv with
           | KInt i =>
               match dict_get Z.eqb metadata i with
               | Some meta =>
                   Some (dict_set String.eqb out (m_statistic_id meta) val)
               | None => None
               end
           | KStr _ => None
           end
       end)
    result (Some []).

Definition _sorted_statistics_to_dict (units : UnitSystem) (d : Db)
    (stats : list StatRow) (statistic_ids : option (list string))
    (_metadata : metadata_dict) (convert_units : bool) (t : table)
    (start_time : option datetime) (start_time_as_datetime : bool)
  : option response :=
  let metadata := dict_of Z.eqb (map snd _metadata) in
  let result :=
    match statistic_ids with
    | Some ids =>
        fold_left (fun acc stat_id => dict_set key_eqb acc (KStr stat_id) [])
                  ids []
    | None => []
    end in
  let need := need_stat_at_start_time start_time (groupby stats) in
  let stats_at_start_time :=
    match need, start_time with
    | _ :: _, Some st =>
        fold_left (fun acc stat => dict_set Z.eqb acc (r_metadata_id stat) stat)
                  (_statistics_at_time need t st d) []
    | _, _ => []
    end in
  match append_groups units metadata convert_units t start_time_as_datetime
                      stats_at_start_time (groupby stats) result with
  | Some result => finish_result metadata result
  | None => None
  end.

(** [ORDER BY metadata_id, start] *)
Definition period_order (a b : StatRow) : bool :=
  if r_metadata_id a <? r_metadata_id b then true
  else if r_metadata_id b <? r_metadata_id a then false
  else r_start a <=? r_start b.

Definition _statistics_during_period_stmt (start_time : datetime)
    (end_time : option datetime) (statistic_ids : option (list string))
    (metadata_ids : list Z) (t : table) (d : Db) : list StatRow :=
  sort_by period_order
    (filter (fun r =>
               (instant start_time <=? r_start r)
               && match end_time with
                  | Some e => r_start r <? instant e
                  | None => true
                  end
               && match statistic_ids with
                  | Some _ => mem_Z (r_metadata_id r) metadata_ids
                  | None => true
                  end)
            (rows_of t d)).

(** ** Period reducer *)

Record reducer_state : Type := mk_reducer {
  max_values : list Q;
  mean_values : list Q;
  min_values : list Q;
  prev_stat : entry;
  reduced : list entry
}.

Definition list_min (l : list Q) : option Q :=
  match l with [] => None | x :: xs => Some (fold_left Qmin xs x) end.

Definition list_max (l : list Q) : option Q :=
  match l with [] => None | x :: xs => Some (fold_left Qmax xs x) end.

Definition list_mean (l : list Q) : option Q :=
  match l with
  | [] => None
  | _ => Some (Qsum l / inject_Z (Z.of_nat (length l)))%Q
  end.

Definition push (v : option Q) (l : list Q) : list Q :=
  match v with Some x => l ++ [x] | None => l end.

(** One round of the loop of [_reduce_statistics] on a row starting at
    [start]; the closing sentinel has no other key.  [None]: [start] of the
    previous row is not a datetime. *)
Definition reduce_step (same_period : datetime -> datetime -> bool)
    (period_start_end : datetime -> datetime * datetime)
    (statistic_id : string) (st : reducer_state) (start : datetime)
    (mx mean mn : option Q) (statistic : entry) : option reducer_state :=
  match e_start (prev_stat st) with
  | inr _ => None
  | inl prev_start =>
      let closed := negb (same_period prev_start start) in
      let (s, e) := period_start_end prev_start in
      let row :=
        {| e_statistic_id := statistic_id;
           e_start := inr (isoformat s);
           e_end := isoformat e;
           e_mean := list_mean (mean_values st);
           e_min := list_min (min_values st);
           e_max := list_max (max_values st);
           e_last_reset := e_last_reset (prev_stat st);
           e_state := e_state (prev_stat st);
           e_sum := e_sum (prev_stat st) |} in
      Some {| max_values := push mx (if closed then [] else max_values st);
              mean_values := push mean (if closed then [] else mean_values st);
              min_values := push mn (if closed then [] else min_values st);
              prev_stat := statistic;
              reduced := if closed then reduced st ++ [row] else reduced st |}
  end.

Definition reduce_series (same_period : datetime -> datetime -> bool)
    (period_start_end : datetime -> datetime * datetime) (period : Z)
    (statistic_id : string) (stat_list : list entry) : option (list entry) :=
  match stat_list with
  | [] => None
  | first :: _ =>
      let init := {| max_values := []; mean_values := []; min_values := [];
                     prev_stat := first; reduced := [] |} in
      let walked :=
        fold_left
          (fun acc statistic =>
             match acc, e_start statistic with
             | Some st, inl start =>
                 reduce_step same_period period_start_end statistic_id st
                             start (e_max statistic) (e_mean statistic)
                             (e_min statistic) statistic
             | _, _ => None
             end)
          stat_list (Some init) in
      match walked, e_start (last stat_list first) with
      | Some st, inl last_start =>
          option_map reduced
            (reduce_step same_period period_start_end statistic_id st
                         (dt_add last_start period) None None None
                         (prev_stat st))
      | _, _ => None
      end
  end.

Definition _reduce_statistics (stats : response)
    (same_period : datetime -> datetime -> bool)
    (period_start_end : datetime -> datetime * datetime) (period : Z)
  : option response :=
  fold_left
    (fun acc kv =>
       match acc with
       | None => None
       | Some result =>
           match reduce_series same_period period_start_end period
                               (fst kv) (snd kv) with
           | None => None
           | Some [] => Some result
           | Some rows =>
               Some (dict_set String.eqb result (fst kv)
                       (match dict_get String.eqb result (fst kv) with
                        | Some l => l
                        | None => []
                        end ++ rows))
           end
       end)
    stats (Some []).

(** [same_day], [day_start_end], [same_month], [month_start_end]: they read
    the local calendar through [dt_util.as_local]. *)
Variable same_day : datetime -> datetime -> bool.
Variable day_start_end : datetime -> datetime * datetime.
Variable same_month : datetime -> datetime -> bool.
Variable month_start_end : datetime -> datetime * datetime.

Definition _reduce_statistics_per_day (stats : response) : option response :=
  _reduce_statistics stats same_day day_start_end (24 * US_PER_HOUR).

Definition _reduce_statistics_per_month (stats : response) : option response :=
  _reduce_statistics stats same_month month_start_end (31 * 24 * US_PER_HOUR).

Inductive period : Type := Period5Minute | PeriodDay | PeriodHour | PeriodMonth.

Definition statistics_during_period (units : UnitSystem) (d : Db)
    (start_time : datetime) (end_time : option datetime)
    (statistic_ids : option (list string)) (p : period)
    (start_time_as_datetime : bool) : option response :=
  let metadata := get_metadata_with_session statistic_ids None None d in
  match metadata with
  | [] => Some []
  | _ =>
      let metadata_ids := map (fun kv => fst (snd kv)) metadata in
      let t := match p with
               | Period5Minute => StatisticsShortTerm
               | _ => Statistics
               end in
      let stats := _statistics_during_period_stmt start_time end_time
                     statistic_ids metadata_ids t d in
      match stats with
      | [] => Some []
      | _ =>
          match p with
          | PeriodDay =>
              match _sorted_statistics_to_dict units d stats statistic_ids
                      metadata true t (Some start_time) true with
              | Some result => _reduce_statistics_per_day result
              | None => None
              end
          | PeriodMonth =>
              match _sorted_statistics_to_dict units d stats statistic_ids
                      metadata true t (Some start_time) true with
              | Some result => _reduce_statistics_per_month result
              | None => None
              end
          | _ =>
              _sorted_statistics_to_dict units d stats statistic_ids
                metadata true t (Some start_time) start_time_as_datetime
          end
      end
  end.

(** ** Validation of external statistics *)

Definition is_slug_char (c : ascii) : bool :=
  let n := nat_of_ascii c in
  ((48 <=? n) && (n <=? 57) || (97 <=? n) && (n <=? 122) || (n =? 95))%nat.

Definition is_underscore (c : ascii) : bool := (nat_of_ascii c =? 95)%nat.
Definition is_colon (c : ascii) : bool := (nat_of_ascii c =? 58)%nat.
Definition is_newline (c : ascii) : bool := (nat_of_ascii c =? 10)%nat.

(** The longest prefix of characters satisfying [p], and the rest. *)
Fixpoint span (p : ascii -> bool) (l : list ascii) : list ascii * list ascii :=
  match l with
  | [] => ([], [])
  | c :: l' =>
      if p c then let (a, b) := span p l' in (c :: a, b) else ([], l)
  end.

(** Some run of characters other than a newline, possibly empty, is
    followed by two underscores. *)
Fixpoint double_underscore_ahead (l : list ascii) : bool :=
  match l with
  | [] => false
  | c :: l' =>
      match l' with
      | c' :: _ => is_underscore c && is_underscore c'
      | [] => false
      end
      || (negb (is_newline c) && double_underscore_ahead l')
  end.

Definition ends_with_underscore (l : list ascii) : bool :=
  match rev l with
  | c :: _ => is_underscore c
  | [] => false
  end.

Definition starts_with_underscore (l : list ascii) : bool :=
  match l with
  | c :: _ => is_underscore c
  | [] => false
  end.

(** [VALID_STATISTIC_ID.match(statistic_id) is not None] for the pattern
    [^(?!.+__)(?!_)[\da-z_]+(?<!_):(?!_)[\da-z_]+(?<!_)$], on strings of
    ASCII characters.  Neither class contains the character that must
    follow its run, so each run is matched to its full length; [$] stands
    at the end of the string or before a newline that ends it. *)
Definition valid_statistic_id (statistic_id : string) : bool :=
  let l := list_ascii_of_string statistic_id in
  negb (match l with
        | c :: l' => negb (is_newline c) && double_underscore_ahead l'
        | [] => false
        end)
  && negb (starts_with_underscore l)
  && let (domain, rest) := span is_slug_char l in
     negb (match domain with [] => true | _ => false end)
     && negb (ends_with_underscore domain)
     && match rest with
        | c :: rest' =>
            is_colon c
            && negb (starts_with_underscore rest')
            && let (object_id, tail) := span is_slug_char rest' in
               negb (match object_id with [] => true | _ => false end)
               && negb (ends_with_underscore object_id)
               && match tail with
                  | [] => true
                  | [c'] => is_newline c'
                  | _ => false
                  end
        | [] => false
        end.

(** [entity_id.split(":", 1)] *)
Definition split_statistic_id (entity_id : string) : list string :=
  let (a, b) := span (fun c => negb (is_colon c))
                     (list_ascii_of_string entity_id) in
  match b with
  | [] => [string_of_list_ascii a]
  | _ :: b' => [string_of_list_ascii a; string_of_list_ascii b']
  end.

Inductive exception : Type :=
| HomeAssistantError (message : string)
| ValueError.

(** A job of the recorder's queue. *)
Record external_statistics_job : Type := mk_job {
  job_metadata : StatisticMetaData;
  job_statistics : list StatisticData
}.

Definition set_start (s : StatisticData) (start : datetime) : StatisticData :=
  {| d_start := start; d_mean := d_mean s; d_min := d_min s; d_max := d_max s;
     d_last_reset := d_last_reset s; d_state := d_state s; d_sum := d_sum s |}.

(** The loop over [statistics], which rewrites the samples in place: the
    outcome and the samples as the loop leaves them. *)
Fixpoint check_statistics (statistics : list StatisticData)
  : option exception * list StatisticData :=
  match statistics with
  | [] => (None, [])
  | statistic :: rest =>
      let start := d_start statistic in
      match utcoffset start with
      | None => (Some (HomeAssistantError "Naive timestamp"), statistics)
      | Some _ =>
          if negb (dt_minute start =? 0) || negb (dt_second start =? 0)
             || negb (dt_microsecond start =? 0)
          then (Some (HomeAssistantError "Invalid timestamp"), statistics)
          else
            let (err, rest') := check_statistics rest in
            (err, set_start statistic (as_utc start) :: rest')
      end
  end.

(** [async_add_external_statistics]: the exception raised, if any, the
    caller's samples and the recorder's queue afterwards. *)
Definition async_add_external_statistics (metadata : StatisticMetaData)
    (statistics : list StatisticData) (queue : list external_statistics_job)
  : option exception * list StatisticData * list external_statistics_job :=
  if negb (valid_statistic_id (m_statistic_id metadata)) then
    (Some (HomeAssistantError "Invalid statistic_id"), statistics, queue)
  else
    match split_statistic_id (m_statistic_id metadata) with
    | [domain; _object_id] =>
        if String.eqb (m_source metadata) EmptyString
           || negb (String.eqb (m_source metadata) domain)
        then (Some (HomeAssistantError "Invalid source"), statistics, queue)
        else
          let (err, statistics') := check_statistics statistics in
          match err with
          | Some e => (Some e, statistics', queue)
          | None =>
              (None, statistics',
               queue ++ [{| job_metadata := metadata;
                            job_statistics := statistics' |}])
          end
    | _ => (Some ValueError, statistics, queue)
    end.

(** ** The period a tick compiles *)

(** [d.replace(minute=m, second=s, microsecond=us)]: the three fields are
    replaced, the date and the hour stay. *)
Definition replace_minute_second_microsecond (d : datetime) (m s us : Z)
  : datetime :=
  {| wall := wall d - dt_minute d * US_PER_MINUTE - dt_second d * US_PER_SECOND
             - dt_microsecond d
             + m * US_PER_MINUTE + s * US_PER_SECOND + us;
     tzinfo := tzinfo d |}.

(** [get_start_time]; [now] is the reading of [dt_util.utcnow()]. *)
Definition get_start_time (now : datetime) : datetime :=
  let current_period_minutes := dt_minute now - dt_minute now mod 5 in
  let current_period :=
    replace_minute_second_microsecond now current_period_minutes 0 0 in
  let last_period := dt_add current_period (- (5 * US_PER_MINUTE)) in
  last_period.

(** ** Maintenance of the metadata table *)

(** The recorder's [DOMAIN], of [.const]. *)
Variable DOMAIN : string.

Definition with_statistic_id (meta : StatisticMetaData) (statistic_id : string)
  : StatisticMetaData :=
  {| m_has_mean := m_has_mean meta; m_has_sum := m_has_sum meta;
     m_name := m_name meta; m_source := m_source meta;
     m_statistic_id := statistic_id;
     m_unit_of_measurement := m_unit_of_measurement meta |}.

Definition with_unit_of_measurement (meta : StatisticMetaData)
    (unit : option string) : StatisticMetaData :=
  {| m_has_mean := m_has_mean meta; m_has_sum := m_has_sum meta;
     m_name := m_name meta; m_source := m_source meta;
     m_statistic_id := m_statistic_id meta;
     m_unit_of_measurement := unit |}.

(** [_entity_id_changed] of [async_setup], as the change its session scope
    commits: the series of the recorder's own source that is known as
    [old_entity_id] is renamed. *)
Definition _entity_id_changed (old_entity_id entity_id : string) (d : Db) : Db :=
  set_meta
    (map (fun r =>
            if String.eqb (m_statistic_id (mr_meta r)) old_entity_id
               && String.eqb (m_source (mr_meta r)) DOMAIN
            then {| mr_id := mr_id r;
                    mr_meta := with_statistic_id (mr_meta r) entity_id |}
            else r)
         (statistics_meta d)) d.

(** [clear_statistics], as the change its session scope commits.  The query
    deletes from the metadata table.  Modelled from the spec: the foreign key
    of the two statistics tables is declared in the recorder's models
    module, which is not among the sources; a clear "cascades to all bucket
    rows for that series". *)
Definition clear_statistics (statistic_ids : list string) (d : Db) : Db :=
  let cleared :=
    fun r : MetaRow => mem_string (m_statistic_id (mr_meta r)) statistic_ids in
  let gone := map mr_id (filter cleared (statistics_meta d)) in
  let kept :=
    filter (fun r : StatRow => negb (mem_Z (r_metadata_id r) gone)) in
  {| statistics_meta :=
       filter (fun r => negb (cleared r)) (statistics_meta d);
     statistics := kept (statistics d);
     statistics_short_term := kept (statistics_short_term d);
     statistics_runs := statistics_runs d |}.

(** [update_statistics_metadata], as the change its session scope commits. *)
Definition update_statistics_metadata (statistic_id : string)
    (unit_of_measurement : option string) (d : Db) : Db :=
  set_meta
    (map (fun r =>
            if String.eqb (m_statistic_id (mr_meta r)) statistic_id
            then {| mr_id := mr_id r;
                    mr_meta := with_unit_of_measurement (mr_meta r)
                                 unit_of_measurement |}
            else r)
         (statistics_meta d)) d.

(** ** Listing of the known series *)

(** What a platform reports about a series; the key [name] may be absent. *)
Record statistic_info : Type := mk_info {
  i_has_mean : bool;
  i_has_sum : bool;
  i_name : option string;
  i_source : string;
  i_unit_of_measurement : option string
}.

(** One item of the list [list_statistic_ids] returns. *)
Record listed_statistic : Type := mk_listed {
  l_statistic_id : string;
  l_has_mean : bool;
  l_has_sum : bool;
  l_name : option string;
  l_source : string;
  l_unit_of_measurement : option string
}.

(** A registered platform: [None] when it has no [list_statistic_ids]
    attribute, else that function of the ids and the type asked for. *)
Definition listing_platform : Type :=
  option (option (list string) -> option statistic_type ->
          list (string * statistic_info)).

(** [d.setdefault(k, v)], for its effect on [d]. *)
Definition dict_setdefault {K V : Type} (eqb : K -> K -> bool)
    (d : list (K * V)) (k : K) (v : V) : list (K * V) :=
  match dict_get eqb d k with
  | Some _ => d
  | None => d ++ [(k, v)]
  end.

Definition with_display_unit (units : UnitSystem) (info : statistic_info)
  : statistic_info :=
  {| i_has_mean := i_has_mean info; i_has_sum := i_has_sum info;
     i_name := i_name info; i_source := i_source info;
     i_unit_of_measurement :=
       _configured_unit (i_unit_of_measurement info) units |}.

Definition list_statistic_ids (units : UnitSystem)
    (platforms : list listing_platform) (d : Db)
    (statistic_ids : option (list string))
    (stat_type : option statistic_type) : list listed_statistic :=
  let metadata := get_metadata_with_session statistic_ids stat_type None d in
  let result :=
    dict_of String.eqb
      (map (fun kv =>
              let meta := snd (snd kv) in
              (m_statistic_id meta,
               {| i_has_mean := m_has_mean meta;
                  i_has_sum := m_has_sum meta;
                  i_name := m_name meta;
                  i_source := m_source meta;
                  i_unit_of_measurement :=
                    _configured_unit (m_unit_of_measurement meta) units |}))
           metadata) in
  let result :=
    fold_left
      (fun result (p : listing_platform) =>
         match p with
         | None => result
         | Some list_ids =>
             let platform_statistic_ids :=
               map (fun kv => (fst kv, with_display_unit units (snd kv)))
                   (list_ids statistic_ids stat_type) in
             fold_left (fun result kv =>
                          dict_setdefault String.eqb result (fst kv) (snd kv))
                       platform_statistic_ids result
         end)
      platforms result in
  map (fun kv =>
         let info := snd kv in
         {| l_statistic_id := fst kv;
            l_has_mean := i_has_mean info;
            l_has_sum := i_has_sum info;
            l_name := i_name info;
            l_source := i_source info;
            l_unit_of_measurement := i_unit_of_measurement info |})
      result.

(** ** The most recent rows of a series *)

(** [ORDER BY metadata_id, start DESC] *)
Definition last_order (a b : StatRow) : bool :=
  if r_metadata_id a <? r_metadata_id b then true
  else if r_metadata_id b <? r_metadata_id a then false
  else r_start b <=? r_start a.

(** [_get_last_statistics_stmt], for a limit that is not negative. *)
Definition _get_last_statistics_stmt (metadata_id : Z) (number_of_stats : nat)
    (t : table) (d : Db) : list StatRow :=
  firstn number_of_stats
         (sort_by last_order (filter (of_series metadata_id) (rows_of t d))).

(** [_get_last_statistics]; [None] stands for a [KeyError]. *)
Definition _get_last_statistics (units : UnitSystem) (d : Db)
    (number_of_stats : nat) (statistic_id : string) (convert_units : bool)
    (t : table) : option response :=
  let statistic_ids := [statistic_id] in
  let metadata := get_metadata_with_session (Some statistic_ids) None None d in
  match metadata with
  | [] => Some []
  | _ =>
      match dict_get String.eqb metadata statistic_id with
      | None => None
      | Some (metadata_id, _) =>
          let stats :=
            _get_last_statistics_stmt metadata_id number_of_stats t d in
          match stats with
          | [] => Some []
          | _ =>
              _sorted_statistics_to_dict units d stats (Some statistic_ids)
                metadata convert_units t None false
          end
      end
  end.

Definition get_last_statistics (units : UnitSystem) (d : Db)
    (number_of_stats : nat) (statistic_id : string) (convert_units : bool)
  : option response :=
  _get_last_statistics units d number_of_stats statistic_id convert_units
                       Statistics.

Definition get_last_short_term_statistics (units : UnitSystem) (d : Db)
    (number_of_stats : nat) (statistic_id : string) (convert_units : bool)
  : option response :=
  _get_last_statistics units d number_of_stats statistic_id convert_units
                       StatisticsShortTerm.


(** * Properties *)

(** [lia] on a goal from which the parameters of the section have been
    cleared, so that a proof depends on those of its statement only. *)
Ltac clear_parameters :=
  try clear as_utc; try clear isoformat;
  try clear pressure_convert; try clear temperature_convert;
  try clear volume_convert; try clear MAX_ROWS_TO_PURGE;
  try clear same_day; try clear day_start_end;
  try clear same_month; try clear month_start_end;
  try clear PRESSURE_PA; try clear TEMP_CELSIUS;
  try clear VOLUME_CUBIC_FEET; try clear VOLUME_CUBIC_METERS.

Ltac lia_closed := clear_parameters; lia.

(** ** Dictionaries *)

Unset Implicit Arguments.
Set Default Proof Using "Type".

Section DictFacts.
Context {K V : Type} (eqb : K -> K -> bool).
Hypothesis eqb_eq : forall a b, eqb a b = true <-> a = b.
Set Default Proof Using "Type eqb_eq".

Lemma eqb_refl_true (k : K) : eqb k k = true.
Proof. now apply eqb_eq. Qed.

Lemma eqb_neq_false (a b : K) : a <> b -> eqb a b = false.
Proof.
  intros H. destruct (eqb a b) eqn:E; [|reflexivity].
  apply eqb_eq in E. contradiction.
Qed.

Lemma dict_get_set_same (d : list (K * V)) k v :
  dict_get eqb (dict_set eqb d k v) k = Some v.
Proof.
  induction d as [|[k' v'] d IH]; simpl.
  - now rewrite eqb_refl_true.
  - destruct (eqb k' k) eqn:E; simpl; rewrite E; auto.
Qed.

Lemma dict_get_set_other (d : list (K * V)) k k' v :
  k <> k' -> dict_get eqb (dict_set eqb d k v) k' = dict_get eqb d k'.
Proof.
  intros Hne. induction d as [|[k0 v0] d IH]; simpl.
  - now rewrite (eqb_neq_false _ _ Hne).
  - destruct (eqb k0 k) eqn:E; simpl.
    + apply eqb_eq in E. subst k0. now rewrite (eqb_neq_false _ _ Hne).
    + destruct (eqb k0 k'); auto.
Qed.

Lemma dict_get_In (d : list (K * V)) k v :
  dict_get eqb d k = Some v -> In (k, v) d.
Proof.
  induction d as [|[k' v'] d IH]; simpl; [discriminate|].
  destruct (eqb k' k) eqn:E.
  - intros [= ->]. apply eqb_eq in E. subst. now left.
  - intros H. right. auto.
Qed.

Lemma dict_get_None (d : list (K * V)) k :
  dict_get eqb d k = None <-> ~ In k (map fst d).
Proof.
  induction d as [|[k' v'] d IH]; simpl.
  - tauto.
  - destruct (eqb k' k) eqn:E.
    + apply eqb_eq in E. subst. split; [discriminate|]. intros H. exfalso. auto.
    + rewrite IH. split.
      * intros H [H1|H1]; [|auto]. subst. rewrite eqb_refl_true in E. discriminate.
      * intros H H1. apply H. now right.
Qed.

Lemma dict_set_keys (d : list (K * V)) k v k' :
  In k' (map fst (dict_set eqb d k v)) <-> k' = k \/ In k' (map fst d).
Proof.
  induction d as [|[k0 v0] d IH]; simpl.
  - intuition.
  - destruct (eqb k0 k) eqn:E; simpl.
    + apply eqb_eq in E. subst. intuition.
    + rewrite IH. intuition.
Qed.

Lemma dict_set_NoDup (d : list (K * V)) k v :
  NoDup (map fst d) -> NoDup (map fst (dict_set eqb d k v)).
Proof.
  induction d as [|[k0 v0] d IH]; simpl; intros H.
  - constructor; [intros []|constructor].
  - inversion H as [|? ? Hnin Hnd]; subst.
    destruct (eqb k0 k) eqn:E; simpl.
    + now constructor.
    + constructor; [|auto].
      rewrite dict_set_keys. intros [->|Hin]; [|auto].
      rewrite eqb_refl_true in E. discriminate.
Qed.

Lemma dict_set_In (d : list (K * V)) k v k' v' :
  In (k', v') (dict_set eqb d k v) -> (k', v') = (k, v) \/ In (k', v') d.
Proof.
  induction d as [|[k0 v0] d IH]; simpl.
  - intuition.
  - destruct (eqb k0 k) eqn:E; simpl.
    + apply eqb_eq in E. subst. intuition.
    + intuition.
Qed.

Lemma dict_update_keys (other d : list (K * V)) k :
  In k (map fst (dict_update eqb d other)) <->
  In k (map fst d) \/ In k (map fst other).
Proof.
  unfold dict_update. revert d.
  induction other as [|[k0 v0] other IH]; simpl; intros d.
  - tauto.
  - rewrite IH, dict_set_keys. intuition.
Qed.

Lemma dict_update_NoDup (other d : list (K * V)) :
  NoDup (map fst d) -> NoDup (map fst (dict_update eqb d other)).
Proof.
  unfold dict_update. revert d.
  induction other as [|[k0 v0] other IH]; simpl; intros d H; auto.
  apply IH. now apply dict_set_NoDup.
Qed.

Lemma dict_update_In (other d : list (K * V)) kv :
  In kv (dict_update eqb d other) -> In kv d \/ In kv other.
Proof.
  unfold dict_update. revert d.
  induction other as [|[k0 v0] other IH]; simpl; intros d H; auto.
  apply IH in H. destruct H as [H|H]; [|auto].
  destruct kv as [k' v']. apply dict_set_In in H. intuition.
Qed.

Lemma dict_of_keys (pairs : list (K * V)) k :
  In k (map fst (dict_of eqb pairs)) <-> In k (map fst pairs).
Proof. unfold dict_of. rewrite dict_update_keys. simpl. tauto. Qed.

Lemma dict_of_NoDup (pairs : list (K * V)) :
  NoDup (map fst (dict_of eqb pairs)).
Proof. apply dict_update_NoDup. constructor. Qed.

Lemma dict_of_In (pairs : list (K * V)) kv :
  In kv (dict_of eqb pairs) -> In kv pairs.
Proof. intros H. apply dict_update_In in H. destruct H as [[]|H]; auto. Qed.

Lemma dict_get_Some_of_In (d : list (K * V)) k v :
  NoDup (map fst d) -> In (k, v) d -> dict_get eqb d k = Some v.
Proof.
  induction d as [|[k0 v0] d IH]; simpl; intros Hnd Hin; [contradiction|].
  inversion Hnd as [|? ? Hnin Hnd']; subst.
  destruct Hin as [[= -> ->]|Hin].
  - now rewrite eqb_refl_true.
  - destruct (eqb k0 k) eqn:E; [|auto].
    apply eqb_eq in E. subst. exfalso. apply Hnin.
    change k with (fst (k, v)). now apply in_map.
Qed.
End DictFacts.

Set Default Proof Using "Type".

Lemma Z_eqb_eq : forall a b : Z, (a =? b) = true <-> a = b.
Proof. intros. apply Z.eqb_eq. Qed.

Lemma String_eqb_eq : forall a b : string, String.eqb a b = true <-> a = b.
Proof. intros. apply String.eqb_eq. Qed.

(** ** Metadata lookups *)

Lemma get_metadata_In ids ty src d sid mid meta :
  In (sid, (mid, meta)) (get_metadata_with_session ids ty src d) ->
  m_statistic_id meta = sid /\
  In {| mr_id := mid; mr_meta := meta |} (statistics_meta d).
Proof.
  unfold get_metadata_with_session. intros H.
  apply (dict_of_In String.eqb String_eqb_eq) in H. apply in_map_iff in H.
  destruct H as [r [Heq Hin]]. apply filter_In in Hin. destruct Hin as [Hin _].
  injection Heq as <- <- <-. split; [reflexivity|]. now destruct r.
Qed.

Lemma get_metadata_unknown ids ty src d sid :
  (forall r, In r (statistics_meta d) -> m_statistic_id (mr_meta r) <> sid) ->
  dict_get String.eqb (get_metadata_with_session ids ty src d) sid = None.
Proof.
  intros H. apply (dict_get_None String.eqb String_eqb_eq).
  unfold get_metadata_with_session. rewrite (dict_of_keys String.eqb String_eqb_eq).
  rewrite map_map. simpl. intros Hin. apply in_map_iff in Hin.
  destruct Hin as [r [Heq Hin]]. apply filter_In in Hin.
  apply (H r); tauto.
Qed.

(** ** C4: a compiled period is not compiled again *)

(** C4.  When the runs table already holds a marker for the period's start
    (in UTC), [compile_statistics] answers [True], leaves every table as it
    was, and its trace shows one session scope with no write in it. *)
Theorem compile_statistics_marker_noop :
  forall (now : Z) (platforms : list platform) (start : datetime)
         (s : Session),
    (exists r, In r (statistics_runs (db s)) /\
               run_start r = instant (as_utc start)) ->
    fst (compile_statistics now platforms start s) = true /\
    db (snd (compile_statistics now platforms start s)) = db s /\
    trace (snd (compile_statistics now platforms start s)) =
      trace s ++ [EvScopeEnter; EvScopeExit].
Proof.
  intros now platforms start s [r [Hin Hstart]].
  unfold compile_statistics, session_scope, bind, query, emit, ret. simpl.
  destruct (find (fun r0 => run_start r0 =? instant (as_utc start))
                 (statistics_runs (db s))) eqn:Hfind.
  - simpl. repeat split. now rewrite <- app_assoc.
  - exfalso. apply (find_none _ _ Hfind) in Hin.
    rewrite Hstart, Z.eqb_refl in Hin. discriminate.
Qed.
(** ** The state monad and its trace *)

Lemma bind_run {A B : Type} (c : M A) (f : A -> M B) (s : Session) :
  bind c f s = f (fst (c s)) (snd (c s)).
Proof. unfold bind. now destruct (c s). Qed.

(** [c] only adds events satisfying [P] to the trace. *)
Definition emits {A : Type} (P : event -> Prop) (c : M A) : Prop :=
  forall s, exists evs,
    trace (snd (c s)) = trace s ++ evs /\ Forall P evs.

Lemma emits_ret {A : Type} (P : event -> Prop) (a : A) : emits P (ret a).
Proof. intros s. exists []. simpl. now rewrite app_nil_r. Qed.

Lemma emits_query {A : Type} (P : event -> Prop) (q : Db -> A) :
  emits P (query q).
Proof. intros s. exists []. simpl. now rewrite app_nil_r. Qed.

Lemma emits_emit (P : event -> Prop) (e : event) (f : Db -> Db) :
  P e -> emits P (emit e f).
Proof. intros H s. exists [e]. simpl. auto. Qed.

Lemma emits_bind {A B : Type} (P : event -> Prop) (c : M A) (f : A -> M B) :
  emits P c -> (forall a, emits P (f a)) -> emits P (bind c f).
Proof.
  intros Hc Hf s. rewrite bind_run.
  destruct (Hc s) as [e1 [H1 F1]].
  destruct (Hf (fst (c s)) (snd (c s))) as [e2 [H2 F2]].
  exists (e1 ++ e2). rewrite H2, H1, app_assoc. split; [reflexivity|].
  apply Forall_app. auto.
Qed.

Lemma emits_for_each {A : Type} (P : event -> Prop) (l : list A)
    (body : A -> M unit) :
  (forall a, emits P (body a)) -> emits P (for_each l body).
Proof.
  intros H. induction l as [|x l IH]; simpl.
  - apply emits_ret.
  - apply emits_bind; auto.
Qed.

Lemma emits_session_add (P : event -> Prop) now t r :
  (forall r', P (EvAdd t r')) -> emits P (session_add now t r).
Proof. intros H s. unfold session_add. apply emits_emit. apply H. Qed.

Definition short_term_write (e : event) : Prop :=
  match e with
  | EvAddMeta _ | EvUpdateMeta _ _ _ _ | EvAdd StatisticsShortTerm _ => True
  | _ => False
  end.

Definition long_term_add (e : event) : Prop :=
  match e with
  | EvAdd Statistics _ => True
  | _ => False
  end.

Lemma emits_update_or_add_metadata (P : event -> Prop) new_metadata old :
  (forall r, P (EvAddMeta r)) ->
  (forall i m s u, P (EvUpdateMeta i m s u)) ->
  emits P (_update_or_add_metadata new_metadata old).
Proof.
  intros Hadd Hupd. unfold _update_or_add_metadata.
  destruct (dict_get String.eqb old (m_statistic_id new_metadata)) as [[i m]|].
  - apply emits_bind; [|intros; apply emits_ret].
    match goal with |- emits _ (if ?c then _ else _) => destruct c end.
    + apply emits_emit. apply Hupd.
    + apply emits_ret.
  - intros s. apply emits_bind; [|intros; apply emits_ret].
    apply emits_emit. apply Hadd.
Qed.

Lemma compile_hourly_statistics_trace now start s :
  exists adds,
    trace (snd (compile_hourly_statistics now start s)) =
      trace s ++ EvCompileHourly start :: adds /\
    Forall long_term_add adds.
Proof.
  unfold compile_hourly_statistics. rewrite bind_run. simpl.
  rewrite bind_run. simpl.
  match goal with |- context [for_each ?l ?b] =>
    destruct (@emits_for_each _ long_term_add l b) with
      (s := {| db := db s; trace := trace s ++ [EvCompileHourly start] |})
      as [adds [Ht Hf]]
  end.
  - intros [m st]. apply emits_session_add. intros; exact I.
  - exists adds. rewrite Ht. simpl. rewrite <- app_assoc. auto.
Qed.

(** ** C9: adjusting a series without metadata *)

(** C9.  For a [statistic_id] that no row of [statistics_meta] carries,
    [adjust_statistics] answers [True] and changes no table; its trace shows
    one session scope with no write in it. *)
Theorem adjust_statistics_unknown_series :
  forall (units : UnitSystem) (statistic_id : string) (start_time : datetime)
         (sum_adjustment : Q) (s : Session),
    (forall r, In r (statistics_meta (db s)) ->
               m_statistic_id (mr_meta r) <> statistic_id) ->
    fst (adjust_statistics units statistic_id start_time sum_adjustment s) = true /\
    db (snd (adjust_statistics units statistic_id start_time sum_adjustment s))
      = db s /\
    trace (snd (adjust_statistics units statistic_id start_time sum_adjustment s))
      = trace s ++ [EvScopeEnter; EvScopeExit].
Proof.
  intros units statistic_id start_time adj s H.
  unfold adjust_statistics, session_scope, bind, query, emit, ret. simpl.
  rewrite (get_metadata_unknown _ _ _ _ _ H). simpl.
  repeat split. now rewrite <- app_assoc.
Qed.
Lemma session_scope_run {A : Type} (body : M A) (s : Session) :
  session_scope body s =
    let r := body {| db := db s; trace := trace s ++ [EvScopeEnter] |} in
    (fst r, {| db := db (snd r); trace := trace (snd r) ++ [EvScopeExit] |}).
Proof.
  unfold session_scope. rewrite bind_run. simpl. rewrite bind_run.
  rewrite bind_run. reflexivity.
Qed.

Lemma add_run_run (start : datetime) (s : Session) :
  add_run start s =
    (tt, {| db := set_runs
                    (statistics_runs (db s)
                     ++ [{| run_id := next_id (map run_id (statistics_runs (db s)));
                            run_start := instant start |}]) (db s);
            trace := trace s
                     ++ [EvAddRun {| run_id := next_id (map run_id
                                                  (statistics_runs (db s)));
                                     run_start := instant start |}] |}).
Proof. reflexivity. Qed.

(** ** Strings and character runs *)

Lemma span_spec (p : ascii -> bool) (l : list ascii) :
  l = fst (span p l) ++ snd (span p l) /\
  Forall (fun c => p c = true) (fst (span p l)) /\
  match snd (span p l) with
  | [] => True
  | c :: _ => p c = false
  end.
Proof.
  induction l as [|c l IH]; simpl.
  - auto.
  - destruct (p c) eqn:E; simpl.
    + destruct (span p l) as [a b]. simpl in *.
      destruct IH as [H1 [H2 H3]]. subst l. repeat split; auto.
    + auto.
Qed.

Lemma span_app_stop (p : ascii -> bool) (a b : list ascii) :
  Forall (fun c => p c = true) a ->
  match b with [] => True | c :: _ => p c = false end ->
  span p (a ++ b) = (a, b).
Proof.
  intros Ha Hb. induction Ha as [|c a Hc Ha IH]; simpl.
  - destruct b as [|c b]; simpl; [reflexivity|]. now rewrite Hb.
  - now rewrite Hc, IH.
Qed.

Lemma string_of_list_ascii_app (a b : list ascii) :
  string_of_list_ascii (a ++ b) =
    (string_of_list_ascii a ++ string_of_list_ascii b)%string.
Proof. induction a as [|c a IH]; simpl; [reflexivity|]. now rewrite IH. Qed.

Lemma list_ascii_of_string_app (a b : string) :
  list_ascii_of_string (a ++ b) =
    list_ascii_of_string a ++ list_ascii_of_string b.
Proof. induction a as [|c a IH]; simpl; [reflexivity|]. now rewrite IH. Qed.

Lemma is_colon_eq (c : ascii) : is_colon c = true -> c = ":"%char.
Proof.
  unfold is_colon. intros H. apply Nat.eqb_eq in H.
  rewrite <- (ascii_nat_embedding c), H. reflexivity.
Qed.

Lemma slug_char_not_colon (c : ascii) :
  is_slug_char c = true -> is_colon c = false.
Proof.
  unfold is_slug_char, is_colon. intros H.
  destruct (Nat.eqb_spec (nat_of_ascii c) 58) as [E|E]; [|reflexivity].
  rewrite E in H. discriminate.
Qed.

Lemma newline_not_colon (c : ascii) : is_newline c = true -> is_colon c = false.
Proof.
  unfold is_newline, is_colon. intros H. apply Nat.eqb_eq in H.
  now rewrite H.
Qed.

Definition colon_free (l : list ascii) : Prop :=
  Forall (fun c => is_colon c = false) l.

Lemma first_colon_unique (a1 b1 a2 b2 : list ascii) :
  a1 ++ ":"%char :: b1 = a2 ++ ":"%char :: b2 ->
  colon_free a1 -> colon_free b1 -> a1 = a2 /\ b1 = b2.
Proof.
  revert a2. induction a1 as [|x a1 IH]; intros a2 H Ha Hb.
  - destruct a2 as [|y a2]; simpl in H.
    + injection H as ->. auto.
    + injection H as <- ->. exfalso.
      apply Forall_app in Hb. destruct Hb as [_ Hb].
      inversion Hb as [|? ? Hc _]. discriminate.
  - inversion Ha as [|? ? Hx Ha']; subst.
    destruct a2 as [|y a2]; simpl in H.
    + injection H as -> _. discriminate.
    + injection H as <- H. destruct (IH a2 H Ha' Hb) as [-> ->]. auto.
Qed.

(** A valid id contains one colon: what precedes it is the first part of
    [split_statistic_id], what follows it the second. *)
Lemma split_of_valid (src obj : string) :
  valid_statistic_id (src ++ ":" ++ obj) = true ->
  split_statistic_id (src ++ ":" ++ obj) = [src; obj].
Proof.
  unfold valid_statistic_id, split_statistic_id.
  set (l := list_ascii_of_string (src ++ ":" ++ obj)).
  assert (Hl : l = list_ascii_of_string src ++ ":"%char :: list_ascii_of_string obj).
  { unfold l. now rewrite list_ascii_of_string_app. }
  clearbody l.
  pose proof (span_spec is_slug_char l) as [Hd1 [Hd2 Hd3]].
  destruct (span is_slug_char l) as [domain rest]. simpl in Hd1, Hd2, Hd3.
  intros H.
  repeat match goal with
         | H : _ && _ = true |- _ => apply andb_prop in H; destruct H
         end.
  destruct rest as [|c rest']; [discriminate|].
  repeat match goal with
         | H : _ && _ = true |- _ => apply andb_prop in H; destruct H
         end.
  pose proof (span_spec is_slug_char rest') as [Ho1 [Ho2 Ho3]].
  destruct (span is_slug_char rest') as [object_id tail].
  simpl in Ho1, Ho2, Ho3.
  repeat match goal with
         | H : _ && _ = true |- _ => apply andb_prop in H; destruct H
         end.
  match goal with H : is_colon c = true |- _ => apply is_colon_eq in H; subst c end.
  assert (Hdom : colon_free domain).
  { eapply Forall_impl; [|exact Hd2]. apply slug_char_not_colon. }
  assert (Hrest : colon_free rest').
  { rewrite Ho1. apply Forall_app. split.
    - eapply Forall_impl; [|exact Ho2]. apply slug_char_not_colon.
    - destruct tail as [|c' [|? ?]]; try discriminate; constructor.
      + now apply newline_not_colon.
      + constructor. }
  rewrite Hl in Hd1. symmetry in Hd1.
  destruct (first_colon_unique _ _ _ _ Hd1 Hdom Hrest) as [E1 E2].
  rewrite Hl, <- E1, <- E2.
  rewrite span_app_stop.
  - rewrite E1, E2, !string_of_list_ascii_of_string. reflexivity.
  - eapply Forall_impl; [|exact Hdom]. intros a Ha. simpl. now rewrite Ha.
  - reflexivity.
Qed.

Lemma split_two_parts (id domain obj : string) :
  split_statistic_id id = [domain; obj] -> id = (domain ++ ":" ++ obj)%string.
Proof.
  unfold split_statistic_id.
  pose proof (span_spec (fun c => negb (is_colon c)) (list_ascii_of_string id))
    as [H1 [_ H3]].
  destruct (span (fun c => negb (is_colon c)) (list_ascii_of_string id)) as [a b].
  simpl in H1, H3. destruct b as [|c b']; [discriminate|].
  intros [= <- <-].
  apply negb_false_iff in H3. apply is_colon_eq in H3. subst c.
  rewrite <- (string_of_list_ascii_of_string id), H1.
  now rewrite string_of_list_ascii_app.
Qed.
(** ** Submissions that pass validation *)

Definition aware (d : datetime) : Prop := utcoffset d <> None.

Definition hour_aligned (d : datetime) : Prop :=
  dt_minute d = 0 /\ dt_second d = 0 /\ dt_microsecond d = 0.

Definition valid_sample (s : StatisticData) : Prop :=
  aware (d_start s) /\ hour_aligned (d_start s).

(** The source is not empty and is the part of the id before its colon. *)
Definition source_matches (metadata : StatisticMetaData) : Prop :=
  m_source metadata <> EmptyString /\
  exists object_id,
    m_statistic_id metadata = (m_source metadata ++ ":" ++ object_id)%string.

Definition passes_validation (metadata : StatisticMetaData)
    (statistics : list StatisticData) : Prop :=
  valid_statistic_id (m_statistic_id metadata) = true /\
  source_matches metadata /\
  Forall valid_sample statistics.

Definition normalize_start (s : StatisticData) : StatisticData :=
  set_start s (as_utc (d_start s)).

Lemma check_statistics_valid (statistics : list StatisticData) :
  Forall valid_sample statistics ->
  check_statistics statistics = (None, map normalize_start statistics).
Proof.
  induction 1 as [|s l [Haw [Hm [Hs Hu]]] Hl IH]; simpl; [reflexivity|].
  unfold aware in Haw. destruct (utcoffset (d_start s)); [|contradiction].
  rewrite Hm, Hs, Hu, IH. reflexivity.
Qed.

Lemma check_statistics_accepts (statistics : list StatisticData) :
  fst (check_statistics statistics) = None -> Forall valid_sample statistics.
Proof.
  induction statistics as [|s l IH]; simpl; intros H; [constructor|].
  destruct (utcoffset (d_start s)) eqn:Hoff; [|discriminate].
  destruct (dt_minute (d_start s) =? 0) eqn:Hm; [|discriminate].
  destruct (dt_second (d_start s) =? 0) eqn:Hs; [|discriminate].
  destruct (dt_microsecond (d_start s) =? 0) eqn:Hu; [|discriminate].
  simpl in H. destruct (check_statistics l) as [err rest]. simpl in *.
  constructor; [|auto].
  split; [unfold aware; congruence|].
  repeat split; now apply Z.eqb_eq.
Qed.

(** ** C7: the two conversion tables *)

(** [toDisplay]: the conversion a range query applies to a value of a series
    whose normalized unit is [unit]. *)
Definition to_display (unit : string) (units : UnitSystem) (x : Q) : option Q :=
  statistic_unit_to_display_unit (Some unit) (Some x) units.

(** [toNormalized]: the conversion [adjust_statistics] applies to a delta for
    a series whose normalized unit is [unit]. *)
Definition to_normalized (unit : string) (units : UnitSystem) (x : Q) : Q :=
  display_unit_to_statistic_unit (_configured_unit (Some unit) units) x units.

Lemma option_string_eqb_neq (a b : string) :
  a <> b -> option_eqb String.eqb (Some a) (Some b) = false.
Proof. intros H. simpl. now apply String.eqb_neq. Qed.

Lemma option_string_eqb_refl (a : string) :
  option_eqb String.eqb (Some a) (Some a) = true.
Proof. simpl. apply String.eqb_refl. Qed.

(** C7, as the code has it.  Only volume has an entry in the
    display-to-normalized table, keyed by cubic feet.  For pressure and
    temperature [to_display] applies the helper and [to_normalized] is the
    identity; for volume [to_display] converts cubic metres to the configured
    unit and [to_normalized] converts back from cubic feet under a non-metric
    system and is the identity under a metric one; every unit other than the
    four named ones passes through both unchanged. *)
Theorem unit_conversion_tables :
  forall (units : UnitSystem) (x : Q),
    PRESSURE_PA <> TEMP_CELSIUS ->
    PRESSURE_PA <> VOLUME_CUBIC_METERS ->
    TEMP_CELSIUS <> VOLUME_CUBIC_METERS ->
    VOLUME_CUBIC_FEET <> VOLUME_CUBIC_METERS ->
    pressure_unit units <> VOLUME_CUBIC_FEET ->
    temperature_unit units <> VOLUME_CUBIC_FEET ->
    (to_display PRESSURE_PA units x =
       Some (pressure_convert x PRESSURE_PA (pressure_unit units)) /\
     to_normalized PRESSURE_PA units x = x) /\
    (to_display TEMP_CELSIUS units x =
       Some (temperature_convert x TEMP_CELSIUS (temperature_unit units)) /\
     to_normalized TEMP_CELSIUS units x = x) /\
    (to_display VOLUME_CUBIC_METERS units x =
       Some (volume_convert x VOLUME_CUBIC_METERS
               (if is_metric units then VOLUME_CUBIC_METERS
                else VOLUME_CUBIC_FEET)) /\
     to_normalized VOLUME_CUBIC_METERS units x =
       if is_metric units then x
       else volume_convert x VOLUME_CUBIC_FEET VOLUME_CUBIC_METERS) /\
    (forall unit,
        unit <> PRESSURE_PA -> unit <> TEMP_CELSIUS ->
        unit <> VOLUME_CUBIC_METERS -> unit <> VOLUME_CUBIC_FEET ->
        to_display unit units x = Some x /\ to_normalized unit units x = x).
Proof.
  intros units x Hpt Hpv Htv Hfv Hpu Htu.
  unfold to_display, to_normalized, statistic_unit_to_display_unit,
    display_unit_to_statistic_unit, _configured_unit, _configured_unit_str.
  cbn [option_map].
  repeat split.
  - rewrite (option_string_eqb_neq _ _ Hpv), (option_string_eqb_neq _ _ Hpt),
      option_string_eqb_refl. reflexivity.
  - rewrite String.eqb_refl. now rewrite (option_string_eqb_neq _ _ Hpu).
  - rewrite (option_string_eqb_neq _ _ Htv), option_string_eqb_refl. reflexivity.
  - apply not_eq_sym in Hpt. apply String.eqb_neq in Hpt. rewrite Hpt.
    rewrite String.eqb_refl. now rewrite (option_string_eqb_neq _ _ Htu).
  - rewrite option_string_eqb_refl. cbn [option_map].
    apply not_eq_sym in Hpv, Htv. apply String.eqb_neq in Hpv, Htv.
    rewrite Hpv, Htv, String.eqb_refl. reflexivity.
  - apply not_eq_sym in Hpv, Htv. apply String.eqb_neq in Hpv, Htv.
    rewrite Hpv, Htv, String.eqb_refl.
    destruct (is_metric units) eqn:Hmetric.
    + apply not_eq_sym in Hfv. rewrite (option_string_eqb_neq _ _ Hfv).
      reflexivity.
    + rewrite option_string_eqb_refl. cbv beta. now rewrite Hmetric.
  - rewrite (option_string_eqb_neq _ _ H1), (option_string_eqb_neq _ _ H0),
      (option_string_eqb_neq _ _ H). reflexivity.
  - apply String.eqb_neq in H, H0, H1. rewrite H, H0, H1.
    now rewrite (option_string_eqb_neq _ _ H2).
Qed.

(** ** C6: the sum adjuster *)

Definition to_normalized_opt (unit : option string) (units : UnitSystem)
    (x : Q) : Q :=
  display_unit_to_statistic_unit (_configured_unit unit units) x units.

(** Rows the update passes over are returned as they are; the others change
    in their sum only. *)
Lemma adjust_row_spec (metadata_id start_time : Z) (adj : Q) (r : StatRow) :
  (r_metadata_id r = metadata_id /\ start_time <= r_start r ->
   r_sum (adjust_row metadata_id start_time adj r)
     = option_map (fun s => (s + adj)%Q) (r_sum r)) /\
  (r_metadata_id r <> metadata_id \/ r_start r < start_time ->
   adjust_row metadata_id start_time adj r = r) /\
  r_id (adjust_row metadata_id start_time adj r) = r_id r /\
  r_created (adjust_row metadata_id start_time adj r) = r_created r /\
  r_metadata_id (adjust_row metadata_id start_time adj r) = r_metadata_id r /\
  r_start (adjust_row metadata_id start_time adj r) = r_start r /\
  r_mean (adjust_row metadata_id start_time adj r) = r_mean r /\
  r_min (adjust_row metadata_id start_time adj r) = r_min r /\
  r_max (adjust_row metadata_id start_time adj r) = r_max r /\
  r_last_reset (adjust_row metadata_id start_time adj r) = r_last_reset r /\
  r_state (adjust_row metadata_id start_time adj r) = r_state r.
Proof.
  unfold adjust_row.
  destruct (Z.eqb_spec (r_metadata_id r) metadata_id) as [E|E];
    destruct (Z.leb_spec start_time (r_start r)) as [L|L]; simpl;
    (split; [intros [H1 H2]|split; [intros [H|H]|]]);
    try contradiction; try lia_closed; try reflexivity; repeat split.
Qed.

(** What [adjust_statistics] does to the store of a series it knows: both
    tables are updated with the converted delta, the short-term one from
    [start_time], the long-term one from [start_time] with its minute set to
    zero. *)
Lemma adjust_statistics_known (units : UnitSystem) (statistic_id : string)
    (start_time : datetime) (sum_adjustment : Q) (s : Session)
    (metadata_id : Z) (meta : StatisticMetaData) :
  dict_get String.eqb
    (get_metadata_with_session (Some [statistic_id]) None None (db s))
    statistic_id = Some (metadata_id, meta) ->
  let adj := to_normalized_opt (m_unit_of_measurement meta) units sum_adjustment in
  db (snd (adjust_statistics units statistic_id start_time sum_adjustment s)) =
    set_rows Statistics
      (map (adjust_row metadata_id
              (bound_value (replace_minute start_time 0)) adj)
           (statistics (db s)))
      (set_rows StatisticsShortTerm
         (map (adjust_row metadata_id (bound_value start_time) adj)
              (statistics_short_term (db s)))
         (db s)).
Proof.
  intros H adj. unfold adjust_statistics, session_scope, bind, query, emit, ret.
  simpl. rewrite H. simpl. reflexivity.
Qed.

(** On a start time without seconds and microseconds, setting the minute to
    zero gives the start of the hour the time lies in. *)
Lemma replace_minute_hour_floor (d : datetime) :
  dt_second d = 0 -> dt_microsecond d = 0 ->
  wall (replace_minute d 0) = wall d / US_PER_HOUR * US_PER_HOUR.
Proof.
  clear_parameters.
  unfold dt_second, dt_microsecond, replace_minute, dt_minute,
    US_PER_HOUR, US_PER_MINUTE, US_PER_SECOND. cbn [wall].
  intros Hs Hu. Z.to_euclidean_division_equations. lia.
Qed.

Definition with_sum (r : StatRow) (s : option Q) : StatRow :=
  {| r_id := r_id r; r_created := r_created r;
     r_metadata_id := r_metadata_id r; r_start := r_start r;
     r_mean := r_mean r; r_min := r_min r; r_max := r_max r;
     r_last_reset := r_last_reset r; r_state := r_state r; r_sum := s |}.

(** [r'] is [r] after the update of the series [m] from [threshold] on: a
    row of the series at or after the threshold has [adj] added to its sum,
    when it has one, and is otherwise as before; any other row is as
    before. *)
Definition adjusted (m threshold : Z) (adj : Q) (r r' : StatRow) : Prop :=
  (r_metadata_id r = m /\ threshold <= r_start r ->
   r' = with_sum r (option_map (fun s => (s + adj)%Q) (r_sum r))) /\
  (r_metadata_id r <> m \/ r_start r < threshold -> r' = r).

Lemma adjust_row_adjusted (m threshold : Z) (adj : Q) (rows : list StatRow) :
  Forall2 (adjusted m threshold adj) rows (map (adjust_row m threshold adj) rows).
Proof.
  clear_parameters.
  induction rows as [|r rows IH]; simpl; constructor; [|assumption].
  unfold adjusted, adjust_row.
  destruct (Z.eqb_spec (r_metadata_id r) m) as [E|E];
    destruct (Z.leb_spec threshold (r_start r)) as [L|L]; simpl;
    (split; [intros [H1 H2]|intros [H|H]]);
    try contradiction; try lia; reflexivity.
Qed.

(** C6, as the code has it.  For a series with metadata and a start time
    given in UTC, without seconds and microseconds, [adjust_statistics]
    answers [True] and adds one delta to the sums of the rows of the series:
    in the short-term table from the start time on, in the long-term table
    from the start of the hour that contains the start time on; no other
    field and no other row changes.  The delta is the one given, except that
    under a display unit of cubic feet it is first converted to cubic
    metres. *)
Theorem adjust_statistics_sums :
  forall (units : UnitSystem) (statistic_id : string) (start_time : datetime)
         (sum_adjustment : Q) (s : Session) (m : Z) (meta : StatisticMetaData),
    dict_get String.eqb
      (get_metadata_with_session (Some [statistic_id]) None None (db s))
      statistic_id = Some (m, meta) ->
    utcoffset start_time = Some 0 ->
    dt_second start_time = 0 ->
    dt_microsecond start_time = 0 ->
    let display_unit := _configured_unit (m_unit_of_measurement meta) units in
    let adj := display_unit_to_statistic_unit display_unit sum_adjustment units in
    let s' := snd (adjust_statistics units statistic_id start_time
                                     sum_adjustment s) in
    fst (adjust_statistics units statistic_id start_time sum_adjustment s)
      = true /\
    Forall2 (adjusted m (instant start_time) adj)
            (statistics_short_term (db s)) (statistics_short_term (db s')) /\
    Forall2 (adjusted m (instant start_time / US_PER_HOUR * US_PER_HOUR) adj)
            (statistics (db s)) (statistics (db s')) /\
    statistics_meta (db s') = statistics_meta (db s) /\
    statistics_runs (db s') = statistics_runs (db s) /\
    (display_unit = Some VOLUME_CUBIC_FEET ->
     adj = volume_convert sum_adjustment
             (_configured_unit_str VOLUME_CUBIC_METERS units)
             VOLUME_CUBIC_METERS) /\
    (display_unit <> Some VOLUME_CUBIC_FEET -> adj = sum_adjustment).
Proof.
  intros units statistic_id start_time sum_adjustment s m meta Hget Hutc Hs Hu
    display_unit adj s'.
  pose proof (adjust_statistics_known units statistic_id start_time
                sum_adjustment s m meta Hget) as Hdb.
  cbv zeta in Hdb. fold display_unit in Hdb.
  unfold to_normalized_opt in Hdb. fold display_unit in Hdb. fold adj in Hdb.
  fold s' in Hdb.
  assert (Hshort : bound_value start_time = instant start_time).
  { unfold bound_value, instant. rewrite Hutc. clear_parameters. lia. }
  assert (Hlong : bound_value (replace_minute start_time 0) =
                  instant start_time / US_PER_HOUR * US_PER_HOUR).
  { rewrite <- Hshort. unfold bound_value.
    exact (replace_minute_hour_floor start_time Hs Hu). }
  rewrite Hdb, Hshort, Hlong.
  cbn [set_rows statistics statistics_short_term
       statistics_meta statistics_runs].
  split.
  { unfold adjust_statistics, session_scope, bind, query, emit, ret. simpl.
    rewrite Hget. reflexivity. }
  split; [apply adjust_row_adjusted|]. split; [apply adjust_row_adjusted|].
  split; [reflexivity|]. split; [reflexivity|].
  unfold adj, display_unit_to_statistic_unit. split.
  - intros ->. now rewrite option_string_eqb_refl.
  - intros Hne. destruct display_unit as [u|]; [|reflexivity].
    rewrite option_string_eqb_neq; [reflexivity|congruence].
Qed.
(** ** Grouping, ordering and the latest row *)

Lemma insert_distinct_In (x : Z) (l : list Z) (y : Z) :
  In y (insert_distinct x l) <-> y = x \/ In y l.
Proof.
  induction l as [|a l IH]; simpl.
  - intuition.
  - destruct (Z.ltb_spec x a); simpl; [intuition|].
    destruct (Z.eqb_spec x a); simpl.
    + subst. intuition.
    + rewrite IH. intuition.
Qed.

Lemma insert_distinct_sorted (x : Z) (l : list Z) :
  StronglySorted Z.lt l ->
  StronglySorted Z.lt (insert_distinct x l).
Proof.
  induction 1 as [|a l Hs IH Hall]; simpl.
  - constructor; constructor.
  - destruct (Z.ltb_spec x a).
    + constructor; [constructor; assumption|].
      constructor; [assumption|].
      eapply Forall_impl; [|exact Hall]. intros; lia_closed.
    + destruct (Z.eqb_spec x a).
      * constructor; assumption.
      * constructor; [assumption|].
        apply Forall_forall. intros y Hy. apply insert_distinct_In in Hy.
        destruct Hy as [->|Hy]; [lia_closed|].
        rewrite Forall_forall in Hall. auto.
Qed.

Lemma distinct_sorted_In (l : list Z) (y : Z) :
  In y (distinct_sorted l) <-> In y l.
Proof.
  induction l as [|a l IH]; simpl; [tauto|].
  rewrite insert_distinct_In, IH. intuition.
Qed.

Lemma distinct_sorted_sorted (l : list Z) :
  StronglySorted Z.lt (distinct_sorted l).
Proof.
  induction l as [|a l IH]; simpl; [constructor|].
  now apply insert_distinct_sorted.
Qed.

Lemma distinct_sorted_NoDup (l : list Z) : NoDup (distinct_sorted l).
Proof.
  pose proof (distinct_sorted_sorted l) as H.
  induction H as [|a l' Hs IH Hall]; constructor; [|assumption].
  intros Hin. rewrite Forall_forall in Hall. specialize (Hall _ Hin). lia_closed.
Qed.

Lemma latest_row_In (rows : list StatRow) (r : StatRow) :
  latest_row rows = Some r ->
  In r rows /\ forall x, In x rows -> r_start x <= r_start r.
Proof.
  revert r. induction rows as [|a rows IH]; simpl; intros r H; [discriminate|].
  destruct (latest_row rows) as [r'|] eqn:E.
  - destruct (IH r' eq_refl) as [Hin Hmax].
    destruct (Z.ltb_spec (r_start a) (r_start r')); injection H as <-.
    + split; [now right|]. intros x [<-|Hx]; [lia_closed|auto].
    + split; [now left|]. intros x [<-|Hx]; [lia_closed|].
      specialize (Hmax _ Hx). lia_closed.
  - injection H as <-. split; [now left|].
    destruct rows; [|simpl in E; destruct (latest_row rows);
                      [destruct (_ <? _)|]; discriminate].
    intros x [<-|[]]. lia_closed.
Qed.

Lemma latest_row_Some (rows : list StatRow) :
  rows <> [] -> exists r, latest_row rows = Some r.
Proof.
  destruct rows as [|a rows]; [contradiction|]. intros _. simpl.
  destruct (latest_row rows) as [r'|]; [|eauto].
  destruct (_ <? _); eauto.
Qed.

(** The row whose start no other row of the list reaches is the one
    numbered first. *)
Lemma latest_row_unique (rows : list StatRow) (last : StatRow) :
  In last rows ->
  (forall r, In r rows -> r = last \/ r_start r < r_start last) ->
  latest_row rows = Some last.
Proof.
  intros Hin Hmax.
  destruct (latest_row_Some rows) as [r Hr].
  { intros ->. contradiction. }
  destruct (latest_row_In _ _ Hr) as [Hr1 Hr2].
  destruct (Hmax _ Hr1) as [->|Hlt]; [assumption|].
  specialize (Hr2 _ Hin). lia_closed.
Qed.

Lemma fold_left_map_list {A B C : Type} (f : A -> B -> A) (g : C -> B)
    (l : list C) (a : A) :
  fold_left f (map g l) a = fold_left (fun acc x => f acc (g x)) l a.
Proof. revert a. induction l as [|x l IH]; simpl; intros; auto. Qed.

Section DictAppend.
Context {V : Type}.

Lemma dict_get_app_fresh (a b : list (Z * V)) (k : Z) :
  ~ In k (map fst a) -> dict_get Z.eqb (a ++ b) k = dict_get Z.eqb b k.
Proof.
  induction a as [|[k' v'] a IH]; simpl; intros H; [reflexivity|].
  destruct (Z.eqb_spec k' k); [exfalso; auto|]. apply IH. auto.
Qed.

Lemma dict_set_app_fresh (a b : list (Z * V)) (k : Z) (v : V) :
  ~ In k (map fst a) ->
  dict_set Z.eqb (a ++ b) k v = a ++ dict_set Z.eqb b k v.
Proof.
  induction a as [|[k' v'] a IH]; simpl; intros H; [reflexivity|].
  destruct (Z.eqb_spec k' k); [exfalso; auto|]. f_equal. apply IH. auto.
Qed.

Lemma dict_set_fresh (a : list (Z * V)) (k : Z) (v : V) :
  ~ In k (map fst a) -> dict_set Z.eqb a k v = a ++ [(k, v)].
Proof.
  intros H. rewrite <- (app_nil_r a) at 1.
  now rewrite dict_set_app_fresh.
Qed.

Lemma fold_dict_set_fresh (g : Z -> V) (ks : list Z) (acc : list (Z * V)) :
  NoDup ks -> (forall k, In k ks -> ~ In k (map fst acc)) ->
  fold_left (fun acc k => dict_set Z.eqb acc k (g k)) ks acc =
    acc ++ map (fun k => (k, g k)) ks.
Proof.
  revert acc. induction ks as [|k ks IH]; simpl; intros acc Hnd Hfresh.
  - now rewrite app_nil_r.
  - inversion Hnd as [|? ? Hnin Hnd']; subst.
    rewrite dict_set_fresh by (apply Hfresh; now left).
    rewrite IH; [now rewrite <- app_assoc| assumption |].
    intros k' Hk'. rewrite map_app, in_app_iff. simpl.
    intros [H|[H|[]]].
    + apply (Hfresh k'); auto.
    + subst. contradiction.
Qed.
End DictAppend.
(** ** C1 and C2: the hourly rollup *)

(** The short-term rows of series [m] in the hour of [start]. *)
Definition hour_rows (start : datetime) (m : Z) (d : Db) : list StatRow :=
  filter (of_series m)
    (filter (in_window (instant (replace_minute start 0))
                       (instant (replace_minute start 0) + US_PER_HOUR))
            (statistics_short_term d)).

(** The summary entry of series [m]. *)
Definition summary_of (start : datetime) (m : Z) (d : Db) : StatisticData :=
  let g := hour_rows start m d in
  let mean_entry :=
    summary_mean_entry (replace_minute start 0) (sql_avg (map r_mean g))
                       (sql_min (map r_min g)) (sql_max (map r_max g)) in
  match latest_row g with
  | Some l => summary_update mean_entry (process_timestamp (r_last_reset l))
                             (r_state l) (r_sum l)
  | None => mean_entry
  end.

Lemma instant_dt_add (d : datetime) (delta : Z) :
  instant (dt_add d delta) = instant d + delta.
Proof.
  unfold instant, utcoffset, dt_add. simpl.
  destruct (tzinfo d) as [[o|]|]; lia_closed.
Qed.

Lemma hour_rows_nonempty_id (start : datetime) (m : Z) (d : Db) :
  hour_rows start m d <> [] <->
  In m (distinct_sorted
          (map r_metadata_id
               (filter (in_window (instant (replace_minute start 0))
                                  (instant (replace_minute start 0) + US_PER_HOUR))
                       (statistics_short_term d)))).
Proof.
  rewrite distinct_sorted_In, in_map_iff. unfold hour_rows. split.
  - intros H.
    destruct (filter (of_series m) _) as [|r g] eqn:E; [contradiction|].
    assert (Hin : In r (r :: g)) by now left.
    rewrite <- E in Hin. apply filter_In in Hin. destruct Hin as [Hin Hm].
    exists r. split; [|assumption]. now apply Z.eqb_eq in Hm.
  - intros [r [Hm Hin]] E.
    assert (Hr : In r (filter (of_series m)
                   (filter (in_window (instant (replace_minute start 0))
                              (instant (replace_minute start 0) + US_PER_HOUR))
                           (statistics_short_term d)))).
    { apply filter_In. split; [assumption|]. now apply Z.eqb_eq. }
    rewrite E in Hr. contradiction.
Qed.

(** The second loop of the rollup, over series still carrying the entry [e]
    of the first loop. *)
Lemma summary_sum_fold (start_time : datetime) (rows : list StatRow)
    (e : Z -> StatisticData) (ids : list Z) (done : list (Z * StatisticData)) :
  NoDup ids ->
  (forall k, In k ids -> ~ In k (map fst done)) ->
  (forall m, In m ids -> filter (of_series m) rows <> []) ->
  fold_left
    (fun summary stat =>
       match dict_get Z.eqb summary (r_metadata_id stat) with
       | Some s =>
           dict_set Z.eqb summary (r_metadata_id stat)
             (summary_update s (process_timestamp (r_last_reset stat))
                             (r_state stat) (r_sum stat))
       | None =>
           dict_set Z.eqb summary (r_metadata_id stat)
             (summary_sum_entry start_time
                (process_timestamp (r_last_reset stat))
                (r_state stat) (r_sum stat))
       end)
    (flat_map (fun m => match latest_row (filter (of_series m) rows) with
                        | Some r => [r]
                        | None => []
                        end) ids)
    (done ++ map (fun m => (m, e m)) ids) =
  done ++ map (fun m =>
                 (m, match latest_row (filter (of_series m) rows) with
                     | Some l =>
                         summary_update (e m)
                           (process_timestamp (r_last_reset l))
                           (r_state l) (r_sum l)
                     | None => e m
                     end)) ids.
Proof.
  revert done. induction ids as [|m ids IH]; intros done Hnd Hdone Hids.
  - reflexivity.
  - inversion Hnd as [|? ? Hnin Hnd']; subst. cbn [flat_map map].
    destruct (latest_row_Some _ (Hids m (or_introl eq_refl))) as [l Hl].
    rewrite Hl. cbn [app fold_left].
    destruct (latest_row_In _ _ Hl) as [Hin _].
    apply filter_In in Hin. destruct Hin as [_ Hm]. apply Z.eqb_eq in Hm.
    rewrite Hm.
    rewrite dict_get_app_fresh by (apply Hdone; now left).
    cbn [dict_get]. rewrite Z.eqb_refl.
    rewrite dict_set_app_fresh by (apply Hdone; now left).
    cbn [dict_set]. rewrite Z.eqb_refl.
    specialize (IH (done ++ [(m, summary_update (e m)
                                   (process_timestamp (r_last_reset l))
                                   (r_state l) (r_sum l))]) Hnd').
    rewrite <- !app_assoc in IH. cbn [app] in IH. apply IH.
    + intros k Hk. rewrite map_app, in_app_iff. cbn.
      intros [H|[H|[]]]; [apply (Hdone k); [now right|assumption]|].
      subst. contradiction.
    + intros k Hk. apply Hids. now right.
Qed.

Lemma hourly_summary_eq (start : datetime) (d : Db) :
  hourly_summary (replace_minute start 0)
                 (dt_add (replace_minute start 0) US_PER_HOUR) d =
    map (fun m => (m, summary_of start m d))
        (distinct_sorted
           (map r_metadata_id
                (filter (in_window (instant (replace_minute start 0))
                                   (instant (replace_minute start 0) + US_PER_HOUR))
                        (statistics_short_term d)))).
Proof.
  unfold hourly_summary, summary_mean_query, summary_sum_query.
  rewrite instant_dt_add.
  set (rows := filter _ (statistics_short_term d)).
  set (ids := distinct_sorted (map r_metadata_id rows)).
  assert (Hids : forall m, In m ids -> filter (of_series m) rows <> []).
  { intros m Hm. now apply (hour_rows_nonempty_id start m d). }
  pose proof (distinct_sorted_NoDup (map r_metadata_id rows)) as Hnd.
  fold ids in Hnd.
  rewrite fold_left_map_list.
  rewrite (fold_dict_set_fresh
             (fun m => summary_mean_entry (replace_minute start 0)
                         (sql_avg (map r_mean (filter (of_series m) rows)))
                         (sql_min (map r_min (filter (of_series m) rows)))
                         (sql_max (map r_max (filter (of_series m) rows)))));
    [|assumption|intros k _ []].
  apply (summary_sum_fold (replace_minute start 0) rows _ ids []);
    [assumption|intros k _ []|assumption].
Qed.

(** The rows a loop of [session.add] calls appends to a table. *)
Lemma for_each_session_add (now : Z) (t : table)
    (body : Z * StatisticData -> M unit) (l : list (Z * StatisticData))
    (s : Session) :
  (forall kv s', body kv s' =
                 session_add now t (from_stats (fst kv) (snd kv)) s') ->
  exists ids,
    length ids = length l /\
    rows_of t (db (snd (for_each l body s))) =
      rows_of t (db s)
      ++ map (fun p => with_id (fst p) now (from_stats (fst (snd p)) (snd (snd p))))
             (combine ids l).
Proof.
  intros Hbody. revert s. induction l as [|kv l IH]; intros s; simpl.
  - exists []. simpl. now rewrite app_nil_r.
  - rewrite bind_run.
    destruct (IH (snd (body kv s))) as [ids [Hlen Hrows]].
    exists (next_id (map r_id (rows_of t (db s))) :: ids).
    split; [simpl; now rewrite Hlen|].
    rewrite Hrows, Hbody. unfold session_add, emit. cbn [snd db].
    destruct t; cbn [rows_of set_rows statistics statistics_short_term];
      rewrite <- app_assoc; reflexivity.
Qed.

Lemma combine_split_at {A : Type} (ids : list Z) (l1 : list A) (x : A)
    (l2 : list A) :
  length ids = length (l1 ++ x :: l2) ->
  exists ids1 i ids2,
    combine ids (l1 ++ x :: l2) =
      combine ids1 l1 ++ (i, x) :: combine ids2 l2 /\
    length ids1 = length l1 /\ length ids2 = length l2.
Proof.
  revert ids. induction l1 as [|a l1 IH]; intros ids Hlen.
  - destruct ids as [|i ids]; [discriminate|].
    exists [], i, ids. simpl in *. repeat split. lia_closed.
  - destruct ids as [|i ids]; [discriminate|].
    simpl in Hlen. injection Hlen as Hlen.
    destruct (IH ids Hlen) as [ids1 [j [ids2 [Hc [H1 H2]]]]].
    exists (i :: ids1), j, ids2. simpl. rewrite Hc, H1. repeat split; auto.
Qed.

(** The rollup writes exactly one long-term row for a series with a
    short-term row in the hour: the summary entry of the series. *)
Lemma compile_hourly_statistics_row (now : Z) (start : datetime) (s : Session)
    (m : Z) :
  hour_rows start m (db s) <> [] ->
  exists before i after,
    statistics (db (snd (compile_hourly_statistics now start s))) =
      statistics (db s) ++ before
        ++ with_id i now (from_stats m (summary_of start m (db s))) :: after /\
    forall r, In r (before ++ after) -> r_metadata_id r <> m.
Proof.
  intros Hne. unfold compile_hourly_statistics.
  rewrite bind_run. cbn [emit fst snd]. rewrite bind_run.
  cbn [query fst snd db]. rewrite hourly_summary_eq.
  set (ids := distinct_sorted _).
  assert (Hin : In m ids) by now apply hour_rows_nonempty_id.
  pose proof (distinct_sorted_NoDup
                (map r_metadata_id
                   (filter (in_window (instant (replace_minute start 0))
                              (instant (replace_minute start 0) + US_PER_HOUR))
                           (statistics_short_term (db s))))) as Hnd.
  fold ids in Hnd. clearbody ids.
  apply in_split in Hin. destruct Hin as [l1 [l2 ->]].
  match goal with |- context [for_each ?l ?b ?s0] =>
    destruct (for_each_session_add now Statistics b l s0)
      as [nums [Hlen Hrows]]; [now intros [k v] s'|]
  end.
  simpl rows_of in Hrows. rewrite Hrows. cbn [db statistics].
  rewrite map_app in Hlen |- *. cbn [map] in Hlen |- *.
  destruct (combine_split_at nums _ _ _ Hlen) as [n1 [i [n2 [Hc [H1 H2]]]]].
  rewrite Hc, map_app. cbn [map fst snd].
  eexists _, i, _. split; [reflexivity|].
  apply NoDup_remove_2 in Hnd.
  intros r Hr. rewrite in_app_iff, !in_map_iff in Hr.
  destruct Hr as [[[j [k v]] [<- Hp]]|[[j [k v]] [<- Hp]]];
    apply in_combine_r in Hp; apply in_map_iff in Hp;
    destruct Hp as [k' [[= <- <-] Hk']]; cbn;
    intros ->; apply Hnd; apply in_app_iff; auto.
Qed.
(** What the spec asks of the three aggregates, over the values that are
    present. *)
Definition is_mean (values : list Q) (o : option Q) : Prop :=
  match o with
  | Some q => values <> [] /\
              (q * inject_Z (Z.of_nat (length values)) == Qsum values)%Q
  | None => values = []
  end.

Definition is_minimum (values : list Q) (o : option Q) : Prop :=
  match o with
  | Some q => In q values /\ forall y, In y values -> (q <= y)%Q
  | None => values = []
  end.

Definition is_maximum (values : list Q) (o : option Q) : Prop :=
  match o with
  | Some q => In q values /\ forall y, In y values -> (y <= q)%Q
  | None => values = []
  end.

Lemma fold_left_Qmin_spec (xs : list Q) (x : Q) :
  In (fold_left Qmin xs x) (x :: xs) /\
  forall y, In y (x :: xs) -> (fold_left Qmin xs x <= y)%Q.
Proof.
  revert x. induction xs as [|a xs IH]; intros x; simpl.
  - split; [now left|]. intros y [<-|[]]. apply Qle_refl.
  - destruct (IH (Qmin x a)) as [Hin Hle]. split.
    + destruct Hin as [Hin|Hin]; [|auto].
      rewrite <- Hin. unfold Qmin, GenericMinMax.gmin.
      destruct (x ?= a)%Q; auto.
    + intros y [<-|[<-|Hy]].
      * eapply Qle_trans; [apply Hle; now left|apply Q.le_min_l].
      * eapply Qle_trans; [apply Hle; now left|apply Q.le_min_r].
      * apply Hle. now right.
Qed.

Lemma fold_left_Qmax_spec (xs : list Q) (x : Q) :
  In (fold_left Qmax xs x) (x :: xs) /\
  forall y, In y (x :: xs) -> (y <= fold_left Qmax xs x)%Q.
Proof.
  revert x. induction xs as [|a xs IH]; intros x; simpl.
  - split; [now left|]. intros y [<-|[]]. apply Qle_refl.
  - destruct (IH (Qmax x a)) as [Hin Hle]. split.
    + destruct Hin as [Hin|Hin]; [|auto].
      rewrite <- Hin. unfold Qmax, GenericMinMax.gmax.
      destruct (x ?= a)%Q; auto.
    + intros y [<-|[<-|Hy]].
      * eapply Qle_trans; [apply Q.le_max_l|apply Hle; now left].
      * eapply Qle_trans; [apply Q.le_max_r|apply Hle; now left].
      * apply Hle. now right.
Qed.

Lemma sql_avg_is_mean (l : list (option Q)) : is_mean (present l) (sql_avg l).
Proof.
  unfold sql_avg. destruct (present l) as [|x xs]; simpl; [reflexivity|].
  split; [discriminate|].
  rewrite Qmult_comm. apply Qmult_div_r.
  unfold inject_Z, Qeq. simpl. lia_closed.
Qed.

Lemma sql_min_is_minimum (l : list (option Q)) :
  is_minimum (present l) (sql_min l).
Proof.
  unfold sql_min. destruct (present l) as [|x xs]; simpl; [reflexivity|].
  apply fold_left_Qmin_spec.
Qed.

Lemma sql_max_is_maximum (l : list (option Q)) :
  is_maximum (present l) (sql_max l).
Proof.
  unfold sql_max. destruct (present l) as [|x xs]; simpl; [reflexivity|].
  apply fold_left_Qmax_spec.
Qed.

Lemma summary_of_fields (start : datetime) (m : Z) (d : Db) :
  d_start (summary_of start m d) = replace_minute start 0 /\
  d_mean (summary_of start m d) = sql_avg (map r_mean (hour_rows start m d)) /\
  d_min (summary_of start m d) = sql_min (map r_min (hour_rows start m d)) /\
  d_max (summary_of start m d) = sql_max (map r_max (hour_rows start m d)).
Proof.
  unfold summary_of. destruct (latest_row (hour_rows start m d)); simpl; auto.
Qed.

(** C1.  For a series with at least one short-term row in the hour of
    [start], the rollup appends exactly one long-term row of that series; it
    starts at the hour, its mean is the arithmetic mean of the short-term
    means that are present, its min the least of the short-term mins and its
    max the greatest of the short-term maxs.  When the means present are
    1, 2, ..., 12 the mean written is 6.5. *)
Theorem hourly_rollup_mean_min_max :
  forall (now : Z) (start : datetime) (s : Session) (m : Z),
    hour_rows start m (db s) <> [] ->
    exists before row after,
      statistics (db (snd (compile_hourly_statistics now start s))) =
        statistics (db s) ++ before ++ row :: after /\
      (forall r, In r (before ++ after) -> r_metadata_id r <> m) /\
      r_metadata_id row = m /\
      r_start row = instant (replace_minute start 0) /\
      is_mean (present (map r_mean (hour_rows start m (db s)))) (r_mean row) /\
      is_minimum (present (map r_min (hour_rows start m (db s)))) (r_min row) /\
      is_maximum (present (map r_max (hour_rows start m (db s)))) (r_max row) /\
      (present (map r_mean (hour_rows start m (db s))) =
         map inject_Z [1; 2; 3; 4; 5; 6; 7; 8; 9; 10; 11; 12] ->
       exists q, r_mean row = Some q /\ (q == 65 # 10)%Q).
Proof.
  intros now start s m Hne.
  destruct (compile_hourly_statistics_row now start s m Hne)
    as [before [i [after [Hrows Hother]]]].
  destruct (summary_of_fields start m (db s)) as [Hs [Hmean [Hmin Hmax]]].
  exists before, (with_id i now (from_stats m (summary_of start m (db s)))), after.
  split; [assumption|]. split; [assumption|].
  cbn [with_id from_stats r_metadata_id r_start r_mean r_min r_max].
  rewrite Hs, Hmean, Hmin, Hmax.
  split; [reflexivity|]. split; [reflexivity|].
  split; [apply sql_avg_is_mean|]. split; [apply sql_min_is_minimum|].
  split; [apply sql_max_is_maximum|].
  intros Hvals. unfold sql_avg. rewrite Hvals. cbn [map].
  eexists. split; [reflexivity|]. reflexivity.
Qed.

Lemma instant_utc_datetime (t : Z) : instant (utc_datetime t) = t.
Proof. unfold instant, utcoffset, utc_datetime. simpl. lia_closed. Qed.

Lemma stored_process_timestamp (ts : option Z) :
  option_map bound_value (process_timestamp ts) = ts.
Proof. destruct ts as [t|]; reflexivity. Qed.

Lemma present_all_none {A B : Type} (f : A -> option B) (l : list A) :
  (forall r, In r l -> f r = None) -> present (map f l) = [].
Proof.
  induction l as [|r l IH]; intros Hf; [reflexivity|].
  simpl. rewrite (Hf r (or_introl eq_refl)).
  apply IH. intros r' Hr'. apply Hf. now right.
Qed.

(** C2.  Let [last] be the short-term row of the series whose start no other
    row of the series in the hour reaches.  The one long-term row the rollup
    appends for the series carries the sum, state and last reset of [last],
    whatever the other rows hold; and when no row of the series in the hour
    has a mean, min or max, the row is written all the same, with the three
    absent. *)
Theorem hourly_rollup_sum_state_last_reset :
  forall (now : Z) (start : datetime) (s : Session) (m : Z) (last : StatRow),
    In last (hour_rows start m (db s)) ->
    (forall r, In r (hour_rows start m (db s)) ->
               r = last \/ r_start r < r_start last) ->
    exists before row after,
      statistics (db (snd (compile_hourly_statistics now start s))) =
        statistics (db s) ++ before ++ row :: after /\
      (forall r, In r (before ++ after) -> r_metadata_id r <> m) /\
      r_metadata_id row = m /\
      r_start row = instant (replace_minute start 0) /\
      r_sum row = r_sum last /\
      r_state row = r_state last /\
      r_last_reset row = r_last_reset last /\
      ((forall r, In r (hour_rows start m (db s)) ->
                  r_mean r = None /\ r_min r = None /\ r_max r = None) ->
       r_mean row = None /\ r_min row = None /\ r_max row = None).
Proof.
  intros now start s m last Hin Hlast.
  assert (Hne : hour_rows start m (db s) <> []).
  { intros E. rewrite E in Hin. contradiction. }
  destruct (compile_hourly_statistics_row now start s m Hne)
    as [before [i [after [Hrows Hother]]]].
  destruct (summary_of_fields start m (db s)) as [Hs [Hmean [Hmin Hmax]]].
  exists before, (with_id i now (from_stats m (summary_of start m (db s)))), after.
  split; [assumption|]. split; [assumption|].
  cbn [with_id from_stats r_metadata_id r_start r_mean r_min r_max
       r_sum r_state r_last_reset].
  rewrite Hs, Hmean, Hmin, Hmax.
  split; [reflexivity|]. split; [reflexivity|].
  unfold summary_of. rewrite (latest_row_unique _ _ Hin Hlast).
  cbn [summary_update d_sum d_state d_last_reset].
  rewrite stored_process_timestamp.
  split; [reflexivity|]. split; [reflexivity|]. split; [reflexivity|].
  intros Hnone.
  unfold sql_avg, sql_min, sql_max.
  rewrite (present_all_none r_mean), (present_all_none r_min),
    (present_all_none r_max); auto; intros r Hr; apply (Hnone r Hr).
Qed.
(** ** C3: the range query and the row before the window *)

Lemma key_eqb_eq : forall a b : key, key_eqb a b = true <-> a = b.
Proof.
  intros [x|x] [y|y]; simpl; split; intros H; try discriminate.
  - apply String.eqb_eq in H. now subst.
  - injection H as ->. apply String.eqb_refl.
  - apply Z.eqb_eq in H. now subst.
  - injection H as ->. apply Z.eqb_refl.
Qed.

Lemma mem_Z_In (x : Z) (l : list Z) : mem_Z x l = true <-> In x l.
Proof.
  unfold mem_Z. rewrite existsb_exists. split.
  - intros [y [Hy E]]. apply Z.eqb_eq in E. now subst.
  - intros H. exists x. split; [assumption|apply Z.eqb_refl].
Qed.

Lemma set_add_In (x y : Z) (s : list Z) :
  In y (set_add x s) <-> y = x \/ In y s.
Proof.
  unfold set_add. destruct (mem_Z x s) eqn:E.
  - apply mem_Z_In in E. split; [auto|]. intros [->|H]; auto.
  - rewrite in_app_iff. simpl. intuition.
Qed.

Lemma groupby_groups (stats : list StatRow) (k : Z) (g : list StatRow) :
  In (k, g) (groupby stats) ->
  g <> [] /\ forall r, In r g -> In r stats /\ r_metadata_id r = k.
Proof.
  revert k g. induction stats as [|a stats IH]; simpl; intros k g H;
    [contradiction|].
  destruct (groupby stats) as [|[k0 g0] gs] eqn:E.
  - destruct H as [[= <- <-]|[]]. split; [discriminate|].
    intros r [<-|[]]. auto.
  - destruct (Z.eqb_spec k0 (r_metadata_id a)) as [Ek|Ek].
    + destruct H as [[= <- <-]|H].
      * split; [discriminate|]. intros r [<-|Hr]; [auto|].
        destruct (IH k0 g0 (or_introl eq_refl)) as [_ Hg].
        destruct (Hg r Hr). auto.
      * destruct (IH k g (or_intror H)) as [Hne Hg]. split; [assumption|].
        intros r Hr. destruct (Hg r Hr). auto.
    + destruct H as [[= <- <-]|H].
      * split; [discriminate|]. intros r [<-|[]]. auto.
      * destruct (IH k g H) as [Hne Hg]. split; [assumption|].
        intros r Hr. destruct (Hg r Hr). auto.
Qed.

Lemma groupby_covers (stats : list StatRow) (r : StatRow) :
  In r stats ->
  exists g, In (r_metadata_id r, g) (groupby stats) /\ In r g.
Proof.
  induction stats as [|a stats IH]; simpl; intros H; [contradiction|].
  destruct H as [<-|H].
  - destruct (groupby stats) as [|[k0 g0] gs].
    + exists [a]. simpl. auto.
    + destruct (Z.eqb_spec k0 (r_metadata_id a)) as [Ek|Ek].
      * subst k0. exists (a :: g0). simpl. auto.
      * exists [a]. simpl. auto.
  - destruct (IH H) as [g [Hg Hr]].
    destruct (groupby stats) as [|[k0 g0] gs]; [contradiction|].
    destruct (Z.eqb_spec k0 (r_metadata_id a)) as [Ek|Ek].
    + destruct Hg as [[= -> ->]|Hg].
      * rewrite Ek. exists (a :: g). simpl. auto.
      * exists g. simpl. auto.
    + exists g. simpl. auto.
Qed.

(** A series is marked when one of its runs begins after the start time. *)
Lemma need_stat_at_start_time_In (start_time : datetime)
    (groups : list (Z * list StatRow)) (k : Z) (first : StatRow)
    (rest : list StatRow) :
  In (k, first :: rest) groups ->
  instant start_time < r_start first ->
  In k (need_stat_at_start_time (Some start_time) groups).
Proof.
  unfold need_stat_at_start_time. intros Hin Hlt.
  assert (Hmono : forall gs acc,
            In k acc ->
            In k (fold_left
                    (fun need g =>
                       match snd g, Some start_time with
                       | first :: _, Some t =>
                           if instant t <? instant (utc_datetime (r_start first))
                           then set_add (fst g) need else need
                       | _, _ => need
                       end) gs acc)).
  { induction gs as [|[k' g'] gs IHg]; simpl; intros acc Hacc; [assumption|].
    apply IHg. destruct g' as [|f' r']; [assumption|].
    destruct (_ <? _); [|assumption]. apply set_add_In. auto. }
  generalize (@nil Z) as acc.
  induction groups as [|[k' g'] groups IH]; intros acc; [contradiction|].
  simpl. destruct Hin as [[= -> ->]|Hin].
  - apply Hmono. rewrite instant_utc_datetime.
    destruct (Z.ltb_spec (instant start_time) (r_start first)); [|lia_closed].
    apply set_add_In. auto.
  - apply IH. assumption.
Qed.
Lemma fold_left_Zmax_spec (xs : list Z) (x : Z) :
  In (fold_left Z.max xs x) (x :: xs) /\
  forall y, In y (x :: xs) -> y <= fold_left Z.max xs x.
Proof.
  revert x. induction xs as [|a xs IH]; intros x; simpl.
  - split; [now left|]. intros y [<-|[]]. lia_closed.
  - destruct (IH (Z.max x a)) as [Hin Hle]. split.
    + destruct Hin as [Hin|Hin]; [|auto].
      rewrite <- Hin. destruct (Z.max_spec x a) as [[_ ->]|[_ ->]]; auto.
    + intros y [<-|[<-|Hy]].
      * specialize (Hle (Z.max x a) (or_introl eq_refl)). lia_closed.
      * specialize (Hle (Z.max x a) (or_introl eq_refl)). lia_closed.
      * apply Hle. now right.
Qed.

Lemma max_id_spec (rows : list StatRow) (i : Z) :
  In i (max_id rows) ->
  (exists r, In r rows /\ r_id r = i) /\
  forall r, In r rows -> r_id r <= i.
Proof.
  destruct rows as [|a rows]; simpl; [contradiction|].
  intros [<-|[]].
  destruct (fold_left_Zmax_spec (map r_id rows) (r_id a)) as [Hin Hle].
  split.
  - change (r_id a :: map r_id rows) with (map r_id (a :: rows)) in Hin.
    apply in_map_iff in Hin. destruct Hin as [r [E Hr]]. eauto.
  - intros r Hr. apply Hle.
    change (r_id a :: map r_id rows) with (map r_id (a :: rows)).
    now apply in_map.
Qed.

Lemma max_id_nonempty (rows : list StatRow) :
  rows <> [] -> exists i, max_id rows = [i].
Proof. destruct rows; [contradiction|]. simpl. eauto. Qed.

Lemma NoDup_map_inj {A B : Type} (f : A -> B) (l : list A) (a b : A) :
  NoDup (map f l) -> In a l -> In b l -> f a = f b -> a = b.
Proof.
  induction l as [|x l IH]; simpl; intros Hnd Ha Hb E; [contradiction|].
  inversion Hnd as [|? ? Hnin Hnd']; subst.
  destruct Ha as [->|Ha]; destruct Hb as [->|Hb]; auto.
  - exfalso. apply Hnin. rewrite E. now apply in_map.
  - exfalso. apply Hnin. rewrite <- E. now apply in_map.
Qed.

(** With surrogate ids that are unique, [_statistics_at_time] returns for a
    series it is asked about the row with the greatest id among the rows of
    the series before [start_time], and no other row of the series. *)
Lemma statistics_at_time_prior (need : list Z) (t : table)
    (start_time : datetime) (d : Db) (m : Z) (prior : StatRow) :
  NoDup (map r_id (rows_of t d)) ->
  In m need ->
  In prior (rows_of t d) ->
  r_metadata_id prior = m ->
  r_start prior < instant start_time ->
  (forall r, In r (rows_of t d) -> r_metadata_id r = m ->
             r_start r < instant start_time -> r_id r <= r_id prior) ->
  In prior (_statistics_at_time need t start_time d) /\
  forall r, In r (_statistics_at_time need t start_time d) ->
            r_metadata_id r = m -> r = prior.
Proof.
  clear_parameters.
  intros Hpk Hneed Hin Hm Hlt Hmax. unfold _statistics_at_time.
  set (rows := rows_of t d) in *.
  set (before := filter (fun r => (r_start r <? instant start_time)
                                  && mem_Z (r_metadata_id r) need) rows).
  assert (Hbefore : forall r, In r before <->
            In r rows /\ r_start r < instant start_time /\
            In (r_metadata_id r) need).
  { intros r. unfold before. rewrite filter_In, andb_true_iff, Z.ltb_lt,
      mem_Z_In. tauto. }
  assert (Hseries : forall k r, In r (filter (of_series k) before) <->
            In r before /\ r_metadata_id r = k).
  { intros k r. rewrite filter_In. unfold of_series. now rewrite Z.eqb_eq. }
  assert (Hprior : In prior (filter (of_series m) before)).
  { apply Hseries. split; [|assumption]. apply Hbefore. subst m. auto. }
  assert (Hids : forall i,
            In i (flat_map (fun k => max_id (filter (of_series k) before))
                    (distinct_sorted (map r_metadata_id before))) ->
            exists r, In r before /\ r_id r = i /\
              forall r', In r' before ->
                         r_metadata_id r' = r_metadata_id r -> r_id r' <= i).
  { intros i Hi. apply in_flat_map in Hi. destruct Hi as [k [_ Hi]].
    apply max_id_spec in Hi. destruct Hi as [[r [Hr E]] Hle].
    apply Hseries in Hr. destruct Hr as [Hr Hk].
    exists r. repeat split; auto. intros r' Hr' Ek. apply Hle.
    apply Hseries. split; [assumption|congruence]. }
  split.
  - apply filter_In. split; [assumption|]. apply mem_Z_In.
    apply in_flat_map. exists m. split.
    + apply distinct_sorted_In. apply in_map_iff. exists prior.
      split; [assumption|]. now apply Hseries in Hprior.
    + destruct (max_id_nonempty (filter (of_series m) before)) as [i Hi].
      { intros E. rewrite E in Hprior. contradiction. }
      rewrite Hi. left.
      assert (Hi' : In i (max_id (filter (of_series m) before)))
        by (rewrite Hi; now left).
      apply max_id_spec in Hi'. destruct Hi' as [[r [Hr E]] Hle].
      specialize (Hle _ Hprior).
      apply Hseries in Hr. destruct Hr as [Hr Hk].
      apply Hbefore in Hr. destruct Hr as [Hr [Hr1 _]].
      specialize (Hmax r Hr Hk Hr1). lia_closed.
  - intros r Hr Hk. apply filter_In in Hr. destruct Hr as [Hr Hi].
    apply mem_Z_In in Hi. destruct (Hids _ Hi) as [r0 [Hr0 [E Hle]]].
    assert (r = r0).
    { apply (NoDup_map_inj r_id rows); auto. now apply Hbefore in Hr0. }
    subst r0.
    apply (NoDup_map_inj r_id rows); auto.
    assert (Hp : In prior before) by now apply Hseries in Hprior.
    specialize (Hle prior Hp (eq_trans Hm (eq_sym Hk))).
    apply Hbefore in Hr0. destruct Hr0 as [_ [Hr1 _]].
    specialize (Hmax r Hr Hk Hr1). lia_closed.
Qed.

Lemma stats_at_start_time_keeps (l : list StatRow) (acc : list (Z * StatRow))
    (m : Z) (prior : StatRow) :
  (forall r, In r l -> r_metadata_id r = m -> r = prior) ->
  dict_get Z.eqb acc m = Some prior ->
  dict_get Z.eqb
    (fold_left (fun acc stat => dict_set Z.eqb acc (r_metadata_id stat) stat)
               l acc) m = Some prior.
Proof.
  revert acc. induction l as [|a l IH]; simpl; intros acc Hl Hacc; [assumption|].
  apply IH; [intros r Hr; apply Hl; now right|].
  destruct (Z.eq_dec (r_metadata_id a) m) as [E|E].
  - pose proof (Hl a (or_introl eq_refl) E) as Ha. subst a. rewrite E.
    apply (dict_get_set_same Z.eqb Z_eqb_eq).
  - rewrite (dict_get_set_other Z.eqb Z_eqb_eq) by assumption. assumption.
Qed.

Lemma stats_at_start_time_get (l : list StatRow) (acc : list (Z * StatRow))
    (m : Z) (prior : StatRow) :
  In prior l -> r_metadata_id prior = m ->
  (forall r, In r l -> r_metadata_id r = m -> r = prior) ->
  dict_get Z.eqb
    (fold_left (fun acc stat => dict_set Z.eqb acc (r_metadata_id stat) stat)
               l acc) m = Some prior.
Proof.
  revert acc. induction l as [|a l IH]; simpl; intros acc Hin Hm Hl;
    [contradiction|].
  destruct (Z.eq_dec (r_metadata_id a) m) as [E|E].
  - pose proof (Hl a (or_introl eq_refl) E) as ->.
    apply stats_at_start_time_keeps; [intros r Hr; apply Hl; now right|].
    rewrite Hm. apply (dict_get_set_same Z.eqb Z_eqb_eq).
  - destruct Hin as [->|Hin]; [contradiction|].
    apply IH; auto.
Qed.
Section Assembly.
Variables (units : UnitSystem) (metadata : list (Z * StatisticMetaData)).
Variables (convert_units : bool) (t : table) (start_time_as_datetime : bool).
Variable stats_at_start_time : list (Z * StatRow).
Variables (m : Z) (meta : StatisticMetaData) (prior : StatRow).

(** The entry the assembler makes of a row of the series [m]. *)
Definition entry_of (r : StatRow) : entry :=
  to_entry units (m_statistic_id meta)
    (if convert_units
     then statistic_unit_to_display_unit (m_unit_of_measurement meta)
     else fun val _ => val)
    t start_time_as_datetime r.

Hypothesis metadata_m : dict_get Z.eqb metadata m = Some meta.
Hypothesis at_start_m : dict_get Z.eqb stats_at_start_time m = Some prior.

(** What holds of the [result] dictionary between two rounds. *)
Definition result_inv (result : list (key * list entry)) : Prop :=
  (forall k v, In (KStr k, v) result -> v = []) /\
  (forall i v, In (KInt i, v) result ->
               v <> [] /\ exists meta', dict_get Z.eqb metadata i = Some meta') /\
  (dict_get key_eqb result (KInt m) = None \/
   exists rest, dict_get key_eqb result (KInt m) = Some (entry_of prior :: rest)) /\
  NoDup (map fst result).

Lemma append_groups_spec (groups : list (Z * list StatRow))
    (result : list (key * list entry)) :
  (forall k g, In (k, g) groups ->
               g <> [] /\ exists meta', dict_get Z.eqb metadata k = Some meta') ->
  result_inv result ->
  exists result',
    append_groups units metadata convert_units t start_time_as_datetime
                  stats_at_start_time groups result = Some result' /\
    result_inv result' /\
    (In m (map fst groups) \/
     (exists rest, dict_get key_eqb result (KInt m) = Some (entry_of prior :: rest)) ->
     exists rest, dict_get key_eqb result' (KInt m) = Some (entry_of prior :: rest)).
Proof using Type metadata_m at_start_m.
  unfold append_groups.
  revert result. induction groups as [|[k g] groups IH]; intros result Hg Hinv.
  - exists result. simpl. split; [reflexivity|]. split; [assumption|].
    intros [[]|H]; assumption.
  - cbn [fold_left fst snd].
    destruct (Hg k g (or_introl eq_refl)) as [Hne [meta_k Hk]].
    rewrite Hk.
    set (new := _ ++ map _ (_ ++ g)).
    assert (Hnew : new <> []).
    { unfold new. destruct g as [|r g]; [contradiction|].
      intros E. apply app_eq_nil in E. destruct E as [_ E].
      rewrite map_app in E. apply app_eq_nil in E. destruct E as [_ E].
      discriminate. }
    destruct Hinv as [Ha [Hb [Hc Hd]]].
    assert (Hm : k = m ->
              exists rest, new = entry_of prior :: rest).
    { intros ->. unfold new. rewrite at_start_m.
      rewrite metadata_m in Hk. injection Hk as <-.
      destruct Hc as [Hc|[rest Hc]]; rewrite Hc.
      - eexists. reflexivity.
      - eexists. reflexivity. }
    assert (Hinv' : result_inv (dict_set key_eqb result (KInt k) new)).
    { split; [|split; [|split]].
      - intros x v Hin. apply (dict_set_In key_eqb key_eqb_eq) in Hin.
        destruct Hin as [[=]|Hin]. eauto.
      - intros i v Hin. apply (dict_set_In key_eqb key_eqb_eq) in Hin.
        destruct Hin as [[= -> ->]|Hin]; eauto.
      - destruct (Z.eq_dec k m) as [E|E].
        + right. destruct (Hm E) as [rest ->]. subst k. exists rest.
          apply (dict_get_set_same key_eqb key_eqb_eq).
        + rewrite (dict_get_set_other key_eqb key_eqb_eq) by congruence.
          assumption.
      - now apply (dict_set_NoDup key_eqb key_eqb_eq). }
    destruct (IH (dict_set key_eqb result (KInt k) new)) as [R [HR [HinvR Hget]]];
      [intros k' g' H'; apply Hg; now right|assumption|].
    exists R. split; [assumption|]. split; [assumption|].
    intros H. apply Hget.
    destruct (Z.eq_dec k m) as [E|E].
    + right. destruct (Hm E) as [rest ->]. subst k. exists rest.
      apply (dict_get_set_same key_eqb key_eqb_eq).
    + destruct H as [[H|H]|H]; [contradiction|now left|].
      right. rewrite (dict_get_set_other key_eqb key_eqb_eq) by congruence.
      assumption.
Qed.

Definition values_nonempty (out : response) : Prop :=
  forall k v, In (k, v) out -> v <> [].

Hypothesis statistic_id_m :
  forall i meta', dict_get Z.eqb metadata i = Some meta' ->
                  m_statistic_id meta' = m_statistic_id meta -> i = m.

Definition finish_from (result : list (key * list entry)) (out : response)
  : option response :=
  fold_left
    (fun acc kv =>
       match acc, snd kv with
       | None, _ => None
       | Some out, [] => Some out
       | Some out, val =>
           match fst kv with
           | KInt i =>
               match dict_get Z.eqb metadata i with
               | Some meta =>
                   Some (dict_set String.eqb out (m_statistic_id meta) val)
               | None => None
               end
           | KStr _ => None
           end
       end)
    result (Some out).

Definition entries_ok (result : list (key * list entry)) : Prop :=
  (forall k v, In (KStr k, v) result -> v = []) /\
  (forall i v, In (KInt i, v) result ->
               v <> [] /\ exists meta', dict_get Z.eqb metadata i = Some meta').

Lemma entries_ok_tail kv result :
  entries_ok (kv :: result) -> entries_ok result.
Proof.
  intros [Ha Hb]. split; intros x v H; [apply (Ha x)|apply (Hb x)]; now right.
Qed.

(** One round of the closing comprehension. *)
Lemma finish_step (kv : key * list entry) (result : list (key * list entry))
    (out : response) :
  entries_ok (kv :: result) -> values_nonempty out ->
  exists out',
    finish_from (kv :: result) out = finish_from result out' /\
    values_nonempty out' /\
    (fst kv <> KInt m ->
     dict_get String.eqb out' (m_statistic_id meta) =
       dict_get String.eqb out (m_statistic_id meta)) /\
    (fst kv = KInt m ->
     dict_get String.eqb out' (m_statistic_id meta) = Some (snd kv)).
Proof using Type metadata_m statistic_id_m.
  intros [Ha Hb] Hout. destruct kv as [[x|i] v]; unfold finish_from; cbn.
  - rewrite (Ha x v (or_introl eq_refl)). exists out.
    split; [reflexivity|]. split; [assumption|]. split; [reflexivity|].
    discriminate.
  - destruct (Hb i v (or_introl eq_refl)) as [Hv [meta_i Hi]].
    rewrite Hi. destruct v as [|e v]; [contradiction|].
    exists (dict_set String.eqb out (m_statistic_id meta_i) (e :: v)).
    split; [reflexivity|]. split; [|split].
    + intros k' v' Hin. apply (dict_set_In String.eqb String_eqb_eq) in Hin.
      destruct Hin as [[= -> ->]|Hin]; [discriminate|eauto].
    + intros Hne.
      apply (dict_get_set_other String.eqb String_eqb_eq).
      intros E. apply Hne. f_equal. apply (statistic_id_m i meta_i); auto.
    + intros [= ->]. rewrite metadata_m in Hi. injection Hi as <-.
      apply (dict_get_set_same String.eqb String_eqb_eq).
Qed.

Lemma finish_keeps (result : list (key * list entry)) (out : response) :
  entries_ok result -> values_nonempty out ->
  (forall v, ~ In (KInt m, v) result) ->
  exists out',
    finish_from result out = Some out' /\ values_nonempty out' /\
    dict_get String.eqb out' (m_statistic_id meta) =
      dict_get String.eqb out (m_statistic_id meta).
Proof using Type metadata_m statistic_id_m.
  revert out. induction result as [|kv result IH]; intros out Hok Hout Hno.
  - exists out. auto.
  - destruct (finish_step kv result out Hok Hout) as [o1 [E [Hv [Hk _]]]].
    destruct (IH o1 (entries_ok_tail _ _ Hok) Hv) as [o2 [E2 [Hv2 Hg]]].
    { intros v H. apply (Hno v). now right. }
    exists o2. rewrite E, E2. split; [reflexivity|]. split; [assumption|].
    rewrite Hg. apply Hk. intros Hkey. destruct kv as [k v]. simpl in Hkey.
    subst k. apply (Hno v). now left.
Qed.

Lemma finish_gets (result : list (key * list entry)) (out : response)
    (vm : list entry) :
  entries_ok result -> values_nonempty out ->
  NoDup (map fst result) -> In (KInt m, vm) result ->
  exists out',
    finish_from result out = Some out' /\ values_nonempty out' /\
    dict_get String.eqb out' (m_statistic_id meta) = Some vm.
Proof using Type metadata_m statistic_id_m.
  revert out. induction result as [|kv result IH]; intros out Hok Hout Hnd Hin;
    [contradiction|].
  inversion Hnd as [|? ? Hnin Hnd']; subst.
  destruct (finish_step kv result out Hok Hout) as [o1 [E [Hv [Hk Hkm]]]].
  destruct Hin as [->|Hin].
  - destruct (finish_keeps result o1 (entries_ok_tail _ _ Hok) Hv)
      as [o2 [E2 [Hv2 Hg]]].
    { intros v H. apply Hnin. simpl.
      change (KInt m) with (fst (KInt m, v)). now apply in_map. }
    exists o2. rewrite E, E2. split; [reflexivity|]. split; [assumption|].
    rewrite Hg. now apply Hkm.
  - destruct (IH o1 (entries_ok_tail _ _ Hok) Hv Hnd' Hin) as [o2 [E2 [Hv2 Hg]]].
    exists o2. rewrite E, E2. auto.
Qed.

End Assembly.
Lemma insert_sorted_In {A : Type} (le : A -> A -> bool) (x : A) (l : list A)
    (y : A) :
  In y (insert_sorted le x l) <-> y = x \/ In y l.
Proof.
  induction l as [|a l IH]; simpl.
  - intuition.
  - destruct (le x a); simpl; [intuition|]. rewrite IH. intuition.
Qed.

Lemma sort_by_In {A : Type} (le : A -> A -> bool) (l : list A) (y : A) :
  In y (sort_by le l) <-> In y l.
Proof.
  induction l as [|a l IH]; simpl; [tauto|].
  rewrite insert_sorted_In, IH. intuition.
Qed.

Lemma initial_result_inv (ids : list string) (acc : list (key * list entry)) :
  (forall k v, In (k, v) acc -> v = [] /\ exists x, k = KStr x) ->
  NoDup (map fst acc) ->
  (forall k v,
      In (k, v) (fold_left (fun acc stat_id =>
                              dict_set key_eqb acc (KStr stat_id) []) ids acc) ->
      v = [] /\ exists x, k = KStr x) /\
  NoDup (map fst (fold_left (fun acc stat_id =>
                               dict_set key_eqb acc (KStr stat_id) []) ids acc)).
Proof.
  revert acc. induction ids as [|i ids IH]; simpl; intros acc Hacc Hnd; [auto|].
  apply IH.
  - intros k v Hin. apply (dict_set_In key_eqb key_eqb_eq) in Hin.
    destruct Hin as [[= -> ->]|Hin]; eauto.
  - now apply (dict_set_NoDup key_eqb key_eqb_eq).
Qed.

(** The assembler on rows of which those of series [m] all start after the
    start time: the series' list in the response begins with the entry of
    the row before the start time that has the greatest id. *)
Lemma sorted_statistics_to_dict_prior (units : UnitSystem) (d : Db)
    (stats : list StatRow) (statistic_ids : option (list string))
    (_metadata : metadata_dict) (convert_units : bool) (t : table)
    (start_time : datetime) (start_time_as_datetime : bool)
    (m : Z) (meta : StatisticMetaData) (prior : StatRow) :
  let metadata := dict_of Z.eqb (map snd _metadata) in
  dict_get Z.eqb metadata m = Some meta ->
  (forall i meta', dict_get Z.eqb metadata i = Some meta' ->
                   m_statistic_id meta' = m_statistic_id meta -> i = m) ->
  (forall r, In r stats ->
             exists meta', dict_get Z.eqb metadata (r_metadata_id r) = Some meta') ->
  (exists r, In r stats /\ r_metadata_id r = m) ->
  (forall r, In r stats -> r_metadata_id r = m ->
             instant start_time < r_start r) ->
  NoDup (map r_id (rows_of t d)) ->
  In prior (rows_of t d) ->
  r_metadata_id prior = m ->
  r_start prior < instant start_time ->
  (forall r, In r (rows_of t d) -> r_metadata_id r = m ->
             r_start r < instant start_time -> r_id r <= r_id prior) ->
  exists assembled rest,
    _sorted_statistics_to_dict units d stats statistic_ids _metadata
      convert_units t (Some start_time) start_time_as_datetime = Some assembled /\
    dict_get String.eqb assembled (m_statistic_id meta) =
      Some (entry_of units convert_units t start_time_as_datetime meta prior
            :: rest) /\
    values_nonempty assembled.
Proof.
  intros metadata Hm Hinj Hall [r0 [Hr0 Hr0m]] Hafter Hpk Hin Hpm Hlt Hmax.
  unfold _sorted_statistics_to_dict. fold metadata.
  set (result := match statistic_ids with Some ids => _ | None => [] end).
  set (groups := groupby stats).
  assert (Hneed : In m (need_stat_at_start_time (Some start_time) groups)).
  { destruct (groupby_covers stats r0 Hr0) as [g [Hg Hrg]].
    destruct (groupby_groups stats _ g Hg) as [Hne Hgr].
    destruct g as [|first rest]; [contradiction|].
    rewrite Hr0m in Hg.
    apply (need_stat_at_start_time_In start_time groups m first rest Hg).
    destruct (Hgr first (or_introl eq_refl)) as [Hf1 Hf2].
    apply Hafter; congruence. }
  destruct (need_stat_at_start_time (Some start_time) groups) as [|n need] eqn:En;
    [contradiction|].
  set (at_start := fold_left _ (_statistics_at_time (n :: need) t start_time d) []).
  assert (Hat : dict_get Z.eqb at_start m = Some prior).
  { destruct (statistics_at_time_prior (n :: need) t start_time d m prior
                Hpk Hneed Hin Hpm Hlt Hmax) as [H1 H2].
    now apply stats_at_start_time_get. }
  assert (Hres : result_inv units metadata convert_units t
                   start_time_as_datetime m meta prior result).
  { assert (Hinit : (forall k v, In (k, v) result -> v = [] /\ exists x, k = KStr x)
                    /\ NoDup (map fst result)).
    { unfold result. destruct statistic_ids as [ids|].
      - apply initial_result_inv; [intros k v []|constructor].
      - split; [intros k v []|constructor]. }
    destruct Hinit as [Hi1 Hi2]. split; [|split; [|split]].
    - intros k v H. now destruct (Hi1 _ _ H).
    - intros i v H. destruct (Hi1 _ _ H) as [_ [x [=]]].
    - left. apply (dict_get_None key_eqb key_eqb_eq).
      intros H. apply in_map_iff in H. destruct H as [[k v] [E H]].
      simpl in E. subst k. destruct (Hi1 _ _ H) as [_ [x [=]]].
    - assumption. }
  destruct (append_groups_spec units metadata convert_units t
              start_time_as_datetime at_start m meta prior Hm Hat groups result)
    as [R [HR [[Ra [Rb [_ Rd]]] Hget]]].
  { intros k g Hg. destruct (groupby_groups stats k g Hg) as [Hne Hgr].
    split; [assumption|]. destruct g as [|r g]; [contradiction|].
    destruct (Hgr r (or_introl eq_refl)) as [Hr <-]. now apply Hall. }
  { exact Hres. }
  rewrite HR.
  destruct Hget as [rest Hrest].
  { left. destruct (groupby_covers stats r0 Hr0) as [g [Hg _]].
    rewrite Hr0m in Hg. change m with (fst (m, g)). now apply in_map. }
  apply (dict_get_In key_eqb key_eqb_eq) in Hrest.
  destruct (finish_gets metadata m meta Hm Hinj R []
              (entry_of units convert_units t start_time_as_datetime meta prior
               :: rest))
    as [out [Hout [Hv Hg]]]; auto.
  - split; assumption.
  - intros k v [].
  - exists out, rest. auto.
Qed.
Lemma metadata_by_id (statistic_ids : option (list string)) (d : Db)
    (sid : string) (m : Z) (meta : StatisticMetaData) :
  NoDup (map mr_id (statistics_meta d)) ->
  dict_get String.eqb (get_metadata_with_session statistic_ids None None d) sid
    = Some (m, meta) ->
  let metadata :=
    dict_of Z.eqb
      (map snd (get_metadata_with_session statistic_ids None None d)) in
  m_statistic_id meta = sid /\
  dict_get Z.eqb metadata m = Some meta /\
  (forall i meta', dict_get Z.eqb metadata i = Some meta' ->
                   m_statistic_id meta' = m_statistic_id meta -> i = m).
Proof.
  intros Hpk Hget metadata.
  set (md := get_metadata_with_session statistic_ids None None d) in *.
  assert (Hin : In (sid, (m, meta)) md)
    by now apply (dict_get_In String.eqb String_eqb_eq).
  destruct (get_metadata_In statistic_ids None None d _ _ _ Hin) as [Hsid Hrow].
  assert (Hsnd : forall i x, In (i, x) metadata ->
            exists sid', In (sid', (i, x)) md).
  { intros i x H. apply (dict_of_In Z.eqb Z_eqb_eq) in H.
    apply in_map_iff in H. destruct H as [[sid' p] [E H]]. simpl in E. subst p.
    eauto. }
  split; [assumption|]. split.
  - destruct (dict_get Z.eqb metadata m) as [x|] eqn:E.
    + apply (dict_get_In Z.eqb Z_eqb_eq) in E.
      destruct (Hsnd _ _ E) as [sid' H'].
      destruct (get_metadata_In statistic_ids None None d _ _ _ H') as [_ Hrow'].
      pose proof (NoDup_map_inj mr_id _ _ _ Hpk Hrow Hrow' eq_refl) as Erow.
      now injection Erow as ->.
    + exfalso. apply (dict_get_None Z.eqb Z_eqb_eq) in E. apply E.
      apply (dict_of_keys Z.eqb Z_eqb_eq). rewrite map_map.
      apply in_map_iff. exists (sid, (m, meta)). auto.
  - intros i meta' Hi Hs.
    apply (dict_get_In Z.eqb Z_eqb_eq) in Hi.
    destruct (Hsnd _ _ Hi) as [sid' H'].
    destruct (get_metadata_In statistic_ids None None d _ _ _ H') as [Hsid' _].
    assert (Esid : sid' = sid) by congruence. rewrite Esid in H'.
    pose proof (dict_get_Some_of_In String.eqb String_eqb_eq md sid (i, meta')
                  (dict_of_NoDup String.eqb String_eqb_eq _) H') as Hg.
    rewrite Hget in Hg. now injection Hg.
Qed.

Lemma statistics_during_period_nonempty (units : UnitSystem) (d : Db)
    (start_time : datetime) (end_time : option datetime)
    (statistic_ids : option (list string)) (p : period)
    (start_time_as_datetime : bool) :
  let t := match p with
           | Period5Minute => StatisticsShortTerm
           | _ => Statistics
           end in
  let metadata := get_metadata_with_session statistic_ids None None d in
  let stats := _statistics_during_period_stmt start_time end_time statistic_ids
                 (map (fun kv => fst (snd kv)) metadata) t d in
  metadata <> [] -> stats <> [] ->
  statistics_during_period units d start_time end_time statistic_ids p
                           start_time_as_datetime =
    match p with
    | PeriodDay =>
        match _sorted_statistics_to_dict units d stats statistic_ids metadata
                true t (Some start_time) true with
        | Some result => _reduce_statistics_per_day result
        | None => None
        end
    | PeriodMonth =>
        match _sorted_statistics_to_dict units d stats statistic_ids metadata
                true t (Some start_time) true with
        | Some result => _reduce_statistics_per_month result
        | None => None
        end
    | _ => _sorted_statistics_to_dict units d stats statistic_ids metadata
             true t (Some start_time) start_time_as_datetime
    end.
Proof.
  intros t metadata stats Hm Hs. unfold statistics_during_period.
  fold metadata. destruct metadata as [|kv md]; [contradiction|].
  fold t. fold stats. destruct stats as [|s0 stats']; [contradiction|].
  reflexivity.
Qed.

(** C3, for the periods of five minutes and of an hour.  A range query
    from [start_time] over the table of the period, for a series [m] known
    under [statistic_id]: if rows of the series are selected and all of them
    start after [start_time], while the series has rows before it of which
    [prior] has the greatest id, then the list of the series in the response
    begins with the entry made of [prior], stamped with the start of
    [prior], and no list of the response is empty.  Surrogate ids are taken
    to be unique, and when no series is named every row to belong to a
    series with metadata. *)
Theorem range_query_starts_with_prior_row :
  forall (units : UnitSystem) (d : Db) (start_time : datetime)
         (end_time : option datetime) (statistic_ids : option (list string))
         (p : period) (start_time_as_datetime : bool)
         (statistic_id : string) (m : Z) (meta : StatisticMetaData)
         (prior : StatRow),
    let t := match p with
             | Period5Minute => StatisticsShortTerm
             | _ => Statistics
             end in
    let metadata := get_metadata_with_session statistic_ids None None d in
    let selected := fun r =>
      In r (rows_of t d) /\ r_metadata_id r = m /\
      instant start_time <= r_start r /\
      match end_time with
      | Some e => r_start r < instant e
      | None => True
      end in
    p = Period5Minute \/ p = PeriodHour ->
    NoDup (map r_id (rows_of t d)) ->
    NoDup (map mr_id (statistics_meta d)) ->
    (statistic_ids = None ->
     forall r, In r (rows_of t d) ->
               In (r_metadata_id r) (map (fun kv => fst (snd kv)) metadata)) ->
    dict_get String.eqb metadata statistic_id = Some (m, meta) ->
    (exists r, selected r) ->
    (forall r, selected r -> instant start_time < r_start r) ->
    In prior (rows_of t d) ->
    r_metadata_id prior = m ->
    r_start prior < instant start_time ->
    (forall r, In r (rows_of t d) -> r_metadata_id r = m ->
               r_start r < instant start_time -> r_id r <= r_id prior) ->
    exists answer first rest,
      statistics_during_period units d start_time end_time statistic_ids p
                               start_time_as_datetime = Some answer /\
      dict_get String.eqb answer statistic_id = Some (first :: rest) /\
      first = to_entry units statistic_id
                (statistic_unit_to_display_unit (m_unit_of_measurement meta))
                t start_time_as_datetime prior /\
      e_start first =
        (if start_time_as_datetime then inl (utc_datetime (r_start prior))
         else inr (isoformat (utc_datetime (r_start prior)))) /\
      (forall k v, In (k, v) answer -> v <> []).
Proof.
  clear_parameters.
  intros units d start_time end_time statistic_ids p start_time_as_datetime
    statistic_id m meta prior t metadata selected
    Hp Hpk Hmpk Hfk Hget [r0 Hr0] Hafter Hin Hpm Hlt Hmax.
  set (as_datetime := start_time_as_datetime).
  destruct (metadata_by_id statistic_ids d statistic_id m meta Hmpk Hget)
    as [Hsid [Hm Hinj]].
  set (stats := _statistics_during_period_stmt start_time end_time statistic_ids
                  (map (fun kv => fst (snd kv)) metadata) t d).
  assert (Hstats : forall r, In r stats <->
            In r (rows_of t d) /\ instant start_time <= r_start r /\
            match end_time with
            | Some e => r_start r < instant e
            | None => True
            end /\
            match statistic_ids with
            | Some _ => In (r_metadata_id r) (map (fun kv => fst (snd kv)) metadata)
            | None => True
            end).
  { intros r. unfold stats, _statistics_during_period_stmt.
    rewrite sort_by_In, filter_In, !andb_true_iff, Z.leb_le.
    destruct end_time as [e|]; destruct statistic_ids as [ids|];
      rewrite ?Z.ltb_lt, ?mem_Z_In; intuition. }
  assert (Hmid : In m (map (fun kv => fst (snd kv)) metadata)).
  { apply in_map_iff. exists (statistic_id, (m, meta)). split; [reflexivity|].
    now apply (dict_get_In String.eqb String_eqb_eq). }
  assert (Hkey : forall r, In r stats ->
            In (r_metadata_id r) (map (fun kv => fst (snd kv)) metadata)).
  { intros r Hr. apply Hstats in Hr. destruct statistic_ids as [ids|].
    - tauto.
    - apply Hfk; tauto. }
  destruct (sorted_statistics_to_dict_prior units d stats statistic_ids metadata
              true t start_time as_datetime m meta prior)
    as [assembled [rest [Hasm [Hfirst Hne]]]]; auto.
  { intros r Hr. apply Hkey in Hr.
    destruct (dict_get Z.eqb (dict_of Z.eqb (map snd metadata)) (r_metadata_id r))
      as [x|] eqn:E; [eauto|].
    exfalso. apply (dict_get_None Z.eqb Z_eqb_eq) in E. apply E.
    apply (dict_of_keys Z.eqb Z_eqb_eq). now rewrite map_map. }
  { exists r0. destruct Hr0 as [H1 [H2 [H3 H4]]]. split; [|assumption].
    apply Hstats. repeat split; auto. destruct statistic_ids; [|exact I].
    now rewrite H2. }
  { intros r Hr Hrm. apply Hafter. apply Hstats in Hr. unfold selected. tauto. }
  exists assembled, (entry_of units true t as_datetime meta prior), rest.
  split; [|split; [|split; [|split]]].
  - rewrite statistics_during_period_nonempty.
    + fold t. fold metadata. fold stats.
      unfold as_datetime in Hasm.
      destruct Hp as [-> | ->]; exact Hasm.
    + fold metadata. intros E. rewrite E in Hmid. contradiction.
    + fold t. fold metadata. fold stats. intros E.
      destruct Hr0 as [H1 [H2 [H3 H4]]].
      assert (Hr : In r0 stats).
      { apply Hstats. repeat split; auto.
        destruct statistic_ids; [|exact I]. now rewrite H2. }
      rewrite E in Hr. contradiction.
  - now rewrite <- Hsid.
  - unfold entry_of. now rewrite Hsid.
  - unfold entry_of, to_entry. cbn [e_start]. reflexivity.
  - exact Hne.
Qed.
(** ** C8: the duplicate resolver *)

Definition precedes (a b : StatRow) : Prop := duplicates_order a b = true.

Lemma same_bucket_spec (a b : StatRow) :
  same_bucket a b = true <->
  r_metadata_id a = r_metadata_id b /\ r_start a = r_start b.
Proof. unfold same_bucket. rewrite andb_true_iff, !Z.eqb_eq. tauto. Qed.

Lemma precedes_spec (a b : StatRow) :
  precedes a b <->
  r_metadata_id a < r_metadata_id b \/
  (r_metadata_id a = r_metadata_id b /\
   (r_start a < r_start b \/ (r_start a = r_start b /\ r_id b <= r_id a))).
Proof.
  clear_parameters. unfold precedes, duplicates_order.
  destruct (Z.ltb_spec (r_metadata_id a) (r_metadata_id b));
    destruct (Z.ltb_spec (r_metadata_id b) (r_metadata_id a));
    destruct (Z.ltb_spec (r_start a) (r_start b));
    destruct (Z.ltb_spec (r_start b) (r_start a));
    rewrite ?Z.leb_le; split; intros; try discriminate; try lia; auto.
Qed.

Lemma precedes_total (a b : StatRow) :
  duplicates_order a b = false -> precedes b a.
Proof.
  clear_parameters. intros H. apply precedes_spec.
  assert (~ precedes a b) by (unfold precedes; congruence).
  rewrite precedes_spec in H0. lia.
Qed.

Lemma precedes_trans (a b c : StatRow) :
  precedes a b -> precedes b c -> precedes a c.
Proof. clear_parameters. rewrite !precedes_spec. lia. Qed.

Lemma insert_sorted_sorted (x : StatRow) (l : list StatRow) :
  StronglySorted precedes l ->
  StronglySorted precedes (insert_sorted duplicates_order x l).
Proof.
  induction 1 as [|a l Hs IH Hall]; simpl.
  - constructor; constructor.
  - destruct (duplicates_order x a) eqn:E.
    + constructor; [constructor; assumption|].
      constructor; [exact E|].
      eapply Forall_impl; [|exact Hall]. intros b. now apply precedes_trans.
    + constructor; [assumption|].
      apply Forall_forall. intros y Hy. apply insert_sorted_In in Hy.
      destruct Hy as [->|Hy]; [now apply precedes_total|].
      rewrite Forall_forall in Hall. auto.
Qed.

Lemma sort_by_sorted (l : list StatRow) :
  StronglySorted precedes (sort_by duplicates_order l).
Proof.
  induction l as [|a l IH]; simpl; [constructor|].
  now apply insert_sorted_sorted.
Qed.

Lemma StronglySorted_app_inv {A : Type} (R : A -> A -> Prop) (l1 l2 : list A) :
  StronglySorted R (l1 ++ l2) ->
  StronglySorted R l1 /\ StronglySorted R l2 /\
  forall a b, In a l1 -> In b l2 -> R a b.
Proof.
  induction l1 as [|x l1 IH]; simpl; intros H.
  - split; [constructor|]. split; [assumption|]. intros a b [].
  - inversion H as [|? ? Hs Hall]; subst.
    destruct (IH Hs) as [H1 [H2 H3]].
    rewrite Forall_app in Hall. destruct Hall as [Ha1 Ha2].
    split; [now constructor|]. split; [assumption|].
    intros a b [<-|Ha] Hb; [|auto].
    rewrite Forall_forall in Ha2. auto.
Qed.

(** [c] has the greatest id of the rows of [l] in the bucket of [x]. *)
Definition canonical_in (l : list StatRow) (c x : StatRow) : Prop :=
  In c l /\ same_bucket c x = true /\
  forall y, In y l -> same_bucket y x = true -> r_id y <= r_id c.

Lemma same_bucket_precedes (a b : StatRow) :
  same_bucket a b = true -> precedes a b -> r_id b <= r_id a.
Proof.
  clear_parameters. rewrite same_bucket_spec, precedes_spec. lia.
Qed.

Lemma bucket_passed (o x z : StatRow) :
  same_bucket o x = false -> precedes o x -> precedes x z ->
  same_bucket o z = false.
Proof.
  clear_parameters. intros H. rewrite !precedes_spec.
  destruct (same_bucket o z) eqn:E; [|reflexivity].
  apply same_bucket_spec in E.
  assert (~ (r_metadata_id o = r_metadata_id x /\ r_start o = r_start x)).
  { rewrite <- same_bucket_spec. congruence. }
  lia.
Qed.

Lemma same_bucket_sym (a b : StatRow) : same_bucket a b = same_bucket b a.
Proof.
  unfold same_bucket.
  now rewrite (Z.eqb_sym (r_metadata_id a)), (Z.eqb_sym (r_start a)).
Qed.

Lemma same_bucket_trans (a b c : StatRow) :
  same_bucket a b = true -> same_bucket b c = true -> same_bucket a c = true.
Proof. clear_parameters. rewrite !same_bucket_spec. lia. Qed.

(** The scan of a sorted list with unique ids, [o] being the original in
    force: every row that is not the greatest of its bucket is listed for
    deletion, with a record when it differs from the greatest; and a listed
    id belongs to a row that has a row of its bucket before it. *)
Lemma scan_duplicates_sorted (l : list StatRow) (o : StatRow) :
  StronglySorted precedes (o :: l) ->
  NoDup (map r_id (o :: l)) ->
  (forall z c, In z l -> canonical_in (o :: l) c z -> c <> z ->
     In (r_id z) (fst (scan_duplicates (Some o) l)) /\
     (compare_statistic_rows c z = false ->
      In (z, c) (snd (scan_duplicates (Some o) l)))) /\
  (forall i, In i (fst (scan_duplicates (Some o) l)) ->
     exists z c, In z l /\ r_id z = i /\ In c (o :: l) /\
                 same_bucket c z = true /\ r_id z < r_id c).
Proof.
  clear_parameters.
  revert o. induction l as [|x l IH]; intros o Hs Hnd.
  - simpl. split; [intros z c []|intros i []].
  - inversion Hs as [|? ? Hs' Hall]; subst.
    inversion Hall as [|? ? Hox Hol]; subst.
    assert (Hsol : StronglySorted precedes (o :: l)).
    { inversion Hs' as [|? ? Hs'' Hall']; subst. now constructor. }
    assert (Hndol : NoDup (map r_id (o :: l))).
    { simpl in Hnd |- *. inversion Hnd as [|? ? Hn1 Hn2]; subst.
      inversion Hn2 as [|? ? Hn3 Hn4]; subst.
      constructor; [|assumption]. intros H. apply Hn1. now right. }
    assert (Hndxl : NoDup (map r_id (x :: l))).
    { simpl in Hnd |- *. now inversion Hnd. }
    assert (Hbucket : (negb (r_start o =? r_start x)
                       || negb (r_metadata_id o =? r_metadata_id x))
                      = negb (same_bucket o x)).
    { unfold same_bucket.
      destruct (r_start o =? r_start x), (r_metadata_id o =? r_metadata_id x);
        reflexivity. }
    cbn [scan_duplicates]. rewrite Hbucket.
    destruct (same_bucket o x) eqn:Eox; cbn [negb].
    + destruct (IH o Hsol Hndol) as [IH1 IH2].
      destruct (scan_duplicates (Some o) l) as [ids ni]. cbn [fst snd] in *.
      assert (Hlt : r_id x < r_id o).
      { pose proof (same_bucket_precedes o x Eox Hox).
        assert (r_id o <> r_id x).
        { simpl in Hnd. inversion Hnd as [|? ? Hn1 _]; subst.
          intros E. apply Hn1. left. now symmetry. }
        lia. }
      split.
      * intros z c Hz [Hc [Hcz Hmax]] Hne.
        destruct Hz as [<-|Hz].
        -- assert (c = o).
           { apply (NoDup_map_inj r_id (o :: x :: l)); auto; [now left|].
             pose proof (Hmax o (or_introl eq_refl) Eox).
             assert (precedes o c).
             { destruct Hc as [<-|Hc]; [apply precedes_spec; lia|].
               rewrite Forall_forall in Hall. auto. }
             assert (same_bucket o c = true).
             { rewrite (same_bucket_sym c x) in Hcz.
               now apply (same_bucket_trans o x c). }
             pose proof (same_bucket_precedes o c H1 H0). lia. }
           subst c. split; [now left|].
           intros ->. now left.
        -- assert (Hcx : c <> x).
           { intros ->.
             assert (same_bucket o z = true)
               by now apply (same_bucket_trans o x z).
             pose proof (Hmax o (or_introl eq_refl) H). lia. }
           assert (Hc' : In c (o :: l)).
           { destruct Hc as [<-|[<-|Hc]]; [now left|contradiction|now right]. }
           destruct (IH1 z c Hz) as [I1 I2]; auto.
           { split; [assumption|]. split; [assumption|].
             intros y Hy. apply Hmax. destruct Hy as [<-|Hy];
               [now left|now right; right]. }
           split; [now right|]. intros Hcmp.
           destruct (compare_statistic_rows o x); [auto|right; auto].
      * intros i [<-|Hi].
        -- exists x, o. repeat split; auto; [now left|now left].
        -- destruct (IH2 i Hi) as [z [c [Hz [Ez [Hc [Hcz Hlt']]]]]].
           exists z, c. repeat split; auto; [now right|].
           destruct Hc as [<-|Hc]; [now left|now right; right].
    + destruct (IH x Hs' Hndxl) as [IH1 IH2].
      destruct (scan_duplicates (Some x) l) as [ids ni]. cbn [fst snd] in *.
      assert (Hpast : forall z, In z (x :: l) -> same_bucket o z = false).
      { intros z [<-|Hz]; [assumption|].
        apply (bucket_passed o x z Eox Hox).
        inversion Hs' as [|? ? _ Hxl]; subst.
        rewrite Forall_forall in Hxl. auto. }
      split.
      * intros z c Hz [Hc [Hcz Hmax]] Hne.
        assert (Hc' : In c (x :: l)).
        { destruct Hc as [<-|Hc]; [|assumption].
          rewrite (Hpast z Hz) in Hcz. discriminate. }
        destruct Hz as [<-|Hz].
        -- exfalso. apply Hne.
           apply (NoDup_map_inj r_id (x :: l)); auto; [now left|].
           pose proof (Hmax x (or_intror (or_introl eq_refl))).
           assert (same_bucket x x = true)
             by (apply same_bucket_spec; auto).
           specialize (H H0).
           assert (precedes x c).
           { destruct Hc' as [<-|Hc']; [apply precedes_spec; lia|].
             inversion Hs' as [|? ? _ Hxl]; subst.
             rewrite Forall_forall in Hxl. auto. }
           rewrite same_bucket_sym in Hcz.
           pose proof (same_bucket_precedes x c Hcz H1). lia.
        -- apply IH1; auto. split; [assumption|]. split; [assumption|].
           intros y Hy. apply Hmax. now right.
      * intros i Hi. destruct (IH2 i Hi) as [z [c [Hz [Ez [Hc [Hcz Hlt']]]]]].
        exists z, c. repeat split; auto; now right.
Qed.
Lemma NoDup_map_filter {A B : Type} (key : A -> B) (keep : A -> bool)
    (rows : list A) :
  NoDup (map key rows) -> NoDup (map key (filter keep rows)).
Proof.
  intros Hrows. induction rows as [|a rows IH]; simpl; [constructor|].
  simpl in Hrows. inversion Hrows as [|? ? Hnin Hnd]; subst.
  destruct (keep a); simpl; [|auto].
  constructor; [|auto]. intros Hin. apply Hnin.
  apply in_map_iff in Hin. destruct Hin as [x [E Hx]].
  apply filter_In in Hx. rewrite <- E. apply in_map. tauto.
Qed.

Lemma NoDup_map_insert_sorted {A B : Type} (f : A -> B) (le : A -> A -> bool)
    (x : A) (l : list A) :
  NoDup (map f (x :: l)) -> NoDup (map f (insert_sorted le x l)).
Proof.
  induction l as [|a l IH]; simpl; intros H; [assumption|].
  destruct (le x a); [assumption|]. simpl.
  inversion H as [|? ? Hn1 Hn2]; subst.
  inversion Hn2 as [|? ? Hn3 Hn4]; subst.
  constructor.
  - intros Hin. apply in_map_iff in Hin. destruct Hin as [y [E Hy]].
    apply insert_sorted_In in Hy. destruct Hy as [->|Hy].
    + apply Hn1. left. now symmetry.
    + apply Hn3. rewrite <- E. now apply in_map.
  - apply IH. simpl. constructor; [|assumption].
    intros Hin. apply Hn1. now right.
Qed.

Lemma NoDup_map_sort_by {A B : Type} (f : A -> B) (le : A -> A -> bool)
    (l : list A) :
  NoDup (map f l) -> NoDup (map f (sort_by le l)).
Proof.
  induction l as [|a l IH]; simpl; intros H; [constructor|].
  apply NoDup_map_insert_sorted. simpl.
  inversion H as [|? ? Hn1 Hn2]; subst. constructor; [|auto].
  intros Hin. apply Hn1. apply in_map_iff in Hin.
  destruct Hin as [y [E Hy]]. apply sort_by_In in Hy.
  rewrite <- E. now apply in_map.
Qed.

Lemma NoDup_map_firstn {A B : Type} (f : A -> B) (n : nat) (l : list A) :
  NoDup (map f l) -> NoDup (map f (firstn n l)).
Proof.
  intros H. rewrite <- (firstn_skipn n l), map_app in H.
  now apply NoDup_app_remove_r in H.
Qed.

Lemma Qeq_bool_refl' (x : option Q) : option_eqb Qeq_bool x x = true.
Proof. destruct x as [q|]; simpl; [|reflexivity]. apply Qeq_bool_iff, Qeq_refl. Qed.

Lemma compare_statistic_rows_refl (r : StatRow) :
  compare_statistic_rows r r = true.
Proof.
  unfold compare_statistic_rows.
  rewrite !Z.eqb_refl, !Qeq_bool_refl'.
  destruct (r_last_reset r); simpl; rewrite ?Z.eqb_refl; reflexivity.
Qed.

Lemma is_duplicate_bucket (rows : list StatRow) (a b : StatRow) :
  same_bucket a b = true -> is_duplicate rows a = is_duplicate rows b.
Proof.
  clear_parameters. intros H. unfold is_duplicate. f_equal. f_equal.
  apply filter_ext. intros x. apply same_bucket_spec in H.
  unfold same_bucket. destruct H as [-> ->]. reflexivity.
Qed.

(** One round of the resolver on a table with unique ids: the ids listed
    belong to rows of the table; the row with the greatest id of a bucket is
    never listed; and a listed row that differs from the greatest of its
    bucket is recorded with it. *)
Lemma find_duplicates_round (t : table) (d : Db) :
  NoDup (map r_id (rows_of t d)) ->
  (forall i, In i (fst (_find_duplicates t d)) ->
             exists r, In r (rows_of t d) /\ r_id r = i) /\
  (forall c, canonical_in (rows_of t d) c c ->
             ~ In (r_id c) (fst (_find_duplicates t d))) /\
  (forall r c, In r (rows_of t d) ->
               In (r_id r) (fst (_find_duplicates t d)) ->
               canonical_in (rows_of t d) c r ->
               compare_statistic_rows c r = false ->
               In (r, c) (snd (_find_duplicates t d))).
Proof.
  intros Hpk. unfold _find_duplicates, duplicates_query.
  set (rows := rows_of t d) in *.
  set (D := filter (is_duplicate rows) rows).
  set (S := sort_by duplicates_order D).
  set (n := (1000 * MAX_ROWS_TO_PURGE)%nat). clearbody n. clear_parameters.
  assert (HS : StronglySorted precedes (firstn n S ++ skipn n S)).
  { rewrite firstn_skipn. apply sort_by_sorted. }
  apply StronglySorted_app_inv in HS. destruct HS as [HL [_ Hcross]].
  assert (HinL : forall x, In x (firstn n S) -> In x D /\ In x rows).
  { intros x Hx. assert (In x S).
    { rewrite <- (firstn_skipn n S). apply in_or_app. now left. }
    apply sort_by_In in H. split; [assumption|].
    unfold D in H. apply filter_In in H. tauto. }
  assert (HndL : NoDup (map r_id (firstn n S))).
  { apply NoDup_map_firstn, NoDup_map_sort_by, NoDup_map_filter. exact Hpk. }
  destruct (firstn n S) as [|x L] eqn:EL.
  { simpl. split; [intros i []|]. split; [intros c _ []|intros r c _ []]. }
  cbn [scan_duplicates].
  destruct (scan_duplicates_sorted L x HL HndL) as [H1 H2].
  split; [|split].
  - intros i Hi. destruct (H2 i Hi) as [z [c [Hz [Ez _]]]].
    exists z. split; [|assumption]. apply HinL. now right.
  - intros c [Hc [_ Hmax]] Hi.
    destruct (H2 _ Hi) as [z [c' [Hz [Ez [Hc' [Hb Hlt]]]]]].
    assert (z = c).
    { apply (NoDup_map_inj r_id rows); auto. apply HinL. now right. }
    subst z. assert (In c' rows) by now apply HinL.
    specialize (Hmax c' H Hb). lia.
  - intros r c Hr Hi [Hc [Hcr Hmax]] Hcmp.
    destruct (H2 _ Hi) as [z [_ [Hz [Ez _]]]].
    assert (z = r).
    { apply (NoDup_map_inj r_id rows); auto. apply HinL. now right. }
    subst z.
    assert (Hne : c <> r).
    { intros ->. rewrite compare_statistic_rows_refl in Hcmp. discriminate. }
    assert (HcS : In c (x :: L ++ skipn n S)).
    { change (x :: L ++ skipn n S) with ((x :: L) ++ skipn n S).
      rewrite <- EL, firstn_skipn. apply sort_by_In. apply filter_In.
      split; [assumption|]. rewrite (is_duplicate_bucket rows c r Hcr).
      destruct (HinL r (or_intror Hz)) as [HD _].
      unfold D in HD. apply filter_In in HD. tauto. }
    assert (HcL : In c (x :: L)).
    { change (x :: L ++ skipn n S) with ((x :: L) ++ skipn n S) in HcS.
      apply in_app_or in HcS. destruct HcS as [H|H]; [assumption|].
      exfalso. apply Hne.
      apply (NoDup_map_inj r_id rows); auto.
      pose proof (Hcross r c (or_intror Hz) H) as Hp.
      rewrite same_bucket_sym in Hcr.
      pose proof (same_bucket_precedes r c Hcr Hp).
      rewrite same_bucket_sym in Hcr.
      assert (same_bucket r r = true) by (apply same_bucket_spec; auto).
      pose proof (Hmax r Hr H3). lia. }
    apply (H1 r c Hz); auto.
    split; [assumption|]. split; [assumption|].
    intros y Hy. apply Hmax. now apply HinL.
Qed.
Definition is_delete_of (t : table) (e : event) : Prop :=
  match e with
  | EvDelete t' _ => t' = t
  | _ => False
  end.

Definition other_table (t : table) : table :=
  match t with
  | Statistics => StatisticsShortTerm
  | StatisticsShortTerm => Statistics
  end.

Lemma batches_concat (fuel n : nat) (ids : list Z) :
  (0 < n)%nat -> (length ids <= fuel)%nat ->
  concat (batches fuel n ids) = ids.
Proof.
  clear_parameters. revert ids. induction fuel as [|fuel IH]; intros ids Hn Hlen.
  - destruct ids; [reflexivity|simpl in Hlen; lia].
  - destruct ids as [|i ids]; [reflexivity|].
    cbn [batches concat]. rewrite IH; [apply firstn_skipn|assumption|].
    rewrite length_skipn. cbn [length] in Hlen |- *. lia.
Qed.

Lemma mem_Z_app (x : Z) (a b : list Z) :
  mem_Z x (a ++ b) = mem_Z x a || mem_Z x b.
Proof. unfold mem_Z. apply existsb_app. Qed.

Lemma filter_filter {A : Type} (p q : A -> bool) (l : list A) :
  filter p (filter q l) = filter (fun x => q x && p x) l.
Proof.
  induction l as [|a l IH]; simpl; [reflexivity|].
  destruct (q a); simpl; [|assumption]. destruct (p a); now rewrite IH.
Qed.

Lemma rows_of_set_rows (t : table) (rows : list StatRow) (d : Db) :
  rows_of t (set_rows t rows d) = rows /\
  rows_of (other_table t) (set_rows t rows d) = rows_of (other_table t) d.
Proof. destruct t; simpl; auto. Qed.

(** The batched deletion removes the rows whose id is in one of the
    batches, from the table [t] only, and adds one event per batch. *)
Lemma delete_batches_run (t : table) (bs : list (list Z)) (total : Z)
    (s : Session) :
  rows_of t (db (snd (delete_batches t bs total s))) =
    filter (fun r => negb (mem_Z (r_id r) (concat bs))) (rows_of t (db s)) /\
  rows_of (other_table t) (db (snd (delete_batches t bs total s))) =
    rows_of (other_table t) (db s) /\
  trace (snd (delete_batches t bs total s)) = trace s ++ map (EvDelete t) bs.
Proof.
  revert total s. induction bs as [|b bs IH]; intros total s.
  - simpl. rewrite app_nil_r. repeat split.
    induction (rows_of t (db s)) as [|a l IHl]; simpl; [reflexivity|].
    now rewrite <- IHl.
  - cbn [delete_batches]. rewrite bind_run.
    destruct (IH (total + fst (delete_ids t b s)) (snd (delete_ids t b s)))
      as [H1 [H2 H3]].
    rewrite H1, H2, H3. unfold delete_ids. rewrite bind_run.
    cbn [emit snd fst ret db trace].
    destruct (rows_of_set_rows t
                (filter (fun r => negb (mem_Z (r_id r) b)) (rows_of t (db s)))
                (db s)) as [E1 E2].
    rewrite E1, E2, filter_filter. repeat split.
    + apply filter_ext. intros r. cbn [concat].
      rewrite mem_Z_app, negb_orb. reflexivity.
    + cbn [map]. now rewrite <- app_assoc.
Qed.

Lemma filter_length_lt {A : Type} (p : A -> bool) (l : list A) (x : A) :
  In x l -> p x = false -> (length (filter p l) < length l)%nat.
Proof.
  clear_parameters. induction l as [|a l IH]; simpl; intros Hin Hp; [contradiction|].
  pose proof (filter_length_le p l).
  destruct Hin as [->|Hin].
  - rewrite Hp. lia.
  - specialize (IH Hin Hp). destruct (p a); simpl; lia.
Qed.

(** The loop of [_delete_duplicates_from_table] from a table with unique ids
    that is part of [rows0] and holds, for each of its rows, the row of
    [rows0] with the greatest id of the bucket.  With fuel beyond the number
    of rows it reaches its [break]; it deletes from [t] only; and a row it
    deletes that differs from the greatest of its bucket is among the records
    it returns. *)
Lemma delete_duplicates_loop_spec (rows0 : list StatRow) (fuel : nat)
    (t : table) (total : Z) (acc : list (StatRow * StatRow)) (s : Session) :
  (length (rows_of t (db s)) < fuel)%nat ->
  NoDup (map r_id (rows_of t (db s))) ->
  incl (rows_of t (db s)) rows0 ->
  (forall r c, In r (rows_of t (db s)) -> canonical_in rows0 c r ->
               In c (rows_of t (db s))) ->
  exists total' records deletes s',
    delete_duplicates_loop fuel t total acc s =
      (Some (total', acc ++ records), s') /\
    trace s' = trace s ++ deletes /\
    Forall (is_delete_of t) deletes /\
    rows_of (other_table t) (db s') = rows_of (other_table t) (db s) /\
    incl (rows_of t (db s')) (rows_of t (db s)) /\
    forall r c, In r (rows_of t (db s)) -> ~ In r (rows_of t (db s')) ->
                canonical_in rows0 c r ->
                compare_statistic_rows c r = false -> In (r, c) records.
Proof.
  revert total acc s.
  induction fuel as [|fuel IH]; intros total acc s Hlen Hpk Hincl Hcan;
    [clear_parameters; lia|].
  cbn [delete_duplicates_loop]. rewrite bind_run. cbn [query fst snd].
  destruct (find_duplicates_round t (db s) Hpk) as [R0 [R1 R2]].
  assert (Hzero : MAX_ROWS_TO_PURGE = O -> fst (_find_duplicates t (db s)) = []).
  { intros E. unfold _find_duplicates, duplicates_query. rewrite E.
    reflexivity. }
  destruct (_find_duplicates t (db s)) as [ids ni]. cbn [fst snd] in *.
  destruct ids as [|i ids].
  - exists total, [], [], s. rewrite !app_nil_r.
    split; [reflexivity|]. split; [reflexivity|]. split; [constructor|].
    split; [reflexivity|]. split; [apply incl_refl|].
    intros r c Hr Hnr. contradiction.
  - rewrite bind_run.
    set (ids' := i :: ids) in *.
    assert (Hpos : (0 < MAX_ROWS_TO_PURGE)%nat).
    { destruct MAX_ROWS_TO_PURGE; [|clear_parameters; lia].
      specialize (Hzero eq_refl). discriminate. }
    set (bs := batches (length ids') MAX_ROWS_TO_PURGE ids').
    assert (Hbs : concat bs = ids')
      by (apply batches_concat; [assumption|clear_parameters; lia]).
    destruct (delete_batches_run t bs total s) as [D1 [D2 D3]].
    rewrite Hbs in D1.
    set (s1 := snd (delete_batches t bs total s)) in *.
    assert (Hin1 : forall r, In r (rows_of t (db s1)) <->
              In r (rows_of t (db s)) /\ ~ In (r_id r) ids').
    { intros r. rewrite D1, filter_In, negb_true_iff.
      rewrite <- mem_Z_In. destruct (mem_Z (r_id r) ids'); intuition congruence. }
    assert (Hcanon : forall r c, In r (rows_of t (db s)) ->
              canonical_in rows0 c r -> canonical_in (rows_of t (db s)) c r).
    { intros r c Hr Hc. pose proof (Hcan r c Hr Hc) as Hcin.
      destruct Hc as [_ [Hb Hmax]]. split; [assumption|].
      split; [assumption|]. intros y Hy. apply Hmax. now apply Hincl. }
    destruct (IH (fst (delete_batches t bs total s)) (acc ++ ni) s1)
      as [total' [records [deletes [s' [E [Ht [Hd [Ho [Hi Hrec]]]]]]]]].
    + destruct (R0 i (or_introl eq_refl)) as [r [Hr Er]].
      assert ((length (rows_of t (db s1)) < length (rows_of t (db s)))%nat).
      { rewrite D1. apply (filter_length_lt _ _ r Hr).
        apply negb_false_iff, mem_Z_In. rewrite Er. now left. }
      clear_parameters. lia.
    + rewrite D1. now apply NoDup_map_filter.
    + intros r Hr. apply Hincl. now apply Hin1 in Hr.
    + intros r c Hr Hc. apply Hin1 in Hr. destruct Hr as [Hr Hnr].
      apply Hin1. split; [now apply (Hcan r c)|].
      apply R1. pose proof (Hcanon r c Hr Hc) as [Hc1 [Hc2 Hc3]].
      split; [assumption|]. split; [apply same_bucket_spec; auto|].
      intros y Hy Hyc. apply Hc3; [assumption|].
      now apply (same_bucket_trans y c r).
    + exists total', (ni ++ records), (map (EvDelete t) bs ++ deletes), s'.
      split; [now rewrite app_assoc|].
      split; [rewrite Ht, D3; now rewrite app_assoc|].
      split.
      { apply Forall_app. split; [|assumption].
        apply Forall_forall. intros e He. apply in_map_iff in He.
        destruct He as [b [<- _]]. reflexivity. }
      split; [now rewrite Ho|].
      split.
      { intros r Hr. apply Hi in Hr. now apply Hin1 in Hr. }
      intros r c Hr Hnr Hc Hcmp. apply in_or_app.
      destruct (mem_Z (r_id r) ids') eqn:Em.
      * left. apply mem_Z_In in Em. apply R2; auto.
      * right. apply Hrec; auto. apply Hin1. split; [assumption|].
        rewrite <- mem_Z_In. congruence.
Qed.

Lemma delete_duplicates_from_table_spec (t : table) (s : Session) :
  NoDup (map r_id (rows_of t (db s))) ->
  exists total records deletes s',
    _delete_duplicates_from_table t s =
      (Some (total, records), s') /\
    trace s' = trace s ++ deletes /\
    Forall (is_delete_of t) deletes /\
    rows_of (other_table t) (db s') = rows_of (other_table t) (db s) /\
    incl (rows_of t (db s')) (rows_of t (db s)) /\
    forall r c, In r (rows_of t (db s)) -> ~ In r (rows_of t (db s')) ->
                canonical_in (rows_of t (db s)) c r ->
                compare_statistic_rows c r = false -> In (r, c) records.
Proof.
  intros Hpk. unfold _delete_duplicates_from_table.
  destruct (delete_duplicates_loop_spec (rows_of t (db s))
              (S (length (rows_of t (db s)))) t 0 [] s)
    as [total [records H]]; auto.
  - apply incl_refl.
  - intros r c _ [Hc _]. exact Hc.
  - exists total, records. exact H.
Qed.



(** * Further properties of the code *)

(** ** The period a tick compiles *)

(** The fields of a wall-clock reading. *)
Lemma wall_fields (w : Z) :
  exists h m s us,
    w = h * 3600000000 + m * 60000000 + s * 1000000 + us /\
    0 <= m < 60 /\ 0 <= s < 60 /\ 0 <= us < 1000000 /\
    (w / 60000000) mod 60 = m /\
    (w / 1000000) mod 60 = s /\
    w mod 1000000 = us.
Proof.
  clear_parameters.
  exists (w / 3600000000), ((w / 60000000) mod 60), ((w / 1000000) mod 60),
    (w mod 1000000).
  pose proof (Z.div_mod w 1000000 ltac:(lia)) as H1.
  pose proof (Z.mod_pos_bound w 1000000 ltac:(lia)) as B1.
  pose proof (Z.div_mod (w / 1000000) 60 ltac:(lia)) as H2.
  pose proof (Z.mod_pos_bound (w / 1000000) 60 ltac:(lia)) as B2.
  pose proof (Z.div_mod (w / 60000000) 60 ltac:(lia)) as H3.
  pose proof (Z.mod_pos_bound (w / 60000000) 60 ltac:(lia)) as B3.
  replace (w / 1000000 / 60) with (w / 60000000) in H2
    by (rewrite Z.div_div by lia; reflexivity).
  replace (w / 60000000 / 60) with (w / 3600000000) in H3
    by (rewrite Z.div_div by lia; reflexivity).
  repeat split; try lia.
Qed.

Lemma get_start_time_wall (now : datetime) :
  wall (get_start_time now) =
    wall now - wall now mod (5 * US_PER_MINUTE) - 5 * US_PER_MINUTE.
Proof.
  clear_parameters.
  unfold get_start_time, dt_add, replace_minute_second_microsecond,
    dt_minute, dt_second, dt_microsecond, US_PER_HOUR, US_PER_MINUTE,
    US_PER_SECOND.
  cbn [wall].
  destruct (wall_fields (wall now)) as [h [m [s [us [E [Bm [Bs [Bu [Em [Es Eu]]]]]]]]]].
  change (60 * 1000000) with 60000000.
  rewrite Em, Es, Eu.
  pose proof (Z.div_mod m 5 ltac:(lia)) as Hm.
  pose proof (Z.mod_pos_bound m 5 ltac:(lia)) as Bm5.
  assert (Hmod : wall now mod (5 * 60000000) =
                 (m mod 5) * 60000000 + s * 1000000 + us).
  { symmetry. apply Z.mod_unique_pos with (q := 12 * h + m / 5); lia. }
  rewrite Hmod. lia.
Qed.

(** The period [get_start_time] returns is the latest five-minute period
    that has wholly elapsed at [now]: it starts on a multiple of five
    minutes, with no seconds, ends at or before [now], and the period after
    it has not ended yet.  The zone of [now] is kept. *)
Theorem get_start_time_last_elapsed_period :
  forall now : datetime,
    let start := get_start_time now in
    dt_minute start mod 5 = 0 /\
    dt_second start = 0 /\
    dt_microsecond start = 0 /\
    tzinfo start = tzinfo now /\
    wall start + 5 * US_PER_MINUTE <= wall now < wall start + 10 * US_PER_MINUTE.
Proof.
  clear_parameters.
  intros now start. pose proof (get_start_time_wall now) as Hw. fold start in Hw.
  assert (Htz : tzinfo start = tzinfo now) by reflexivity.
  revert Hw Htz. generalize start. clear start. intros start Hw Htz.
  unfold US_PER_MINUTE, US_PER_SECOND in Hw.
  change (5 * (60 * 1000000)) with 300000000 in Hw.
  pose proof (Z.div_mod (wall now) 300000000 ltac:(lia)) as Hn.
  pose proof (Z.mod_pos_bound (wall now) 300000000 ltac:(lia)) as Bn.
  set (k := wall now / 300000000) in *.
  assert (Ew : wall start = (k - 1) * 300000000) by lia.
  destruct (wall_fields (wall start)) as [h [m [s [us [E [Bm [Bs [Bu [Em [Es Eu]]]]]]]]]].
  unfold dt_minute, dt_second, dt_microsecond, US_PER_MINUTE, US_PER_SECOND.
  change (60 * 1000000) with 60000000. rewrite Em, Es, Eu.
  assert (Hus : us = 0).
  { rewrite <- Eu, Ew. apply Z.mod_divide; [lia|].
    exists ((k - 1) * 300). lia. }
  assert (Hs : s = 0).
  { rewrite <- Es, Ew.
    replace ((k - 1) * 300000000) with ((k - 1) * 300 * 1000000) by lia.
    rewrite Z.div_mul by lia. apply Z.mod_divide; [lia|].
    exists ((k - 1) * 5). lia. }
  assert (Hm : m mod 5 = 0).
  { rewrite <- Em, Ew.
    replace ((k - 1) * 300000000) with ((k - 1) * 5 * 60000000) by lia.
    rewrite Z.div_mul by lia.
    pose proof (Z.div_mod ((k - 1) * 5) 60 ltac:(lia)) as Hd.
    apply Z.mod_divide; [lia|].
    exists (k - 1 - 12 * ((k - 1) * 5 / 60)). lia. }
  repeat split; try assumption; lia.
Qed.

(** The period returned is the last of its hour, the one whose tick runs
    the hourly rollup, exactly when [now] is less than five minutes past the
    hour. *)
Theorem get_start_time_minute_55 :
  forall now : datetime,
    dt_minute (get_start_time now) = 55 <-> dt_minute now < 5.
Proof.
  clear_parameters.
  intros now.
  pose proof (get_start_time_wall now) as Hw.
  destruct (wall_fields (wall now)) as [h [m [s [us [E [Bm [Bs [Bu [Em [Es Eu]]]]]]]]]].
  unfold dt_minute, US_PER_MINUTE, US_PER_SECOND in *.
  change (60 * 1000000) with 60000000 in *.
  change (5 * 60000000) with 300000000 in *.
  rewrite Em.
  pose proof (Z.div_mod m 5 ltac:(lia)) as Hm.
  pose proof (Z.mod_pos_bound m 5 ltac:(lia)) as Bm5.
  assert (Hmod : wall now mod 300000000 =
                 (m mod 5) * 60000000 + s * 1000000 + us).
  { symmetry. apply Z.mod_unique_pos with (q := 12 * h + m / 5); lia. }
  rewrite Hmod in Hw.
  assert (Ew : wall (get_start_time now) =
               (60 * h + 5 * (m / 5) - 5) * 60000000) by lia.
  rewrite Ew, Z.div_mul by lia.
  split; intros H.
  - assert (Hq : m / 5 = 0).
    { pose proof (Z.div_mod (60 * h + 5 * (m / 5) - 5) 60 ltac:(lia)) as Hd.
      rewrite H in Hd. lia. }
    lia.
  - assert (Hq : m / 5 = 0) by (apply Z.div_small; lia).
    rewrite Hq. symmetry.
    apply Z.mod_unique_pos with (q := h - 1); lia.
Qed.

(** ** The format of a statistic id *)

Fixpoint has_double_underscore (l : list ascii) : bool :=
  match l with
  | [] => false
  | c :: l' =>
      match l' with
      | c' :: _ => is_underscore c && is_underscore c'
      | [] => false
      end || has_double_underscore l'
  end.

(** A slug: a non-empty run of digits, lower-case letters and underscores
    that neither starts nor ends with an underscore nor has two in a row. *)
Definition is_slug (l : list ascii) : bool :=
  match l with [] => false | _ => true end
  && forallb is_slug_char l
  && negb (starts_with_underscore l)
  && negb (ends_with_underscore l)
  && negb (has_double_underscore l).

Lemma is_newline_eq (c : ascii) : is_newline c = true -> c = "010"%char.
Proof.
  unfold is_newline. intros H. apply Nat.eqb_eq in H.
  rewrite <- (ascii_nat_embedding c), H. reflexivity.
Qed.

Lemma slug_char_not_newline (c : ascii) :
  is_slug_char c = true -> is_newline c = false.
Proof.
  unfold is_slug_char, is_newline. intros H.
  destruct (Nat.eqb_spec (nat_of_ascii c) 10) as [E|E]; [|reflexivity].
  rewrite E in H. discriminate.
Qed.

Lemma newline_not_slug_char (c : ascii) :
  is_newline c = true -> is_slug_char c = false.
Proof.
  intros H. destruct (is_slug_char c) eqn:E; [|reflexivity].
  apply slug_char_not_newline in E. congruence.
Qed.

Lemma newline_not_underscore (c : ascii) :
  is_newline c = true -> is_underscore c = false.
Proof.
  unfold is_newline, is_underscore. intros H. apply Nat.eqb_eq in H.
  now rewrite H.
Qed.

Lemma ends_with_underscore_app (a b : list ascii) :
  ends_with_underscore (a ++ b) =
    match b with
    | [] => ends_with_underscore a
    | _ => ends_with_underscore b
    end.
Proof.
  destruct b as [|c b]; [now rewrite app_nil_r|].
  unfold ends_with_underscore. rewrite rev_app_distr.
  destruct (rev (c :: b)) as [|x r] eqn:E; [|reflexivity].
  apply (f_equal (@length ascii)) in E. rewrite length_rev in E. discriminate.
Qed.

Lemma ends_with_underscore_cons (c c' : ascii) (l : list ascii) :
  ends_with_underscore (c :: c' :: l) = ends_with_underscore (c' :: l).
Proof. exact (ends_with_underscore_app [c] (c' :: l)). Qed.

Lemma has_double_underscore_app (a b : list ascii) :
  has_double_underscore (a ++ b) =
    has_double_underscore a
    || (ends_with_underscore a && starts_with_underscore b)
    || has_double_underscore b.
Proof.
  induction a as [|c a IH]; [reflexivity|].
  cbn [app has_double_underscore]. rewrite IH.
  destruct a as [|c' a].
  - cbn [app has_double_underscore]. unfold ends_with_underscore.
    cbn [rev app]. destruct b as [|x b]; cbn [starts_with_underscore];
      destruct (is_underscore c); cbn; try reflexivity;
      now rewrite ?orb_false_r.
  - rewrite ends_with_underscore_cons. cbn [app].
    now rewrite !orb_assoc.
Qed.

(** The look-ahead [(?!.+__)], read from the second character on, finds two
    underscores in a row when there are some before the newline that may
    end the string. *)
Lemma double_underscore_ahead_spec (y z : list ascii) :
  Forall (fun c => is_newline c = false) y ->
  z = [] \/ (exists c, z = [c] /\ is_newline c = true) ->
  double_underscore_ahead (y ++ z) = has_double_underscore y.
Proof.
  intros Hy Hz. induction Hy as [|c y Hc Hy IH].
  - destruct Hz as [->|[c [-> Hc]]]; [reflexivity|].
    cbn. now rewrite andb_false_r.
  - cbn [app double_underscore_ahead has_double_underscore].
    rewrite Hc, IH. cbn [negb andb]. f_equal.
    destruct y as [|c' y]; [|reflexivity].
    destruct Hz as [->|[x [-> Hx]]]; [reflexivity|].
    cbn [app]. rewrite (newline_not_underscore _ Hx). apply andb_false_r.
Qed.

Lemma forallb_of_Forall {A : Type} (p : A -> bool) (l : list A) :
  Forall (fun x => p x = true) l <-> forallb p l = true.
Proof.
  rewrite forallb_forall, Forall_forall. reflexivity.
Qed.

(** What [valid_statistic_id] accepts is a slug, a colon and a slug, with
    at most a newline after them. *)
Lemma valid_statistic_id_slugs (statistic_id : string) :
  valid_statistic_id statistic_id = true ->
  exists domain object_id : list ascii,
    is_slug domain = true /\ is_slug object_id = true /\
    (list_ascii_of_string statistic_id = domain ++ ":"%char :: object_id \/
     list_ascii_of_string statistic_id =
       domain ++ ":"%char :: object_id ++ ["010"%char]).
Proof.
  clear_parameters.
  unfold valid_statistic_id.
  set (l := list_ascii_of_string statistic_id). clearbody l.
  pose proof (span_spec is_slug_char l) as [Hd1 [Hd2 Hd3]].
  destruct (span is_slug_char l) as [domain rest]. simpl in Hd1, Hd2, Hd3.
  intros H.
  repeat match goal with
         | H : _ && _ = true |- _ => apply andb_prop in H; destruct H
         end.
  destruct rest as [|c rest']; [discriminate|].
  repeat match goal with
         | H : _ && _ = true |- _ => apply andb_prop in H; destruct H
         end.
  pose proof (span_spec is_slug_char rest') as [Ho1 [Ho2 Ho3]].
  destruct (span is_slug_char rest') as [object_id tail].
  simpl in Ho1, Ho2, Ho3.
  repeat match goal with
         | H : _ && _ = true |- _ => apply andb_prop in H; destruct H
         end.
  match goal with H : is_colon c = true |- _ => apply is_colon_eq in H; subst c end.
  destruct domain as [|d0 dtl]; [discriminate|].
  destruct object_id as [|o0 otl]; [discriminate|].
  subst rest'. subst l.
  repeat match goal with
         | H : negb _ = true |- _ => apply negb_true_iff in H
         end.
  assert (Htail : tail = [] \/ exists c, tail = [c] /\ is_newline c = true).
  { destruct tail as [|c' [|? ?]]; try discriminate; eauto. }
  cbn [app starts_with_underscore] in *.
  match goal with
  | H : (negb (is_newline d0) && _) = false |- _ => rename H into HA
  end.
  match goal with
  | H : is_underscore d0 = false |- _ => rename H into Hd0us
  end.
  match goal with
  | H : is_underscore o0 = false |- _ => rename H into Ho0us
  end.
  match goal with
  | H : ends_with_underscore (d0 :: dtl) = false |- _ => rename H into Hdend
  end.
  match goal with
  | H : ends_with_underscore (o0 :: otl) = false |- _ => rename H into Hoend
  end.
  assert (Hdouble :
            has_double_underscore ((d0 :: dtl) ++ ":"%char :: o0 :: otl) = false).
  { inversion Hd2 as [|? ? Hd0 Hdtl]; subst.
    rewrite (slug_char_not_newline _ Hd0) in HA. cbn [negb andb] in HA.
    replace (dtl ++ ":"%char :: o0 :: otl ++ tail)
      with ((dtl ++ ":"%char :: o0 :: otl) ++ tail) in HA
      by (now rewrite <- app_assoc).
    rewrite double_underscore_ahead_spec in HA; [| |assumption].
    - cbn [app has_double_underscore]. rewrite HA, Hd0us.
      destruct (dtl ++ ":"%char :: o0 :: otl); reflexivity.
    - apply Forall_app. split.
      + eapply Forall_impl; [|exact Hdtl]. apply slug_char_not_newline.
      + constructor; [reflexivity|].
        eapply Forall_impl; [|exact Ho2]. apply slug_char_not_newline. }
  rewrite has_double_underscore_app in Hdouble.
  apply orb_false_iff in Hdouble. destruct Hdouble as [Hdouble Hobj].
  apply orb_false_iff in Hdouble. destruct Hdouble as [Hdom _].
  change (has_double_underscore (":"%char :: o0 :: otl))
    with (is_underscore ":"%char && is_underscore o0
          || has_double_underscore (o0 :: otl)) in Hobj.
  cbn [is_underscore nat_of_ascii Nat.eqb andb orb] in Hobj.
  exists (d0 :: dtl), (o0 :: otl). split; [|split].
  + unfold is_slug. rewrite Hdom, Hdend.
    apply forallb_of_Forall in Hd2. rewrite Hd2.
    cbn [starts_with_underscore]. rewrite Hd0us. reflexivity.
  + unfold is_slug. apply forallb_of_Forall in Ho2. rewrite Ho2.
    assert (Hobj' : has_double_underscore (o0 :: otl) = false) by exact Hobj.
    rewrite Hobj', Hoend.
    cbn [starts_with_underscore]. rewrite Ho0us. reflexivity.
  + destruct Htail as [->|[c [-> Hc]]].
    * left. now rewrite app_nil_r.
    * right. apply is_newline_eq in Hc. now subst c.
Qed.

(** Of the strings of ASCII characters [valid_statistic_id] accepts exactly
    those made of a slug, a colon and a slug, and these followed by one
    newline, which [$] lets through. *)
Theorem valid_statistic_id_format :
  forall statistic_id : string,
    valid_statistic_id statistic_id = true <->
    exists domain object_id : list ascii,
      is_slug domain = true /\ is_slug object_id = true /\
      (list_ascii_of_string statistic_id = domain ++ ":"%char :: object_id \/
       list_ascii_of_string statistic_id =
         domain ++ ":"%char :: object_id ++ ["010"%char]).
Proof.
  clear_parameters.
  intros statistic_id. split; [apply valid_statistic_id_slugs|].
  unfold valid_statistic_id.
  set (l := list_ascii_of_string statistic_id). clearbody l.
  intros [domain [object_id [Hdom [Hobj Hl]]]].
  assert (Hshape : exists tail,
            l = domain ++ ":"%char :: object_id ++ tail /\
            (tail = [] \/ exists c, tail = [c] /\ is_newline c = true)).
  { destruct Hl as [Hl|Hl].
    - exists []. rewrite app_nil_r. auto.
    - exists ["010"%char]. split; [assumption|]. right. eauto. }
  clear Hl. destruct Hshape as [tail [-> Htail]].
  unfold is_slug in Hdom, Hobj.
  repeat match goal with
         | H : _ && _ = true |- _ => apply andb_prop in H; destruct H
         end.
  repeat match goal with
         | H : negb _ = true |- _ => apply negb_true_iff in H
         | H : forallb _ _ = true |- _ => apply forallb_of_Forall in H
         end.
  destruct domain as [|d0 dtl]; [discriminate|].
  destruct object_id as [|o0 otl]; [discriminate|].
  rewrite span_app_stop; [|assumption|reflexivity].
  rewrite span_app_stop; [|assumption|].
  2:{ destruct Htail as [->|[c [-> Hc]]]; [exact I|].
      now apply newline_not_slug_char. }
  match goal with
  | H : Forall _ (d0 :: dtl) |- _ => inversion H as [|? ? Hd0 Hdtl]; subst
  end.
  match goal with
  | H : Forall _ (o0 :: otl) |- _ => rename H into Hoall
  end.
  assert (HA : double_underscore_ahead
                 (dtl ++ ":"%char :: (o0 :: otl) ++ tail) = false).
  { replace (dtl ++ ":"%char :: (o0 :: otl) ++ tail)
      with ((dtl ++ ":"%char :: o0 :: otl) ++ tail)
      by (now rewrite <- app_assoc).
    rewrite double_underscore_ahead_spec; [| |assumption].
    - assert (Hfull : has_double_underscore
                        ((d0 :: dtl) ++ ":"%char :: o0 :: otl) = false).
      { rewrite has_double_underscore_app.
        repeat match goal with
               | H : has_double_underscore _ = false |- _ => rewrite H
               | H : ends_with_underscore (d0 :: dtl) = false |- _ => rewrite H
               end.
        cbn [has_double_underscore andb orb].
        match goal with
        | H : has_double_underscore (o0 :: otl) = false |- _ =>
            cbn [has_double_underscore] in H; exact H
        end. }
      cbn [app has_double_underscore] in Hfull.
      apply orb_false_iff in Hfull. tauto.
    - apply Forall_app. split.
      + eapply Forall_impl; [|exact Hdtl]. apply slug_char_not_newline.
      + constructor; [reflexivity|].
        eapply Forall_impl; [|exact Hoall]. apply slug_char_not_newline. }
  cbn [app] in HA |- *. rewrite HA.
  repeat match goal with
         | H : starts_with_underscore _ = false |- _ =>
             cbn [starts_with_underscore] in H
         end.
  cbn [starts_with_underscore app].
  repeat match goal with
         | H : is_underscore _ = false |- _ => rewrite H
         | H : ends_with_underscore _ = false |- _ => rewrite H
         end.
  rewrite andb_false_r. cbn.
  destruct Htail as [->|[c [-> Hc]]]; [reflexivity|exact Hc].
Qed.

(** ** Submissions the importer's entry point rejects *)

Lemma check_statistics_rejects (before after : list StatisticData)
    (bad : StatisticData) :
  Forall valid_sample before ->
  ~ valid_sample bad ->
  check_statistics (before ++ bad :: after) =
    (Some (HomeAssistantError
             match utcoffset (d_start bad) with
             | None => "Naive timestamp"
             | Some _ => "Invalid timestamp"
             end),
     map normalize_start before ++ bad :: after).
Proof.
  intros Hbefore Hbad.
  induction Hbefore as [|s l [Haw [Hm [Hs Hu]]] Hl IH].
  - cbn [app map check_statistics].
    destruct (utcoffset (d_start bad)) eqn:Hoff; [|reflexivity].
    destruct (dt_minute (d_start bad) =? 0) eqn:Em; [|reflexivity].
    destruct (dt_second (d_start bad) =? 0) eqn:Es; [|reflexivity].
    destruct (dt_microsecond (d_start bad) =? 0) eqn:Eu; [|reflexivity].
    exfalso. apply Hbad. split.
    + unfold aware. congruence.
    + repeat split; now apply Z.eqb_eq.
  - cbn [app map check_statistics].
    unfold aware in Haw. destruct (utcoffset (d_start s)); [|contradiction].
    rewrite Hm, Hs, Hu, IH. reflexivity.
Qed.

(** A submission with a well-formed id and a matching source whose samples
    are in order up to one that is not: the call raises for that sample,
    ["Naive timestamp"] when it carries no offset and ["Invalid timestamp"]
    otherwise, and queues nothing.  The samples before it have by then been
    rewritten to UTC in the caller's list; it and those after it are as they
    were. *)
Theorem async_add_external_statistics_rejected_sample :
  forall (metadata : StatisticMetaData) (before after : list StatisticData)
         (bad : StatisticData) (queue : list external_statistics_job),
    valid_statistic_id (m_statistic_id metadata) = true ->
    source_matches metadata ->
    Forall valid_sample before ->
    ~ valid_sample bad ->
    async_add_external_statistics metadata (before ++ bad :: after) queue =
      (Some (HomeAssistantError
               match utcoffset (d_start bad) with
               | None => "Naive timestamp"
               | Some _ => "Invalid timestamp"
               end),
       map normalize_start before ++ bad :: after,
       queue).
Proof.
  intros metadata before after bad queue Hid [Hne [obj Hobj]] Hbefore Hbad.
  unfold async_add_external_statistics. rewrite Hid. cbn [negb].
  rewrite Hobj in Hid |- *. rewrite (split_of_valid _ _ Hid).
  rewrite String.eqb_refl.
  destruct (String.eqb_spec (m_source metadata) EmptyString) as [E|E];
    [contradiction|]. cbn [negb orb].
  rewrite (check_statistics_rejects _ _ _ Hbefore Hbad). reflexivity.
Qed.

Lemma check_statistics_error (statistics : list StatisticData) (e : exception) :
  fst (check_statistics statistics) = Some e ->
  e = HomeAssistantError "Naive timestamp" \/
  e = HomeAssistantError "Invalid timestamp".
Proof.
  induction statistics as [|s l IH]; cbn [check_statistics fst];
    [discriminate|].
  destruct (utcoffset (d_start s)); cbn [fst].
  - destruct (negb (dt_minute (d_start s) =? 0)
              || negb (dt_second (d_start s) =? 0)
              || negb (dt_microsecond (d_start s) =? 0)); cbn [fst].
    + intros [= <-]. now right.
    + destruct (check_statistics l) as [err rest]. exact IH.
  - intros [= <-]. now left.
Qed.

(** An id that [valid_statistic_id] accepts splits in two at its colon. *)
Lemma split_statistic_id_valid (statistic_id : string) :
  valid_statistic_id statistic_id = true ->
  exists domain object_id,
    split_statistic_id statistic_id = [domain; object_id].
Proof.
  intros H. apply valid_statistic_id_slugs in H.
  destruct H as [domain [object_id [_ [_ Hl]]]].
  unfold split_statistic_id.
  pose proof (span_spec (fun c => negb (is_colon c))
                        (list_ascii_of_string statistic_id)) as [H1 [H2 _]].
  destruct (span (fun c => negb (is_colon c))
                 (list_ascii_of_string statistic_id)) as [a b].
  cbn [fst snd] in H1, H2. destruct b as [|c b]; [|eauto].
  exfalso. rewrite app_nil_r in H1. rewrite <- H1 in H2.
  assert (Hin : In ":"%char (list_ascii_of_string statistic_id)).
  { destruct Hl as [-> | ->]; apply in_or_app; right; now left. }
  rewrite Forall_forall in H2. specialize (H2 _ Hin). discriminate.
Qed.

(** Whatever [async_add_external_statistics] raises is a
    [HomeAssistantError] with one of its four messages: unpacking the two
    parts of the id never fails, since the id has been validated first. *)
Theorem async_add_external_statistics_errors :
  forall (metadata : StatisticMetaData) (statistics : list StatisticData)
         (queue : list external_statistics_job) (e : exception),
    fst (fst (async_add_external_statistics metadata statistics queue)) = Some e ->
    In e [HomeAssistantError "Invalid statistic_id";
          HomeAssistantError "Invalid source";
          HomeAssistantError "Naive timestamp";
          HomeAssistantError "Invalid timestamp"].
Proof.
  intros metadata statistics queue e.
  unfold async_add_external_statistics.
  destruct (valid_statistic_id (m_statistic_id metadata)) eqn:Hid; cbn [negb].
  - destruct (split_statistic_id_valid _ Hid) as [domain [object_id ->]].
    destruct (String.eqb (m_source metadata) EmptyString
              || negb (String.eqb (m_source metadata) domain)).
    + cbn [fst]. intros [= <-]. right. now left.
    + pose proof (check_statistics_error statistics e) as Herr.
      destruct (check_statistics statistics) as [[e'|] rest]; cbn [fst] in *.
      * intros H. destruct (Herr H) as [-> | ->]; cbn; auto.
      * discriminate.
  - cbn [fst]. intros [= <-]. now left.
Qed.

(** ** The metadata of one series, written and read back *)

Section DictOneKey.
Context {K V : Type} (eqb : K -> K -> bool).
Hypothesis eqb_eq : forall a b, eqb a b = true <-> a = b.

(** A dictionary built from pairs that all have the key [k] holds the value
    of the last of them. *)
Lemma dict_of_one_key (k : K) (pairs : list (K * V)) :
  Forall (fun kv => fst kv = k) pairs ->
  dict_of eqb pairs =
    match rev pairs with
    | [] => []
    | kv :: _ => [(k, snd kv)]
    end.
Proof using eqb_eq.
  induction pairs as [|[k' v] pairs IH] using rev_ind; intros H; [reflexivity|].
  apply Forall_app in H. destruct H as [Hps Hk].
  inversion Hk as [|? ? Hk' _]; subst. cbn [fst] in *.
  rewrite rev_app_distr. cbn [rev app snd].
  unfold dict_of, dict_update in *. rewrite fold_left_app. cbn [fold_left fst snd].
  rewrite (IH Hps). destruct (rev pairs) as [|kv ?]; cbn [dict_set].
  - reflexivity.
  - now rewrite (proj2 (eqb_eq k' k') eq_refl).
Qed.
End DictOneKey.

Definition known_as (statistic_id : string) (r : MetaRow) : bool :=
  String.eqb (m_statistic_id (mr_meta r)) statistic_id.

(** The metadata fetched for one id: that of the last row of the table
    known under it. *)
Lemma get_metadata_single (statistic_id : string) (d : Db) :
  get_metadata_with_session (Some [statistic_id]) None None d =
    match rev (filter (known_as statistic_id) (statistics_meta d)) with
    | [] => []
    | r :: _ => [(statistic_id, (mr_id r, mr_meta r))]
    end.
Proof.
  unfold get_metadata_with_session.
  rewrite (filter_ext _ (known_as statistic_id)).
  2:{ intros r. unfold mem_string, known_as. cbn [existsb].
      now rewrite orb_false_r, !andb_true_r. }
  rewrite (dict_of_one_key String.eqb String_eqb_eq statistic_id).
  - rewrite <- map_rev.
    destruct (rev (filter (known_as statistic_id) (statistics_meta d)));
      reflexivity.
  - apply Forall_forall. intros kv Hin. apply in_map_iff in Hin.
    destruct Hin as [r [<- Hr]]. apply filter_In in Hr.
    destruct Hr as [_ Hr]. cbn [fst]. now apply String.eqb_eq.
Qed.

Lemma option_string_eqb_eq (a b : option string) :
  option_eqb String.eqb a b = true -> a = b.
Proof.
  destruct a, b; cbn; try discriminate; try reflexivity.
  intros H. apply String.eqb_eq in H. now subst.
Qed.

Lemma filter_map_invariant {A : Type} (p : A -> bool) (f : A -> A)
    (l : list A) :
  (forall x, p (f x) = p x) -> filter p (map f l) = map f (filter p l).
Proof.
  intros H. induction l as [|x l IH]; cbn [map filter]; [reflexivity|].
  rewrite H. destruct (p x); cbn [map]; now rewrite IH.
Qed.

(** The id [_update_or_add_metadata] returns and what the store then holds
    for the series. *)
Lemma update_or_add_metadata_stored :
  forall (new_metadata : StatisticMetaData) (s : Session),
    let statistic_id := m_statistic_id new_metadata in
    let fetch := get_metadata_with_session (Some [statistic_id]) None None in
    let r := _update_or_add_metadata new_metadata (fetch (db s)) s in
    exists stored,
      dict_get String.eqb (fetch (db (snd r))) statistic_id
        = Some (fst r, stored) /\
      m_statistic_id stored = statistic_id /\
      m_has_mean stored = m_has_mean new_metadata /\
      m_has_sum stored = m_has_sum new_metadata /\
      m_unit_of_measurement stored = m_unit_of_measurement new_metadata /\
      match dict_get String.eqb (fetch (db s)) statistic_id with
      | Some (_, old_metadata) =>
          m_source stored = m_source old_metadata /\
          m_name stored = m_name old_metadata
      | None => stored = new_metadata
      end.
Proof.
  intros new_metadata s statistic_id fetch r. subst r fetch.
  rewrite (get_metadata_single statistic_id (db s)).
  destruct (rev (filter (known_as statistic_id) (statistics_meta (db s))))
    as [|row rest] eqn:Hrev.
  - (* unknown: the row is added *)
    exists new_metadata. unfold _update_or_add_metadata. fold statistic_id.
    cbn [dict_get]. cbn [bind emit ret fst snd db].
    rewrite get_metadata_single. cbn [statistics_meta set_meta].
    rewrite filter_app, rev_app_distr. cbn [filter].
    unfold known_as at 1. cbn [mr_meta]. fold statistic_id.
    rewrite String.eqb_refl. cbn [rev app dict_get mr_id mr_meta].
    rewrite String.eqb_refl. repeat split.
  - (* known *)
    assert (Hrow : In row (filter (known_as statistic_id)
                                  (statistics_meta (db s)))).
    { apply in_rev. rewrite Hrev. now left. }
    apply filter_In in Hrow. destruct Hrow as [_ Hrow].
    unfold known_as in Hrow. apply String.eqb_eq in Hrow.
    unfold _update_or_add_metadata. fold statistic_id.
    cbn [dict_get]. rewrite String.eqb_refl.
    destruct (negb (Bool.eqb (m_has_mean (mr_meta row)) (m_has_mean new_metadata))
              || negb (Bool.eqb (m_has_sum (mr_meta row)) (m_has_sum new_metadata))
              || negb (option_eqb String.eqb
                         (m_unit_of_measurement (mr_meta row))
                         (m_unit_of_measurement new_metadata))) eqn:Hchanged.
    + cbn [bind emit ret fst snd db].
      rewrite get_metadata_single. cbn [statistics_meta set_meta].
      rewrite filter_map_invariant.
      2:{ intros x. unfold known_as, update_meta_row.
          destruct (String.eqb (m_statistic_id (mr_meta x)) statistic_id)
            eqn:E; [cbn [mr_meta m_statistic_id]|]; exact E. }
      rewrite <- map_rev, Hrev. cbn [map dict_get].
      rewrite String.eqb_refl.
      unfold update_meta_row. rewrite Hrow, String.eqb_refl.
      cbn [mr_id mr_meta]. eexists. split; [reflexivity|].
      cbn. repeat split.
    + cbn [bind ret fst snd].
      rewrite get_metadata_single, Hrev. cbn [dict_get].
      rewrite String.eqb_refl.
      apply orb_false_iff in Hchanged. destruct Hchanged as [Hchanged Hunit].
      apply orb_false_iff in Hchanged. destruct Hchanged as [Hmean Hsum].
      apply negb_false_iff in Hmean, Hsum, Hunit.
      apply Bool.eqb_prop in Hmean, Hsum.
      apply option_string_eqb_eq in Hunit.
      exists (mr_meta row). repeat split; assumption.
Qed.

(** [_update_or_add_metadata], handed the metadata the store holds for the
    id, returns the id under which the series is found afterwards.  What is
    then stored has the new [has_mean], [has_sum] and unit; a series that
    was known keeps its source and its name, whatever the new metadata
    say, and an unknown one is stored as given. *)
Theorem update_or_add_metadata_read_back :
  forall (new_metadata : StatisticMetaData) (s : Session),
    let statistic_id := m_statistic_id new_metadata in
    let fetch := get_metadata_with_session (Some [statistic_id]) None None in
    let r := _update_or_add_metadata new_metadata (fetch (db s)) s in
    exists stored,
      dict_get String.eqb (fetch (db (snd r))) statistic_id
        = Some (fst r, stored) /\
      m_statistic_id stored = statistic_id /\
      m_has_mean stored = m_has_mean new_metadata /\
      m_has_sum stored = m_has_sum new_metadata /\
      m_unit_of_measurement stored = m_unit_of_measurement new_metadata /\
      match dict_get String.eqb (fetch (db s)) statistic_id with
      | Some (_, old_metadata) =>
          m_source stored = m_source old_metadata /\
          m_name stored = m_name old_metadata
      | None => stored = new_metadata
      end.
Proof. exact update_or_add_metadata_stored. Qed.

(** ** The short-term compiler and its scope *)

Lemma find_marker (start : Z) (runs : list RunRow) :
  (exists r, In r runs /\ run_start r = start) ->
  exists r, find (fun r => run_start r =? start) runs = Some r.
Proof.
  clear_parameters.
  intros [r [Hin Hr]].
  destruct (find (fun r0 => run_start r0 =? start) runs) eqn:Hfind; [eauto|].
  apply (find_none _ _ Hfind) in Hin. rewrite Hr, Z.eqb_refl in Hin.
  discriminate.
Qed.

(** ** What the writers leave alone *)

Lemma update_or_add_metadata_frame (new_metadata : StatisticMetaData)
    (old : metadata_dict) (s : Session) :
  let s' := snd (_update_or_add_metadata new_metadata old s) in
  statistics (db s') = statistics (db s) /\
  statistics_short_term (db s') = statistics_short_term (db s) /\
  statistics_runs (db s') = statistics_runs (db s).
Proof.
  unfold _update_or_add_metadata.
  destruct (dict_get String.eqb old (m_statistic_id new_metadata))
    as [[metadata_id old_metadata]|].
  - destruct (negb (Bool.eqb (m_has_mean old_metadata) (m_has_mean new_metadata))
              || negb (Bool.eqb (m_has_sum old_metadata) (m_has_sum new_metadata))
              || negb (option_eqb String.eqb
                         (m_unit_of_measurement old_metadata)
                         (m_unit_of_measurement new_metadata)));
      cbn; auto.
  - cbn. auto.
Qed.

Lemma update_or_add_metadata_known (new_metadata : StatisticMetaData)
    (old : metadata_dict) (s : Session) (metadata_id : Z)
    (old_metadata : StatisticMetaData) :
  dict_get String.eqb old (m_statistic_id new_metadata)
    = Some (metadata_id, old_metadata) ->
  fst (_update_or_add_metadata new_metadata old s) = metadata_id.
Proof.
  intros H. unfold _update_or_add_metadata. rewrite H.
  destruct (negb (Bool.eqb (m_has_mean old_metadata) (m_has_mean new_metadata))
            || negb (Bool.eqb (m_has_sum old_metadata) (m_has_sum new_metadata))
            || negb (option_eqb String.eqb
                       (m_unit_of_measurement old_metadata)
                       (m_unit_of_measurement new_metadata)));
    reflexivity.
Qed.

Lemma session_add_db (now : Z) (t : table) (r : StatRow) (s : Session) :
  db (snd (session_add now t r s)) =
    set_rows t (rows_of t (db s)
                ++ [with_id (next_id (map r_id (rows_of t (db s)))) now r])
             (db s).
Proof. reflexivity. Qed.

Lemma set_rows_set_rows (t : table) (a b : list StatRow) (d : Db) :
  set_rows t a (set_rows t b d) = set_rows t a d.
Proof. destruct t; reflexivity. Qed.

(** A loop of [session.add] calls changes the table it adds to and nothing
    else. *)
Lemma for_each_session_add_db (now : Z) (t : table)
    (body : Z * StatisticData -> M unit) (l : list (Z * StatisticData))
    (s : Session) :
  (forall kv s', body kv s' =
                 session_add now t (from_stats (fst kv) (snd kv)) s') ->
  exists ids,
    length ids = length l /\
    db (snd (for_each l body s)) =
      set_rows t
        (rows_of t (db s)
         ++ map (fun p => with_id (fst p) now
                            (from_stats (fst (snd p)) (snd (snd p))))
                (combine ids l))
        (db s).
Proof.
  intros Hbody. revert s. induction l as [|kv l IH]; intros s.
  - exists []. split; [reflexivity|]. cbn. rewrite app_nil_r.
    destruct t, (db s); reflexivity.
  - cbn [for_each]. rewrite bind_run.
    destruct (IH (snd (body kv s))) as [ids [Hlen Hdb]].
    exists (next_id (map r_id (rows_of t (db s))) :: ids).
    split; [cbn; now rewrite Hlen|].
    rewrite Hdb, Hbody, session_add_db.
    rewrite (proj1 (rows_of_set_rows _ _ _)), set_rows_set_rows.
    cbn [combine map fst snd]. now rewrite <- app_assoc.
Qed.

(** ** The rollup, table by table *)

(** The rows the rollup appends, and what it leaves alone. *)
Lemma compile_hourly_statistics_rows :
  forall (now : Z) (start : datetime) (s : Session),
    let s' := snd (compile_hourly_statistics now start s) in
    exists rows,
      statistics (db s') = statistics (db s) ++ rows /\
      StronglySorted Z.lt (map r_metadata_id rows) /\
      (forall m, In m (map r_metadata_id rows) <->
                 hour_rows start m (db s) <> []) /\
      Forall (fun r => r_start r = instant (replace_minute start 0)) rows /\
      statistics_short_term (db s') = statistics_short_term (db s) /\
      statistics_meta (db s') = statistics_meta (db s) /\
      statistics_runs (db s') = statistics_runs (db s).
Proof.
  intros now start s s'. subst s'. unfold compile_hourly_statistics.
  rewrite bind_run. cbn [emit fst snd]. rewrite bind_run.
  cbn [query fst snd db]. rewrite hourly_summary_eq.
  set (ids := distinct_sorted _).
  match goal with |- context [for_each ?l ?b ?s0] =>
    destruct (for_each_session_add_db now Statistics b l s0)
      as [nums [Hlen Hdb]]; [now intros [k v] s'|]
  end.
  rewrite Hdb. cbn [db rows_of set_rows statistics statistics_short_term
                     statistics_meta statistics_runs].
  rewrite length_map in Hlen.
  eexists. split; [reflexivity|].
  assert (Hids : map r_metadata_id
                   (map (fun p => with_id (fst p) now
                                    (from_stats (fst (snd p)) (snd (snd p))))
                        (combine nums
                           (map (fun m => (m, summary_of start m (db s))) ids)))
                 = ids).
  { clear Hdb. revert nums Hlen.
    induction ids as [|m ids IH]; intros nums Hlen.
    - destruct nums; reflexivity.
    - destruct nums as [|n nums]; [discriminate|].
      cbn [map combine fst snd with_id from_stats r_metadata_id].
      f_equal. apply IH. now injection Hlen. }
  rewrite Hids. split; [|split; [|split]].
  - apply distinct_sorted_sorted.
  - intros m. symmetry. apply hour_rows_nonempty_id.
  - apply Forall_forall. intros r Hr. apply in_map_iff in Hr.
    destruct Hr as [[n [m d]] [<- Hin]]. apply in_combine_r in Hin.
    apply in_map_iff in Hin. destruct Hin as [m' [[= <- <-] _]].
    cbn [fst snd with_id from_stats r_start].
    unfold summary_of. destruct (latest_row (hour_rows start m' (db s)));
      reflexivity.
  - auto.
Qed.

(** [compile_hourly_statistics] appends to the long-term table and changes
    nothing else.  It appends one row for each series that has a short-term
    row in the hour of [start], in ascending order of the series, each
    starting at the hour; when the hour has no short-term row it appends
    nothing. *)
Theorem compile_hourly_statistics_appends :
  forall (now : Z) (start : datetime) (s : Session),
    let s' := snd (compile_hourly_statistics now start s) in
    exists rows,
      statistics (db s') = statistics (db s) ++ rows /\
      StronglySorted Z.lt (map r_metadata_id rows) /\
      (forall m, In m (map r_metadata_id rows) <->
                 hour_rows start m (db s) <> []) /\
      Forall (fun r => r_start r = instant (replace_minute start 0)) rows /\
      statistics_short_term (db s') = statistics_short_term (db s) /\
      statistics_meta (db s') = statistics_meta (db s) /\
      statistics_runs (db s') = statistics_runs (db s).
Proof. exact compile_hourly_statistics_rows. Qed.

(** ** The short-term compiler, table by table *)

(** The rollup leaves the short-term table, the metadata and the markers as
    they are. *)
Lemma compile_hourly_statistics_keeps (now : Z) (start : datetime)
    (s : Session) :
  statistics_short_term (db (snd (compile_hourly_statistics now start s)))
    = statistics_short_term (db s) /\
  statistics_meta (db (snd (compile_hourly_statistics now start s)))
    = statistics_meta (db s) /\
  statistics_runs (db (snd (compile_hourly_statistics now start s)))
    = statistics_runs (db s).
Proof.
  unfold compile_hourly_statistics.
  rewrite bind_run. cbn [emit fst snd]. rewrite bind_run.
  cbn [query fst snd db].
  match goal with |- context [for_each ?l ?b ?s0] =>
    destruct (for_each_session_add_db now Statistics b l s0)
      as [nums [Hlen Hdb]]; [now intros [k v] s'|]
  end.
  rewrite Hdb. cbn. auto.
Qed.

(** What the registered platforms compile for a period: their statistics,
    in the order of the platforms, and the metadata they know. *)
Definition compiled_by (platforms : list platform) (start end_ : datetime)
  : list PlatformCompiledStatistics :=
  flat_map (fun p : platform =>
              match p with
              | Some compile => [compile start end_]
              | None => []
              end) platforms.

Definition metadata_known_to (compiled : list PlatformCompiledStatistics)
  : metadata_dict :=
  fold_left (fun acc c => dict_update String.eqb acc (current_metadata c))
            compiled [].

(** The short-term row of a compiled statistic: its sample, filed under the
    id the platforms' metadata give for the series when they know it. *)
Definition short_term_row_of (now : Z) (metadata : metadata_dict)
    (st : StatisticResult) (row : StatRow) : Prop :=
  exists i metadata_id,
    row = with_id i now (from_stats metadata_id (sr_stat st)) /\
    forall known meta,
      dict_get String.eqb metadata (m_statistic_id (sr_meta st))
        = Some (known, meta) ->
      metadata_id = known.

Lemma compile_statistics_loop (now : Z) (metadata : metadata_dict)
    (stats : list StatisticResult) (s : Session) :
  let s' :=
    snd (for_each stats
           (fun st =>
              metadata_id <- _update_or_add_metadata (sr_meta st) metadata ;;
              _insert_statistics now StatisticsShortTerm metadata_id
                                 (sr_stat st)) s) in
  exists rows,
    statistics_short_term (db s') = statistics_short_term (db s) ++ rows /\
    Forall2 (short_term_row_of now metadata) stats rows /\
    statistics (db s') = statistics (db s) /\
    statistics_runs (db s') = statistics_runs (db s).
Proof.
  revert s. induction stats as [|st stats IH]; intros s.
  - exists []. cbn. rewrite app_nil_r. repeat split. constructor.
  - cbn [for_each]. cbv zeta. rewrite bind_run, bind_run.
    pose proof (update_or_add_metadata_frame (sr_meta st) metadata s)
      as [F1 [F2 F3]].
    pose proof (update_or_add_metadata_known (sr_meta st) metadata s) as Hid.
    destruct (_update_or_add_metadata (sr_meta st) metadata s)
      as [metadata_id s1]. cbn [fst snd] in *.
    destruct (IH (snd (_insert_statistics now StatisticsShortTerm metadata_id
                                          (sr_stat st) s1)))
      as [rows [Hrows [Hall [Hlong Hruns]]]].
    unfold _insert_statistics in *. rewrite session_add_db in *.
    cbn [rows_of set_rows statistics statistics_short_term statistics_runs]
      in *.
    eexists (_ :: rows). split; [|split; [|split]].
    + rewrite Hrows, F2, <- app_assoc. reflexivity.
    + constructor; [|exact Hall].
      eexists _, metadata_id. split; [reflexivity|].
      intros known meta Hget. now apply (Hid known meta).
    + now rewrite Hlong.
    + now rewrite Hruns.
Qed.

(** ** The unique index and the scope that is rolled back *)

(** The bucket of a row: its series and its start. *)
Definition bucket (r : StatRow) : Z * Z := (r_metadata_id r, r_start r).

Lemma same_bucket_bucket (a b : StatRow) :
  same_bucket a b = true <-> bucket a = bucket b.
Proof.
  clear_parameters.
  unfold same_bucket, bucket. rewrite andb_true_iff, !Z.eqb_eq.
  split; [intros [-> ->]; reflexivity | intros [= -> ->]; auto].
Qed.

Lemma firstn_skipn_appended {A : Type} (l a : list A) :
  firstn (length l) (l ++ a) = l /\ skipn (length l) (l ++ a) = a.
Proof.
  clear_parameters.
  induction l as [|x l [IH1 IH2]]; cbn; [auto|]. rewrite IH1. auto.
Qed.

Lemma integrity_error_appended (before after : Db) (long short : list StatRow) :
  statistics after = statistics before ++ long ->
  statistics_short_term after = statistics_short_term before ++ short ->
  integrity_error before after =
    collides (statistics before) long
    || collides (statistics_short_term before) short.
Proof.
  clear_parameters.
  intros Hlong Hshort. unfold integrity_error. cbn [existsb rows_of].
  rewrite Hlong, Hshort.
  destruct (firstn_skipn_appended (statistics before) long) as [-> ->].
  destruct (firstn_skipn_appended (statistics_short_term before) short)
    as [-> ->].
  now rewrite orb_false_r.
Qed.

(** No row collides when the buckets of the table and of the rows added to
    it are all different. *)
Lemma collides_NoDup (existing added : list StatRow) :
  NoDup (map bucket (existing ++ added)) -> collides existing added = false.
Proof.
  clear_parameters.
  revert existing. induction added as [|r added IH]; intros existing Hnd;
    cbn [collides]; [reflexivity|].
  rewrite (IH (existing ++ [r])); [|now rewrite <- app_assoc].
  rewrite orb_false_r.
  destruct (existsb (fun x => same_bucket x r) existing) eqn:E;
    [|reflexivity].
  apply existsb_exists in E. destruct E as [x [Hx Hb]].
  apply same_bucket_bucket in Hb.
  rewrite map_app in Hnd. cbn [map] in Hnd.
  apply NoDup_remove_2 in Hnd. exfalso. apply Hnd.
  apply in_or_app. left. rewrite <- Hb. now apply in_map.
Qed.

(** A row is added to a bucket that is taken. *)
Lemma collides_taken (existing before : list StatRow) (r : StatRow)
    (after : list StatRow) (x : StatRow) :
  In x (existing ++ before) -> same_bucket x r = true ->
  collides existing (before ++ r :: after) = true.
Proof.
  clear_parameters.
  revert existing. induction before as [|b before IH]; intros existing Hx Hb.
  - rewrite app_nil_r in Hx. cbn [app collides].
    apply orb_true_iff. left. apply existsb_exists. eauto.
  - cbn [app collides]. apply orb_true_iff. right.
    apply IH; [|assumption]. rewrite <- app_assoc. exact Hx.
Qed.

(** ** The second scope of a tick *)

(** The statements of the second scope of [compile_statistics], for a start
    that has been converted to UTC. *)
Definition compile_scope (now : Z) (platforms : list platform)
    (start : datetime) : M unit :=
  let compiled :=
    compiled_by platforms start (dt_add start (5 * US_PER_MINUTE)) in
  for_each (flat_map platform_stats compiled)
    (fun st =>
       metadata_id <- _update_or_add_metadata (sr_meta st)
                        (metadata_known_to compiled) ;;
       _insert_statistics now StatisticsShortTerm metadata_id (sr_stat st)) ;;
  (if dt_minute start =? 55
   then compile_hourly_statistics now start
   else ret tt) ;;
  add_run start.

Lemma compile_statistics_unmarked (now : Z) (platforms : list platform)
    (start : datetime) (s : Session) :
  (forall r, In r (statistics_runs (db s)) ->
             run_start r <> instant (as_utc start)) ->
  compile_statistics now platforms start s =
    (true,
     snd (session_scope_filtered
            (compile_scope now platforms (as_utc start))
            {| db := db s; trace := trace s ++ [EvScopeEnter; EvScopeExit] |})).
Proof.
  intros Hno. unfold compile_statistics.
  rewrite bind_run, session_scope_run. cbn [query fst snd db trace].
  destruct (find (fun r => run_start r =? instant (as_utc start))
                 (statistics_runs (db s))) eqn:Hfind.
  { apply find_some in Hfind. destruct Hfind as [Hin Heq].
    apply Z.eqb_eq in Heq. exfalso. exact (Hno _ Hin Heq). }
  rewrite bind_run. cbn [ret]. rewrite <- app_assoc. reflexivity.
Qed.

Lemma compile_statistics_marked (now : Z) (platforms : list platform)
    (start : datetime) (s : Session) :
  (exists r, In r (statistics_runs (db s)) /\
             run_start r = instant (as_utc start)) ->
  compile_statistics now platforms start s =
    (true, {| db := db s; trace := trace s ++ [EvScopeEnter; EvScopeExit] |}).
Proof.
  intros Hmarker.
  destruct (find_marker (instant (as_utc start)) (statistics_runs (db s))
              Hmarker) as [r Hr].
  unfold compile_statistics, session_scope, bind, query, emit, ret.
  cbn [fst snd db trace]. rewrite Hr. cbn [fst snd db trace].
  now rewrite <- app_assoc.
Qed.

Lemma hour_rows_table (start : datetime) (m : Z) (d d' : Db) :
  statistics_short_term d = statistics_short_term d' ->
  hour_rows start m d = hour_rows start m d'.
Proof. unfold hour_rows. now intros ->. Qed.


(** What the statements of a tick's second scope issue and leave in the
    session [s'] they are run in from [s]: the events of the metadata and
    short-term writes, of the rollup and of the marker; the short-term rows
    [rows], one for each compiled statistic; the long-term rows [added] of
    the rollup, which runs when the minute of the start is 55; the marker. *)
Definition tick_attempt (now : Z) (platforms : list platform)
    (start : datetime) (s s' : Session) (inserts hourly : list event)
    (rows added : list StatRow) (marker : RunRow) : Prop :=
  let compiled :=
    compiled_by platforms start (dt_add start (5 * US_PER_MINUTE)) in
  trace s' = trace s ++ inserts ++ hourly ++ [EvAddRun marker] /\
  Forall short_term_write inserts /\
  (dt_minute start = 55 ->
   exists adds, hourly = EvCompileHourly start :: adds /\
                Forall long_term_add adds) /\
  (dt_minute start <> 55 -> hourly = [] /\ added = []) /\
  statistics_short_term (db s') = statistics_short_term (db s) ++ rows /\
  Forall2 (short_term_row_of now (metadata_known_to compiled))
          (flat_map platform_stats compiled) rows /\
  statistics (db s') = statistics (db s) ++ added /\
  (dt_minute start = 55 ->
   StronglySorted Z.lt (map r_metadata_id added) /\
   (forall m, In m (map r_metadata_id added) <->
              hour_rows start m (db s') <> []) /\
   Forall (fun r => r_start r = instant (replace_minute start 0)) added) /\
  statistics_runs (db s') = statistics_runs (db s) ++ [marker] /\
  run_start marker = instant start.

Lemma compile_scope_run (now : Z) (platforms : list platform)
    (start : datetime) (s : Session) :
  exists inserts hourly rows added marker,
    tick_attempt now platforms start s
                 (snd (compile_scope now platforms start s))
                 inserts hourly rows added marker.
Proof.
  unfold tick_attempt. cbv zeta.
  set (compiled := compiled_by platforms start
                               (dt_add start (5 * US_PER_MINUTE))).
  unfold compile_scope. fold compiled.
  rewrite bind_run.
  match goal with |- context [for_each ?l ?b s] =>
    destruct (compile_statistics_loop now (metadata_known_to compiled) l s)
      as [rows [Hrows [Hall [Hlong Hruns]]]];
    assert (Hloop : emits short_term_write (for_each l b));
    [|destruct (Hloop s) as [inserts [Htr Hins]];
      set (s1 := snd (for_each l b s)) in *]
  end.
  { apply emits_for_each. intros st. apply emits_bind.
    - apply emits_update_or_add_metadata; intros; exact I.
    - intros i. apply emits_session_add. intros; exact I. }
  rewrite bind_run.
  destruct (Z.eqb_spec (dt_minute start) 55) as [E|E].
  - destruct (compile_hourly_statistics_trace now start s1)
      as [adds [Hh Hadds]].
    destruct (compile_hourly_statistics_rows now start s1)
      as [added [Hadded [Hsorted [Hmem [Hstart [Hst [_ Hr]]]]]]].
    set (s2 := snd (compile_hourly_statistics now start s1)) in *.
    rewrite add_run_run. cbn [snd db trace].
    cbn [statistics_short_term statistics statistics_runs set_runs].
    exists inserts, (EvCompileHourly start :: adds), rows, added.
    eexists. split; [|split; [|split; [|split; [|split; [|split;
      [|split; [|split; [|split]]]]]]]].
    + rewrite Hh, Htr. now rewrite <- !app_assoc.
    + exact Hins.
    + intros _. exists adds. auto.
    + intros H. contradiction.
    + now rewrite Hst, Hrows.
    + exact Hall.
    + now rewrite Hadded, Hlong.
    + intros _. split; [assumption|]. split; [|assumption].
      intros m. rewrite Hmem.
      match goal with |- _ <-> hour_rows _ _ ?d <> [] =>
        rewrite (hour_rows_table start m (db s1) d); [reflexivity|]
      end.
      cbn [statistics_short_term set_runs]. now rewrite Hst.
    + rewrite Hr, Hruns. reflexivity.
    + reflexivity.
  - rewrite add_run_run. cbn [ret snd db trace].
    cbn [statistics_short_term statistics statistics_runs set_runs].
    exists inserts, [], rows, [].
    eexists. split; [|split; [|split; [|split; [|split; [|split;
      [|split; [|split; [|split]]]]]]]].
    + rewrite Htr. cbn [app]. now rewrite <- app_assoc.
    + exact Hins.
    + intros H. contradiction.
    + auto.
    + exact Hrows.
    + exact Hall.
    + now rewrite app_nil_r, Hlong.
    + intros H. contradiction.
    + rewrite Hruns. reflexivity.
    + reflexivity.
Qed.

(** A tick for a period without a marker: the scope is committed unless a
    row it has added takes a bucket that is taken. *)
Lemma compile_statistics_scope (now : Z) (platforms : list platform)
    (start : datetime) (s : Session) :
  (forall r, In r (statistics_runs (db s)) ->
             run_start r <> instant (as_utc start)) ->
  let s0 := {| db := db s;
               trace := trace s ++ [EvScopeEnter; EvScopeExit; EvScopeEnter] |} in
  exists attempt inserts hourly rows added marker,
    tick_attempt now platforms (as_utc start) s0 attempt
                 inserts hourly rows added marker /\
    compile_statistics now platforms start s =
      (true,
       if collides (statistics (db s)) added
          || collides (statistics_short_term (db s)) rows
       then {| db := db s;
               trace := trace s ++ [EvScopeEnter; EvScopeExit;
                                    EvScopeEnter; EvRollback] |}
       else {| db := db attempt; trace := trace attempt ++ [EvScopeExit] |}).
Proof.
  intros Hno s0.
  destruct (compile_scope_run now platforms (as_utc start) s0)
    as [inserts [hourly [rows [added [marker Hrun]]]]].
  set (attempt := snd (compile_scope now platforms (as_utc start) s0)) in *.
  exists attempt, inserts, hourly, rows, added, marker.
  split; [exact Hrun|].
  destruct Hrun as [_ [_ [_ [_ [Hshort [_ [Hlong _]]]]]]].
  cbn [s0 db] in Hshort, Hlong.
  rewrite (compile_statistics_unmarked now platforms start s Hno).
  unfold session_scope_filtered. cbn [db trace snd].
  assert (Htrace : (trace s ++ [EvScopeEnter; EvScopeExit]) ++ [EvScopeEnter]
                   = trace s ++ [EvScopeEnter; EvScopeExit; EvScopeEnter])
    by now rewrite <- app_assoc.
  rewrite Htrace. fold s0. fold attempt.
  rewrite (integrity_error_appended (db s) (db attempt) added rows Hlong Hshort).
  destruct (collides (statistics (db s)) added
            || collides (statistics_short_term (db s)) rows);
    [|reflexivity].
  f_equal. f_equal. now rewrite <- app_assoc.
Qed.
(** ** C5: when the hourly rollup runs *)



(** ** A period is compiled once *)

(** A tick is all or nothing, and a period that has been compiled is not
    compiled again.  [compile_statistics] either leaves the store as it
    was, or leaves a marker for the period; after that a call for the
    period, by whatever platforms and at whatever time, answers [True] and
    writes nothing. *)
Theorem compile_statistics_twice :
  forall (now : Z) (platforms : list platform) (start : datetime) (s : Session),
    let s1 := snd (compile_statistics now platforms start s) in
    db s1 = db s \/
    ((exists r, In r (statistics_runs (db s1)) /\
                run_start r = instant (as_utc start)) /\
     forall (now' : Z) (platforms' : list platform),
       fst (compile_statistics now' platforms' start s1) = true /\
       db (snd (compile_statistics now' platforms' start s1)) = db s1 /\
       trace (snd (compile_statistics now' platforms' start s1)) =
         trace s1 ++ [EvScopeEnter; EvScopeExit]).
Proof.
  intros now platforms start s s1.
  assert (Hagain : (exists r, In r (statistics_runs (db s1)) /\
                              run_start r = instant (as_utc start)) ->
                   (exists r, In r (statistics_runs (db s1)) /\
                              run_start r = instant (as_utc start)) /\
                   forall (now' : Z) (platforms' : list platform),
                     fst (compile_statistics now' platforms' start s1) = true /\
                     db (snd (compile_statistics now' platforms' start s1))
                       = db s1 /\
                     trace (snd (compile_statistics now' platforms' start s1))
                       = trace s1 ++ [EvScopeEnter; EvScopeExit]).
  { intros Hmarker. split; [exact Hmarker|]. intros now' platforms'.
    rewrite (compile_statistics_marked now' platforms' start s1 Hmarker).
    cbn [fst snd db trace]. auto. }
  destruct (find (fun r => run_start r =? instant (as_utc start))
                 (statistics_runs (db s))) as [r|] eqn:Hfind.
  - apply find_some in Hfind. destruct Hfind as [Hin Hr].
    apply Z.eqb_eq in Hr. left. unfold s1.
    rewrite (compile_statistics_marked now platforms start s); [reflexivity|].
    eauto.
  - assert (Hno : forall r, In r (statistics_runs (db s)) ->
                            run_start r <> instant (as_utc start)).
    { intros r Hin Hr. apply (find_none _ _ Hfind) in Hin.
      rewrite Hr, Z.eqb_refl in Hin. discriminate. }
    destruct (compile_statistics_scope now platforms start s Hno)
      as [attempt [inserts [hourly [short [added [marker [Hrun Heq]]]]]]].
    unfold s1 in *. rewrite Heq in *. cbn [snd] in *.
    destruct (collides (statistics (db s)) added
              || collides (statistics_short_term (db s)) short).
    + left. reflexivity.
    + right. apply Hagain. cbn [db].
      destruct Hrun as [_ [_ [_ [_ [_ [_ [_ [_ [Hruns Hstart]]]]]]]]].
      exists marker. split; [|exact Hstart].
      rewrite Hruns. apply in_or_app. right. now left.
Qed.

(** ** The short-term compiler, table by table *)

(** ** The importer, sample by sample *)

(** One round of the importer's loop. *)
Definition import_sample (now metadata_id : Z) (stat : StatisticData)
  : M unit :=
  found <- query (_statistics_exists Statistics metadata_id (d_start stat)) ;;
  match found with
  | Some stat_id =>
      if stat_id =? 0
      then _insert_statistics now Statistics metadata_id stat
      else _update_statistics Statistics stat_id stat
  | None => _insert_statistics now Statistics metadata_id stat
  end.

Lemma next_id_fresh (ids : list Z) :
  0 < next_id ids /\ forall i, In i ids -> i < next_id ids.
Proof.
  clear_parameters.
  unfold next_id. induction ids as [|x ids [IH1 IH2]]; cbn [fold_right].
  - split; [lia|]. intros i [].
  - split; [lia|]. intros i [<-|Hi]; [lia|]. specialize (IH2 i Hi). lia.
Qed.

(** On a table without a zero id, a round rewrites the row found for the
    bucket of the sample, or appends a row when there is none; the other
    tables stay. *)
Lemma import_sample_db (now metadata_id : Z) (stat : StatisticData)
    (s : Session) :
  (forall r, In r (statistics (db s)) -> r_id r <> 0) ->
  db (snd (import_sample now metadata_id stat s)) =
    set_rows Statistics
      match find (fun r => (r_metadata_id r =? metadata_id)
                           && (r_start r =? instant (d_start stat)))
                 (statistics (db s)) with
      | Some found =>
          map (update_stat_row (r_id found) stat) (statistics (db s))
      | None =>
          statistics (db s)
          ++ [with_id (next_id (map r_id (statistics (db s)))) now
                      (from_stats metadata_id stat)]
      end
      (db s).
Proof.
  intros Hids. unfold import_sample. rewrite bind_run.
  unfold query, _statistics_exists. cbn [fst snd db rows_of].
  destruct (find (fun r => (r_metadata_id r =? metadata_id)
                           && (r_start r =? instant (d_start stat)))
                 (statistics (db s))) as [found|] eqn:Hfind;
    cbn [option_map].
  - apply find_some in Hfind. destruct Hfind as [Hin _].
    destruct (Z.eqb_spec (r_id found) 0) as [E|E];
      [exfalso; exact (Hids _ Hin E)|].
    reflexivity.
  - reflexivity.
Qed.

Lemma update_stat_row_bucket (stat_id : Z) (stat : StatisticData) (r : StatRow) :
  bucket (update_stat_row stat_id stat r) = bucket r /\
  r_id (update_stat_row stat_id stat r) = r_id r.
Proof.
  unfold update_stat_row. destruct (r_id r =? stat_id); split; reflexivity.
Qed.

Lemma map_update_stat_row (stat_id : Z) (stat : StatisticData)
    (rows : list StatRow) :
  map bucket (map (update_stat_row stat_id stat) rows) = map bucket rows /\
  map r_id (map (update_stat_row stat_id stat) rows) = map r_id rows.
Proof.
  rewrite !map_map. split; apply map_ext; intros r;
    apply update_stat_row_bucket.
Qed.

Lemma NoDup_snoc {A : Type} (l : list A) (x : A) :
  NoDup l -> ~ In x l -> NoDup (l ++ [x]).
Proof.
  intros Hl Hx. apply NoDup_app; [assumption|repeat constructor; intros []|].
  intros a Ha [<-|[]]. contradiction.
Qed.

(** The importer's loop keeps a long-term table free of duplicate buckets
    and of zero ids. *)
Lemma import_loop_buckets (now metadata_id : Z) (stats : list StatisticData)
    (s : Session) :
  NoDup (map bucket (statistics (db s))) ->
  (forall r, In r (statistics (db s)) -> r_id r <> 0) ->
  let s' := snd (for_each stats (import_sample now metadata_id) s) in
  NoDup (map bucket (statistics (db s'))) /\
  (forall r, In r (statistics (db s')) -> r_id r <> 0) /\
  statistics_short_term (db s') = statistics_short_term (db s).
Proof.
  revert s. induction stats as [|stat stats IH]; intros s Hnd Hids; cbn zeta.
  - cbn. auto.
  - cbn [for_each]. rewrite bind_run.
    pose proof (import_sample_db now metadata_id stat s Hids) as Hdb.
    set (s1 := snd (import_sample now metadata_id stat s)) in *.
    assert (H1 : NoDup (map bucket (statistics (db s1))) /\
                 (forall r, In r (statistics (db s1)) -> r_id r <> 0) /\
                 statistics_short_term (db s1) = statistics_short_term (db s)).
    { rewrite Hdb. cbn [set_rows statistics statistics_short_term].
      destruct (find (fun r => (r_metadata_id r =? metadata_id)
                               && (r_start r =? instant (d_start stat)))
                     (statistics (db s))) as [found|] eqn:Hfind.
      - destruct (map_update_stat_row (r_id found) stat (statistics (db s)))
          as [Hb Hi].
        rewrite Hb. split; [assumption|]. split; [|reflexivity].
        intros r Hr. apply in_map_iff in Hr. destruct Hr as [r0 [<- Hr0]].
        rewrite (proj2 (update_stat_row_bucket _ _ _)). auto.
      - split; [|split; [|reflexivity]].
        + rewrite map_app. cbn [map]. apply NoDup_snoc; [assumption|].
          intros Hin. apply in_map_iff in Hin. destruct Hin as [r [Hr Hin]].
          apply (find_none _ _ Hfind) in Hin.
          unfold bucket in Hr. cbn in Hr. injection Hr as Hm Hs.
          rewrite Hm, Hs, !Z.eqb_refl in Hin. discriminate.
        + intros r Hr. apply in_app_iff in Hr. destruct Hr as [Hr|[<-|[]]];
            [auto|]. cbn [with_id r_id].
          pose proof (next_id_fresh (map r_id (statistics (db s)))) as [Hpos _].
          clear - Hpos. clear_parameters. lia. }
    destruct H1 as [Hnd1 [Hids1 Hst1]].
    destruct (IH s1 Hnd1 Hids1) as [R1 [R2 R3]].
    split; [assumption|]. split; [assumption|]. now rewrite R3.
Qed.

(** The importer adds a row to a bucket only when the table has none
    there, so its scope does not fail on the index. *)
Lemma existsb_buckets (r : StatRow) (l : list StatRow) :
  existsb (fun x => same_bucket x r) l =
    existsb (fun b => (fst b =? r_metadata_id r) && (snd b =? r_start r))
            (map bucket l).
Proof.
  clear_parameters. induction l as [|x l IH]; cbn; [reflexivity|].
  now rewrite IH.
Qed.

Lemma collides_buckets (e e' a a' : list StatRow) :
  map bucket e = map bucket e' -> map bucket a = map bucket a' ->
  collides e a = collides e' a'.
Proof.
  clear_parameters.
  revert e e' a'. induction a as [|r a IH]; intros e e' a' He Ha;
    destruct a' as [|r' a']; try discriminate; [reflexivity|].
  cbn [map] in Ha. injection Ha as Hm Hs Ha. cbn [collides].
  rewrite !existsb_buckets, He, Hm, Hs.
  f_equal. apply IH; [|assumption].
  rewrite !map_app. cbn [map]. unfold bucket at 2 4. now rewrite He, Hm, Hs.
Qed.

Lemma collides_snoc (e a : list StatRow) (r : StatRow) :
  collides e (a ++ [r]) =
    collides e a || existsb (fun x => same_bucket x r) (e ++ a).
Proof.
  clear_parameters.
  revert e. induction a as [|x a IH]; intros e; cbn [app collides].
  - rewrite app_nil_r. now rewrite orb_false_r.
  - rewrite IH, <- app_assoc. cbn [app]. now rewrite orb_assoc.
Qed.

Lemma find_none_existsb {A : Type} (p : A -> bool) (l : list A) :
  find p l = None -> existsb p l = false.
Proof.
  clear_parameters. induction l as [|x l IH]; cbn; [reflexivity|].
  destruct (p x); [discriminate|]. exact IH.
Qed.

Lemma import_loop_index (now metadata_id : Z) (stats : list StatisticData)
    (s : Session) (n : nat) :
  (forall r, In r (statistics (db s)) -> r_id r <> 0) ->
  (n <= length (statistics (db s)))%nat ->
  collides (firstn n (statistics (db s))) (skipn n (statistics (db s)))
    = false ->
  let s' := snd (for_each stats (import_sample now metadata_id) s) in
  collides (firstn n (statistics (db s'))) (skipn n (statistics (db s')))
    = false /\
  statistics_short_term (db s') = statistics_short_term (db s).
Proof.
  revert s. induction stats as [|stat stats IH];
    intros s Hids Hn Hfree; cbn zeta.
  - cbn. auto.
  - cbn [for_each]. rewrite bind_run.
    pose proof (import_sample_db now metadata_id stat s Hids) as Hdb.
    set (s1 := snd (import_sample now metadata_id stat s)) in *.
    assert (H1 : (forall r, In r (statistics (db s1)) -> r_id r <> 0) /\
                 (n <= length (statistics (db s1)))%nat /\
                 collides (firstn n (statistics (db s1)))
                          (skipn n (statistics (db s1))) = false /\
                 statistics_short_term (db s1) = statistics_short_term (db s)).
    { rewrite Hdb. cbn [set_rows statistics statistics_short_term].
      destruct (find (fun r => (r_metadata_id r =? metadata_id)
                               && (r_start r =? instant (d_start stat)))
                     (statistics (db s))) as [found|] eqn:Hfind.
      - split; [|split; [|split; [|reflexivity]]].
        + intros r Hr. apply in_map_iff in Hr. destruct Hr as [r0 [<- Hr0]].
          rewrite (proj2 (update_stat_row_bucket _ _ _)). auto.
        + now rewrite length_map.
        + rewrite firstn_map, skipn_map. rewrite <- Hfree.
          apply collides_buckets; apply map_update_stat_row.
      - split; [|split; [|split; [|reflexivity]]].
        + intros r Hr. apply in_app_iff in Hr. destruct Hr as [Hr|[<-|[]]];
            [auto|]. cbn [with_id r_id].
          pose proof (next_id_fresh (map r_id (statistics (db s)))) as [Hpos _].
          clear - Hpos. clear_parameters. lia.
        + rewrite length_app. clear - Hn. clear_parameters. lia.
        + rewrite firstn_app, skipn_app.
          replace (n - length (statistics (db s)))%nat with 0%nat
            by (clear - Hn; clear_parameters; lia).
          cbn [firstn skipn]. rewrite app_nil_r, collides_snoc, Hfree.
          rewrite firstn_skipn. cbn [orb].
          rewrite <- (find_none_existsb _ _ Hfind). reflexivity. }
    destruct H1 as [Hids1 [Hn1 [Hfree1 Hst1]]].
    destruct (IH s1 Hids1 Hn1 Hfree1) as [R1 R2].
    split; [assumption|]. now rewrite R2.
Qed.

Lemma add_external_statistics_run (now : Z) (metadata : StatisticMetaData)
    (stats : list StatisticData) (s : Session) :
  (forall r, In r (statistics (db s)) -> r_id r <> 0) ->
  let fetch :=
    get_metadata_with_session (Some [m_statistic_id metadata]) None None in
  let s0 := {| db := db s; trace := trace s ++ [EvScopeEnter] |} in
  let r := _update_or_add_metadata metadata (fetch (db s)) s0 in
  add_external_statistics now metadata stats s =
    (true,
     {| db := db (snd (for_each stats (import_sample now (fst r)) (snd r)));
        trace := trace (snd (for_each stats (import_sample now (fst r))
                                      (snd r)))
                 ++ [EvScopeExit] |}).
Proof.
  intros Hids. cbv zeta. unfold add_external_statistics.
  rewrite bind_run. unfold session_scope_filtered. cbn [fst snd ret].
  rewrite bind_run. cbn [query fst snd db]. rewrite bind_run.
  match goal with |- context [_update_or_add_metadata ?m ?o ?s0] =>
    pose proof (update_or_add_metadata_frame m o s0) as [F1 [F2 _]];
    destruct (_update_or_add_metadata m o s0) as [metadata_id s1]
  end.
  cbn [fst snd db] in *.
  fold (import_sample now metadata_id).
  destruct (import_loop_index now metadata_id stats s1
              (length (statistics (db s)))) as [Hfree Hshort].
  - now rewrite F1.
  - now rewrite F1.
  - rewrite F1, firstn_all, skipn_all. reflexivity.
  - unfold integrity_error. cbn [existsb rows_of].
    rewrite Hfree, Hshort, F2, firstn_all, skipn_all. reflexivity.
Qed.

(** The importer never makes a duplicate: on a long-term table in which no
    two rows share a bucket and no id is zero, [add_external_statistics]
    leaves a table of which the same is true, and it does not touch the
    short-term table. *)
Theorem add_external_statistics_no_duplicates :
  forall (now : Z) (metadata : StatisticMetaData) (stats : list StatisticData)
         (s : Session),
    NoDup (map bucket (statistics (db s))) ->
    (forall r, In r (statistics (db s)) -> r_id r <> 0) ->
    let s' := snd (add_external_statistics now metadata stats s) in
    NoDup (map bucket (statistics (db s'))) /\
    (forall r, In r (statistics (db s')) -> r_id r <> 0) /\
    statistics_short_term (db s') = statistics_short_term (db s).
Proof.
  intros now metadata stats s Hnd Hids s'. subst s'.
  rewrite (add_external_statistics_run now metadata stats s Hids).
  cbn [snd db].
  match goal with |- context [_update_or_add_metadata ?m ?o ?s0] =>
    pose proof (update_or_add_metadata_frame m o s0) as [F1 [F2 F3]];
    destruct (_update_or_add_metadata m o s0) as [metadata_id s1]
  end.
  cbn [fst snd db] in *.
  destruct (import_loop_buckets now metadata_id stats s1) as [R1 [R2 R3]].
  - now rewrite F1.
  - now rewrite F1.
  - split; [assumption|]. split; [assumption|]. now rewrite R3, F2.
Qed.

(** A row that holds a sample of the series [metadata_id]: all its columns
    but the id and the time of creation are those of the sample. *)
Definition holds_sample (metadata_id : Z) (sample : StatisticData)
    (row : StatRow) : Prop :=
  row = with_id (r_id row) (r_created row) (from_stats metadata_id sample).

Lemma import_loop_holds (now metadata_id : Z) (stats : list StatisticData)
    (s : Session) :
  NoDup (map r_id (statistics (db s))) ->
  (forall r, In r (statistics (db s)) -> r_id r <> 0) ->
  NoDup (map (fun sample => instant (d_start sample)) stats) ->
  let s' := snd (for_each stats (import_sample now metadata_id) s) in
  statistics_meta (db s') = statistics_meta (db s) /\
  (forall row, In row (statistics (db s)) ->
     (forall sample, In sample stats ->
        bucket row <> (metadata_id, instant (d_start sample))) ->
     In row (statistics (db s'))) /\
  (forall sample, In sample stats ->
     exists row, In row (statistics (db s')) /\
                 holds_sample metadata_id sample row).
Proof.
  revert s. induction stats as [|stat stats IH];
    intros s Hnd Hids Hstarts; cbn zeta.
  - cbn. split; [reflexivity|]. split; [auto|]. intros sample [].
  - cbn [for_each]. rewrite bind_run.
    pose proof (import_sample_db now metadata_id stat s Hids) as Hdb.
    set (s1 := snd (import_sample now metadata_id stat s)) in *.
    cbn [map] in Hstarts. inversion Hstarts as [|? ? Hfresh Hstarts']; subst.
    assert (H1 : NoDup (map r_id (statistics (db s1))) /\
                 (forall r, In r (statistics (db s1)) -> r_id r <> 0) /\
                 statistics_meta (db s1) = statistics_meta (db s) /\
                 (forall row, In row (statistics (db s)) ->
                    bucket row <> (metadata_id, instant (d_start stat)) ->
                    In row (statistics (db s1))) /\
                 exists row, In row (statistics (db s1)) /\
                             holds_sample metadata_id stat row).
    { rewrite Hdb. cbn [set_rows statistics statistics_meta].
      destruct (find (fun r => (r_metadata_id r =? metadata_id)
                               && (r_start r =? instant (d_start stat)))
                     (statistics (db s))) as [found|] eqn:Hfind.
      - apply find_some in Hfind. destruct Hfind as [Hin Hmatch].
        apply andb_prop in Hmatch. destruct Hmatch as [Hm Hs].
        apply Z.eqb_eq in Hm, Hs.
        destruct (map_update_stat_row (r_id found) stat (statistics (db s)))
          as [_ Hi].
        rewrite Hi. split; [assumption|]. split; [|split; [reflexivity|split]].
        + intros r Hr. apply in_map_iff in Hr. destruct Hr as [r0 [<- Hr0]].
          rewrite (proj2 (update_stat_row_bucket _ _ _)). auto.
        + intros row Hrow Hb. apply in_map_iff. exists row.
          split; [|assumption]. unfold update_stat_row.
          destruct (Z.eqb_spec (r_id row) (r_id found)) as [E|E];
            [|reflexivity].
          exfalso. apply Hb.
          rewrite (NoDup_map_inj r_id _ _ _ Hnd Hrow Hin E).
          unfold bucket. now rewrite Hm, Hs.
        + exists (update_stat_row (r_id found) stat found). split.
          * now apply in_map.
          * unfold holds_sample, update_stat_row. rewrite Z.eqb_refl.
            cbn [with_id from_stats r_id r_created]. now rewrite Hm, Hs.
      - pose proof (next_id_fresh (map r_id (statistics (db s))))
          as [Hpos Hlt].
        split; [|split; [|split; [reflexivity|split]]].
        + rewrite map_app. cbn [map with_id r_id].
          apply NoDup_snoc; [assumption|]. intros Hin.
          specialize (Hlt _ Hin). clear - Hlt. clear_parameters. lia.
        + intros r Hr. apply in_app_iff in Hr. destruct Hr as [Hr|[<-|[]]];
            [auto|]. cbn [with_id r_id]. clear - Hpos. clear_parameters. lia.
        + intros row Hrow _. apply in_or_app. now left.
        + eexists. split; [apply in_or_app; right; now left|].
          reflexivity. }
    destruct H1 as [Hnd1 [Hids1 [Hmeta1 [Hkeep1 [row [Hrow Hholds]]]]]].
    destruct (IH s1 Hnd1 Hids1 Hstarts') as [Rmeta [Rkeep Rall]].
    split; [now rewrite Rmeta|]. split.
    + intros r Hr Hb. apply Rkeep.
      * apply Hkeep1; [assumption|]. apply Hb. now left.
      * intros sample Hsample. apply Hb. now right.
    + intros sample [<-|Hsample]; [|now apply Rall].
      exists row. split; [|assumption]. apply Rkeep; [assumption|].
      intros sample Hsample Hb. apply Hfresh.
      apply in_map_iff. exists sample. split; [|assumption].
      rewrite Hholds in Hb. unfold bucket in Hb.
      cbn [with_id from_stats r_metadata_id r_start] in Hb. congruence.
Qed.

(** What has been imported can be read back.  On a long-term table whose ids
    are unique and not zero, after [add_external_statistics] of samples with
    different starts the series is known under an id, and for every sample
    the table has a row of that id that holds it. *)
Theorem add_external_statistics_read_back :
  forall (now : Z) (metadata : StatisticMetaData) (stats : list StatisticData)
         (s : Session),
    NoDup (map r_id (statistics (db s))) ->
    (forall r, In r (statistics (db s)) -> r_id r <> 0) ->
    NoDup (map (fun sample => instant (d_start sample)) stats) ->
    let s' := snd (add_external_statistics now metadata stats s) in
    exists metadata_id stored,
      dict_get String.eqb
        (get_metadata_with_session (Some [m_statistic_id metadata]) None None
                                   (db s'))
        (m_statistic_id metadata) = Some (metadata_id, stored) /\
      forall sample, In sample stats ->
        exists row, In row (statistics (db s')) /\
                    holds_sample metadata_id sample row.
Proof.
  intros now metadata stats s Hnd Hids Hstarts s'. subst s'.
  rewrite (add_external_statistics_run now metadata stats s Hids).
  cbn [snd db].
  match goal with |- context [_update_or_add_metadata ?m ?o ?s0] =>
    pose proof (update_or_add_metadata_frame m o s0) as [F1 _];
    pose proof (update_or_add_metadata_stored m s0) as Hstored
  end.
  cbv zeta in Hstored. cbn [db] in Hstored.
  destruct Hstored as [stored [Hget _]].
  match goal with |- context [_update_or_add_metadata ?m ?o ?s0] =>
    destruct (_update_or_add_metadata m o s0) as [metadata_id s1]
  end.
  cbn [fst snd db] in *.
  destruct (import_loop_holds now metadata_id stats s1) as [Rmeta [_ Rall]];
    try (now rewrite F1); try assumption.
  exists metadata_id, stored. split; [|exact Rall].
  unfold get_metadata_with_session in *. now rewrite Rmeta.
Qed.

(** ** C10: external statistics are normalised to UTC before they are queued *)

(** The importer's loop, bucket by bucket.  Every sample has a row at its
    bucket afterwards; a row of the table is then either a row that was
    there, as it was, or a row at the bucket of a sample; and no bucket is
    lost. *)
Lemma import_loop_rows (now metadata_id : Z) (stats : list StatisticData)
    (s : Session) :
  NoDup (map r_id (statistics (db s))) ->
  (forall r, In r (statistics (db s)) -> r_id r <> 0) ->
  let s' := snd (for_each stats (import_sample now metadata_id) s) in
  (forall sample, In sample stats ->
     exists row, In row (statistics (db s')) /\
                 bucket row = (metadata_id, instant (d_start sample))) /\
  (forall row, In row (statistics (db s')) ->
     In row (statistics (db s)) \/
     exists sample, In sample stats /\
                    bucket row = (metadata_id, instant (d_start sample))) /\
  (forall row, In row (statistics (db s)) ->
     exists row', In row' (statistics (db s')) /\ bucket row' = bucket row).
Proof.
  revert s. induction stats as [|stat stats IH]; intros s Hnd Hids; cbn zeta.
  - cbn. split; [intros sample []|]. split; [auto|]. eauto.
  - cbn [for_each]. rewrite bind_run.
    pose proof (import_sample_db now metadata_id stat s Hids) as Hdb.
    set (s1 := snd (import_sample now metadata_id stat s)) in *.
    assert (H1 : NoDup (map r_id (statistics (db s1))) /\
                 (forall r, In r (statistics (db s1)) -> r_id r <> 0) /\
                 (exists row, In row (statistics (db s1)) /\
                    bucket row = (metadata_id, instant (d_start stat))) /\
                 (forall row, In row (statistics (db s1)) ->
                    In row (statistics (db s)) \/
                    bucket row = (metadata_id, instant (d_start stat))) /\
                 (forall row, In row (statistics (db s)) ->
                    exists row', In row' (statistics (db s1)) /\
                                 bucket row' = bucket row)).
    { rewrite Hdb. cbn [set_rows statistics].
      destruct (find (fun r => (r_metadata_id r =? metadata_id)
                               && (r_start r =? instant (d_start stat)))
                     (statistics (db s))) as [found|] eqn:Hfind.
      - apply find_some in Hfind. destruct Hfind as [Hin Hmatch].
        apply andb_prop in Hmatch. destruct Hmatch as [Hm Hs].
        apply Z.eqb_eq in Hm, Hs.
        assert (Hfound : bucket found = (metadata_id, instant (d_start stat)))
          by (unfold bucket; now rewrite Hm, Hs).
        destruct (map_update_stat_row (r_id found) stat (statistics (db s)))
          as [_ Hi].
        rewrite Hi. split; [assumption|].
        split; [|split; [|split]].
        + intros r Hr. apply in_map_iff in Hr. destruct Hr as [r0 [<- Hr0]].
          rewrite (proj2 (update_stat_row_bucket _ _ _)). auto.
        + exists (update_stat_row (r_id found) stat found). split.
          * now apply in_map.
          * now rewrite (proj1 (update_stat_row_bucket _ _ _)).
        + intros row Hrow. apply in_map_iff in Hrow.
          destruct Hrow as [r0 [<- Hr0]].
          destruct (Z.eqb_spec (r_id r0) (r_id found)) as [E|E].
          * right. rewrite (proj1 (update_stat_row_bucket _ _ _)).
            rewrite (NoDup_map_inj r_id _ _ _ Hnd Hr0 Hin E). exact Hfound.
          * left. unfold update_stat_row.
            destruct (Z.eqb_spec (r_id r0) (r_id found)); [contradiction|].
            exact Hr0.
        + intros row Hrow. exists (update_stat_row (r_id found) stat row).
          split; [now apply in_map|].
          apply update_stat_row_bucket.
      - pose proof (next_id_fresh (map r_id (statistics (db s))))
          as [Hpos Hlt].
        split; [|split; [|split; [|split]]].
        + rewrite map_app. cbn [map with_id r_id].
          apply NoDup_snoc; [assumption|]. intros Hin.
          specialize (Hlt _ Hin). clear - Hlt. clear_parameters. lia.
        + intros r Hr. apply in_app_iff in Hr. destruct Hr as [Hr|[<-|[]]];
            [auto|]. cbn [with_id r_id]. clear - Hpos. clear_parameters. lia.
        + eexists. split; [apply in_or_app; right; now left|]. reflexivity.
        + intros row Hrow. apply in_app_iff in Hrow.
          destruct Hrow as [Hrow|[<-|[]]]; [now left|]. right. reflexivity.
        + intros row Hrow. exists row. split; [|reflexivity].
          apply in_or_app. now left. }
    destruct H1 as [Hnd1 [Hids1 [[row1 [Hrow1 Hb1]] [Hfrom1 Hkeep1]]]].
    destruct (IH s1 Hnd1 Hids1) as [Rall [Rfrom Rkeep]].
    split; [|split].
    + intros sample [<-|Hsample]; [|now apply Rall].
      destruct (Rkeep row1 Hrow1) as [row' [Hrow' Hb']].
      exists row'. split; [assumption|]. now rewrite Hb'.
    + intros row Hrow. destruct (Rfrom row Hrow) as [H|[sample [Hs Hb]]].
      * destruct (Hfrom1 row H) as [H'|H']; [now left|].
        right. exists stat. split; [now left|assumption].
      * right. exists sample. split; [now right|assumption].
    + intros row Hrow. destruct (Hkeep1 row Hrow) as [row' [Hrow' Hb']].
      destruct (Rkeep row' Hrow') as [row'' [Hrow'' Hb'']].
      exists row''. split; [assumption|]. now rewrite Hb''.
Qed.

(** The loop leaves the metadata alone. *)
Lemma import_loop_meta (now metadata_id : Z) (stats : list StatisticData)
    (s : Session) :
  statistics_meta (db (snd (for_each stats (import_sample now metadata_id) s)))
    = statistics_meta (db s).
Proof.
  revert s. induction stats as [|stat stats IH]; intros s; [reflexivity|].
  cbn [for_each]. rewrite bind_run, IH.
  unfold import_sample. rewrite bind_run. cbn [query fst snd].
  destruct (_statistics_exists Statistics metadata_id (d_start stat) (db s))
    as [stat_id|]; [destruct (stat_id =? 0)|]; reflexivity.
Qed.

(** A row at the bucket of no sample stays as it is. *)
Lemma import_loop_keep (now metadata_id : Z) (stats : list StatisticData)
    (s : Session) :
  NoDup (map r_id (statistics (db s))) ->
  (forall r, In r (statistics (db s)) -> r_id r <> 0) ->
  forall row, In row (statistics (db s)) ->
    (forall sample, In sample stats ->
       bucket row <> (metadata_id, instant (d_start sample))) ->
    In row (statistics (db (snd (for_each stats
                                   (import_sample now metadata_id) s)))).
Proof.
  revert s. induction stats as [|stat stats IH];
    intros s Hnd Hids row Hrow Hother.
  - exact Hrow.
  - cbn [for_each]. rewrite bind_run.
    pose proof (import_sample_db now metadata_id stat s Hids) as Hdb.
    set (s1 := snd (import_sample now metadata_id stat s)) in *.
    assert (H1 : NoDup (map r_id (statistics (db s1))) /\
                 (forall r, In r (statistics (db s1)) -> r_id r <> 0) /\
                 In row (statistics (db s1))).
    { rewrite Hdb. cbn [set_rows statistics].
      destruct (find (fun r => (r_metadata_id r =? metadata_id)
                               && (r_start r =? instant (d_start stat)))
                     (statistics (db s))) as [found|] eqn:Hfind.
      - apply find_some in Hfind. destruct Hfind as [Hin Hmatch].
        apply andb_prop in Hmatch. destruct Hmatch as [Hm Hs].
        apply Z.eqb_eq in Hm, Hs.
        destruct (map_update_stat_row (r_id found) stat (statistics (db s)))
          as [_ Hi].
        rewrite Hi. split; [assumption|]. split.
        + intros r Hr. apply in_map_iff in Hr. destruct Hr as [r0 [<- Hr0]].
          rewrite (proj2 (update_stat_row_bucket _ _ _)). auto.
        + apply in_map_iff. exists row. split; [|assumption].
          unfold update_stat_row.
          destruct (Z.eqb_spec (r_id row) (r_id found)) as [E|E];
            [|reflexivity].
          exfalso. apply (Hother stat); [now left|].
          rewrite (NoDup_map_inj r_id _ _ _ Hnd Hrow Hin E).
          unfold bucket. now rewrite Hm, Hs.
      - pose proof (next_id_fresh (map r_id (statistics (db s))))
          as [Hpos Hlt].
        split; [|split].
        + rewrite map_app. cbn [map with_id r_id].
          apply NoDup_snoc; [assumption|]. intros Hin.
          specialize (Hlt _ Hin). clear - Hlt. clear_parameters. lia.
        + intros r Hr. apply in_app_iff in Hr. destruct Hr as [Hr|[<-|[]]];
            [auto|]. cbn [with_id r_id]. clear - Hpos. clear_parameters. lia.
        + apply in_or_app. now left. }
    destruct H1 as [Hnd1 [Hids1 Hrow1]].
    apply (IH s1 Hnd1 Hids1 row Hrow1).
    intros sample Hsample. apply Hother. now right.
Qed.

(** C10.  A submission that passes validation leaves every sample with its
    start replaced by [as_utc] of it, and queues one job holding the metadata
    and those samples.  The importer, run on that job over a long-term table
    whose ids are unique and not zero, answers [True] and leaves the series
    known under an id, with a row for every sample at the instant of the
    converted start.  A row of the table is then a row that was there, as it
    was, or a row of the series at the converted start of a sample; a row
    that was there at another bucket stays; and when the converted starts
    differ every sample is held by a row.  A submission that does not pass
    raises, and the queue is as before. *)
Theorem async_add_external_statistics_utc :
  forall (metadata : StatisticMetaData) (stats : list StatisticData)
         (queue : list external_statistics_job),
    (passes_validation metadata stats ->
     async_add_external_statistics metadata stats queue =
       (None, map normalize_start stats,
        queue ++ [{| job_metadata := metadata;
                     job_statistics := map normalize_start stats |}]) /\
     forall (now : Z) (s : Session),
       NoDup (map r_id (statistics (db s))) ->
       (forall r, In r (statistics (db s)) -> r_id r <> 0) ->
       let stored_at := fun sample => instant (as_utc (d_start sample)) in
       let s' := snd (add_external_statistics now metadata
                        (map normalize_start stats) s) in
       fst (add_external_statistics now metadata
              (map normalize_start stats) s) = true /\
       exists metadata_id stored,
         dict_get String.eqb
           (get_metadata_with_session (Some [m_statistic_id metadata])
                                      None None (db s'))
           (m_statistic_id metadata) = Some (metadata_id, stored) /\
         (forall sample, In sample stats ->
            exists row, In row (statistics (db s')) /\
                        bucket row = (metadata_id, stored_at sample)) /\
         (forall row, In row (statistics (db s')) ->
            In row (statistics (db s)) \/
            exists sample, In sample stats /\
                           bucket row = (metadata_id, stored_at sample)) /\
         (forall row, In row (statistics (db s)) ->
            (forall sample, In sample stats ->
               bucket row <> (metadata_id, stored_at sample)) ->
            In row (statistics (db s'))) /\
         (NoDup (map stored_at stats) ->
          forall sample, In sample stats ->
            exists row, In row (statistics (db s')) /\
                        holds_sample metadata_id (normalize_start sample) row)) /\
    (~ passes_validation metadata stats ->
     exists e,
       fst (fst (async_add_external_statistics metadata stats queue)) = Some e /\
       snd (async_add_external_statistics metadata stats queue) = queue).
Proof.
  intros metadata stats queue. split.
  - intros [Hid [[Hne [obj Hobj]] Hst]]. split.
    { unfold async_add_external_statistics. rewrite Hid. simpl.
      rewrite Hobj in Hid |- *. rewrite (split_of_valid _ _ Hid).
      rewrite String.eqb_refl. simpl.
      destruct (String.eqb_spec (m_source metadata) EmptyString) as [E|E];
        [contradiction|]. simpl.
      rewrite (check_statistics_valid _ Hst). reflexivity. }
    intros now s Hnd Hids stored_at s'. subst s'.
    rewrite (add_external_statistics_run now metadata
               (map normalize_start stats) s Hids).
    cbn [fst snd db]. split; [reflexivity|].
    match goal with |- context [_update_or_add_metadata ?m ?o ?s0] =>
      pose proof (update_or_add_metadata_frame m o s0) as [F1 _];
      pose proof (update_or_add_metadata_stored m s0) as Hstored
    end.
    cbv zeta in Hstored. cbn [db] in Hstored.
    destruct Hstored as [stored [Hget _]].
    match goal with |- context [_update_or_add_metadata ?m ?o ?s0] =>
      destruct (_update_or_add_metadata m o s0) as [metadata_id s1]
    end.
    cbn [fst snd db] in *.
    assert (Hnd1 : NoDup (map r_id (statistics (db s1)))) by now rewrite F1.
    assert (Hids1 : forall r, In r (statistics (db s1)) -> r_id r <> 0)
      by now rewrite F1.
    destruct (import_loop_rows now metadata_id (map normalize_start stats) s1
                Hnd1 Hids1) as [Rall [Rfrom _]].
    assert (Hsample : forall x, In x (map normalize_start stats) <->
              exists sample, In sample stats /\ x = normalize_start sample).
    { intros x. rewrite in_map_iff. split; intros [y [H1 H2]]; eauto. }
    exists metadata_id, stored. split; [|split; [|split; [|split]]].
    + unfold get_metadata_with_session in *.
      now rewrite (import_loop_meta now metadata_id
                     (map normalize_start stats) s1).
    + intros sample Hin.
      destruct (Rall (normalize_start sample)) as [row [Hrow Hb]];
        [apply Hsample; eauto|].
      exists row. split; [assumption|exact Hb].
    + intros row Hrow. destruct (Rfrom row Hrow) as [H|[x [Hx Hb]]].
      * left. now rewrite <- F1.
      * right. apply Hsample in Hx. destruct Hx as [sample [Hin ->]].
        exists sample. split; [assumption|exact Hb].
    + intros row Hrow Hother.
      apply (import_loop_keep now metadata_id (map normalize_start stats)
               s1 Hnd1 Hids1 row); [now rewrite F1|].
      intros x Hx.
      apply Hsample in Hx. destruct Hx as [sample [Hin ->]].
      exact (Hother sample Hin).
    + intros Hstarts sample Hin.
      destruct (import_loop_holds now metadata_id (map normalize_start stats)
                  s1 Hnd1 Hids1) as [_ [_ Rheld]].
      { rewrite map_map. exact Hstarts. }
      apply Rheld. apply Hsample. eauto.
  - intros Hnot. unfold async_add_external_statistics.
    destruct (valid_statistic_id (m_statistic_id metadata)) eqn:Hid; simpl;
      [|eauto].
    destruct (split_statistic_id (m_statistic_id metadata))
      as [|domain [|object_id [|x rest]]] eqn:Hsplit; simpl; eauto.
    destruct (String.eqb_spec (m_source metadata) EmptyString) as [E|E];
      simpl; [eauto|].
    destruct (String.eqb_spec (m_source metadata) domain) as [E'|E'];
      simpl; [|eauto].
    pose proof (check_statistics_accepts stats) as Hacc.
    destruct (check_statistics stats) as [[e|] rest]; simpl in *; [eauto|].
    exfalso. apply Hnot. split; [assumption|]. split; [|auto].
    split; [assumption|]. exists object_id. subst domain.
    now apply split_two_parts.
Qed.
(** ** The duplicate resolver on a table without duplicates *)

Lemma filter_same_bucket_unique (rows : list StatRow) (r : StatRow) :
  NoDup (map bucket rows) ->
  (length (filter (same_bucket r) rows) <= 1)%nat.
Proof.
  induction rows as [|x rows IH]; cbn [map filter]; intros Hnd.
  - cbn. clear_parameters. lia.
  - inversion Hnd as [|? ? Hnin Hnd']; subst. specialize (IH Hnd').
    destruct (same_bucket r x) eqn:E; [|assumption].
    assert (Hnone : filter (same_bucket r) rows = []).
    { destruct (filter (same_bucket r) rows) as [|y l] eqn:Ef; [reflexivity|].
      exfalso. assert (Hy : In y (filter (same_bucket r) rows))
        by (rewrite Ef; now left).
      apply filter_In in Hy. destruct Hy as [Hy Hry].
      apply Hnin. apply same_bucket_bucket in E, Hry.
      rewrite <- E, Hry. now apply in_map. }
    rewrite Hnone. cbn. clear_parameters. lia.
Qed.

Lemma find_duplicates_clean (t : table) (d : Db) :
  NoDup (map bucket (rows_of t d)) -> _find_duplicates t d = ([], []).
Proof.
  intros Hnd. unfold _find_duplicates, duplicates_query.
  assert (Hnone : filter (is_duplicate (rows_of t d)) (rows_of t d) = []).
  { generalize (rows_of t d) at 2. intros l.
    induction l as [|r l IH]; cbn [filter]; [reflexivity|].
    unfold is_duplicate at 1.
    pose proof (filter_same_bucket_unique (rows_of t d) r Hnd) as Hle.
    apply Nat.ltb_ge in Hle. now rewrite Hle. }
  rewrite Hnone. cbn [sort_by fold_right]. now rewrite firstn_nil.
Qed.

Lemma delete_duplicates_from_table_clean (t : table) (s : Session) :
  NoDup (map bucket (rows_of t (db s))) ->
  _delete_duplicates_from_table t s = (Some (0, []), s).
Proof.
  intros Hnd. unfold _delete_duplicates_from_table.
  cbn [delete_duplicates_loop]. rewrite bind_run. cbn [query fst snd].
  now rewrite (find_duplicates_clean t (db s) Hnd).
Qed.

(** On a store in which no two rows of a table share a bucket,
    [delete_duplicates] returns without a deletion and without a backup:
    the store and the trace are as they were. *)
Theorem delete_duplicates_clean :
  forall s : Session,
    NoDup (map bucket (statistics (db s))) ->
    NoDup (map bucket (statistics_short_term (db s))) ->
    delete_duplicates s = (Some tt, s).
Proof.
  intros s Hlong Hshort. unfold delete_duplicates.
  rewrite bind_run, (delete_duplicates_from_table_clean Statistics s Hlong).
  cbn [fst snd]. rewrite bind_run. cbn [ret fst snd].
  rewrite bind_run,
    (delete_duplicates_from_table_clean StatisticsShortTerm s Hshort).
  reflexivity.
Qed.

(** ** What the duplicate resolver leaves in a table *)

(** [r] has the greatest id of the rows of [rows] in its bucket. *)
Definition greatest_of_bucket (rows : list StatRow) (r : StatRow) : bool :=
  forallb (fun y => negb (same_bucket y r) || (r_id y <=? r_id r)) rows.

Lemma same_bucket_refl (r : StatRow) : same_bucket r r = true.
Proof. apply same_bucket_spec. auto. Qed.

Lemma greatest_of_bucket_spec (rows : list StatRow) (r : StatRow) :
  In r rows ->
  greatest_of_bucket rows r = true <-> canonical_in rows r r.
Proof.
  intros Hr. unfold greatest_of_bucket, canonical_in.
  rewrite forallb_forall. split.
  - intros H. split; [assumption|]. split; [apply same_bucket_refl|].
    intros y Hy Hb. specialize (H y Hy). rewrite Hb in H. cbn in H.
    now apply Z.leb_le.
  - intros [_ [_ H]] y Hy. destruct (same_bucket y r) eqn:E; [|reflexivity].
    cbn. apply Z.leb_le. auto.
Qed.

Lemma bucket_between (x y z : StatRow) :
  precedes x y -> precedes y z -> same_bucket x z = true ->
  same_bucket x y = true.
Proof.
  clear_parameters. rewrite !precedes_spec, !same_bucket_spec. lia.
Qed.

Lemma other_row_of (l : list StatRow) (x : StatRow) :
  NoDup (map r_id l) -> (2 <= length l)%nat ->
  exists y, In y l /\ y <> x.
Proof.
  clear_parameters.
  destruct l as [|p [|q l]]; cbn [length]; intros Hnd Hlen; try lia.
  cbn [map] in Hnd. inversion Hnd as [|? ? Hnin _]; subst.
  destruct (Z.eq_dec (r_id p) (r_id x)) as [E|E].
  - exists q. split; [right; now left|]. intros ->. apply Hnin. now left.
  - exists p. split; [now left|]. intros ->. now apply E.
Qed.

Lemma two_rows_length (l : list StatRow) (a b : StatRow) :
  In a l -> In b l -> a <> b -> (2 <= length l)%nat.
Proof.
  clear_parameters.
  destruct l as [|p [|q l]]; cbn [length]; intros Ha Hb Hne;
    [contradiction| |lia].
  destruct Ha as [<-|[]], Hb as [<-|[]]. contradiction.
Qed.

(** When a round of the resolver lists nothing for deletion, no two rows of
    the table share a bucket. *)
Lemma find_duplicates_exhausted (t : table) (d : Db) :
  (0 < MAX_ROWS_TO_PURGE)%nat ->
  NoDup (map r_id (rows_of t d)) ->
  fst (_find_duplicates t d) = [] ->
  forall a b, In a (rows_of t d) -> In b (rows_of t d) ->
              same_bucket a b = true -> a = b.
Proof.
  intros Hpos Hpk Hnone a b Ha Hb Hab.
  unfold _find_duplicates, duplicates_query in Hnone.
  set (rows := rows_of t d) in *.
  set (D := filter (is_duplicate rows) rows) in *.
  set (S := sort_by duplicates_order D) in *.
  assert (Hn : (2 <= 1000 * MAX_ROWS_TO_PURGE)%nat)
    by (clear - Hpos; clear_parameters; lia).
  revert Hnone. generalize (1000 * MAX_ROWS_TO_PURGE)%nat Hn.
  intros n Hn2 Hnone. clear Hpos Hn.
  destruct (Z.eq_dec (r_id a) (r_id b)) as [E|E];
    [exact (NoDup_map_inj r_id rows a b Hpk Ha Hb E)|].
  exfalso.
  assert (Hdup : forall r, In r rows -> is_duplicate rows r = true ->
            exists r', In r' rows /\ r' <> r /\ same_bucket r r' = true).
  { intros r Hr Hd. unfold is_duplicate in Hd. apply Nat.ltb_lt in Hd.
    destruct (other_row_of (filter (same_bucket r) rows) r) as [r' [Hr' Hne]].
    - now apply NoDup_map_filter.
    - clear - Hd. clear_parameters. lia.
    - apply filter_In in Hr'. destruct Hr' as [Hr' Hb']. eauto. }
  assert (HaD : In a D).
  { apply filter_In. split; [assumption|]. unfold is_duplicate.
    apply Nat.ltb_lt.
    apply (two_rows_length (filter (same_bucket a) rows) a b).
    - apply filter_In. split; [assumption|apply same_bucket_refl].
    - apply filter_In. split; assumption.
    - intros ->. now apply E. }
  assert (HS : StronglySorted precedes S) by apply sort_by_sorted.
  assert (HinS : forall r, In r S <-> In r D) by (intros r; apply sort_by_In).
  destruct S as [|x S'] eqn:ES.
  { apply HinS in HaD. destruct HaD. }
  assert (Hx : In x D) by (apply HinS; now left).
  apply filter_In in Hx. destruct Hx as [Hxrows Hxdup].
  destruct (Hdup x Hxrows Hxdup) as [x' [Hx'rows [Hx'ne Hxx']]].
  assert (Hx'S : In x' S').
  { assert (Hx' : In x' (x :: S')).
    { apply HinS. apply filter_In. split; [assumption|].
      now rewrite <- (is_duplicate_bucket rows x x' Hxx'). }
    destruct Hx' as [->|Hx']; [contradiction|assumption]. }
  destruct S' as [|y S'']; [destruct Hx'S|].
  inversion HS as [|? ? HS' Hall]; subst.
  inversion Hall as [|? ? Hxy _]; subst.
  assert (Hsame : same_bucket x y = true).
  { destruct Hx'S as [->|Hx'S]; [assumption|].
    apply (bucket_between x y x'); try assumption.
    inversion HS' as [|? ? _ Hall']; subst.
    rewrite Forall_forall in Hall'. auto. }
  destruct n as [|[|n]]; [clear - Hn2; clear_parameters; lia
                         |clear - Hn2; clear_parameters; lia|].
  cbn [firstn scan_duplicates] in Hnone.
  apply same_bucket_spec in Hsame. destruct Hsame as [Hm Hs].
  rewrite Hm, Hs, !Z.eqb_refl in Hnone. cbn [negb orb] in Hnone.
  destruct (scan_duplicates (Some x) (firstn n S'')) as [ids ni].
  discriminate.
Qed.

Lemma set_rows_rows_of (t : table) (d : Db) : set_rows t (rows_of t d) d = d.
Proof. destruct t, d; reflexivity. Qed.

Lemma filter_all {A : Type} (p : A -> bool) (l : list A) :
  (forall x, In x l -> p x = true) -> filter p l = l.
Proof.
  induction l as [|a l IH]; cbn [filter]; intros H; [reflexivity|].
  rewrite (H a (or_introl eq_refl)). f_equal. apply IH.
  intros x Hx. apply H. now right.
Qed.

(** The batched deletion as a change of the store, and the count it
    returns. *)
Lemma delete_batches_db (t : table) (bs : list (list Z)) (total : Z)
    (s : Session) :
  db (snd (delete_batches t bs total s)) =
    set_rows t
      (filter (fun r => negb (mem_Z (r_id r) (concat bs))) (rows_of t (db s)))
      (db s) /\
  fst (delete_batches t bs total s) =
    total + Z.of_nat (length (rows_of t (db s)))
    - Z.of_nat (length (filter (fun r => negb (mem_Z (r_id r) (concat bs)))
                               (rows_of t (db s)))).
Proof.
  revert total s. induction bs as [|b bs IH]; intros total s.
  - cbn [delete_batches concat ret fst snd].
    rewrite filter_all by reflexivity.
    split; [now rewrite set_rows_rows_of|]. clear_parameters. lia.
  - cbn [delete_batches]. rewrite bind_run.
    destruct (IH (total + fst (delete_ids t b s)) (snd (delete_ids t b s)))
      as [H1 H2].
    rewrite H1, H2. unfold delete_ids. rewrite bind_run.
    cbn [emit snd fst ret db].
    rewrite (proj1 (rows_of_set_rows _ _ _)), set_rows_set_rows, filter_filter.
    assert (Hext : filter (fun r => negb (mem_Z (r_id r) b)
                                     && negb (mem_Z (r_id r) (concat bs)))
                          (rows_of t (db s))
                   = filter (fun r => negb (mem_Z (r_id r) (concat (b :: bs))))
                            (rows_of t (db s))).
    { apply filter_ext. intros r. cbn [concat].
      now rewrite mem_Z_app, negb_orb. }
    rewrite Hext. split; [reflexivity|].
    pose proof (filter_length (fun r => mem_Z (r_id r) b) (rows_of t (db s)))
      as Hlen.
    clear - Hlen. clear_parameters. lia.
Qed.

(** The loop of [_delete_duplicates_from_table], once it has reached its
    [break]: no two rows of the table share a bucket, the table is a
    selection of the rows of [rows0] that keeps the greatest of every
    bucket, nothing else of the store has changed, and the count returned
    has grown by the number of rows that went. *)
Lemma delete_duplicates_loop_post (rows0 : list StatRow) (fuel : nat)
    (t : table) (total : Z) (acc : list (StatRow * StatRow)) (s s' : Session)
    (res : Z * list (StatRow * StatRow)) :
  (0 < MAX_ROWS_TO_PURGE)%nat ->
  NoDup (map r_id (rows_of t (db s))) ->
  (exists q, rows_of t (db s) = filter q rows0) ->
  (forall c, canonical_in rows0 c c -> In c (rows_of t (db s))) ->
  delete_duplicates_loop fuel t total acc s = (Some res, s') ->
  (forall a b, In a (rows_of t (db s')) -> In b (rows_of t (db s')) ->
               same_bucket a b = true -> a = b) /\
  (exists q, rows_of t (db s') = filter q rows0) /\
  (forall c, canonical_in rows0 c c -> In c (rows_of t (db s'))) /\
  db s' = set_rows t (rows_of t (db s')) (db s) /\
  fst res = total + Z.of_nat (length (rows_of t (db s)))
            - Z.of_nat (length (rows_of t (db s'))).
Proof.
  intros Hpos. revert total acc s.
  induction fuel as [|fuel IH]; intros total acc s Hpk [q Hq] Hcan Hrun;
    [discriminate|].
  cbn [delete_duplicates_loop] in Hrun. rewrite bind_run in Hrun.
  cbn [query fst snd] in Hrun.
  pose proof (find_duplicates_exhausted t (db s) Hpos Hpk) as Hdone.
  destruct (find_duplicates_round t (db s) Hpk) as [_ [R1 _]].
  destruct (_find_duplicates t (db s)) as [ids ni]. cbn [fst snd] in *.
  destruct ids as [|i ids].
  - cbn [ret] in Hrun. injection Hrun as <- <-.
    split; [now apply Hdone|]. split; [now exists q|].
    split; [assumption|]. split; [now rewrite set_rows_rows_of|].
    cbn [fst]. clear_parameters. lia.
  - rewrite bind_run in Hrun.
    set (ids' := i :: ids) in *.
    set (bs := batches (length ids') MAX_ROWS_TO_PURGE ids') in *.
    assert (Hbs : concat bs = ids')
      by (apply batches_concat; [assumption|clear_parameters; lia]).
    destruct (delete_batches_db t bs total s) as [D1 D2].
    rewrite Hbs in D1, D2.
    set (keep := fun r => negb (mem_Z (r_id r) ids')) in *.
    set (s1 := snd (delete_batches t bs total s)) in *.
    assert (Hrows1 : rows_of t (db s1) = filter keep (rows_of t (db s))).
    { rewrite D1. apply rows_of_set_rows. }
    destruct (IH (fst (delete_batches t bs total s)) (acc ++ ni) s1)
      as [P1 [P2 [P3 [P4 P5]]]].
    + rewrite Hrows1. now apply NoDup_map_filter.
    + exists (fun r => q r && keep r).
      now rewrite Hrows1, Hq, filter_filter.
    + intros c Hc. rewrite Hrows1. apply filter_In.
      split; [now apply Hcan|]. unfold keep.
      apply negb_true_iff. destruct (mem_Z (r_id c) ids') eqn:Em;
        [|reflexivity].
      exfalso. apply mem_Z_In in Em. apply (R1 c); [|assumption].
      pose proof (Hcan c Hc) as Hin. destruct Hc as [_ [Hb Hmax]].
      split; [assumption|]. split; [assumption|].
      intros y Hy. apply Hmax. rewrite Hq in Hy. apply filter_In in Hy. tauto.
    + exact Hrun.
    + split; [assumption|]. split; [assumption|]. split; [assumption|].
      split.
      * etransitivity; [exact P4|]. rewrite D1. apply set_rows_set_rows.
      * rewrite P5, D2, Hrows1. clear_parameters. lia.
Qed.

Lemma canonical_exists (rows : list StatRow) (r : StatRow) :
  In r rows -> exists c, canonical_in rows c r.
Proof.
  clear_parameters.
  intros Hr.
  assert (H : forall l, (exists x, In x l /\ same_bucket x r = true) ->
            exists c, In c l /\ same_bucket c r = true /\
                      forall y, In y l -> same_bucket y r = true ->
                                r_id y <= r_id c).
  { induction l as [|a l IH]; intros [x [Hx Hb]]; [destruct Hx|].
    destruct (existsb (fun y => same_bucket y r) l) eqn:El.
    - apply existsb_exists in El. destruct (IH El) as [c [Hc [Hcb Hmax]]].
      destruct (same_bucket a r) eqn:Ea.
      + destruct (Z.le_gt_cases (r_id a) (r_id c)) as [Hle|Hgt].
        * exists c. split; [now right|]. split; [assumption|].
          intros y [<-|Hy] Hyb; auto.
        * exists a. split; [now left|]. split; [assumption|].
          intros y [<-|Hy] Hyb; [lia|]. specialize (Hmax y Hy Hyb). lia.
      + exists c. split; [now right|]. split; [assumption|].
        intros y [<-|Hy] Hyb; [congruence|auto].
    - destruct Hx as [<-|Hx].
      + exists a. split; [now left|]. split; [assumption|].
        intros y [<-|Hy] Hyb; [lia|].
        assert (existsb (fun y => same_bucket y r) l = true)
          by (apply existsb_exists; eauto).
        congruence.
      + assert (existsb (fun y => same_bucket y r) l = true)
          by (apply existsb_exists; eauto).
        congruence. }
  apply H. exists r. split; [assumption|]. apply same_bucket_spec. auto.
Qed.

(** [_delete_duplicates_from_table] on a table with unique ids, for a batch
    size that is not zero: what is left are the rows with the greatest id of
    their bucket, in their order, and the count returned is the number of
    rows that went. *)
Lemma delete_duplicates_from_table_post (t : table) (s : Session) :
  (0 < MAX_ROWS_TO_PURGE)%nat ->
  NoDup (map r_id (rows_of t (db s))) ->
  exists total records s',
    _delete_duplicates_from_table t s = (Some (total, records), s') /\
    db s' = set_rows t (filter (greatest_of_bucket (rows_of t (db s)))
                               (rows_of t (db s))) (db s) /\
    total = Z.of_nat (length (rows_of t (db s)))
            - Z.of_nat (length (rows_of t (db s'))).
Proof.
  intros Hpos Hpk.
  destruct (delete_duplicates_from_table_spec t s Hpk)
    as [total [records [deletes [s' [Hrun _]]]]].
  exists total, records, s'. split; [assumption|].
  unfold _delete_duplicates_from_table in Hrun.
  destruct (delete_duplicates_loop_post (rows_of t (db s))
              (S (length (rows_of t (db s)))) t 0 [] s s'
              (total, records) Hpos Hpk) as [P1 [[q P2] [P3 [P4 P5]]]].
  - exists (fun _ => true). symmetry. now apply filter_all.
  - intros c [Hc _]. exact Hc.
  - exact Hrun.
  - split; [|cbn [fst] in P5; clear - P5; clear_parameters; lia].
    rewrite P4. f_equal. rewrite P2. apply filter_ext_in.
    intros r Hr.
    destruct (greatest_of_bucket (rows_of t (db s)) r) eqn:Eg.
    + apply greatest_of_bucket_spec in Eg; [|assumption].
      specialize (P3 r Eg). rewrite P2 in P3. apply filter_In in P3. tauto.
    + destruct (q r) eqn:Eq; [|reflexivity]. exfalso.
      assert (Hr' : In r (rows_of t (db s'))).
      { rewrite P2. apply filter_In. auto. }
      destruct (canonical_exists _ r Hr) as [c Hc].
      assert (Hcc : canonical_in (rows_of t (db s)) c c).
      { destruct Hc as [Hc1 [Hc2 Hc3]]. split; [assumption|].
        split; [apply same_bucket_refl|].
        intros y Hy Hyc. apply Hc3; [assumption|].
        now apply (same_bucket_trans y c r). }
      assert (c = r).
      { apply P1; [now apply P3|assumption|]. now destruct Hc as [_ [Hb _]]. }
      subst c. apply greatest_of_bucket_spec in Hcc; [|assumption].
      congruence.
Qed.

(** After [delete_duplicates], on a store whose ids are unique and for a
    batch size that is not zero, each of the two statistics tables holds the
    rows that had the greatest id of their bucket, in the order they had,
    and nothing else: no bucket has two rows, and no bucket has lost its
    last row.  The metadata and the markers are untouched. *)
Theorem delete_duplicates_keeps_greatest :
  forall s : Session,
    (0 < MAX_ROWS_TO_PURGE)%nat ->
    NoDup (map r_id (statistics (db s))) ->
    NoDup (map r_id (statistics_short_term (db s))) ->
    exists s',
      delete_duplicates s = (Some tt, s') /\
      statistics (db s') =
        filter (greatest_of_bucket (statistics (db s))) (statistics (db s)) /\
      statistics_short_term (db s') =
        filter (greatest_of_bucket (statistics_short_term (db s)))
               (statistics_short_term (db s)) /\
      statistics_meta (db s') = statistics_meta (db s) /\
      statistics_runs (db s') = statistics_runs (db s).
Proof.
  intros s Hpos Hpk1 Hpk2. unfold delete_duplicates. rewrite bind_run.
  destruct (delete_duplicates_from_table_post Statistics s Hpos Hpk1)
    as [total1 [records [s1 [E1 [D1 _]]]]].
  rewrite E1. cbn [fst snd]. rewrite bind_run.
  set (s2 := snd ((match records with
                   | [] => ret tt
                   | _ => emit (EvBackup records) (fun d => d)
                   end) s1)).
  assert (Hdb2 : db s2 = db s1) by (unfold s2; destruct records; reflexivity).
  rewrite bind_run.
  destruct (delete_duplicates_from_table_post StatisticsShortTerm s2 Hpos)
    as [total2 [records2 [s3 [E2 [D2 _]]]]].
  { rewrite Hdb2, D1. exact Hpk2. }
  fold s2. rewrite E2. cbn [fst snd ret].
  exists s3. split; [reflexivity|].
  rewrite D2, Hdb2, D1. cbn. auto.
Qed.

(** The number [_delete_duplicates_from_table] returns is the number of
    rows it has deleted, and it deletes from its table only. *)
Theorem delete_duplicates_from_table_count :
  forall (t : table) (s : Session),
    (0 < MAX_ROWS_TO_PURGE)%nat ->
    NoDup (map r_id (rows_of t (db s))) ->
    exists total records s',
      _delete_duplicates_from_table t s = (Some (total, records), s') /\
      total = Z.of_nat (length (rows_of t (db s)))
              - Z.of_nat (length (rows_of t (db s'))) /\
      rows_of (other_table t) (db s') = rows_of (other_table t) (db s).
Proof.
  intros t s Hpos Hpk.
  destruct (delete_duplicates_from_table_post t s Hpos Hpk)
    as [total [records [s' [E [D C]]]]].
  exists total, records, s'. split; [assumption|]. split; [assumption|].
  rewrite D. apply rows_of_set_rows.
Qed.

(** ** Range queries that answer nothing *)

Lemma mem_string_In (x : string) (l : list string) :
  mem_string x l = true <-> In x l.
Proof.
  unfold mem_string. rewrite existsb_exists. split.
  - intros [y [Hy E]]. apply String.eqb_eq in E. now subst.
  - intros H. exists x. split; [assumption|apply String.eqb_refl].
Qed.

Lemma filter_none {A : Type} (p : A -> bool) (l : list A) :
  (forall x, In x l -> p x = false) -> filter p l = [].
Proof.
  induction l as [|a l IH]; cbn [filter]; intros H; [reflexivity|].
  rewrite (H a (or_introl eq_refl)). apply IH. intros x Hx. apply H. now right.
Qed.

(** [statistics_during_period] answers the empty dictionary when none of
    the series asked for is known, and also when no row of the table starts
    in the window, whatever rows there are before it: without a row in the
    window no look-back is made. *)
Theorem statistics_during_period_empty :
  forall (units : UnitSystem) (d : Db) (start_time : datetime)
         (end_time : option datetime) (statistic_ids : list string)
         (p : period) (start_time_as_datetime : bool),
    let t := match p with
             | Period5Minute => StatisticsShortTerm
             | _ => Statistics
             end in
    (forall r, In r (statistics_meta d) ->
               ~ In (m_statistic_id (mr_meta r)) statistic_ids) \/
    (forall r, In r (rows_of t d) ->
               instant start_time <= r_start r ->
               match end_time with
               | Some e => instant e <= r_start r
               | None => False
               end) ->
    statistics_during_period units d start_time end_time (Some statistic_ids)
                             p start_time_as_datetime = Some [].
Proof.
  intros units d start_time end_time statistic_ids p as_dt t H.
  unfold statistics_during_period. fold t.
  destruct H as [H|H].
  - assert (Hmeta : get_metadata_with_session (Some statistic_ids) None None d
                    = []).
    { unfold get_metadata_with_session. rewrite filter_none; [reflexivity|].
      intros r Hr. rewrite !andb_true_r.
      destruct (mem_string (m_statistic_id (mr_meta r)) statistic_ids) eqn:E;
        [|reflexivity].
      apply mem_string_In in E. exfalso. exact (H r Hr E). }
    now rewrite Hmeta.
  - destruct (get_metadata_with_session (Some statistic_ids) None None d)
      as [|kv md]; [reflexivity|].
    unfold _statistics_during_period_stmt. rewrite filter_none; [reflexivity|].
    intros r Hr. specialize (H r Hr).
    destruct (Z.leb_spec (instant start_time) (r_start r)) as [Hle|Hgt];
      [|reflexivity].
    specialize (H Hle). destruct end_time as [e|]; [|contradiction].
    cbn [andb]. apply Z.ltb_ge in H. now rewrite H.
Qed.

(** ** The period reducer *)

Lemma present_app {A : Type} (a b : list (option A)) :
  present (a ++ b) = present a ++ present b.
Proof.
  induction a as [|[x|] a IH]; cbn [app present]; [reflexivity| |assumption].
  now rewrite IH.
Qed.

Lemma last_cons {A : Type} (x : A) (l : list A) (d : A) :
  last (x :: l) d = last l x.
Proof.
  revert x d. induction l as [|a l IH]; intros x d; [reflexivity|].
  change (last (x :: a :: l) d) with (last (a :: l) d).
  rewrite (IH a d). symmetry. apply IH.
Qed.

Lemma exists_last_or_nil {A : Type} (l : list A) :
  l = [] \/ exists l' x, l = l' ++ [x].
Proof.
  destruct l as [|a l]; [now left|right].
  destruct (exists_last (l := a :: l)) as [l' [x E]]; [discriminate|eauto].
Qed.

Lemma last_app_cons {A : Type} (l : list A) (r : A) (rest : list A) (d : A) :
  last (l ++ r :: rest) d = last rest r.
Proof.
  revert d. induction l as [|a l IH]; intros d; cbn [app].
  - apply last_cons.
  - rewrite last_cons. apply IH.
Qed.

Lemma last_app_chunk {A : Type} (x : A) (l rest : list A) (d : A) :
  last ((x :: l) ++ rest) d = last rest (last l x).
Proof.
  destruct rest as [|r rest].
  - rewrite app_nil_r. exact (last_cons x l d).
  - rewrite last_app_cons. symmetry. apply last_cons.
Qed.

Lemma push_present (v : option Q) (l : list Q) : push v l = l ++ present [v].
Proof. destruct v; cbn; [reflexivity|now rewrite app_nil_r]. Qed.

Section Reducer.
Variable same_period : datetime -> datetime -> bool.
Variable period_start_end : datetime -> datetime * datetime.
Variable period_length : Z.

(** The start of an entry that carries it as a datetime. *)
Definition datetime_of (e : entry) : datetime :=
  match e_start e with
  | inl start => start
  | inr _ => utc_datetime 0
  end.

Definition has_datetime (e : entry) : Prop := e_start e = inl (datetime_of e).

(** The entries of a series that fall in one period: the first of them and
    those after it. *)
Definition chunk : Type := (entry * list entry)%type.

Definition entries_of (c : chunk) : list entry := fst c :: snd c.

Definition last_entry (c : chunk) : entry := last (snd c) (fst c).

(** Every entry of [c] is in the period of the entry before it, [prev]
    being before the first. *)
Fixpoint chained (prev : datetime) (c : list entry) : Prop :=
  match c with
  | [] => True
  | e :: c' =>
      same_period prev (datetime_of e) = true /\ chained (datetime_of e) c'
  end.

(** The chunks after the entry [prev]: each begins in another period than
    the entry before it, and [period_length] after the last entry another
    period has begun. *)
Fixpoint periods_from (prev : entry) (cs : list chunk) : Prop :=
  match cs with
  | [] =>
      same_period (datetime_of prev)
                  (dt_add (datetime_of prev) period_length) = false
  | c :: cs' =>
      same_period (datetime_of prev) (datetime_of (fst c)) = false /\
      chained (datetime_of (fst c)) (snd c) /\
      Forall has_datetime (entries_of c) /\
      periods_from (last_entry c) cs'
  end.

(** A series cut into its periods. *)
Definition periods (c : chunk) (cs : list chunk) : Prop :=
  same_period (datetime_of (fst c)) (datetime_of (fst c)) = true /\
  chained (datetime_of (fst c)) (snd c) /\
  Forall has_datetime (entries_of c) /\
  periods_from (last_entry c) cs.

(** The row that stands for a period: the bounds of the period of its last
    entry, the mean of the means, the least minimum and the greatest
    maximum that are present, and the last entry's reset, state and sum. *)
Definition summary (statistic_id : string) (c : chunk) : entry :=
  let closing := last_entry c in
  {| e_statistic_id := statistic_id;
     e_start := inr (isoformat (fst (period_start_end (datetime_of closing))));
     e_end := isoformat (snd (period_start_end (datetime_of closing)));
     e_mean := list_mean (present (map e_mean (entries_of c)));
     e_min := list_min (present (map e_min (entries_of c)));
     e_max := list_max (present (map e_max (entries_of c)));
     e_last_reset := e_last_reset closing;
     e_state := e_state closing;
     e_sum := e_sum closing |}.

Variable statistic_id : string.

(** The loop of [reduce_series], one entry at a time. *)
Definition walk (acc : option reducer_state) (statistic : entry)
  : option reducer_state :=
  match acc, e_start statistic with
  | Some st, inl start =>
      reduce_step same_period period_start_end statistic_id st
                  start (e_max statistic) (e_mean statistic)
                  (e_min statistic) statistic
  | _, _ => None
  end.

(** The row the state would close its period with. *)
Definition pending (st : reducer_state) : entry :=
  {| e_statistic_id := statistic_id;
     e_start :=
       inr (isoformat (fst (period_start_end (datetime_of (prev_stat st)))));
     e_end := isoformat (snd (period_start_end (datetime_of (prev_stat st))));
     e_mean := list_mean (mean_values st);
     e_min := list_min (min_values st);
     e_max := list_max (max_values st);
     e_last_reset := e_last_reset (prev_stat st);
     e_state := e_state (prev_stat st);
     e_sum := e_sum (prev_stat st) |}.

Lemma reduce_step_run (st : reducer_state) (start : datetime)
    (mx mean mn : option Q) (statistic : entry) :
  has_datetime (prev_stat st) ->
  reduce_step same_period period_start_end statistic_id st start mx mean mn
              statistic =
    Some (if same_period (datetime_of (prev_stat st)) start
          then {| max_values := max_values st ++ present [mx];
                  mean_values := mean_values st ++ present [mean];
                  min_values := min_values st ++ present [mn];
                  prev_stat := statistic;
                  reduced := reduced st |}
          else {| max_values := present [mx];
                  mean_values := present [mean];
                  min_values := present [mn];
                  prev_stat := statistic;
                  reduced := reduced st ++ [pending st] |}).
Proof using Type.
  intros Hprev. unfold reduce_step, pending. rewrite Hprev.
  destruct (period_start_end (datetime_of (prev_stat st))) as [s e].
  rewrite !push_present.
  destruct (same_period (datetime_of (prev_stat st)) start); reflexivity.
Qed.

Lemma walk_chained (c : list entry) (st : reducer_state) :
  has_datetime (prev_stat st) ->
  chained (datetime_of (prev_stat st)) c ->
  Forall has_datetime c ->
  fold_left walk c (Some st) =
    Some {| max_values := max_values st ++ present (map e_max c);
            mean_values := mean_values st ++ present (map e_mean c);
            min_values := min_values st ++ present (map e_min c);
            prev_stat := last c (prev_stat st);
            reduced := reduced st |}.
Proof using Type.
  revert st. induction c as [|e c IH]; intros st Hprev Hchain Hall.
  - cbn. rewrite !app_nil_r. now destruct st.
  - destruct Hchain as [Hsame Hchain].
    inversion Hall as [|? ? He Hall']; subst.
    cbn [fold_left]. unfold walk at 2. rewrite He.
    rewrite (reduce_step_run st _ _ _ _ _ Hprev), Hsame.
    rewrite IH; cbn [prev_stat max_values mean_values min_values reduced];
      try assumption.
    f_equal. f_equal.
    + now rewrite <- app_assoc, <- present_app.
    + now rewrite <- app_assoc, <- present_app.
    + now rewrite <- app_assoc, <- present_app.
    + symmetry. apply last_cons.
Qed.

Lemma walk_periods (cs : list chunk) (st : reducer_state) :
  has_datetime (prev_stat st) ->
  periods_from (prev_stat st) cs ->
  exists st',
    fold_left walk (flat_map entries_of cs) (Some st) = Some st' /\
    has_datetime (prev_stat st') /\
    prev_stat st' = last (flat_map entries_of cs) (prev_stat st) /\
    same_period (datetime_of (prev_stat st'))
                (dt_add (datetime_of (prev_stat st')) period_length) = false /\
    reduced st' ++ [pending st'] =
      reduced st ++ [pending st] ++ map (summary statistic_id) cs.
Proof using Type.
  revert st. induction cs as [|c cs IH]; intros st Hprev Hcs.
  - exists st. cbn in *. auto.
  - destruct Hcs as [Hclosed [Hchain [Hall Hrest]]].
    destruct c as [e c']. unfold entries_of, last_entry in *. cbn [fst snd] in *.
    inversion Hall as [|? ? He Hall']; subst.
    cbn [flat_map entries_of fst snd app fold_left].
    unfold walk at 2. rewrite He.
    rewrite (reduce_step_run st _ _ _ _ _ Hprev), Hclosed.
    rewrite fold_left_app.
    rewrite walk_chained; cbn [prev_stat max_values mean_values min_values
                                 reduced]; try assumption.
    match goal with |- context [fold_left walk _ (Some ?s2)] =>
      destruct (IH s2) as [st' [Hrun [Hd [Hlast [Hend Hrows]]]]]
    end.
    + cbn [prev_stat]. clear - He Hall'.
      destruct (exists_last_or_nil c') as [->|[c0 [x ->]]]; [exact He|].
      rewrite last_last. apply Forall_app in Hall'.
      destruct Hall' as [_ Hx]. now inversion Hx.
    + exact Hrest.
    + exists st'. split; [exact Hrun|]. split; [assumption|]. split.
      * rewrite Hlast. cbn [prev_stat]. symmetry.
        apply (last_app_chunk e c').
      * split; [assumption|]. rewrite Hrows.
        cbn [reduced map]. rewrite <- !app_assoc. f_equal. f_equal.
        unfold pending, summary, entries_of, last_entry.
        cbn [prev_stat max_values mean_values min_values fst snd map].
        rewrite <- !present_app. reflexivity.
Qed.
(** The reducer on one series cut into its periods: one row for each. *)
Lemma reduce_series_periods (c : chunk) (cs : list chunk) :
  periods c cs ->
  reduce_series same_period period_start_end period_length statistic_id
                (flat_map entries_of (c :: cs)) =
    Some (map (summary statistic_id) (c :: cs)).
Proof using Type.
  intros [Hfirst [Hchain [Hall Hrest]]].
  destruct c as [e c']. unfold entries_of, last_entry in *. cbn [fst snd] in *.
  inversion Hall as [|? ? He Hall']; subst.
  unfold reduce_series. cbn [flat_map entries_of fst snd app].
  match goal with |- context [fold_left ?F ?l ?init] =>
    change (fold_left F l init) with (fold_left walk l init)
  end.
  cbn [fold_left]. unfold walk at 2. rewrite He.
  rewrite reduce_step_run by exact He. cbn [prev_stat]. rewrite Hfirst.
  rewrite fold_left_app.
  rewrite walk_chained; cbn [prev_stat max_values mean_values min_values
                               reduced]; try assumption.
  match goal with |- context [fold_left walk _ (Some ?s2)] =>
    destruct (walk_periods cs s2) as [st' [Hrun [Hd [Hlast [Hend Hrows]]]]]
  end.
  - cbn [prev_stat]. clear - He Hall'.
    destruct (exists_last_or_nil c') as [->|[c0 [x ->]]]; [exact He|].
    rewrite last_last. apply Forall_app in Hall'.
    destruct Hall' as [_ Hx]. now inversion Hx.
  - exact Hrest.
  - unfold entries_of in Hrun. rewrite Hrun.
    match goal with |- context [last ?l e] =>
      assert (Hl : last l e = prev_stat st')
        by (rewrite Hlast; cbn [prev_stat]; apply (last_app_chunk e c'));
      rewrite Hl
    end.
    rewrite Hd.
    rewrite reduce_step_run by exact Hd. rewrite Hend.
    cbn [option_map reduced]. f_equal. rewrite Hrows.
    cbn [reduced app map]. f_equal.
    unfold pending, summary, entries_of, last_entry.
    cbn [prev_stat max_values mean_values min_values fst snd map app].
    rewrite <- !present_app. reflexivity.
Qed.
End Reducer.

Lemma dict_set_append {K V : Type} (eqb : K -> K -> bool)
    (d : list (K * V)) (k : K) (v : V) :
  dict_get eqb d k = None -> dict_set eqb d k v = d ++ [(k, v)].
Proof.
  induction d as [|[k' v'] d IH]; cbn [dict_get dict_set app];
    [reflexivity|].
  destruct (eqb k' k); [discriminate|]. intros H. now rewrite IH.
Qed.

(** [_reduce_statistics] on a response of which every list is cut into its
    periods by [chunking]: the result has the same keys in the same order,
    and for every series one row for each of its periods, in their order.
    The row of a period has the bounds of the period of its last entry, the
    mean of the means, the least minimum and the greatest maximum that are
    present in it, and the reset, state and sum of its last entry. *)
Theorem reduce_statistics_periods :
  forall (same_period : datetime -> datetime -> bool)
         (period_start_end : datetime -> datetime * datetime)
         (period_length : Z) (stats : response)
         (chunking : string -> chunk * list chunk),
    NoDup (map fst stats) ->
    (forall statistic_id stat_list,
        In (statistic_id, stat_list) stats ->
        stat_list = flat_map entries_of (fst (chunking statistic_id)
                                         :: snd (chunking statistic_id)) /\
        periods same_period period_length
                (fst (chunking statistic_id)) (snd (chunking statistic_id))) ->
    _reduce_statistics stats same_period period_start_end period_length =
      Some (map (fun kv =>
                   (fst kv,
                    map (summary period_start_end (fst kv))
                        (fst (chunking (fst kv)) :: snd (chunking (fst kv)))))
                stats).
Proof.
  intros same_period period_start_end period_length stats chunking Hnd Hcut.
  unfold _reduce_statistics.
  set (mk := fun kv : string * list entry =>
               (fst kv,
                map (summary period_start_end (fst kv))
                    (fst (chunking (fst kv)) :: snd (chunking (fst kv))))).
  assert (Hgen : forall rest done,
            NoDup (map fst (done ++ rest)) ->
            (forall kv, In kv rest -> In kv stats) ->
            fold_left
              (fun acc kv =>
                 match acc with
                 | None => None
                 | Some result =>
                     match reduce_series same_period period_start_end
                                         period_length (fst kv) (snd kv) with
                     | None => None
                     | Some [] => Some result
                     | Some rows =>
                         Some (dict_set String.eqb result (fst kv)
                                 (match dict_get String.eqb result (fst kv) with
                                  | Some l => l
                                  | None => []
                                  end ++ rows))
                     end
                 end)
              rest (Some (map mk done)) = Some (map mk (done ++ rest))).
  { induction rest as [|[sid l] rest IH]; intros done Hnd' Hin.
    - now rewrite app_nil_r.
    - cbn [fold_left fst snd].
      destruct (Hcut sid l (Hin _ (or_introl eq_refl))) as [Hl Hp].
      rewrite Hl at 1.
      rewrite (reduce_series_periods _ _ _ sid _ _ Hp). cbn [map].
      assert (Hfresh : dict_get String.eqb (map mk done) sid = None).
      { apply (dict_get_None String.eqb String_eqb_eq).
        rewrite map_map. cbn [mk fst].
        rewrite map_app in Hnd'. cbn [map fst] in Hnd'.
        apply NoDup_remove_2 in Hnd'. intros H. apply Hnd'.
        apply in_or_app. now left. }
      rewrite Hfresh, (dict_set_append _ _ _ _ Hfresh). cbn [app].
      replace (map mk done ++ [(sid, _)]) with (map mk (done ++ [(sid, l)]))
        by (rewrite map_app; reflexivity).
      rewrite IH.
      + now rewrite <- app_assoc.
      + now rewrite <- app_assoc.
      + intros kv Hkv. apply Hin. now right. }
  apply (Hgen stats []); [exact Hnd|auto].
Qed.

(** ** Maintenance of the metadata table, read back *)

Lemma get_metadata_none (statistic_ids : option (list string))
    (ty : option statistic_type) (src : option string) (d : Db) :
  (forall r, In r (statistics_meta d) ->
             match statistic_ids with
             | Some ids => ~ In (m_statistic_id (mr_meta r)) ids
             | None => False
             end) ->
  get_metadata_with_session statistic_ids ty src d = [].
Proof.
  intros H. unfold get_metadata_with_session. rewrite filter_none; [reflexivity|].
  intros r Hr. specialize (H r Hr). destruct statistic_ids as [ids|];
    [|contradiction].
  destruct (mem_string (m_statistic_id (mr_meta r)) ids) eqn:E;
    [|reflexivity].
  apply mem_string_In in E. contradiction.
Qed.

(** After [clear_statistics] the series it names are unknown: metadata
    asked for any of them is empty, and so is a range query for them.
    Metadata asked for series it does not name is what it was. *)
Theorem clear_statistics_forgets :
  forall (statistic_ids : list string) (d : Db),
    let d' := clear_statistics statistic_ids d in
    (forall asked ty src,
        (forall x, In x asked -> In x statistic_ids) ->
        get_metadata_with_session (Some asked) ty src d' = []) /\
    (forall units asked start_time end_time p as_datetime,
        (forall x, In x asked -> In x statistic_ids) ->
        statistics_during_period units d' start_time end_time (Some asked)
                                 p as_datetime = Some []) /\
    (forall asked ty src,
        (forall x, In x asked -> ~ In x statistic_ids) ->
        get_metadata_with_session (Some asked) ty src d' =
          get_metadata_with_session (Some asked) ty src d).
Proof.
  intros statistic_ids d d'.
  assert (Hgone : forall asked ty src,
            (forall x, In x asked -> In x statistic_ids) ->
            get_metadata_with_session (Some asked) ty src d' = []).
  { intros asked ty src Hsub. apply get_metadata_none.
    intros r Hr Hin. unfold d', clear_statistics in Hr.
    cbn [statistics_meta set_meta] in Hr. apply filter_In in Hr.
    destruct Hr as [_ Hr]. apply negb_true_iff in Hr.
    apply Hsub, mem_string_In in Hin. congruence. }
  split; [exact Hgone|]. split.
  - intros units asked start_time end_time p as_datetime Hsub.
    unfold statistics_during_period. now rewrite (Hgone asked None None Hsub).
  - intros asked ty src Hdisj. unfold get_metadata_with_session, d',
      clear_statistics. cbn [statistics_meta set_meta].
    rewrite filter_filter. f_equal. f_equal. apply filter_ext. intros r.
    destruct (mem_string (m_statistic_id (mr_meta r)) asked) eqn:E.
    + apply mem_string_In in E.
      destruct (mem_string (m_statistic_id (mr_meta r)) statistic_ids) eqn:E';
        [|reflexivity].
      apply mem_string_In in E'. exfalso. exact (Hdisj _ E E').
    + cbn [andb]. now rewrite andb_false_r.
Qed.

Lemma rev_filter_map_known (statistic_id : string) (f : MetaRow -> MetaRow)
    (rows : list MetaRow) :
  (forall r, known_as statistic_id (f r) = known_as statistic_id r) ->
  rev (filter (known_as statistic_id) (map f rows)) =
    map f (rev (filter (known_as statistic_id) rows)).
Proof.
  intros H. now rewrite filter_map_invariant, map_rev.
Qed.

(** [update_statistics_metadata] changes the unit under which a series is
    known and nothing else of it; a series that is not known stays unknown,
    and the metadata of every other series is what it was. *)
Theorem update_statistics_metadata_read_back :
  forall (statistic_id : string) (unit_of_measurement : option string) (d : Db),
    let d' := update_statistics_metadata statistic_id unit_of_measurement d in
    let fetch := fun sid db =>
      dict_get String.eqb
        (get_metadata_with_session (Some [sid]) None None db) sid in
    fetch statistic_id d' =
      option_map (fun found =>
                    (fst found,
                     with_unit_of_measurement (snd found) unit_of_measurement))
                 (fetch statistic_id d) /\
    (forall other, other <> statistic_id -> fetch other d' = fetch other d).
Proof.
  intros statistic_id unit d d' fetch. subst fetch. cbv beta. split.
  - rewrite !get_metadata_single. unfold d', update_statistics_metadata.
    cbn [statistics_meta set_meta].
    rewrite rev_filter_map_known.
    2:{ intros r. unfold known_as.
        destruct (String.eqb (m_statistic_id (mr_meta r)) statistic_id) eqn:E;
          [cbn [mr_meta with_unit_of_measurement m_statistic_id]|]; exact E. }
    destruct (rev (filter (known_as statistic_id) (statistics_meta d)))
      as [|row rest] eqn:Hrev; [reflexivity|].
    assert (Hrow : known_as statistic_id row = true).
    { assert (In row (filter (known_as statistic_id) (statistics_meta d)))
        by (apply in_rev; rewrite Hrev; now left).
      apply filter_In in H. tauto. }
    cbn [map dict_get]. unfold known_as in Hrow. rewrite Hrow.
    cbn [mr_id mr_meta dict_get option_map fst snd].
    now rewrite String.eqb_refl.
  - intros other Hne. rewrite !get_metadata_single.
    unfold d', update_statistics_metadata. cbn [statistics_meta set_meta].
    rewrite rev_filter_map_known.
    2:{ intros r. unfold known_as.
        destruct (String.eqb (m_statistic_id (mr_meta r)) statistic_id) eqn:E;
          reflexivity. }
    destruct (rev (filter (known_as other) (statistics_meta d)))
      as [|row rest] eqn:Hrev; [reflexivity|].
    assert (Hrow : known_as other row = true).
    { assert (In row (filter (known_as other) (statistics_meta d)))
        by (apply in_rev; rewrite Hrev; now left).
      apply filter_In in H. tauto. }
    unfold known_as in Hrow. apply String.eqb_eq in Hrow.
    cbn [map].
    destruct (String.eqb_spec (m_statistic_id (mr_meta row)) statistic_id)
      as [E|E]; [congruence|reflexivity].
Qed.

(** When an entity of the recorder's own source is renamed and the new id
    is not in use, the series is found under the new id with the metadata id
    it had, so the rows filed under that id follow it, and is no longer found
    under the old id.  A series of another source keeps its id. *)
Theorem entity_id_changed_renames :
  forall (old_entity_id entity_id : string) (d : Db)
         (metadata_id : Z) (meta : StatisticMetaData),
    let d' := _entity_id_changed old_entity_id entity_id d in
    let fetch := fun sid db =>
      dict_get String.eqb
        (get_metadata_with_session (Some [sid]) None None db) sid in
    old_entity_id <> entity_id ->
    (forall r, In r (statistics_meta d) ->
               m_statistic_id (mr_meta r) <> entity_id) ->
    fetch old_entity_id d = Some (metadata_id, meta) ->
    (statistics d' = statistics d /\
     statistics_short_term d' = statistics_short_term d) /\
    (m_source meta = DOMAIN ->
     fetch entity_id d' = Some (metadata_id, with_statistic_id meta entity_id)) /\
    ((forall r, In r (statistics_meta d) ->
                m_statistic_id (mr_meta r) = old_entity_id ->
                m_source (mr_meta r) = DOMAIN) ->
     fetch old_entity_id d' = None) /\
    (m_source meta <> DOMAIN ->
     fetch old_entity_id d' = Some (metadata_id, meta)).
Proof.
  intros old new d metadata_id meta d' fetch Hne Hfree Hold. subst fetch.
  cbv beta in *. split; [split; reflexivity|].
  rewrite get_metadata_single in Hold.
  set (rename := fun r : MetaRow =>
         if String.eqb (m_statistic_id (mr_meta r)) old
            && String.eqb (m_source (mr_meta r)) DOMAIN
         then {| mr_id := mr_id r; mr_meta := with_statistic_id (mr_meta r) new |}
         else r).
  assert (Hd' : statistics_meta d' = map rename (statistics_meta d))
    by reflexivity.
  assert (Hnew : forall r, In r (statistics_meta d) ->
            known_as new (rename r) =
              known_as old r && String.eqb (m_source (mr_meta r)) DOMAIN).
  { intros r Hr. unfold known_as, rename.
    destruct (String.eqb_spec (m_statistic_id (mr_meta r)) old) as [E|E];
      cbn [andb].
    - destruct (String.eqb (m_source (mr_meta r)) DOMAIN);
        cbn [mr_meta with_statistic_id m_statistic_id].
      + apply String.eqb_refl.
      + apply String.eqb_neq. rewrite E. exact Hne.
    - apply String.eqb_neq. now apply Hfree. }
  assert (Holdk : forall r,
            known_as old (rename r) =
              known_as old r && negb (String.eqb (m_source (mr_meta r)) DOMAIN)).
  { intros r. unfold known_as, rename.
    destruct (String.eqb_spec (m_statistic_id (mr_meta r)) old) as [E|E];
      cbn [andb].
    - destruct (String.eqb (m_source (mr_meta r)) DOMAIN);
        cbn [mr_meta with_statistic_id m_statistic_id negb].
      + apply String.eqb_neq. congruence.
      + apply String.eqb_eq. exact E.
    - now apply String.eqb_neq. }
  assert (Hfm : forall (p q : MetaRow -> bool) rows,
            (forall r, In r rows -> p (rename r) = q r) ->
            filter p (map rename rows) = map rename (filter q rows)).
  { intros p q rows. induction rows as [|r rows IH]; intros H;
      cbn [map filter]; [reflexivity|].
    rewrite (H r (or_introl eq_refl)).
    destruct (q r); cbn [map]; rewrite IH; auto;
      intros x Hx; apply H; now right. }
  destruct (rev (filter (known_as old) (statistics_meta d)))
    as [|row rest] eqn:Hrev; [discriminate|].
  cbn [dict_get] in Hold. rewrite String.eqb_refl in Hold.
  injection Hold as <- <-.
  assert (Hrow : In row (statistics_meta d) /\ known_as old row = true).
  { assert (In row (filter (known_as old) (statistics_meta d)))
      by (apply in_rev; rewrite Hrev; now left).
    now apply filter_In in H. }
  destruct Hrow as [Hrin Hrold].
  assert (Hsplit : filter (known_as old) (statistics_meta d)
                   = rev rest ++ [row]).
  { rewrite <- (rev_involutive (filter _ _)), Hrev. reflexivity. }
  split; [|split].
  - (* the recorder's own series *)
    intros Hsrc. rewrite get_metadata_single, Hd'.
    rewrite (Hfm _ (fun r => known_as old r
                             && String.eqb (m_source (mr_meta r)) DOMAIN))
      by exact Hnew.
    rewrite <- filter_filter, Hsplit, filter_app. cbn [filter].
    rewrite Hsrc, String.eqb_refl, map_app, rev_app_distr.
    cbn [map rev app dict_get]. rewrite String.eqb_refl.
    unfold rename. unfold known_as in Hrold. rewrite Hrold, Hsrc,
      String.eqb_refl. reflexivity.
  - intros Hall. rewrite get_metadata_single, Hd'.
    rewrite (Hfm _ (fun r => known_as old r
                             && negb (String.eqb (m_source (mr_meta r)) DOMAIN)))
      by (intros; apply Holdk).
    rewrite filter_none; [reflexivity|].
    intros r Hr. destruct (known_as old r) eqn:E; [|reflexivity].
    unfold known_as in E. apply String.eqb_eq in E.
    rewrite (Hall r Hr E), String.eqb_refl. reflexivity.
  - intros Hsrc. apply String.eqb_neq in Hsrc.
    rewrite get_metadata_single, Hd'.
    rewrite (Hfm _ (fun r => known_as old r
                             && negb (String.eqb (m_source (mr_meta r)) DOMAIN)))
      by (intros; apply Holdk).
    rewrite <- filter_filter, Hsplit, filter_app. cbn [filter].
    rewrite Hsrc. cbn [negb]. rewrite map_app, rev_app_distr.
    cbn [map rev app dict_get]. rewrite String.eqb_refl.
    unfold rename. rewrite Hsrc, andb_false_r. reflexivity.
Qed.

(** ** The listing of the known series *)

Section SetDefault.
Context {V : Type}.

Lemma dict_setdefault_keys (d : list (string * V)) (k : string) (v : V) :
  NoDup (map fst d) -> NoDup (map fst (dict_setdefault String.eqb d k v)).
Proof.
  intros H. unfold dict_setdefault.
  destruct (dict_get String.eqb d k) eqn:E; [assumption|].
  rewrite map_app. cbn [map fst]. apply NoDup_snoc; [assumption|].
  now apply (dict_get_None String.eqb String_eqb_eq).
Qed.

Lemma dict_setdefault_keeps (d : list (string * V)) (k : string) (v : V)
    (kv : string * V) :
  In kv d -> In kv (dict_setdefault String.eqb d k v).
Proof.
  intros H. unfold dict_setdefault.
  destruct (dict_get String.eqb d k); [assumption|].
  apply in_or_app. now left.
Qed.

Lemma fold_setdefault (other d : list (string * V)) :
  NoDup (map fst d) ->
  NoDup (map fst (fold_left (fun result kv =>
                               dict_setdefault String.eqb result (fst kv) (snd kv))
                            other d)) /\
  forall kv, In kv d ->
             In kv (fold_left (fun result kv =>
                                 dict_setdefault String.eqb result (fst kv) (snd kv))
                              other d).
Proof.
  revert d. induction other as [|x other IH]; intros d Hd; cbn [fold_left].
  - auto.
  - destruct (IH (dict_setdefault String.eqb d (fst x) (snd x))
                 (dict_setdefault_keys d _ _ Hd)) as [H1 H2].
    split; [assumption|]. intros kv Hkv. apply H2.
    now apply dict_setdefault_keeps.
Qed.

Lemma dict_of_distinct (pairs : list (string * V)) :
  NoDup (map fst pairs) -> dict_of String.eqb pairs = pairs.
Proof.
  intros Hnd. unfold dict_of, dict_update.
  assert (Hgen : forall rest done : list (string * V),
            NoDup (map fst (done ++ rest)) ->
            fold_left (fun acc kv => dict_set String.eqb acc (fst kv) (snd kv))
                      rest done = done ++ rest).
  { induction rest as [|[k v] rest IH]; intros done H; cbn [fold_left fst snd].
    - now rewrite app_nil_r.
    - rewrite dict_set_append.
      + rewrite IH; now rewrite <- app_assoc.
      + apply (dict_get_None String.eqb String_eqb_eq).
        rewrite map_app in H. cbn [map fst] in H.
        apply NoDup_remove_2 in H. intros Hin. apply H.
        apply in_or_app. now left. }
  apply (Hgen pairs []). exact Hnd.
Qed.
End SetDefault.

(** [list_statistic_ids] lists no id twice.  A series the database knows is
    listed with what the database holds for it and with its unit as
    [_configured_unit] shows it, whatever the platforms report for the same
    id. *)
Theorem list_statistic_ids_database_first :
  forall (units : UnitSystem) (platforms : list listing_platform) (d : Db)
         (statistic_ids : option (list string))
         (stat_type : option statistic_type),
    let listed :=
      list_statistic_ids units platforms d statistic_ids stat_type in
    NoDup (map l_statistic_id listed) /\
    forall statistic_id metadata_id meta,
      dict_get String.eqb
        (get_metadata_with_session statistic_ids stat_type None d)
        statistic_id = Some (metadata_id, meta) ->
      In {| l_statistic_id := statistic_id;
            l_has_mean := m_has_mean meta;
            l_has_sum := m_has_sum meta;
            l_name := m_name meta;
            l_source := m_source meta;
            l_unit_of_measurement :=
              _configured_unit (m_unit_of_measurement meta) units |}
         listed.
Proof.
  intros units platforms d statistic_ids stat_type listed. subst listed.
  unfold list_statistic_ids.
  set (metadata := get_metadata_with_session statistic_ids stat_type None d).
  set (from_db := map _ metadata).
  assert (Hkeys : map fst from_db = map fst metadata).
  { unfold from_db. rewrite map_map. apply map_ext_in.
    intros [sid [mid meta]] Hin. cbn [fst snd].
    now destruct (get_metadata_In statistic_ids stat_type None d
                    sid mid meta Hin). }
  assert (Hnd : NoDup (map fst from_db)).
  { rewrite Hkeys. apply (dict_of_NoDup String.eqb String_eqb_eq). }
  rewrite (dict_of_distinct from_db Hnd).
  set (step := fun (result : list (string * statistic_info))
                   (p : listing_platform) => _).
  assert (Hfold : forall ps result,
            NoDup (map fst result) ->
            NoDup (map fst (fold_left step ps result)) /\
            forall kv, In kv result -> In kv (fold_left step ps result)).
  { induction ps as [|p ps IH]; intros result Hres; cbn [fold_left]; [auto|].
    assert (Hstep : NoDup (map fst (step result p)) /\
                    forall kv, In kv result -> In kv (step result p)).
    { unfold step. destruct p as [list_ids|]; [|auto].
      now apply fold_setdefault. }
    destruct Hstep as [S1 S2]. destruct (IH _ S1) as [I1 I2].
    split; [assumption|]. auto. }
  destruct (Hfold platforms from_db Hnd) as [F1 F2].
  split.
  - rewrite map_map. cbn [l_statistic_id]. exact F1.
  - intros sid mid meta Hget.
    apply (dict_get_In String.eqb String_eqb_eq) in Hget.
    apply in_map_iff. exists (sid, {| i_has_mean := m_has_mean meta;
                                      i_has_sum := m_has_sum meta;
                                      i_name := m_name meta;
                                      i_source := m_source meta;
                                      i_unit_of_measurement :=
                                        _configured_unit
                                          (m_unit_of_measurement meta) units |}).
    split; [reflexivity|]. apply F2. unfold from_db.
    apply in_map_iff. exists (sid, (mid, meta)). split; [|assumption].
    cbn [fst snd]. f_equal.
    now destruct (get_metadata_In statistic_ids stat_type None d
                    sid mid meta Hget).
Qed.

(** ** Orders and groups *)

Section Sorting.
Context {A : Type} (le : A -> A -> bool).
Hypothesis le_total : forall a b, le a b = false -> le b a = true.
Hypothesis le_trans :
  forall a b c, le a b = true -> le b c = true -> le a c = true.

Lemma insert_sorted_ordered (x : A) (l : list A) :
  StronglySorted (fun a b => le a b = true) l ->
  StronglySorted (fun a b => le a b = true) (insert_sorted le x l).
Proof using le_total le_trans.
  induction 1 as [|a l Hs IH Hall]; cbn [insert_sorted].
  - constructor; constructor.
  - destruct (le x a) eqn:E.
    + constructor; [constructor; assumption|].
      constructor; [exact E|].
      eapply Forall_impl; [|exact Hall]. intros b. now apply le_trans.
    + constructor; [assumption|].
      apply Forall_forall. intros y Hy. apply insert_sorted_In in Hy.
      destruct Hy as [->|Hy]; [now apply le_total|].
      rewrite Forall_forall in Hall. auto.
Qed.

Lemma sort_by_ordered (l : list A) :
  StronglySorted (fun a b => le a b = true) (sort_by le l).
Proof using le_total le_trans.
  induction l as [|a l IH]; cbn [sort_by fold_right]; [constructor|].
  now apply insert_sorted_ordered.
Qed.
End Sorting.

Lemma period_order_spec (a b : StatRow) :
  period_order a b = true <->
  r_metadata_id a < r_metadata_id b \/
  (r_metadata_id a = r_metadata_id b /\ r_start a <= r_start b).
Proof.
  clear_parameters. unfold period_order.
  destruct (Z.ltb_spec (r_metadata_id a) (r_metadata_id b));
    destruct (Z.ltb_spec (r_metadata_id b) (r_metadata_id a));
    rewrite ?Z.leb_le; split; intros; try discriminate; try lia; auto.
Qed.

Lemma last_order_spec (a b : StatRow) :
  last_order a b = true <->
  r_metadata_id a < r_metadata_id b \/
  (r_metadata_id a = r_metadata_id b /\ r_start b <= r_start a).
Proof.
  clear_parameters. unfold last_order.
  destruct (Z.ltb_spec (r_metadata_id a) (r_metadata_id b));
    destruct (Z.ltb_spec (r_metadata_id b) (r_metadata_id a));
    rewrite ?Z.leb_le; split; intros; try discriminate; try lia; auto.
Qed.

Lemma period_order_sorted (l : list StatRow) :
  StronglySorted (fun a b => period_order a b = true) (sort_by period_order l).
Proof.
  clear_parameters. apply sort_by_ordered.
  - intros a b H. apply period_order_spec.
    assert (Hn : ~ period_order a b = true) by congruence.
    rewrite period_order_spec in Hn. lia.
  - intros a b c. rewrite !period_order_spec. lia.
Qed.

Lemma last_order_sorted (l : list StatRow) :
  StronglySorted (fun a b => last_order a b = true) (sort_by last_order l).
Proof.
  clear_parameters. apply sort_by_ordered.
  - intros a b H. apply last_order_spec.
    assert (Hn : ~ last_order a b = true) by congruence.
    rewrite last_order_spec in Hn. lia.
  - intros a b c. rewrite !last_order_spec. lia.
Qed.

Lemma StronglySorted_weaken {A : Type} (R R' : A -> A -> Prop) (l : list A) :
  (forall a b, R a b -> R' a b) -> StronglySorted R l -> StronglySorted R' l.
Proof.
  intros H. induction 1 as [|a l Hs IH Hall]; constructor; [assumption|].
  eapply Forall_impl; [|exact Hall]. intros b. apply H.
Qed.

Lemma StronglySorted_filter {A : Type} (R : A -> A -> Prop) (p : A -> bool)
    (l : list A) :
  StronglySorted R l -> StronglySorted R (filter p l).
Proof.
  induction 1 as [|a l Hs IH Hall]; cbn [filter]; [constructor|].
  destruct (p a); [|assumption]. constructor; [assumption|].
  apply Forall_forall. intros b Hb. apply filter_In in Hb.
  rewrite Forall_forall in Hall. now apply Hall.
Qed.

(** On rows that come in the order of their series, [groupby] yields the
    series in ascending order, each with its rows. *)
Lemma groupby_series (stats : list StatRow) :
  StronglySorted (fun a b => r_metadata_id a <= r_metadata_id b) stats ->
  groupby stats =
    map (fun m => (m, filter (of_series m) stats))
        (distinct_sorted (map r_metadata_id stats)).
Proof.
  clear_parameters.
  induction 1 as [|r rest Hs IH Hall]; [reflexivity|].
  cbn [groupby map distinct_sorted fold_right].
  fold (distinct_sorted (map r_metadata_id rest)). rewrite IH.
  pose proof (distinct_sorted_sorted (map r_metadata_id rest)) as Hds.
  assert (Hmem : forall k, In k (distinct_sorted (map r_metadata_id rest)) ->
                           r_metadata_id r <= k).
  { intros k Hk. apply (proj1 (distinct_sorted_In _ _)) in Hk.
    apply in_map_iff in Hk.
    destruct Hk as [x [<- Hx]]. rewrite Forall_forall in Hall. auto. }
  assert (Hself : of_series (r_metadata_id r) r = true)
    by (unfold of_series; apply Z.eqb_refl).
  assert (Hother : forall k, k <> r_metadata_id r -> of_series k r = false).
  { intros k Hk. unfold of_series. apply Z.eqb_neq. congruence. }
  destruct (distinct_sorted (map r_metadata_id rest)) as [|k ks] eqn:Eds.
  - cbn [map insert_distinct filter]. rewrite Hself.
    destruct rest as [|x rest']; [reflexivity|].
    assert (In (r_metadata_id x) (distinct_sorted
                                    (map r_metadata_id (x :: rest')))).
    { apply (proj2 (distinct_sorted_In _ _)). now left. }
    rewrite Eds in H. destruct H.
  - cbn [map insert_distinct].
    pose proof (Hmem k (or_introl eq_refl)) as Hle.
    inversion Hds as [|? ? Hks Hlt]; subst.
    assert (Htail : map (fun m => (m, filter (of_series m) (r :: rest))) ks
                    = map (fun m => (m, filter (of_series m) rest)) ks).
    { apply map_ext_in. intros m Hm. cbn [filter].
      rewrite Hother; [reflexivity|].
      rewrite Forall_forall in Hlt. specialize (Hlt m Hm). lia. }
    destruct (Z.eqb_spec k (r_metadata_id r)) as [E|E].
    + subst k. rewrite Z.ltb_irrefl, Z.eqb_refl. cbn [map filter].
      cbn [filter] in Htail. rewrite Hself, Htail. reflexivity.
    + assert (Hlt' : r_metadata_id r < k) by lia.
      apply Z.ltb_lt in Hlt'. rewrite Hlt'. cbn [map filter].
      cbn [filter] in Htail.
      rewrite Hself, (Hother k E), Htail. f_equal. f_equal. f_equal.
      symmetry. apply filter_none. intros x Hx. unfold of_series. apply Z.eqb_neq.
      intros Ex.
      assert (In (r_metadata_id x) (distinct_sorted (map r_metadata_id rest))).
      { apply (proj2 (distinct_sorted_In _ _)). now apply in_map. }
      rewrite Eds in H. destruct H as [Hk|Hin].
      * apply Z.ltb_lt in Hlt'. lia.
      * rewrite Forall_forall in Hlt. specialize (Hlt _ Hin).
        apply Z.ltb_lt in Hlt'. lia.
Qed.

(** ** The shape of a response *)

Section Response.
Variables (units : UnitSystem) (d : Db) (_metadata : metadata_dict).
Variables (convert_units : bool) (t : table) (start_time : option datetime).
Variables (start_time_as_datetime : bool) (stats : list StatRow).

(** The metadata by metadata id, as the assembler keys them. *)
Definition metadata_by_key : list (Z * StatisticMetaData) :=
  dict_of Z.eqb (map snd _metadata).

(** The look-back rows the assembler has fetched, by series. *)
Definition stats_at_start : list (Z * StatRow) :=
  let need := need_stat_at_start_time start_time (groupby stats) in
  match need, start_time with
  | _ :: _, Some st =>
      fold_left (fun acc stat => dict_set Z.eqb acc (r_metadata_id stat) stat)
                (_statistics_at_time need t st d) []
  | _, _ => []
  end.

Definition look_back (m : Z) : list StatRow :=
  match dict_get Z.eqb stats_at_start m with
  | Some stat => [stat]
  | None => []
  end.

(** The item of a response for the series [m] with the selected rows
    [rows]: the id of the series and its entries, the look-back entry
    first. *)
Definition series_item (m : Z) (rows : list StatRow) : string * list entry :=
  match dict_get Z.eqb metadata_by_key m with
  | Some meta =>
      (m_statistic_id meta,
       map (to_entry units (m_statistic_id meta)
              (if convert_units
               then statistic_unit_to_display_unit (m_unit_of_measurement meta)
               else fun val _ => val)
              t start_time_as_datetime)
           (look_back m ++ rows))
  | None => (EmptyString, [])
  end.

Lemma append_groups_fresh (groups : list (Z * list StatRow))
    (result : list (key * list entry)) :
  (forall g, In g groups ->
             exists meta, dict_get Z.eqb metadata_by_key (fst g) = Some meta) ->
  NoDup (map fst groups) ->
  (forall g, In g groups -> ~ In (KInt (fst g)) (map fst result)) ->
  append_groups units metadata_by_key convert_units t start_time_as_datetime
                stats_at_start groups result =
    Some (result ++ map (fun g => (KInt (fst g),
                                   snd (series_item (fst g) (snd g)))) groups).
Proof.
  unfold append_groups. revert result.
  induction groups as [|[k g] groups IH]; intros result Hmeta Hnd Hfresh.
  - cbn. now rewrite app_nil_r.
  - cbn [fold_left fst snd map].
    destruct (Hmeta (k, g) (or_introl eq_refl)) as [meta Hk].
    cbn [fst] in Hk. rewrite Hk.
    assert (Hnone : dict_get key_eqb result (KInt k) = None).
    { apply (dict_get_None key_eqb key_eqb_eq).
      exact (Hfresh (k, g) (or_introl eq_refl)). }
    rewrite Hnone, (dict_set_append _ _ _ _ Hnone). cbn [app].
    cbn [map fst] in Hnd. inversion Hnd as [|? ? Hnin Hnd']; subst.
    rewrite IH.
    + rewrite <- app_assoc. cbn [app]. unfold series_item, look_back.
      cbn [fst snd]. rewrite Hk. reflexivity.
    + intros x Hx. apply Hmeta. now right.
    + exact Hnd'.
    + intros x Hx. rewrite map_app, in_app_iff. cbn [map fst].
      intros [Hin|[[= E]|[]]].
      * apply (Hfresh x); [now right|assumption].
      * apply Hnin. rewrite E. now apply in_map.
Qed.

Lemma finish_result_groups (groups : list (Z * list StatRow))
    (result : list (key * list entry)) :
  (forall kv, In kv result -> snd kv = []) ->
  (forall g, In g groups ->
             snd g <> [] /\
             exists meta, dict_get Z.eqb metadata_by_key (fst g) = Some meta) ->
  NoDup (map (fun g => fst (series_item (fst g) (snd g))) groups) ->
  finish_result metadata_by_key
    (result ++ map (fun g => (KInt (fst g),
                              snd (series_item (fst g) (snd g)))) groups) =
    Some (map (fun g => series_item (fst g) (snd g)) groups).
Proof.
  intros Hempty Hgroups Hnd. unfold finish_result. rewrite fold_left_app.
  match goal with |- context [fold_left ?F result (Some [])] =>
    set (step := F)
  end.
  assert (Hfirst : forall out, fold_left step result (Some out) = Some out).
  { induction result as [|kv result IH]; intros out; [reflexivity|].
    cbn [fold_left]. unfold step at 2.
    rewrite (Hempty kv (or_introl eq_refl)). apply IH.
    intros x Hx. apply Hempty. now right. }
  rewrite Hfirst.
  assert (Hgen : forall rest done,
            (forall g, In g rest -> In g groups) ->
            NoDup (map (fun g => fst (series_item (fst g) (snd g)))
                       (done ++ rest)) ->
            fold_left step
              (map (fun g => (KInt (fst g), snd (series_item (fst g) (snd g))))
                   rest)
              (Some (map (fun g => series_item (fst g) (snd g)) done)) =
              Some (map (fun g => series_item (fst g) (snd g)) (done ++ rest))).
  { induction rest as [|[k g] rest IH]; intros done Hin Hnd'.
    - now rewrite app_nil_r.
    - cbn [map fold_left fst snd].
      destruct (Hgroups (k, g) (Hin _ (or_introl eq_refl)))
        as [Hne [meta Hk]]. cbn [fst snd] in Hne, Hk.
      unfold step at 2. cbn [fst snd].
      assert (Hitem : series_item k g =
                (m_statistic_id meta, snd (series_item k g))).
      { unfold series_item. rewrite Hk. reflexivity. }
      assert (Hsome : snd (series_item k g) <> []).
      { unfold series_item. rewrite Hk. cbn [snd].
        destruct g as [|r g]; [contradiction|].
        destruct (look_back k); discriminate. }
      destruct (snd (series_item k g)) as [|e es] eqn:Eitem; [contradiction|].
      rewrite Hk.
      assert (Hfresh : dict_get String.eqb
                         (map (fun g => series_item (fst g) (snd g)) done)
                         (m_statistic_id meta) = None).
      { apply (dict_get_None String.eqb String_eqb_eq). rewrite map_map.
        rewrite map_app in Hnd'. cbn [map fst snd] in Hnd'.
        apply NoDup_remove_2 in Hnd'. intros H. apply Hnd'.
        apply in_or_app. left. rewrite Hitem. exact H. }
      rewrite (dict_set_append _ _ _ _ Hfresh).
      replace (map (fun g => series_item (fst g) (snd g)) done
               ++ [(m_statistic_id meta, e :: es)])
        with (map (fun g => series_item (fst g) (snd g)) (done ++ [(k, g)]))
        by (rewrite map_app; cbn [map fst snd]; now rewrite Hitem).
      rewrite IH.
      + now rewrite <- app_assoc.
      + intros x Hx. apply Hin. now right.
      + now rewrite <- app_assoc. }
  apply (Hgen groups []); auto.
Qed.

(** The assembler on rows whose runs are of different series, each with
    metadata and no two under one statistic id: the response has one item
    for each run, in the order of the runs. *)
Lemma sorted_statistics_to_dict_groups (statistic_ids : option (list string)) :
  NoDup (map fst (groupby stats)) ->
  (forall g, In g (groupby stats) ->
             exists meta, dict_get Z.eqb metadata_by_key (fst g) = Some meta) ->
  NoDup (map (fun g => fst (series_item (fst g) (snd g))) (groupby stats)) ->
  _sorted_statistics_to_dict units d stats statistic_ids _metadata
    convert_units t start_time start_time_as_datetime =
    Some (map (fun g => series_item (fst g) (snd g)) (groupby stats)).
Proof.
  intros Hkeys Hmeta Hsids. unfold _sorted_statistics_to_dict.
  fold metadata_by_key. fold stats_at_start.
  set (result := match statistic_ids with
                 | Some ids => fold_left _ ids []
                 | None => []
                 end).
  assert (Hresult : forall k v, In (k, v) result ->
                                v = [] /\ exists x, k = KStr x).
  { unfold result. destruct statistic_ids as [ids|]; [|intros k v []].
    apply (initial_result_inv ids []); [intros k v []|constructor]. }
  rewrite append_groups_fresh; try assumption.
  - apply finish_result_groups; try assumption.
    + intros [k v] Hin. now destruct (Hresult k v Hin).
    + intros g Hg. split; [|now apply Hmeta].
      destruct g as [k rows]. now destruct (groupby_groups stats k rows Hg).
  - intros g _ Hin. apply in_map_iff in Hin. destruct Hin as [[k v] [E Hin]].
    cbn [fst] in E. destruct (Hresult k v Hin) as [_ [x Hx]]. congruence.
Qed.
End Response.

(** ** The most recent rows of a series *)

Lemma distinct_sorted_one (m : Z) (l : list Z) :
  l <> [] -> (forall x, In x l -> x = m) -> distinct_sorted l = [m].
Proof.
  clear_parameters.
  induction l as [|a l IH]; intros Hne Hall; [contradiction|].
  cbn [distinct_sorted fold_right].
  rewrite (Hall a (or_introl eq_refl)).
  destruct l as [|b l]; [reflexivity|].
  fold (distinct_sorted (b :: l)).
  rewrite IH; [|discriminate|intros x Hx; apply Hall; now right].
  cbn [insert_distinct]. now rewrite Z.ltb_irrefl, Z.eqb_refl.
Qed.

Lemma StronglySorted_weaken_in {A : Type} (R R' : A -> A -> Prop)
    (l : list A) :
  StronglySorted R l ->
  (forall a b, In a l -> In b l -> R a b -> R' a b) ->
  StronglySorted R' l.
Proof.
  induction 1 as [|a l Hs IH Hall]; intros H; constructor.
  - apply IH. intros x y Hx Hy. apply H; now right.
  - apply Forall_forall. intros b Hb. rewrite Forall_forall in Hall.
    apply H; [now left|now right|auto].
Qed.

Lemma firstn_in {A : Type} (n : nat) (l : list A) (x : A) :
  In x (firstn n l) -> In x l.
Proof.
  intros H. rewrite <- (firstn_skipn n l). apply in_or_app. now left.
Qed.

(** [_get_last_statistics] for a series that is known: the response has the
    one key of the series, with an entry for each of its [number_of_stats]
    most recent rows, the most recent first and no look-back entry; it is
    empty when the series has no row or none is asked for.  For a series
    that is not known it is empty. *)
Theorem get_last_statistics_newest_first :
  forall (units : UnitSystem) (d : Db) (number_of_stats : nat)
         (statistic_id : string) (convert_units : bool) (t : table),
    match dict_get String.eqb
            (get_metadata_with_session (Some [statistic_id]) None None d)
            statistic_id with
    | None =>
        _get_last_statistics units d number_of_stats statistic_id
                             convert_units t = Some []
    | Some (metadata_id, meta) =>
        let rows := _get_last_statistics_stmt metadata_id number_of_stats t d in
        _get_last_statistics units d number_of_stats statistic_id
                             convert_units t =
          Some match rows with
               | [] => []
               | _ =>
                   [(statistic_id,
                     map (to_entry units statistic_id
                            (if convert_units
                             then statistic_unit_to_display_unit
                                    (m_unit_of_measurement meta)
                             else fun val _ => val)
                            t false)
                         rows)]
               end /\
        (length rows <= number_of_stats)%nat /\
        StronglySorted (fun a b => r_start b <= r_start a) rows /\
        (forall r, In r rows ->
                   In r (rows_of t d) /\ r_metadata_id r = metadata_id) /\
        (forall r r', In r (rows_of t d) -> r_metadata_id r = metadata_id ->
                      ~ In r rows -> In r' rows -> r_start r <= r_start r')
    end.
Proof.
  intros units d n statistic_id convert_units t.
  unfold _get_last_statistics. rewrite get_metadata_single.
  destruct (rev (filter (known_as statistic_id) (statistics_meta d)))
    as [|row rest] eqn:Hrev; [reflexivity|].
  cbn [dict_get]. rewrite String.eqb_refl. cbv zeta.
  assert (Hsid : m_statistic_id (mr_meta row) = statistic_id).
  { assert (In row (filter (known_as statistic_id) (statistics_meta d)))
      by (apply in_rev; rewrite Hrev; now left).
    apply filter_In in H. destruct H as [_ H]. now apply String.eqb_eq. }
  set (m := mr_id row). set (meta := mr_meta row) in *.
  set (S := sort_by last_order (filter (of_series m) (rows_of t d))).
  assert (HS : StronglySorted (fun a b => last_order a b = true) S)
    by apply last_order_sorted.
  assert (HinS : forall r, In r S <->
                           In r (rows_of t d) /\ r_metadata_id r = m).
  { intros r. unfold S. rewrite sort_by_In, filter_In. unfold of_series.
    now rewrite Z.eqb_eq. }
  unfold _get_last_statistics_stmt. fold S.
  set (rows := firstn n S).
  assert (Hrows : forall r, In r rows ->
                            In r (rows_of t d) /\ r_metadata_id r = m).
  { intros r Hr. apply HinS. exact (firstn_in n S r Hr). }
  assert (Hsplit : StronglySorted (fun a b => last_order a b = true)
                                  (rows ++ skipn n S))
    by (unfold rows; now rewrite firstn_skipn).
  apply StronglySorted_app_inv in Hsplit.
  destruct Hsplit as [Hsorted [_ Hcross]].
  split; [|split; [|split; [|split]]].
  - destruct rows as [|r0 rows'] eqn:Erows; [reflexivity|].
    rewrite <- Erows in *.
    assert (Hne : rows <> []) by (rewrite Erows; discriminate).
    assert (Hgroups : groupby rows = [(m, rows)]).
    { rewrite groupby_series.
      - rewrite (distinct_sorted_one m).
        + cbn [map]. f_equal. f_equal. apply filter_all.
          intros r Hr. unfold of_series. apply Z.eqb_eq. now apply Hrows.
        + rewrite Erows. discriminate.
        + intros x Hx. apply in_map_iff in Hx. destruct Hx as [r [<- Hr]].
          now apply Hrows.
      - eapply StronglySorted_weaken; [|exact Hsorted].
        intros a b Hab. apply last_order_spec in Hab. clear - Hab.
        clear_parameters. lia. }
    rewrite (sorted_statistics_to_dict_groups units d
               [(statistic_id, (m, meta))] convert_units t None false rows).
    + rewrite Hgroups. cbn [map fst snd]. unfold series_item, metadata_by_key.
      cbn [map snd dict_of dict_update fold_left dict_set dict_get fst].
      rewrite Z.eqb_refl. unfold look_back, stats_at_start.
      rewrite Hgroups. cbn [need_stat_at_start_time fold_left snd].
      destruct rows; [contradiction|]. cbn [dict_get app].
      now rewrite Hsid.
    + rewrite Hgroups. cbn. repeat constructor. intros [].
    + rewrite Hgroups. intros g [<-|[]]. exists meta.
      unfold metadata_by_key.
      cbn [map snd dict_of dict_update fold_left dict_set dict_get fst].
      now rewrite Z.eqb_refl.
    + rewrite Hgroups. cbn. repeat constructor. intros [].
  - unfold rows. apply firstn_le_length.
  - apply (StronglySorted_weaken_in _ _ _ Hsorted).
    intros a b Ha Hb Hab. apply last_order_spec in Hab.
    destruct (Hrows a Ha) as [_ Hma]. destruct (Hrows b Hb) as [_ Hmb].
    clear - Hab Hma Hmb. clear_parameters. lia.
  - exact Hrows.
  - intros r r' Hr Hm Hnot Hr'.
    assert (HrS : In r S) by (apply HinS; auto).
    rewrite <- (firstn_skipn n S) in HrS. apply in_app_or in HrS.
    destruct HrS as [HrS|HrS]; [contradiction|].
    specialize (Hcross r' r Hr' HrS). apply last_order_spec in Hcross.
    destruct (Hrows r' Hr') as [_ Hm']. clear - Hcross Hm Hm'.
    clear_parameters. lia.
Qed.

(** ** The response of a range query *)

(** With unique ids, what [_statistics_at_time] returns are rows of the
    table that start before the start time. *)
Lemma statistics_at_time_before (need : list Z) (t : table)
    (start_time : datetime) (d : Db) (r : StatRow) :
  NoDup (map r_id (rows_of t d)) ->
  In r (_statistics_at_time need t start_time d) ->
  In r (rows_of t d) /\ r_start r < instant start_time.
Proof.
  clear_parameters.
  intros Hpk Hr. unfold _statistics_at_time in Hr.
  apply filter_In in Hr. destruct Hr as [Hr Hi]. split; [assumption|].
  apply mem_Z_In in Hi. apply in_flat_map in Hi. destruct Hi as [k [_ Hi]].
  apply max_id_spec in Hi. destruct Hi as [[r0 [Hr0 E]] _].
  apply filter_In in Hr0. destruct Hr0 as [Hr0 _].
  apply filter_In in Hr0. destruct Hr0 as [Hr0 Hb].
  apply andb_prop in Hb. destruct Hb as [Hb _]. apply Z.ltb_lt in Hb.
  now rewrite <- (NoDup_map_inj r_id _ _ _ Hpk Hr0 Hr E).
Qed.

Lemma fold_dict_set_by_series (l : list StatRow) (acc : list (Z * StatRow))
    (m : Z) (p : StatRow) :
  dict_get Z.eqb
    (fold_left (fun acc stat => dict_set Z.eqb acc (r_metadata_id stat) stat)
               l acc) m = Some p ->
  (In p l /\ r_metadata_id p = m) \/ dict_get Z.eqb acc m = Some p.
Proof.
  revert acc. induction l as [|a l IH]; intros acc H; cbn [fold_left] in H;
    [now right|].
  apply IH in H. destruct H as [[Hin Hm]|H]; [left; split; [now right|auto]|].
  destruct (Z.eq_dec (r_metadata_id a) m) as [E|E].
  - rewrite E, (dict_get_set_same Z.eqb Z_eqb_eq) in H. injection H as <-.
    left. split; [now left|assumption].
  - rewrite (dict_get_set_other Z.eqb Z_eqb_eq) in H by assumption.
    now right.
Qed.

(** The look-back of a series is at most one row, of that series, that
    starts before the start time. *)
Lemma look_back_before (d : Db) (t : table) (start_time : datetime)
    (stats : list StatRow) (m : Z) :
  NoDup (map r_id (rows_of t d)) ->
  look_back d t (Some start_time) stats m = [] \/
  exists prior,
    look_back d t (Some start_time) stats m = [prior] /\
    In prior (rows_of t d) /\ r_metadata_id prior = m /\
    r_start prior < instant start_time.
Proof.
  intros Hpk. unfold look_back.
  destruct (dict_get Z.eqb (stats_at_start d t (Some start_time) stats) m)
    as [prior|] eqn:Hget; [right|now left].
  exists prior. split; [reflexivity|].
  unfold stats_at_start in Hget.
  destruct (need_stat_at_start_time (Some start_time) (groupby stats))
    as [|k need]; [discriminate|].
  apply fold_dict_set_by_series in Hget.
  destruct Hget as [[Hin Hm]|Hget]; [|discriminate].
  destruct (statistics_at_time_before _ _ _ _ _ Hpk Hin). auto.
Qed.

Lemma NoDup_map_injective_on {A B : Type} (f : A -> B) (l : list A) :
  NoDup l ->
  (forall a b, In a l -> In b l -> f a = f b -> a = b) ->
  NoDup (map f l).
Proof.
  induction 1 as [|a l Hnin Hnd IH]; intros Hinj; cbn [map]; constructor.
  - intros Hin. apply in_map_iff in Hin. destruct Hin as [b [E Hb]].
    apply Hnin. rewrite (Hinj a b); auto; [now left|now right].
  - apply IH. intros x y Hx Hy. apply Hinj; now right.
Qed.

Lemma Forall2_map_right {A B : Type} (P : A -> B -> Prop) (f : A -> B)
    (l : list A) :
  (forall a, In a l -> P a (f a)) -> Forall2 P l (map f l).
Proof.
  induction l as [|a l IH]; intros H; cbn [map]; constructor.
  - apply H. now left.
  - apply IH. intros x Hx. apply H. now right.
Qed.

(** Every metadata id among the metadata fetched has its metadata, and they
    tell two ids apart. *)
Lemma metadata_of_key (statistic_ids : option (list string)) (d : Db) (m : Z) :
  NoDup (map mr_id (statistics_meta d)) ->
  let metadata := get_metadata_with_session statistic_ids None None d in
  In m (map (fun kv => fst (snd kv)) metadata) ->
  exists meta,
    In (m_statistic_id meta, (m, meta)) metadata /\
    dict_get Z.eqb (metadata_by_key metadata) m = Some meta /\
    forall i meta', dict_get Z.eqb (metadata_by_key metadata) i = Some meta' ->
                    m_statistic_id meta' = m_statistic_id meta -> i = m.
Proof.
  intros Hpk metadata Hin. apply in_map_iff in Hin.
  destruct Hin as [[sid [m' meta]] [E Hin]]. cbn [fst snd] in E. subst m'.
  assert (Hget : dict_get String.eqb metadata sid = Some (m, meta)).
  { apply (dict_get_Some_of_In String.eqb String_eqb_eq); [|assumption].
    apply (dict_of_NoDup String.eqb String_eqb_eq). }
  destruct (metadata_by_id statistic_ids d sid m meta Hpk Hget)
    as [Hsid [Hm Hinj]].
  exists meta. rewrite Hsid. split; [exact Hin|]. split; [exact Hm|].
  intros i meta' Hi Hs. apply (Hinj i meta' Hi). congruence.
Qed.

(** The response of a range query by hours or by five minutes.  It has one
    item for each series that has a row in the window, in ascending order of
    their metadata ids and not in the order in which the series were asked
    for.  The item of a series is keyed by its statistic id and lists at
    most one look-back entry, made of a row of the series that starts before
    the window, and then the rows of the series in the window, in ascending
    order of their starts, each converted to the display unit.  Ids are
    taken to be unique, and when no series is named every row to belong to a
    series with metadata. *)
Theorem statistics_during_period_series :
  forall (units : UnitSystem) (d : Db) (start_time : datetime)
         (end_time : option datetime) (statistic_ids : option (list string))
         (p : period) (start_time_as_datetime : bool),
    let t := match p with
             | Period5Minute => StatisticsShortTerm
             | _ => Statistics
             end in
    let metadata := get_metadata_with_session statistic_ids None None d in
    let stats :=
      _statistics_during_period_stmt start_time end_time statistic_ids
        (map (fun kv => fst (snd kv)) metadata) t d in
    p <> PeriodDay -> p <> PeriodMonth ->
    NoDup (map r_id (rows_of t d)) ->
    NoDup (map mr_id (statistics_meta d)) ->
    (statistic_ids = None ->
     forall r, In r (rows_of t d) ->
               In (r_metadata_id r) (map (fun kv => fst (snd kv)) metadata)) ->
    exists answer,
      statistics_during_period units d start_time end_time statistic_ids p
                               start_time_as_datetime = Some answer /\
      StronglySorted (fun a b => period_order a b = true) stats /\
      Forall2
        (fun m item =>
           exists meta prior_rows,
             In (fst item, (m, meta)) metadata /\
             m_statistic_id meta = fst item /\
             snd item =
               map (to_entry units (fst item)
                      (statistic_unit_to_display_unit
                         (m_unit_of_measurement meta))
                      t start_time_as_datetime)
                   (prior_rows ++ filter (of_series m) stats) /\
             (prior_rows = [] \/
              exists prior,
                prior_rows = [prior] /\ In prior (rows_of t d) /\
                r_metadata_id prior = m /\
                r_start prior < instant start_time))
        (distinct_sorted (map r_metadata_id stats)) answer.
Proof.
  intros units d start_time end_time statistic_ids p as_dt t metadata stats
    Hday Hmonth Hpk Hmpk Hfk.
  assert (Hsorted : StronglySorted (fun a b => period_order a b = true) stats)
    by apply period_order_sorted.
  assert (Hkey : forall r, In r stats ->
            In (r_metadata_id r) (map (fun kv => fst (snd kv)) metadata)).
  { intros r Hr. unfold stats, _statistics_during_period_stmt in Hr.
    apply sort_by_In, filter_In in Hr. destruct Hr as [Hr Hsel].
    destruct statistic_ids as [ids|]; [|now apply Hfk].
    apply andb_prop in Hsel. destruct Hsel as [_ Hsel].
    now apply mem_Z_In. }
  assert (Hseries : groupby stats =
            map (fun m => (m, filter (of_series m) stats))
                (distinct_sorted (map r_metadata_id stats))).
  { apply groupby_series.
    eapply StronglySorted_weaken; [|exact Hsorted].
    intros a b Hab. apply period_order_spec in Hab. clear - Hab.
    clear_parameters. lia. }
  assert (Hitems : Forall2
            (fun m item =>
               exists meta prior_rows,
                 In (fst item, (m, meta)) metadata /\
                 m_statistic_id meta = fst item /\
                 snd item =
                   map (to_entry units (fst item)
                          (statistic_unit_to_display_unit
                             (m_unit_of_measurement meta))
                          t as_dt)
                       (prior_rows ++ filter (of_series m) stats) /\
                 (prior_rows = [] \/
                  exists prior,
                    prior_rows = [prior] /\ In prior (rows_of t d) /\
                    r_metadata_id prior = m /\
                    r_start prior < instant start_time))
            (distinct_sorted (map r_metadata_id stats))
            (map (fun m => series_item units d metadata true t
                             (Some start_time) as_dt stats m
                             (filter (of_series m) stats))
                 (distinct_sorted (map r_metadata_id stats)))).
  { apply Forall2_map_right. intros m Hm.
    apply distinct_sorted_In, in_map_iff in Hm. destruct Hm as [r [<- Hr]].
    destruct (metadata_of_key statistic_ids d (r_metadata_id r) Hmpk
                (Hkey r Hr)) as [meta [Hin [Hget _]]].
    fold metadata in Hin, Hget.
    exists meta, (look_back d t (Some start_time) stats (r_metadata_id r)).
    unfold series_item. rewrite Hget. cbn [fst snd].
    split; [assumption|]. split; [reflexivity|]. split; [reflexivity|].
    apply look_back_before. exact Hpk. }
  assert (Hstats : stats =
            _statistics_during_period_stmt start_time end_time statistic_ids
              (map (fun kv => fst (snd kv)) metadata) t d) by reflexivity.
  clearbody stats.
  assert (Hkeyed : forall m,
            In m (map (fun kv => fst (snd kv)) metadata) ->
            exists meta,
              dict_get Z.eqb (metadata_by_key metadata) m = Some meta /\
              forall i meta',
                dict_get Z.eqb (metadata_by_key metadata) i = Some meta' ->
                m_statistic_id meta' = m_statistic_id meta -> i = m).
  { intros m Hm. destruct (metadata_of_key statistic_ids d m Hmpk Hm)
      as [meta [_ H]]. now exists meta. }
  assert (Hmetadata : metadata =
            get_metadata_with_session statistic_ids None None d)
    by reflexivity.
  clearbody metadata.
  destruct stats as [|s0 stats'].
  { exists []. split; [|split; [constructor|constructor]].
    unfold statistics_during_period. rewrite <- Hmetadata. fold t.
    destruct metadata as [|kv md]; [reflexivity|].
    rewrite <- Hstats. reflexivity. }
  set (stats := s0 :: stats') in *.
  assert (Hne : stats <> []) by discriminate.
  assert (Hmd : metadata <> []).
  { intros E. specialize (Hkey s0 (or_introl eq_refl)). rewrite E in Hkey.
    exact Hkey. }
  eexists. split; [|split; [exact Hsorted|exact Hitems]].
  rewrite Hstats, Hmetadata in Hne. rewrite Hmetadata in Hmd.
  rewrite (statistics_during_period_nonempty units d start_time end_time
             statistic_ids p as_dt Hmd Hne).
  fold t. rewrite <- Hmetadata, <- Hstats.
  transitivity (_sorted_statistics_to_dict units d stats statistic_ids metadata
                  true t (Some start_time) as_dt);
    [destruct p; try reflexivity; contradiction|].
  rewrite sorted_statistics_to_dict_groups.
  - rewrite Hseries, map_map. reflexivity.
  - rewrite Hseries, map_map. cbn [fst]. rewrite map_id.
    apply distinct_sorted_NoDup.
  - intros [k g] Hg. destruct (groupby_groups stats k g Hg) as [Hgne Hrows].
    destruct g as [|r g]; [contradiction|].
    destruct (Hrows r (or_introl eq_refl)) as [Hr <-].
    destruct (Hkeyed _ (Hkey r Hr)) as [meta [Hget _]].
    exists meta. exact Hget.
  - rewrite Hseries, map_map. cbn [fst snd].
    apply NoDup_map_injective_on; [apply distinct_sorted_NoDup|].
    intros a b Ha Hb Hab.
    apply distinct_sorted_In, in_map_iff in Ha, Hb.
    destruct Ha as [ra [<- Hra]]. destruct Hb as [rb [<- Hrb]].
    destruct (Hkeyed _ (Hkey ra Hra)) as [ma [Hga Hinj]].
    destruct (Hkeyed _ (Hkey rb Hrb)) as [mb [Hgb _]].
    unfold series_item in Hab. rewrite Hga, Hgb in Hab. cbn [fst] in Hab.
    symmetry. apply (Hinj _ mb); [assumption|]. now symmetry.
Qed.

End Recorder.

(** * Runs of the model on concrete stores *)

Definition PA : string := "Pa".
Definition CELSIUS : string := "degC".
Definition CUBIC_FEET : string := "ft3".
Definition CUBIC_METERS : string := "m3".

Definition metric : UnitSystem :=
  {| pressure_unit := "Pa"; temperature_unit := "degC"; is_metric := true |}.

Definition imperial : UnitSystem :=
  {| pressure_unit := "psi"; temperature_unit := "degF"; is_metric := false |}.

(** Instances of the three helpers: pascal to psi divides by 6894.757,
    Celsius to Fahrenheit is [x * 1.8 + 32], a cubic metre is 35.3146667 cubic
    feet and a cubic foot 0.0283168466 cubic metres. *)
Definition pressure_helper (x : Q) (from to : string) : Q :=
  if String.eqb from to then x
  else if String.eqb to "psi" then (x / (6894757 # 1000))%Q
  else x.

Definition temperature_helper (x : Q) (from to : string) : Q :=
  if String.eqb from to then x
  else if String.eqb to "degF" then (x * (18 # 10) + 32)%Q
  else x.

Definition volume_helper (x : Q) (from to : string) : Q :=
  if String.eqb from to then x
  else if String.eqb from "m3" && String.eqb to "ft3"
       then (x * (353146667 # 10000000))%Q
  else if String.eqb from "ft3" && String.eqb to "m3"
       then (x * (283168466 # 10000000000))%Q
  else x.

Definition energy_meta : StatisticMetaData :=
  {| m_has_mean := false; m_has_sum := true; m_name := None;
     m_source := "recorder"; m_statistic_id := "sensor:energy";
     m_unit_of_measurement := Some "kWh"%string |}.

Definition sample_row (i m start : Z) (v s : Z) : StatRow :=
  {| r_id := i; r_created := 0; r_metadata_id := m; r_start := start;
     r_mean := Some (inject_Z v); r_min := Some (inject_Z v);
     r_max := Some (inject_Z v); r_last_reset := None;
     r_state := Some (inject_Z v); r_sum := Some (inject_Z s) |}.

(** Twelve short-term rows of series 1 for the hour from 09:00 to 10:00,
    with means 1 to 12 and sums 10 to 120. *)
Definition hour_nine_session : Session :=
  {| db := {| statistics_meta := [{| mr_id := 1; mr_meta := energy_meta |}];
              statistics := [];
              statistics_short_term :=
                map (fun k => sample_row k 1
                                (9 * US_PER_HOUR + (k - 1) * 5 * US_PER_MINUTE)
                                k (10 * k))
                    [1; 2; 3; 4; 5; 6; 7; 8; 9; 10; 11; 12];
              statistics_runs := [] |};
     trace := [] |}.

Definition five_to_ten : datetime :=
  utc_datetime (10 * US_PER_HOUR - 5 * US_PER_MINUTE).

(** ** C1 and C2 *)

Lemma hourly_rollup_mean_min_max_witness :
  exists row,
    In row (statistics (db (snd (compile_hourly_statistics 0 five_to_ten
                                   hour_nine_session)))) /\
    r_metadata_id row = 1 /\
    r_start row = 9 * US_PER_HOUR /\
    exists q, r_mean row = Some q /\ (q == 65 # 10)%Q.
Proof.
  destruct (hourly_rollup_mean_min_max 0 five_to_ten hour_nine_session 1)
    as [before [row [after [Hrows [_ [Hm [Hs [_ [_ [_ Hmean]]]]]]]]]].
  - vm_compute. discriminate.
  - exists row. split.
    + rewrite Hrows. apply in_or_app. right. apply in_or_app. right. now left.
    + split; [assumption|]. split; [rewrite Hs; reflexivity|].
      apply Hmean. reflexivity.
Defined.

Lemma hourly_rollup_sum_state_last_reset_witness :
  exists row,
    In row (statistics (db (snd (compile_hourly_statistics 0 five_to_ten
                                   hour_nine_session)))) /\
    r_metadata_id row = 1 /\
    r_sum row = Some (inject_Z 120) /\
    r_state row = Some (inject_Z 12).
Proof.
  destruct (hourly_rollup_sum_state_last_reset 0 five_to_ten hour_nine_session 1
              (sample_row 12 1 (9 * US_PER_HOUR + 55 * US_PER_MINUTE) 12 120))
    as [before [row [after [Hrows [_ [Hm [_ [Hsum [Hstate _]]]]]]]]].
  - vm_compute. repeat (first [left; reflexivity | right]).
  - intros r Hr. vm_compute in Hr.
    repeat (destruct Hr as [<-|Hr]; [first [left; reflexivity
                                           | right; reflexivity]|]).
    contradiction.
  - exists row. split.
    + rewrite Hrows. apply in_or_app. right. apply in_or_app. right. now left.
    + split; [assumption|]. split; assumption.
Defined.

(** ** C3 *)

(** Instances of the remaining parameters: the ISO string is stood for by
    the decimal reading of the clock, a day is a UTC day, and a month is
    stood for by a run of 31 days. *)
Definition isoformat_digits (d : datetime) : string :=
  NilZero.string_of_int (Z.to_int (wall d)).

Definition utc_same_day (a b : datetime) : bool :=
  instant a / (24 * US_PER_HOUR) =? instant b / (24 * US_PER_HOUR).

Definition utc_day_start_end (a : datetime) : datetime * datetime :=
  let start := instant a / (24 * US_PER_HOUR) * (24 * US_PER_HOUR) in
  (utc_datetime start, utc_datetime (start + 24 * US_PER_HOUR)).

Definition same_31_days (a b : datetime) : bool :=
  instant a / (31 * 24 * US_PER_HOUR) =? instant b / (31 * 24 * US_PER_HOUR).

Definition start_end_31_days (a : datetime) : datetime * datetime :=
  let start := instant a / (31 * 24 * US_PER_HOUR) * (31 * 24 * US_PER_HOUR) in
  (utc_datetime start, utc_datetime (start + 31 * 24 * US_PER_HOUR)).

(** Long-term rows of series 1 at 08:00, 09:00 and 11:00. *)
Definition range_db : Db :=
  {| statistics_meta := [{| mr_id := 1; mr_meta := energy_meta |}];
     statistics := [sample_row 1 1 (8 * US_PER_HOUR) 5 50;
                    sample_row 2 1 (9 * US_PER_HOUR) 6 60;
                    sample_row 3 1 (11 * US_PER_HOUR) 7 70];
     statistics_short_term := [];
     statistics_runs := [] |}.

Definition range_query (start_time : datetime) : option response :=
  statistics_during_period isoformat_digits PA CELSIUS CUBIC_FEET CUBIC_METERS
    pressure_helper temperature_helper volume_helper
    utc_same_day utc_day_start_end same_31_days start_end_31_days
    metric range_db start_time (Some (dt_add start_time (2 * US_PER_HOUR)))
    (Some ["sensor:energy"%string]) PeriodHour true.

Lemma range_query_starts_with_prior_row_witness :
  exists assembled first rest,
    range_query (utc_datetime (10 * US_PER_HOUR)) = Some assembled /\
    dict_get String.eqb assembled "sensor:energy"%string = Some (first :: rest) /\
    e_start first = inl (utc_datetime (9 * US_PER_HOUR)) /\
    e_sum first = Some (inject_Z 60).
Proof.
  destruct (range_query_starts_with_prior_row isoformat_digits
              PA CELSIUS CUBIC_FEET CUBIC_METERS
              pressure_helper temperature_helper volume_helper
              utc_same_day utc_day_start_end same_31_days start_end_31_days
              metric range_db (utc_datetime (10 * US_PER_HOUR))
              (Some (dt_add (utc_datetime (10 * US_PER_HOUR)) (2 * US_PER_HOUR)))
              (Some ["sensor:energy"%string]) PeriodHour true
              "sensor:energy"%string 1 energy_meta
              (sample_row 2 1 (9 * US_PER_HOUR) 6 60))
    as [assembled [first [rest [Hq [Hget [Hfirst [Hstart _]]]]]]].
  - right. reflexivity.
  - simpl. repeat constructor; simpl; intuition discriminate.
  - simpl. repeat constructor; simpl; intuition discriminate.
  - discriminate.
  - reflexivity.
  - exists (sample_row 3 1 (11 * US_PER_HOUR) 7 70).
    vm_compute. intuition discriminate.
  - intros r [Hin [_ [Hge _]]]. vm_compute in Hin.
    destruct Hin as [<-|[<-|[<-|[]]]]; vm_compute; vm_compute in Hge;
      first [reflexivity | exfalso; apply Hge; reflexivity].
  - vm_compute. auto.
  - reflexivity.
  - vm_compute. reflexivity.
  - intros r Hin _ Hlt. vm_compute in Hin.
    destruct Hin as [<-|[<-|[<-|[]]]]; vm_compute; vm_compute in Hlt;
      first [discriminate].
  - exists assembled, first, rest. split; [exact Hq|]. split; [exact Hget|].
    split; [exact Hstart|]. rewrite Hfirst. reflexivity.
Defined.

(** C3 as stated fails for the periods of a day and of a month.  For a
    query from 10:00:00 the one row of the series that is selected starts at
    11:00:00, and its most recent row before that is the row of 09:00:00,
    with sum 60.  The response for the day, and the one for the month, hold
    one entry for the series: the reduced row of the period, stamped with
    the start of the period and carrying the sum 70 of the period's last
    row, in which the row of 09:00:00 has been merged. *)
Lemma day_query_begins_with_reduced_row :
  let start_time := utc_datetime (10 * US_PER_HOUR) in
  let query := fun p =>
    statistics_during_period isoformat_digits PA CELSIUS CUBIC_FEET CUBIC_METERS
      pressure_helper temperature_helper volume_helper
      utc_same_day utc_day_start_end same_31_days start_end_31_days
      metric range_db start_time (Some (dt_add start_time (2 * US_PER_HOUR)))
      (Some ["sensor:energy"%string]) p true in
  let prior := sample_row 2 1 (9 * US_PER_HOUR) 6 60 in
  (In prior (statistics range_db) /\
   r_start prior < instant start_time /\
   forall r, In r (statistics range_db) ->
             r_start r < instant start_time -> r_id r <= r_id prior) /\
  (forall r, In r (statistics range_db) ->
             instant start_time <= r_start r -> instant start_time < r_start r) /\
  (exists reduced,
     query PeriodDay = Some [("sensor:energy"%string, [reduced])] /\
     e_start reduced = inr (isoformat_digits (utc_datetime 0)) /\
     e_sum reduced = Some (inject_Z 70) /\
     e_sum reduced <> r_sum prior) /\
  (exists reduced,
     query PeriodMonth = Some [("sensor:energy"%string, [reduced])] /\
     e_start reduced = inr (isoformat_digits (utc_datetime 0)) /\
     e_sum reduced = Some (inject_Z 70) /\
     e_sum reduced <> r_sum prior).
Proof.
  cbv zeta. split; [|split; [|split]].
  - split; [right; left; reflexivity|]. split; [reflexivity|].
    intros r Hin Hlt. vm_compute in Hin.
    destruct Hin as [<-|[<-|[<-|[]]]]; vm_compute; vm_compute in Hlt;
      discriminate.
  - intros r Hin Hge. vm_compute in Hin.
    destruct Hin as [<-|[<-|[<-|[]]]]; vm_compute; vm_compute in Hge;
      first [reflexivity | exfalso; apply Hge; reflexivity].
  - eexists. split; [vm_compute; reflexivity|].
    split; [reflexivity|]. split; [reflexivity|]. discriminate.
  - eexists. split; [vm_compute; reflexivity|].
    split; [reflexivity|]. split; [reflexivity|]. discriminate.
Qed.

(** ** C4 *)

Definition marker_session : Session :=
  {| db := {| statistics_meta := []; statistics := [];
              statistics_short_term := [];
              statistics_runs := [{| run_id := 1; run_start := 10 * US_PER_HOUR |}] |};
     trace := [] |}.

Lemma compile_statistics_marker_noop_witness :
  fst (compile_statistics (as_utc_of 0) 0 [] (utc_datetime (10 * US_PER_HOUR))
                          marker_session) = true /\
  db (snd (compile_statistics (as_utc_of 0) 0 [] (utc_datetime (10 * US_PER_HOUR))
                              marker_session)) = db marker_session /\
  trace (snd (compile_statistics (as_utc_of 0) 0 []
                                 (utc_datetime (10 * US_PER_HOUR))
                                 marker_session)) =
    trace marker_session ++ [EvScopeEnter; EvScopeExit].
Proof.
  apply (compile_statistics_marker_noop (as_utc_of 0) 0 []
           (utc_datetime (10 * US_PER_HOUR)) marker_session).
  exists {| run_id := 1; run_start := 10 * US_PER_HOUR |}.
  split; [left; reflexivity | reflexivity].
Defined.

(** ** C5 *)



(** A platform that compiles one sample of the energy series for the period
    asked for, and knows the series under id 1. *)
Definition energy_platform : platform :=
  Some (fun start _ =>
          {| platform_stats :=
               [{| sr_meta := energy_meta;
                   sr_stat := {| d_start := start; d_mean := None;
                                 d_min := None; d_max := None;
                                 d_last_reset := None;
                                 d_state := Some (inject_Z 13);
                                 d_sum := Some (inject_Z 130) |} |}];
             current_metadata := [("sensor:energy"%string, (1, energy_meta))] |}).



(** ** C6 *)

(** One long-term row of series 1 starting at 10:00:00, with sum 100, and
    two short-term rows of the series. *)
Definition hour_ten_session : Session :=
  {| db := {| statistics_meta := [{| mr_id := 1; mr_meta := energy_meta |}];
              statistics := [sample_row 1 1 (10 * US_PER_HOUR) 7 100];
              statistics_short_term :=
                [sample_row 1 1 (10 * US_PER_HOUR + 30 * US_PER_MINUTE) 7 100;
                 sample_row 2 1 (10 * US_PER_HOUR + 35 * US_PER_MINUTE) 7 103];
              statistics_runs := [] |};
     trace := [] |}.

Definition pressure_meta : StatisticMetaData :=
  {| m_has_mean := false; m_has_sum := true; m_name := None;
     m_source := "recorder"; m_statistic_id := "sensor:pressure";
     m_unit_of_measurement := Some PA |}.

(** A series kept in pascal, with one long-term row of sum 100. *)
Definition pressure_session : Session :=
  {| db := {| statistics_meta := [{| mr_id := 2; mr_meta := pressure_meta |}];
              statistics := [sample_row 1 2 (10 * US_PER_HOUR) 7 100];
              statistics_short_term := [];
              statistics_runs := [] |};
     trace := [] |}.

(** C6 as stated fails twice.  Under a display unit of psi a delta of 1 for
    a series kept in pascal is added as 1, though 1 pascal reads
    1000/6894757 psi.  And for a start time of 10:30:15 the hour that
    contains it starts at 10:00:00, where the long-term row of the series
    starts; a delta of 5 leaves that row's sum at 100, while the sum of the
    short-term row of 10:35:00 goes to 103 + 5. *)
Lemma adjust_statistics_as_stated_fails :
  (_configured_unit PA CELSIUS CUBIC_FEET CUBIC_METERS (Some PA) imperial
     = Some "psi"%string /\
   map r_sum
     (statistics
        (db (snd (adjust_statistics PA CELSIUS CUBIC_FEET CUBIC_METERS
                    volume_helper imperial "sensor:pressure"
                    (utc_datetime (10 * US_PER_HOUR)) 1 pressure_session))))
     = [Some (inject_Z 100 + 1)%Q] /\
   to_display PA CELSIUS CUBIC_FEET CUBIC_METERS
              pressure_helper temperature_helper volume_helper
              PA imperial 1 = Some (1 / (6894757 # 1000))%Q /\
   ~ (1 / (6894757 # 1000) == 1)%Q) /\
  (let start_time :=
     utc_datetime (10 * US_PER_HOUR + 30 * US_PER_MINUTE + 15 * US_PER_SECOND) in
   let after :=
     db (snd (adjust_statistics PA CELSIUS CUBIC_FEET CUBIC_METERS volume_helper
                metric "sensor:energy" start_time 5 hour_ten_session)) in
   instant start_time / US_PER_HOUR * US_PER_HOUR = 10 * US_PER_HOUR /\
   map r_start (statistics after) = [10 * US_PER_HOUR] /\
   map r_sum (statistics after) = [Some (inject_Z 100)] /\
   map r_sum (statistics_short_term after) =
     [Some (inject_Z 100); Some (inject_Z 103 + 5)%Q]).
Proof.
  split.
  - split; [reflexivity|]. split; [reflexivity|]. split; [reflexivity|].
    intros H. vm_compute in H. discriminate.
  - vm_compute. repeat split.
Qed.

Definition gas_meta : StatisticMetaData :=
  {| m_has_mean := false; m_has_sum := true; m_name := None;
     m_source := "recorder"; m_statistic_id := "sensor:gas";
     m_unit_of_measurement := Some CUBIC_METERS |}.

(** A series kept in cubic metres: one long-term row starting at 10:00:00
    and two short-term rows. *)
Definition gas_session : Session :=
  {| db := {| statistics_meta := [{| mr_id := 3; mr_meta := gas_meta |}];
              statistics := [sample_row 1 3 (10 * US_PER_HOUR) 7 100];
              statistics_short_term :=
                [sample_row 1 3 (10 * US_PER_HOUR + 25 * US_PER_MINUTE) 7 100;
                 sample_row 2 3 (10 * US_PER_HOUR + 30 * US_PER_MINUTE) 7 103];
              statistics_runs := [] |};
     trace := [] |}.

(** Under a display unit of cubic feet a delta of 35 from 10:30:00 UTC on
    is added as 35 cubic feet in cubic metres: to the short-term row of
    10:30:00 and not to that of 10:25:00, and to the long-term row of
    10:00:00, the start of the hour. *)
Lemma adjust_statistics_sums_witness :
  let start_time := utc_datetime (10 * US_PER_HOUR + 30 * US_PER_MINUTE) in
  let adj := volume_helper 35 CUBIC_FEET CUBIC_METERS in
  let after :=
    db (snd (adjust_statistics PA CELSIUS CUBIC_FEET CUBIC_METERS volume_helper
               imperial "sensor:gas" start_time 35 gas_session)) in
  Forall2 (adjusted 3 (instant start_time) adj)
          (statistics_short_term (db gas_session))
          (statistics_short_term after) /\
  Forall2 (adjusted 3 (10 * US_PER_HOUR) adj)
          (statistics (db gas_session)) (statistics after) /\
  adj = (35 * (283168466 # 10000000000))%Q /\
  map r_sum (statistics_short_term after) =
    [Some (inject_Z 100); Some (inject_Z 103 + adj)%Q] /\
  map r_sum (statistics after) = [Some (inject_Z 100 + adj)%Q].
Proof.
  cbv zeta.
  destruct (adjust_statistics_sums PA CELSIUS CUBIC_FEET CUBIC_METERS
              volume_helper imperial "sensor:gas"
              (utc_datetime (10 * US_PER_HOUR + 30 * US_PER_MINUTE)) 35
              gas_session 3 gas_meta)
    as [_ [Hshort [Hlong [_ [_ [Hadj _]]]]]]; try reflexivity.
  split; [exact Hshort|]. split; [exact Hlong|].
  split; [apply Hadj; reflexivity|]. split; reflexivity.
Defined.

(** ** C7 *)

(** C7 as stated fails for pressure.  One pascal is shown as 1000/6894757
    psi; converting that back to the normalized unit returns it unchanged,
    which is not within 1e-9 of 1. *)
Lemma pressure_round_trip_fails :
  to_display PA CELSIUS CUBIC_FEET CUBIC_METERS
             pressure_helper temperature_helper volume_helper
             PA imperial 1 = Some (1 / (6894757 # 1000))%Q /\
  to_normalized PA CELSIUS CUBIC_FEET CUBIC_METERS volume_helper
                PA imperial (1 / (6894757 # 1000))%Q = (1 / (6894757 # 1000))%Q /\
  ~ (Qabs (1 / (6894757 # 1000) - 1) <= 1 # 1000000000)%Q.
Proof.
  split; [reflexivity|]. split; [reflexivity|].
  vm_compute. intros H. apply H. reflexivity.
Qed.

Lemma unit_conversion_tables_witness :
  (to_display PA CELSIUS CUBIC_FEET CUBIC_METERS
              pressure_helper temperature_helper volume_helper
              PA imperial 1 = Some (pressure_helper 1 PA "psi") /\
   to_normalized PA CELSIUS CUBIC_FEET CUBIC_METERS volume_helper
                 PA imperial 1 = 1%Q) /\
  (to_display PA CELSIUS CUBIC_FEET CUBIC_METERS
              pressure_helper temperature_helper volume_helper
              CUBIC_METERS imperial 1 = Some (volume_helper 1 CUBIC_METERS CUBIC_FEET) /\
   to_normalized PA CELSIUS CUBIC_FEET CUBIC_METERS volume_helper
                 CUBIC_METERS imperial 1 =
     volume_helper 1 CUBIC_FEET CUBIC_METERS).
Proof.
  destruct (unit_conversion_tables PA CELSIUS CUBIC_FEET CUBIC_METERS
              pressure_helper temperature_helper volume_helper imperial 1)
    as [Hp [_ [Hv _]]]; try (intros H; discriminate H).
  split; [exact Hp | exact Hv].
Defined.

(** ** C8 *)

(** Two rows of series 1 for the bucket of 10:00:00 whose sums differ. *)
Definition older_row : StatRow := sample_row 1 1 (10 * US_PER_HOUR) 7 100.
Definition newer_row : StatRow := sample_row 2 1 (10 * US_PER_HOUR) 7 105.

Definition short_term_duplicates : Session :=
  {| db := {| statistics_meta := [{| mr_id := 1; mr_meta := energy_meta |}];
              statistics := [];
              statistics_short_term := [older_row; newer_row];
              statistics_runs := [] |};
     trace := [] |}.

Definition long_term_duplicates : Session :=
  {| db := {| statistics_meta := [{| mr_id := 1; mr_meta := energy_meta |}];
              statistics := [older_row; newer_row];
              statistics_short_term := [];
              statistics_runs := [] |};
     trace := [] |}.



(** The same run in the scope of a caller: the backup is written before the
    scope commits. *)
Example long_term_duplicate_exported_before_commit :
  trace (snd (session_scope (delete_duplicates 998) long_term_duplicates)) =
    [EvScopeEnter; EvDelete Statistics [1];
     EvBackup [(older_row, newer_row)]; EvScopeExit].
Proof. vm_compute. reflexivity. Qed.

(** The run behind the witness: the older long-term row is deleted and
    exported with the newer one. *)
Example long_term_duplicate_exported :
  trace (snd (delete_duplicates 998 long_term_duplicates)) =
    [EvDelete Statistics [1]; EvBackup [(older_row, newer_row)]].
Proof. vm_compute. reflexivity. Qed.

(** ** C9 *)

Lemma adjust_statistics_unknown_series_witness :
  fst (adjust_statistics PA CELSIUS CUBIC_FEET CUBIC_METERS volume_helper
         metric "sensor:water" (utc_datetime (10 * US_PER_HOUR)) 5
         hour_ten_session) = true /\
  db (snd (adjust_statistics PA CELSIUS CUBIC_FEET CUBIC_METERS volume_helper
             metric "sensor:water" (utc_datetime (10 * US_PER_HOUR)) 5
             hour_ten_session)) = db hour_ten_session /\
  trace (snd (adjust_statistics PA CELSIUS CUBIC_FEET CUBIC_METERS volume_helper
                metric "sensor:water" (utc_datetime (10 * US_PER_HOUR)) 5
                hour_ten_session)) =
    trace hour_ten_session ++ [EvScopeEnter; EvScopeExit].
Proof.
  apply (adjust_statistics_unknown_series PA CELSIUS CUBIC_FEET CUBIC_METERS
           volume_helper metric "sensor:water"
           (utc_datetime (10 * US_PER_HOUR)) 5 hour_ten_session).
  simpl. intros r [<-|[]]. simpl. discriminate.
Defined.

(** ** C10 *)

Definition external_meta : StatisticMetaData :=
  {| m_has_mean := false; m_has_sum := true; m_name := Some "Total"%string;
     m_source := "energy_src"; m_statistic_id := "energy_src:total";
     m_unit_of_measurement := Some "kWh"%string |}.

(** A sample at 11:00:00 local time, one hour east of UTC. *)
Definition external_sample : StatisticData :=
  {| d_start := {| wall := 11 * US_PER_HOUR; tzinfo := Some (Some US_PER_HOUR) |};
     d_mean := None; d_min := None; d_max := None; d_last_reset := None;
     d_state := Some (inject_Z 3); d_sum := Some (inject_Z 42) |}.

(** A store that knows the external series under id 2, with one long-term
    row of it at 10:00:00 UTC and one at 09:00:00. *)
Definition external_session : Session :=
  {| db := {| statistics_meta := [{| mr_id := 1; mr_meta := energy_meta |};
                                  {| mr_id := 2; mr_meta := external_meta |}];
              statistics := [sample_row 1 2 (9 * US_PER_HOUR) 1 40;
                             sample_row 2 2 (10 * US_PER_HOUR) 2 41];
              statistics_short_term := [];
              statistics_runs := [] |};
     trace := [] |}.

(** The sample of 11:00:00, one hour east of UTC, is queued with the start
    10:00:00 UTC; the importer then rewrites the row of that bucket and
    leaves the row of 09:00:00 as it was. *)
Lemma async_add_external_statistics_utc_witness :
  let queued := map (normalize_start (as_utc_of 0)) [external_sample] in
  let s' := snd (add_external_statistics 0 external_meta queued
                                         external_session) in
  async_add_external_statistics (as_utc_of 0) external_meta [external_sample] [] =
    (None, queued,
     [] ++ [{| job_metadata := external_meta; job_statistics := queued |}]) /\
  (exists row,
     In row (statistics (db s')) /\
     bucket row = (2, 10 * US_PER_HOUR) /\
     holds_sample 2 (normalize_start (as_utc_of 0) external_sample) row) /\
  In (sample_row 1 2 (9 * US_PER_HOUR) 1 40) (statistics (db s')) /\
  map r_id (statistics (db s')) = [1; 2] /\
  map r_sum (statistics (db s')) = [Some (inject_Z 40); Some (inject_Z 42)].
Proof.
  cbv zeta.
  destruct (async_add_external_statistics_utc (as_utc_of 0) external_meta
              [external_sample] []) as [Hpass _].
  destruct Hpass as [Hqueue Himport].
  { split; [reflexivity|]. split.
    - split; [discriminate|]. exists "total"%string. reflexivity.
    - constructor; [|constructor]. split.
      + unfold aware. simpl. discriminate.
      + repeat split. }
  split; [exact Hqueue|].
  destruct (Himport 0 external_session)
    as [_ [metadata_id [stored [Hget [_ [_ [Hkeep Hheld]]]]]]].
  { simpl. repeat constructor; simpl; intuition discriminate. }
  { simpl. intros r [<-|[<-|[]]]; discriminate. }
  vm_compute in Hget. injection Hget as <- _.
  split; [|split; [|split; reflexivity]].
  - destruct (Hheld ltac:(repeat constructor; simpl; intuition)
                external_sample (or_introl eq_refl)) as [row [Hrow Hholds]].
    exists row. split; [exact Hrow|]. split; [|exact Hholds].
    rewrite Hholds. reflexivity.
  - apply Hkeep; [left; reflexivity|].
    intros sample [<-|[]]. vm_compute. discriminate.
Defined.

(** * Further runs *)

(** ** Rejected submissions *)

(** A sample at 12:00:00 that carries no zone. *)
Definition naive_sample : StatisticData :=
  {| d_start := {| wall := 12 * US_PER_HOUR; tzinfo := None |};
     d_mean := None; d_min := None; d_max := None; d_last_reset := None;
     d_state := Some (inject_Z 4); d_sum := Some (inject_Z 43) |}.

Lemma async_add_external_statistics_rejected_sample_witness :
  async_add_external_statistics (as_utc_of 0) external_meta
    ([external_sample] ++ naive_sample :: [external_sample]) [] =
    (Some (HomeAssistantError "Naive timestamp"),
     map (normalize_start (as_utc_of 0)) [external_sample]
       ++ naive_sample :: [external_sample],
     []).
Proof.
  apply (async_add_external_statistics_rejected_sample (as_utc_of 0)
           external_meta [external_sample] [external_sample] naive_sample []).
  - reflexivity.
  - split; [discriminate|]. exists "total"%string. reflexivity.
  - constructor; [|constructor]. split.
    + unfold aware. simpl. discriminate.
    + repeat split.
  - intros [Haware _]. apply Haware. reflexivity.
Defined.

Definition dotted_meta : StatisticMetaData :=
  {| m_has_mean := false; m_has_sum := true; m_name := None;
     m_source := "energy_src"; m_statistic_id := "energy_src.total";
     m_unit_of_measurement := Some "kWh"%string |}.

Lemma async_add_external_statistics_errors_witness :
  fst (fst (async_add_external_statistics (as_utc_of 0) dotted_meta
              [external_sample] [])) =
    Some (HomeAssistantError "Invalid statistic_id") /\
  In (HomeAssistantError "Invalid statistic_id")
     [HomeAssistantError "Invalid statistic_id";
      HomeAssistantError "Invalid source";
      HomeAssistantError "Naive timestamp";
      HomeAssistantError "Invalid timestamp"].
Proof.
  split; [reflexivity|].
  apply (async_add_external_statistics_errors (as_utc_of 0) dotted_meta
           [external_sample] []).
  reflexivity.
Defined.

(** ** A tick with one platform *)

(** After the tick of 10:00:00 has been committed, a call for the period
    with no platform at all writes nothing. *)
Lemma compile_statistics_twice_witness :
  let s1 := snd (compile_statistics (as_utc_of 0) 0 [energy_platform]
                   (utc_datetime (10 * US_PER_HOUR)) hour_nine_session) in
  db s1 <> db hour_nine_session /\
  db (snd (compile_statistics (as_utc_of 0) 7 []
             (utc_datetime (10 * US_PER_HOUR)) s1)) = db s1.
Proof.
  cbv zeta.
  assert (Hchanged :
            db (snd (compile_statistics (as_utc_of 0) 0 [energy_platform]
                       (utc_datetime (10 * US_PER_HOUR)) hour_nine_session))
            <> db hour_nine_session).
  { intros H. apply (f_equal statistics_runs) in H. vm_compute in H.
    discriminate H. }
  split; [exact Hchanged|].
  destruct (compile_statistics_twice (as_utc_of 0) 0 [energy_platform]
              (utc_datetime (10 * US_PER_HOUR)) hour_nine_session)
    as [Hsame | [_ Hagain]].
  - contradiction.
  - exact (proj1 (proj2 (Hagain 7 []))).
Defined.


(** ** Imports *)

(** The sample of 11:00:00 local time as the queue holds it, at 10:00:00
    UTC: the bucket of the long-term row of [hour_ten_session]. *)
Definition queued_sample : StatisticData :=
  normalize_start (as_utc_of 0) external_sample.

Lemma add_external_statistics_no_duplicates_witness :
  let s' := snd (add_external_statistics 0 energy_meta [queued_sample]
                                         hour_ten_session) in
  NoDup (map bucket (statistics (db s'))) /\
  (forall r, In r (statistics (db s')) -> r_id r <> 0) /\
  statistics_short_term (db s') = statistics_short_term (db hour_ten_session).
Proof.
  apply (add_external_statistics_no_duplicates 0 energy_meta [queued_sample]
           hour_ten_session).
  - simpl. repeat constructor. simpl. intuition.
  - simpl. intros r [<-|[]]. discriminate.
Defined.

(** A sample of 12:00:00 UTC whose counter was reset at 09:00:00, one hour
    east of UTC. *)
Definition reset_sample : StatisticData :=
  {| d_start := utc_datetime (12 * US_PER_HOUR);
     d_mean := None; d_min := None; d_max := None;
     d_last_reset :=
       Some {| wall := 9 * US_PER_HOUR; tzinfo := Some (Some US_PER_HOUR) |};
     d_state := Some (inject_Z 5); d_sum := Some (inject_Z 47) |}.

(** The reset is stored as it was given, the reading 09:00:00 of its clock,
    and not as the instant 08:00:00 UTC. *)
Lemma add_external_statistics_read_back_witness :
  let s' := snd (add_external_statistics 0 external_meta
                   [queued_sample; reset_sample] hour_ten_session) in
  exists metadata_id stored,
    dict_get String.eqb
      (get_metadata_with_session (Some ["energy_src:total"%string]) None None
                                 (db s'))
      "energy_src:total"%string = Some (metadata_id, stored) /\
    (forall sample,
       In sample [queued_sample; reset_sample] ->
       exists row,
         In row (statistics (db s')) /\ holds_sample metadata_id sample row) /\
    map r_last_reset (statistics (db s')) =
      [None; None; Some (9 * US_PER_HOUR)].
Proof.
  cbv zeta.
  destruct (add_external_statistics_read_back 0 external_meta
              [queued_sample; reset_sample] hour_ten_session)
    as [metadata_id [stored [Hget Hheld]]].
  - simpl. repeat constructor. simpl. intuition.
  - simpl. intros r [<-|[]]. discriminate.
  - vm_compute. repeat constructor; simpl; intuition discriminate.
  - exists metadata_id, stored. split; [exact Hget|].
    split; [exact Hheld|]. reflexivity.
Defined.

(** ** Repair *)

Lemma delete_duplicates_clean_witness :
  delete_duplicates 998 hour_ten_session = (Some tt, hour_ten_session).
Proof.
  apply (delete_duplicates_clean 998 hour_ten_session).
  - simpl. repeat constructor. simpl. intuition.
  - vm_compute. repeat constructor; simpl; intuition discriminate.
Defined.

Lemma delete_duplicates_keeps_greatest_witness :
  exists s',
    delete_duplicates 998 long_term_duplicates = (Some tt, s') /\
    statistics (db s') =
      filter (greatest_of_bucket (statistics (db long_term_duplicates)))
             (statistics (db long_term_duplicates)) /\
    statistics_short_term (db s') =
      filter (greatest_of_bucket (statistics_short_term (db long_term_duplicates)))
             (statistics_short_term (db long_term_duplicates)) /\
    statistics_meta (db s') = statistics_meta (db long_term_duplicates) /\
    statistics_runs (db s') = statistics_runs (db long_term_duplicates).
Proof.
  apply (delete_duplicates_keeps_greatest 998 long_term_duplicates).
  - lia.
  - simpl. repeat constructor; simpl; intuition discriminate.
  - simpl. constructor.
Defined.

Lemma delete_duplicates_from_table_count_witness :
  exists total records s',
    _delete_duplicates_from_table 998 StatisticsShortTerm short_term_duplicates
      = (Some (total, records), s') /\
    total =
      Z.of_nat (length (rows_of StatisticsShortTerm (db short_term_duplicates)))
      - Z.of_nat (length (rows_of StatisticsShortTerm (db s'))) /\
    rows_of (other_table StatisticsShortTerm) (db s') =
      rows_of (other_table StatisticsShortTerm) (db short_term_duplicates).
Proof.
  apply (delete_duplicates_from_table_count 998 StatisticsShortTerm
           short_term_duplicates).
  - lia.
  - simpl. repeat constructor; simpl; intuition discriminate.
Defined.

(** ** Range queries *)

Lemma statistics_during_period_empty_witness :
  statistics_during_period isoformat_digits PA CELSIUS CUBIC_FEET CUBIC_METERS
    pressure_helper temperature_helper volume_helper
    utc_same_day utc_day_start_end same_31_days start_end_31_days
    metric range_db (utc_datetime (10 * US_PER_HOUR)) None
    (Some ["sensor:water"%string]) PeriodHour true = Some [] /\
  statistics_during_period isoformat_digits PA CELSIUS CUBIC_FEET CUBIC_METERS
    pressure_helper temperature_helper volume_helper
    utc_same_day utc_day_start_end same_31_days start_end_31_days
    metric range_db (utc_datetime (9 * US_PER_HOUR + 1))
    (Some (utc_datetime (11 * US_PER_HOUR)))
    (Some ["sensor:energy"%string]) PeriodHour true = Some [].
Proof.
  split.
  - apply (statistics_during_period_empty isoformat_digits
             PA CELSIUS CUBIC_FEET CUBIC_METERS
             pressure_helper temperature_helper volume_helper
             utc_same_day utc_day_start_end same_31_days start_end_31_days
             metric range_db (utc_datetime (10 * US_PER_HOUR)) None
             ["sensor:water"%string] PeriodHour true).
    left. simpl. intros r [<-|[]]. simpl. intuition discriminate.
  - apply (statistics_during_period_empty isoformat_digits
             PA CELSIUS CUBIC_FEET CUBIC_METERS
             pressure_helper temperature_helper volume_helper
             utc_same_day utc_day_start_end same_31_days start_end_31_days
             metric range_db (utc_datetime (9 * US_PER_HOUR + 1))
             (Some (utc_datetime (11 * US_PER_HOUR)))
             ["sensor:energy"%string] PeriodHour true).
    right. intros r Hin Hge. vm_compute in Hin.
    destruct Hin as [<-|[<-|[<-|[]]]]; vm_compute; vm_compute in Hge;
      first [discriminate | exfalso; apply Hge; reflexivity].
Defined.

Lemma statistics_during_period_series_witness :
  let start_time := utc_datetime (10 * US_PER_HOUR) in
  let metadata :=
    get_metadata_with_session (Some ["sensor:energy"%string]) None None
                              range_db in
  let stats :=
    _statistics_during_period_stmt start_time None
      (Some ["sensor:energy"%string])
      (map (fun kv : string * (Z * StatisticMetaData) => fst (snd kv)) metadata)
      Statistics range_db in
  stats = [sample_row 3 1 (11 * US_PER_HOUR) 7 70] /\
  exists answer prior,
    statistics_during_period isoformat_digits PA CELSIUS CUBIC_FEET CUBIC_METERS
      pressure_helper temperature_helper volume_helper
      utc_same_day utc_day_start_end same_31_days start_end_31_days
      metric range_db start_time None (Some ["sensor:energy"%string])
      PeriodHour true = Some answer /\
    map fst answer = ["sensor:energy"%string] /\
    map snd answer =
      [map (to_entry isoformat_digits metric "sensor:energy"
              (statistic_unit_to_display_unit PA CELSIUS CUBIC_FEET CUBIC_METERS
                 pressure_helper temperature_helper volume_helper
                 (Some "kWh"%string))
              Statistics true)
           (prior ++ stats)] /\
    (prior = [] \/ exists row, prior = [row] /\ r_start row < 10 * US_PER_HOUR).
Proof.
  split; [reflexivity|].
  destruct (statistics_during_period_series isoformat_digits
              PA CELSIUS CUBIC_FEET CUBIC_METERS
              pressure_helper temperature_helper volume_helper
              utc_same_day utc_day_start_end same_31_days start_end_31_days
              metric range_db (utc_datetime (10 * US_PER_HOUR)) None
              (Some ["sensor:energy"%string]) PeriodHour true)
    as [answer [Hanswer [_ Hitems]]].
  - discriminate.
  - discriminate.
  - simpl. repeat constructor; simpl; intuition discriminate.
  - simpl. repeat constructor; simpl; intuition discriminate.
  - discriminate.
  - change (distinct_sorted _) with [1] in Hitems.
    inversion Hitems as [|m item ms items Hitem Hrest]; subst.
    inversion Hrest; subst.
    destruct Hitem as [meta [prior [Hin [Hid [Hrows Hprior]]]]].
    vm_compute in Hin. destruct Hin as [Hin|[]].
    exists [item], prior. split; [exact Hanswer|].
    destruct item as [key entries]. cbn [fst snd] in *.
    injection Hin as Hkey Hmeta. subst key meta.
    split; [reflexivity|]. split.
    + simpl. rewrite Hrows. reflexivity.
    + destruct Hprior as [->|[row [-> [_ [_ Hlt]]]]]; [now left|].
      right. exists row. split; [reflexivity|exact Hlt].
Defined.

(** ** Reduction to days *)

(** An hourly entry of the energy series that starts [hours] after the
    epoch of the clock. *)
Definition hourly_entry (hours : Z) (v s : Z) : entry :=
  {| e_statistic_id := "sensor:energy";
     e_start := inl (utc_datetime (hours * US_PER_HOUR));
     e_end := isoformat_digits (utc_datetime ((hours + 1) * US_PER_HOUR));
     e_mean := Some (inject_Z v); e_min := Some (inject_Z v);
     e_max := Some (inject_Z v); e_last_reset := None;
     e_state := Some (inject_Z v); e_sum := Some (inject_Z s) |}.

(** Two entries of the first day and one of the second. *)
Definition two_days : chunk * list chunk :=
  ((hourly_entry 1 4 40, [hourly_entry 2 6 60]), [(hourly_entry 25 8 80, [])]).

Lemma reduce_statistics_periods_witness :
  _reduce_statistics isoformat_digits
    [("sensor:energy"%string,
      [hourly_entry 1 4 40; hourly_entry 2 6 60; hourly_entry 25 8 80])]
    utc_same_day utc_day_start_end (24 * US_PER_HOUR) =
  Some [("sensor:energy"%string,
         [summary isoformat_digits utc_day_start_end "sensor:energy"
                  (hourly_entry 1 4 40, [hourly_entry 2 6 60]);
          summary isoformat_digits utc_day_start_end "sensor:energy"
                  (hourly_entry 25 8 80, [])])] /\
  e_mean (summary isoformat_digits utc_day_start_end "sensor:energy"
                  (hourly_entry 1 4 40, [hourly_entry 2 6 60])) =
    list_mean [inject_Z 4; inject_Z 6] /\
  e_sum (summary isoformat_digits utc_day_start_end "sensor:energy"
                 (hourly_entry 1 4 40, [hourly_entry 2 6 60])) =
    Some (inject_Z 60).
Proof.
  split; [|split; reflexivity].
  apply (reduce_statistics_periods isoformat_digits utc_same_day
           utc_day_start_end (24 * US_PER_HOUR)
           [("sensor:energy"%string,
             [hourly_entry 1 4 40; hourly_entry 2 6 60; hourly_entry 25 8 80])]
           (fun _ => two_days)).
  - simpl. repeat constructor. simpl. intuition.
  - intros statistic_id stat_list [[= <- <-]|[]]. split; [reflexivity|].
    vm_compute. repeat constructor.
Defined.

(** ** A renamed entity *)

Lemma entity_id_changed_renames_witness :
  let d' := _entity_id_changed "recorder" "sensor:energy" "sensor:power"
                               range_db in
  statistics d' = statistics range_db /\
  dict_get String.eqb
    (get_metadata_with_session (Some ["sensor:power"%string]) None None d')
    "sensor:power"%string =
    Some (1, with_statistic_id energy_meta "sensor:power") /\
  dict_get String.eqb
    (get_metadata_with_session (Some ["sensor:energy"%string]) None None d')
    "sensor:energy"%string = None.
Proof.
  destruct (entity_id_changed_renames "recorder" "sensor:energy" "sensor:power"
              range_db 1 energy_meta)
    as [[Hlong _] [Hnew [Hold _]]].
  - discriminate.
  - simpl. intros r [<-|[]]. discriminate.
  - reflexivity.
  - split; [exact Hlong|]. split.
    + apply Hnew. reflexivity.
    + apply Hold. simpl. intros r [<-|[]] _. reflexivity.
Defined.


(** ** Maintenance of the metadata *)

Lemma clear_statistics_forgets_witness :
  let d' := clear_statistics ["sensor:energy"%string] range_db in
  get_metadata_with_session (Some ["sensor:energy"%string]) None None d' = [] /\
  statistics_during_period isoformat_digits PA CELSIUS CUBIC_FEET CUBIC_METERS
    pressure_helper temperature_helper volume_helper
    utc_same_day utc_day_start_end same_31_days start_end_31_days
    metric d' (utc_datetime (10 * US_PER_HOUR)) None
    (Some ["sensor:energy"%string]) PeriodHour true = Some [].
Proof.
  destruct (clear_statistics_forgets isoformat_digits
              PA CELSIUS CUBIC_FEET CUBIC_METERS
              pressure_helper temperature_helper volume_helper
              utc_same_day utc_day_start_end same_31_days start_end_31_days
              ["sensor:energy"%string] range_db)
    as [Hmeta [Hquery _]].
  split.
  - apply Hmeta. intros x Hx. exact Hx.
  - apply Hquery. intros x Hx. exact Hx.
Defined.

Lemma update_statistics_metadata_read_back_witness :
  let d' := update_statistics_metadata "sensor:energy" (Some "Wh"%string)
                                       range_db in
  dict_get String.eqb
    (get_metadata_with_session (Some ["sensor:energy"%string]) None None d')
    "sensor:energy"%string =
    Some (1, with_unit_of_measurement energy_meta (Some "Wh"%string)) /\
  statistics d' = statistics range_db.
Proof.
  split; [|reflexivity].
  apply (proj1 (update_statistics_metadata_read_back "sensor:energy"
                  (Some "Wh"%string) range_db)).
Defined.

(** ** Listing *)

(** A platform that reports the energy series, in another unit than the
    database holds for it, and a series the database does not know. *)
Definition listing_energy_platform : listing_platform :=
  Some (fun _ _ =>
          [("sensor:energy"%string,
            {| i_has_mean := true; i_has_sum := false; i_name := None;
               i_source := "recorder"; i_unit_of_measurement := Some "Wh"%string |});
           ("sensor:gas"%string,
            {| i_has_mean := false; i_has_sum := true; i_name := None;
               i_source := "recorder";
               i_unit_of_measurement := Some CUBIC_FEET |})]).

Lemma list_statistic_ids_database_first_witness :
  let listed :=
    list_statistic_ids PA CELSIUS CUBIC_FEET CUBIC_METERS metric
      [listing_energy_platform] range_db None None in
  map l_statistic_id listed = ["sensor:energy"%string; "sensor:gas"%string] /\
  In {| l_statistic_id := "sensor:energy"; l_has_mean := false;
        l_has_sum := true; l_name := None; l_source := "recorder";
        l_unit_of_measurement := Some "kWh"%string |} listed.
Proof.
  split; [reflexivity|].
  apply (proj2 (list_statistic_ids_database_first
                  PA CELSIUS CUBIC_FEET CUBIC_METERS metric
                  [listing_energy_platform] range_db None None)
               "sensor:energy"%string 1 energy_meta).
  reflexivity.
Defined.

(** ** The most recent rows *)

Lemma get_last_statistics_newest_first_witness :
  get_last_statistics isoformat_digits PA CELSIUS CUBIC_FEET CUBIC_METERS
    pressure_helper temperature_helper volume_helper
    metric range_db 2 "sensor:energy" true =
  Some [("sensor:energy"%string,
         map (to_entry isoformat_digits metric "sensor:energy"
                (statistic_unit_to_display_unit PA CELSIUS CUBIC_FEET
                   CUBIC_METERS pressure_helper temperature_helper
                   volume_helper (Some "kWh"%string))
                Statistics false)
             [sample_row 3 1 (11 * US_PER_HOUR) 7 70;
              sample_row 2 1 (9 * US_PER_HOUR) 6 60])].
Proof.
  pose proof (get_last_statistics_newest_first isoformat_digits
                PA CELSIUS CUBIC_FEET CUBIC_METERS
                pressure_helper temperature_helper volume_helper
                metric range_db 2 "sensor:energy" true Statistics) as H.
  change (dict_get _ _ _) with (Some (1, energy_meta)) in H.
  cbv beta iota zeta in H. destruct H as [H _].
  exact H.
Defined.
